(** * The ufunc execution engine of numpy/core/src/umath/ufunc_object.c

    A shallow embedding of the parts of [ufunc_object.c] that decide the
    behaviour of the generalized-signature parser, the core-dimension size
    check, the trivial-loop fast path, the iterator loop and the
    reduce / accumulate / reduceat drivers, with the properties proved
    about them.

    Conventions.  C integers ([int], [npy_intp]) are modelled in [Z]; the
    code never relies on wrap-around of the signed quantities modelled
    here (signed overflow is undefined in C), so the arithmetic is the
    mathematical one.  A [const char *] is the text it points to up to the
    terminating NUL; reading the terminator yields the NUL character. *)

From Stdlib Require Import ZArith List String Ascii Bool Lia.
Import ListNotations.

Local Open Scope Z_scope.
Local Open Scope bool_scope.

(* ================================================================== *)
(** ** C strings                                                       *)
(* ================================================================== *)

Module CStr.

Definition NUL : ascii := Ascii.zero.

(** The character code, as compared by the C character tests. *)
Definition code (c : ascii) : Z := Z.of_N (N_of_ascii c).

(** [*p] for a [const char *p]. *)
Definition deref (p : string) : ascii :=
  match p with
  | String c _ => c
  | EmptyString => NUL
  end.

(** [p + n] for [n >= 0], never moving past the terminator. *)
Fixpoint advance (p : string) (n : nat) : string :=
  match n, p with
  | O, _ => p
  | S n', String _ t => advance t n'
  | S _, EmptyString => EmptyString
  end.

(** [str + i]. *)
Definition ptr (str : string) (i : Z) : string :=
  if i <? 0 then EmptyString else advance str (Z.to_nat i).

(** [str[i]]. *)
Definition at_ (str : string) (i : Z) : ascii := deref (ptr str i).

Definition strlen (str : string) : Z := Z.of_nat (String.length str).

(** [c == lit] for a character literal. *)
Definition is_char (c : ascii) (lit : ascii) : bool := Ascii.eqb c lit.

End CStr.

Import CStr.

(* ================================================================== *)
(** ** The generalized-signature parser                                *)
(* ================================================================== *)

(** Modelled from the spec: the per-dimension flags of the Core-Dimension
    Table ("a flag marking it as size-inferred vs. fixed, and a flag marking
    it ignorable", and the "missing" mark of a dropped flexible dimension).
    The macros [UFUNC_CORE_DIM_*] are declared in [ufuncobject.h]; the bit
    values are the ones of that header. *)
Definition UFUNC_CORE_DIM_SIZE_INFERRED : Z := 2.
Definition UFUNC_CORE_DIM_CAN_IGNORE : Z := 4.
Definition UFUNC_CORE_DIM_MISSING : Z := 262144.

(** Modelled from the spec: the bounds of [npy_intp] on the 64-bit
    platforms ([NPY_MAX_INTP], [NPY_MIN_INTP] of [npy_common.h]) and of
    [long long]. *)
Definition NPY_MAX_INTP : Z := 9223372036854775807.
Definition NPY_MIN_INTP : Z := -9223372036854775808.

(** [_next_non_white_space]: the position of the next character that is
    neither a space nor a tab. *)
Definition is_blank (c : ascii) : bool := is_char c " " || is_char c "009".

Fixpoint skip_blank (p : string) (ret : Z) : Z :=
  match p with
  | String c p' => if is_blank c then skip_blank p' (ret + 1) else ret
  | EmptyString => ret
  end.

Definition _next_non_white_space (str : string) (offset : Z) : Z :=
  skip_blank (ptr str offset) offset.

Definition _is_alpha_underscore (ch : ascii) : bool :=
  ((code "A" <=? code ch) && (code ch <=? code "Z"))
  || ((code "a" <=? code ch) && (code ch <=? code "z"))
  || is_char ch "_".

Definition _is_alnum_underscore (ch : ascii) : bool :=
  _is_alpha_underscore ch
  || ((code "0" <=? code ch) && (code ch <=? code "9")).

Definition is_digit (ch : ascii) : bool :=
  (code "0" <=? code ch) && (code ch <=? code "9").

(** Modelled from the spec: [NumPyOS_strtoll (str, &stop, 10)], the C
    library conversion used to read "positive integer literals": leading
    white space, an optional sign, then decimal digits; [stop] is left at
    [str] when there is no digit, and the value saturates at the bounds of
    [long long].  The result is the value and the number of characters
    consumed ([stop - str]). *)
Definition is_space (c : ascii) : bool :=
  is_char c " " || ((9 <=? code c) && (code c <=? 13)).

Fixpoint strtoll_digits (p : string) (acc : Z) (n : Z) : Z * Z :=
  match p with
  | String c p' =>
      if is_digit c
      then strtoll_digits p' (acc * 10 + (code c - code "0")) (n + 1)
      else (acc, n)
  | EmptyString => (acc, n)
  end.

Fixpoint strtoll_from (p : string) (skipped : Z) : Z * Z :=
  match p with
  | String c p' =>
      if is_space c then strtoll_from p' (skipped + 1)
      else
        let '(neg, q, pre) :=
          if is_char c "-" then (true, p', skipped + 1)
          else if is_char c "+" then (false, p', skipped + 1)
          else (false, p, skipped) in
        let '(v, n) := strtoll_digits q 0 0 in
        if n =? 0 then (0, 0)
        else
          let v' := if neg then - v else v in
          (Z.max NPY_MIN_INTP (Z.min NPY_MAX_INTP v'), pre + n)
  | EmptyString => (0, 0)
  end.

Definition NumPyOS_strtoll (p : string) : Z * Z := strtoll_from p 0.

(** [_get_size]: convert a string into a number, -1 when it is not a well
    formed number. *)
Definition _get_size (p : string) : Z :=
  let '(size, stop) := NumPyOS_strtoll p in
  if (stop =? 0) || _is_alpha_underscore (deref (advance p (Z.to_nat stop)))
  then -1
  else if (size >=? NPY_MAX_INTP) || (size <=? NPY_MIN_INTP)
  then -1
  else size.

(** [_get_end_of_name]: the ending position of a variable name including
    the optional modifier. *)
Fixpoint skip_alnum (p : string) (ret : Z) : Z * string :=
  match p with
  | String c p' =>
      if _is_alnum_underscore c then skip_alnum p' (ret + 1) else (ret, p)
  | EmptyString => (ret, p)
  end.

Definition _get_end_of_name (str : string) (offset : Z) : Z :=
  let '(ret, p) := skip_alnum (ptr str offset) offset in
  if is_char (deref p) "?" then ret + 1 else ret.

(** [_is_same_name]: whether the dimension names pointed to by [s1] and
    [s2] are the same. *)
Fixpoint _is_same_name (s1 s2 : string) : bool :=
  match s1, s2 with
  | String c1 t1, String c2 t2 =>
      if _is_alnum_underscore c1 && _is_alnum_underscore c2
      then if Ascii.eqb c1 c2 then _is_same_name t1 t2 else false
      else negb (_is_alnum_underscore c1) && negb (_is_alnum_underscore c2)
  | _, _ =>
      negb (_is_alnum_underscore (deref s1))
      && negb (_is_alnum_underscore (deref s2))
  end.

(** Arrays of C integers, read and written by index.  A read or a write
    outside the allocated block is undefined behaviour; the model reads
    0 and leaves the block unchanged there, and the parser below reports
    the one write the source can make past a block ([core_num_dims]) as
    [ParseOverrun]. *)
Definition rd (a : list Z) (i : Z) : Z :=
  if i <? 0 then 0 else nth (Z.to_nat i) a 0.

Fixpoint wr_nat (a : list Z) (i : nat) (v : Z) : list Z :=
  match a, i with
  | [], _ => []
  | _ :: t, O => v :: t
  | x :: t, S i' => x :: wr_nat t i' v
  end.

Definition wr (a : list Z) (i : Z) (v : Z) : list Z :=
  if i <? 0 then a else wr_nat a (Z.to_nat i) v.

Definition zlen (a : list Z) : Z := Z.of_nat (List.length a).

(** Python objects, as far as the reductions look at them. *)
Inductive pyobj : Type :=
| PyNone
| PyLong (v : Z)
| PyObj (id : Z).

(** The reduction identity policy of a ufunc, [ufunc->identity]. *)
Inductive ufunc_identity : Type :=
| PyUFunc_Zero
| PyUFunc_One
| PyUFunc_MinusOne
| PyUFunc_None
| PyUFunc_ReorderableNone
| PyUFunc_IdentityValue (identity_value : pyobj)
| PyUFunc_InvalidIdentity.

(** What [PyDict_GetItemWithError (ufunc->userloops, key)] and
    [PyCapsule_GetPointer] give for a type number: the argument types of
    the registered loops, in list order. *)
Inductive user_lookup : Type :=
| LookupFails
| LookupMissing
| LookupFound (arg_types : list (list Z)).

(** The fields of [PyUFuncObject] read by the functions modelled here.
    [types] is the flat table of [ntypes] rows of [nargs] type numbers. *)
Record PyUFuncObject : Type := mkUFunc {
  nin : Z;
  nout : Z;
  nargs : Z;
  name : string;
  identity : ufunc_identity;
  ntypes : Z;
  types : list Z;
  userloops : option (Z -> user_lookup);
  core_enabled : Z;
  core_num_dim_ix : Z;
  core_num_dims : list Z;
  core_offsets : list Z;
  core_dim_ixs : list Z;
  core_dim_sizes : list Z;
  core_dim_flags : list Z;
  core_signature : string
}.

(** The locals of [_parse_signature] together with the fields it fills. *)
Record parse_state : Type := mkParse {
  p_i : Z;                      (* i *)
  p_nd : Z;                     (* nd *)
  p_cur_arg : Z;                (* cur_arg *)
  p_cur_core_dim : Z;           (* cur_core_dim *)
  p_var_names : list Z;         (* var_names[ix] = signature + offset *)
  p_num_dim_ix : Z;             (* ufunc->core_num_dim_ix *)
  p_num_dims : list Z;          (* ufunc->core_num_dims *)
  p_offsets : list Z;           (* ufunc->core_offsets *)
  p_dim_ixs : list Z;           (* ufunc->core_dim_ixs *)
  p_dim_sizes : list Z;         (* ufunc->core_dim_sizes *)
  p_dim_flags : list Z          (* ufunc->core_dim_flags *)
}.

(** How a run of the parser ends before its normal return. *)
Inductive parse_stop : Type :=
| Fail (parse_error : string)    (* goto fail with parse_error set *)
| Overrun                        (* a write past core_num_dims / core_offsets *)
| Fuel.                          (* the model's loop bound was reached *)

Inductive step (A : Type) : Type :=
| Go (a : A)
| Stop (i : Z) (why : parse_stop).
Arguments Go {A} a.
Arguments Stop {A} i why.

(** The search [for (ix = 0; ix < ufunc->core_num_dim_ix; ix++)] for a
    dimension already seen. *)
Fixpoint find_dim (signature : string) (st : parse_state) (i frozen_size : Z)
         (ix : Z) (todo : nat) : Z :=
  match todo with
  | O => ix
  | S todo' =>
      if (if frozen_size >? 0
          then frozen_size =? rd (p_dim_sizes st) ix
          else _is_same_name (ptr signature i)
                             (ptr signature (rd (p_var_names st) ix)))
      then ix
      else find_dim signature st i frozen_size (ix + 1) todo'
  end.

(** "If a new dimension, store its properties; if old, check
    consistency": the middle of one turn of the loop over the core
    dimensions, for the dimension found at index [ix]. *)
Definition register_dim (st : parse_state) (i frozen_size : Z)
           (can_ignore : bool) (ix : Z) : step parse_state :=
  if ix =? p_num_dim_ix st then
    let flags0 := rd (p_dim_flags st) ix in
    let flags1 := if frozen_size <? 0
                  then Z.lor flags0 UFUNC_CORE_DIM_SIZE_INFERRED
                  else flags0 in
    let flags2 := if can_ignore
                  then Z.lor flags1 UFUNC_CORE_DIM_CAN_IGNORE
                  else flags1 in
    Go (mkParse (p_i st) (p_nd st) (p_cur_arg st) (p_cur_core_dim st)
          (wr (p_var_names st) ix i)
          (p_num_dim_ix st + 1)
          (p_num_dims st) (p_offsets st) (p_dim_ixs st)
          (wr (p_dim_sizes st) ix frozen_size)
          (wr (p_dim_flags st) ix flags2))
  else if can_ignore
          && (Z.land (rd (p_dim_flags st) ix) UFUNC_CORE_DIM_CAN_IGNORE =? 0)
  then Stop i (Fail "? cannot be used, name already seen without ?")
  else if negb can_ignore
          && negb (Z.land (rd (p_dim_flags st) ix)
                          UFUNC_CORE_DIM_CAN_IGNORE =? 0)
  then Stop i (Fail "? must be used, name already seen with ?")
  else Go st.

(** One turn of the loop over the core dimensions of one argument. *)
Definition parse_dim (signature : string) (st : parse_state)
  : step parse_state :=
  let i := p_i st in
  if is_char (at_ signature i) "000" then
    Stop i (Fail "unexpected end of signature string")
  else
    let frozen_size :=
      if _is_alpha_underscore (at_ signature i) then -1
      else _get_size (ptr signature i) in
    if negb (_is_alpha_underscore (at_ signature i)) && (frozen_size <=? 0) then
      Stop i (Fail "expect dimension name or non-zero frozen size")
    else
      let i_end := _get_end_of_name signature i in
      let can_ignore :=
        (i_end >? 0) && is_char (at_ signature (i_end - 1)) "?" in
      let ix := find_dim signature st i frozen_size 0
                         (Z.to_nat (p_num_dim_ix st)) in
      match register_dim st i frozen_size can_ignore ix with
      | Stop j why => Stop j why
      | Go st1 =>
          let i1 := _next_non_white_space signature i_end in
          let st2 :=
            mkParse i1 (p_nd st1 + 1) (p_cur_arg st1) (p_cur_core_dim st1 + 1)
              (p_var_names st1) (p_num_dim_ix st1)
              (p_num_dims st1) (p_offsets st1)
              (wr (p_dim_ixs st1) (p_cur_core_dim st1) ix)
              (p_dim_sizes st1) (p_dim_flags st1) in
          if negb (is_char (at_ signature i1) ",")
             && negb (is_char (at_ signature i1) ")")
          then Stop i1 (Fail "expect ',' or ')'")
          else if is_char (at_ signature i1) "," then
            let i2 := _next_non_white_space signature (i1 + 1) in
            let st3 :=
              mkParse i2 (p_nd st2) (p_cur_arg st2) (p_cur_core_dim st2)
                (p_var_names st2) (p_num_dim_ix st2)
                (p_num_dims st2) (p_offsets st2) (p_dim_ixs st2)
                (p_dim_sizes st2) (p_dim_flags st2) in
            if is_char (at_ signature i2) ")"
            then Stop i2 (Fail "',' must not be followed by ')'")
            else Go st3
          else Go st2
      end.

(** [while (signature[i] != ')')]: the core dimensions of one argument. *)
Fixpoint parse_dims (signature : string) (st : parse_state) (fuel : nat)
  : step parse_state :=
  if is_char (at_ signature (p_i st)) ")" then Go st
  else
    match fuel with
    | O => Stop (p_i st) Fuel
    | S fuel' =>
        match parse_dim signature st with
        | Stop j why => Stop j why
        | Go st' => parse_dims signature st' fuel'
        end
    end.

Definition set_i (st : parse_state) (i : Z) : parse_state :=
  mkParse i (p_nd st) (p_cur_arg st) (p_cur_core_dim st)
    (p_var_names st) (p_num_dim_ix st)
    (p_num_dims st) (p_offsets st) (p_dim_ixs st)
    (p_dim_sizes st) (p_dim_flags st).

(** One turn of the loop over the input/output arguments. *)
Definition parse_arg (u_nin u_nargs : Z) (signature : string)
           (st : parse_state) (fuel : nat) : step parse_state :=
  let arrow : step parse_state :=
    if p_cur_arg st =? u_nin then
      if negb (is_char (at_ signature (p_i st)) "-")
         || negb (is_char (at_ signature (p_i st + 1)) ">")
      then Stop (p_i st) (Fail "expect '->'")
      else Go (set_i st (_next_non_white_space signature (p_i st + 2)))
    else Go st in
  match arrow with
  | Stop j why => Stop j why
  | Go st1 =>
      if negb (is_char (at_ signature (p_i st1)) "(") then
        Stop (p_i st1) (Fail "expect '('")
      else
        let st2 := set_i st1 (_next_non_white_space signature (p_i st1 + 1)) in
        match parse_dims signature st2 fuel with
        | Stop j why => Stop j why
        | Go st3 =>
            if (p_cur_arg st3 <? 0) || (u_nargs <=? p_cur_arg st3) then
              Stop (p_i st3) Overrun
            else
              let i4 := _next_non_white_space signature (p_i st3 + 1) in
              let st4 :=
                mkParse i4 0 (p_cur_arg st3 + 1) (p_cur_core_dim st3)
                  (p_var_names st3) (p_num_dim_ix st3)
                  (wr (p_num_dims st3) (p_cur_arg st3) (p_nd st3))
                  (wr (p_offsets st3) (p_cur_arg st3)
                      (p_cur_core_dim st3 - p_nd st3))
                  (p_dim_ixs st3) (p_dim_sizes st3) (p_dim_flags st3) in
              if negb (p_cur_arg st4 =? u_nin)
                 && negb (p_cur_arg st4 =? u_nargs)
              then
                if negb (is_char (at_ signature i4) ",")
                then Stop i4 (Fail "expect ','")
                else Go (set_i st4 (_next_non_white_space signature (i4 + 1)))
              else Go st4
        end
  end.

(** [while (signature[i] != '\0')]: the loop over the arguments. *)
Fixpoint parse_args (u_nin u_nargs : Z) (signature : string)
         (st : parse_state) (fuel : nat) : step parse_state :=
  if is_char (at_ signature (p_i st)) "000" then Go st
  else
    match fuel with
    | O => Stop (p_i st) Fuel
    | S fuel' =>
        match parse_arg u_nin u_nargs signature st fuel' with
        | Stop j why => Stop j why
        | Go st' => parse_args u_nin u_nargs signature st' fuel'
        end
    end.

(** What [_parse_signature] leaves behind: 0 with the filled ufunc, or -1
    with the exception it set. *)
Inductive parse_result : Type :=
| ParseOk (u : PyUFuncObject)
| ParseError (parse_error : string) (position : Z) (signature : string)
    (* ValueError "%s at position %d in \"%s\"" *)
| ParseNullSignature     (* RuntimeError "_parse_signature with NULL signature" *)
| ParseNoMemory          (* PyErr_NoMemory *)
| ParseOverrun           (* undefined behaviour: write past core_num_dims *)
| ParseFuel.             (* the model's loop bound was reached *)

Definition _parse_signature (ufunc : PyUFuncObject) (signature : option string)
           (alloc_ok : bool) : parse_result :=
  match signature with
  | None => ParseNullSignature
  | Some signature =>
      if negb alloc_ok then ParseNoMemory
      else
        let len := String.length signature in
        let st0 :=
          mkParse (_next_non_white_space signature 0) 0 0 0
            (repeat 0 len) 0
            (repeat 0 (Z.to_nat (nargs ufunc)))
            (repeat 0 (Z.to_nat (nargs ufunc)))
            (repeat 0 len) (repeat 0 len) (repeat 0 len) in
        match parse_args (nin ufunc) (nargs ufunc) signature st0 (S len) with
        | Stop i (Fail parse_error) => ParseError parse_error i signature
        | Stop _ Overrun => ParseOverrun
        | Stop _ Fuel => ParseFuel
        | Go st =>
            if negb (p_cur_arg st =? nargs ufunc) then
              ParseError "incomplete signature: not all arguments found"
                         (p_i st) signature
            else
              ParseOk
                (mkUFunc (nin ufunc) (nout ufunc) (nargs ufunc) (name ufunc)
                   (identity ufunc) (ntypes ufunc) (types ufunc)
                   (userloops ufunc)
                   (if p_cur_core_dim st =? 0 then 0 else 1)
                   (p_num_dim_ix st)
                   (p_num_dims st) (p_offsets st)
                   (firstn (Z.to_nat (p_cur_core_dim st)) (p_dim_ixs st))
                   (firstn (Z.to_nat (p_num_dim_ix st)) (p_dim_sizes st))
                   (firstn (Z.to_nat (p_num_dim_ix st)) (p_dim_flags st))
                   signature)
        end
  end.

(** A ufunc before its signature is parsed. *)
Definition new_ufunc (u_nin u_nout : Z) (u_name : string) : PyUFuncObject :=
  mkUFunc u_nin u_nout (u_nin + u_nout) u_name PyUFunc_None 0 [] None
          0 0 [] [] [] [] [] "".



(** The parser's position lies inside the signature. *)
Definition in_bounds (signature : string) (st : parse_state) : Prop :=
  0 <= p_i st <= strlen signature.

(* ================================================================== *)
(** ** Operands                                                        *)
(* ================================================================== *)

(** The fields of [PyArray_Descr] and [PyArrayObject] read by the code
    modelled here.  [data] is the address of the first element. *)
Record PyArray_Descr : Type := mkDescr {
  type_num : Z;
  elsize : Z
}.

Record PyArrayObject : Type := mkArray {
  data : Z;                 (* PyArray_BYTES *)
  dims : list Z;            (* PyArray_DIMS *)
  strides : list Z;         (* PyArray_STRIDES *)
  descr : PyArray_Descr;    (* PyArray_DESCR *)
  flags : Z                 (* PyArray_FLAGS *)
}.

Definition PyArray_NDIM (a : PyArrayObject) : Z := zlen (dims a).
Definition PyArray_DIM (a : PyArrayObject) (k : Z) : Z := rd (dims a) k.
Definition PyArray_STRIDE (a : PyArrayObject) (k : Z) : Z := rd (strides a) k.
Definition PyArray_ITEMSIZE (a : PyArrayObject) : Z := elsize (descr a).

(** [PyArray_MultiplyList]: the product of the first [n] entries. *)
Definition PyArray_MultiplyList (l : list Z) (n : Z) : Z :=
  fold_left Z.mul (firstn (Z.to_nat n) l) 1.

Definition PyArray_SIZE (a : PyArrayObject) : Z :=
  PyArray_MultiplyList (dims a) (PyArray_NDIM a).

(** [PyArray_CompareLists]: whether the first [n] entries agree. *)
Fixpoint compare_lists (l1 l2 : list Z) (n : nat) : bool :=
  match n with
  | O => true
  | S n' =>
      match l1, l2 with
      | x :: t1, y :: t2 => (x =? y) && compare_lists t1 t2 n'
      | _, _ => false
      end
  end.

Definition PyArray_CompareLists (l1 l2 : list Z) (n : Z) : bool :=
  compare_lists l1 l2 (Z.to_nat n).

(* ================================================================== *)
(** ** Core-dimension sizes of a generalized ufunc call                *)
(* ================================================================== *)

(** What [_get_coredim_sizes] reports with its -1. *)
Inductive coredim_error : Type :=
| CoreDimMismatch (is_input : bool) (operand core_dim : Z)
                  (signature : string) (op_dim_size core_dim_size : Z)
    (* "%s: %s operand %d has a mismatch in its core dimension %d, with
        gufunc signature %s (size %zd is different from %zd)" *)
| CoreDimUnspecified (operand core_dim : Z) (signature : string).
    (* "%s: Output operand %d has core dimension %d unspecified, with
        gufunc signature %s" *)

Inductive coredim_result : Type :=
| CoreDimOk (core_dim_sizes : list Z)
| CoreDimError (e : coredim_error).

(** The macro [REMAP_AXIS]. *)
Definition REMAP_AXIS (remap_axis : option (list (option (list Z))))
           (iop axis : Z) : Z :=
  match remap_axis with
  | Some rows =>
      match nth (Z.to_nat iop) rows None with
      | Some row => rd row axis
      | None => axis
      end
  | None => axis
  end.

Section GetCoredimSizes.

Variable ufunc : PyUFuncObject.
Variable core_dim_flags : list Z.
Variable remap_axis : option (list (option (list Z))).

(** The size operand [i] gives its core dimension [idim], and the
    [dim_delta] after it. *)
Definition op_dim (i : Z) (arr : PyArrayObject) (core_start_dim : Z)
           (idim dim_delta : Z) : Z * Z :=
  let core_dim_index :=
    rd (core_dim_ixs ufunc) (rd (core_offsets ufunc) i + idim) in
  if negb (Z.land (rd core_dim_flags core_dim_index)
                  UFUNC_CORE_DIM_MISSING =? 0)
  then (1, dim_delta + 1)
  else (PyArray_DIM arr
          (REMAP_AXIS remap_axis i (core_start_dim + idim - dim_delta)),
        dim_delta).

(** [for (idim = 0; idim < ufunc->core_num_dims[i]; ++idim)] of the
    first loop, for the operand [arr] at index [i]. *)
Fixpoint coredim_operand (i : Z) (arr : PyArrayObject) (core_start_dim : Z)
         (todo : nat) (idim dim_delta : Z) (core_dim_sizes : list Z)
  : coredim_result :=
  match todo with
  | O => CoreDimOk core_dim_sizes
  | S todo' =>
      let dim_offset := rd (core_offsets ufunc) i in
      let core_index := dim_offset + idim in
      let core_dim_index := rd (core_dim_ixs ufunc) core_index in
      let core_dim_size := rd core_dim_sizes core_dim_index in
      let '(op_dim_size, dim_delta') :=
        op_dim i arr core_start_dim idim dim_delta in
      if rd core_dim_sizes core_dim_index <? 0 then
        coredim_operand i arr core_start_dim todo' (idim + 1) dim_delta'
          (wr core_dim_sizes core_dim_index op_dim_size)
      else if negb (op_dim_size =? core_dim_size) then
        CoreDimError
          (CoreDimMismatch (i <? nin ufunc)
             (if i <? nin ufunc then i else i - nin ufunc)
             (idim - dim_delta') (core_signature ufunc)
             op_dim_size (rd core_dim_sizes core_dim_index))
      else
        coredim_operand i arr core_start_dim todo' (idim + 1) dim_delta'
          core_dim_sizes
  end.

(** [for (i = 0; i < nop; ++i)]: the first loop, from operand [i] on. *)
Fixpoint coredim_operands (op : list (option PyArrayObject))
         (op_core_num_dims : list Z) (i : Z) (core_dim_sizes : list Z)
  : coredim_result :=
  match op with
  | [] => CoreDimOk core_dim_sizes
  | None :: rest =>
      coredim_operands rest op_core_num_dims (i + 1) core_dim_sizes
  | Some arr :: rest =>
      let core_start_dim := PyArray_NDIM arr - rd op_core_num_dims i in
      match coredim_operand i arr core_start_dim
              (Z.to_nat (rd (core_num_dims ufunc) i)) 0 0 core_dim_sizes with
      | CoreDimOk sizes' =>
          coredim_operands rest op_core_num_dims (i + 1) sizes'
      | CoreDimError e => CoreDimError e
      end
  end.

(** "Make sure no core dimension is unspecified": the loop over the core
    dimensions of the output at index [i]. *)
Fixpoint unspecified_dim (i : Z) (todo : nat) (idim : Z)
         (core_dim_sizes : list Z) : option coredim_error :=
  match todo with
  | O => None
  | S todo' =>
      let core_dim_index :=
        rd (core_dim_ixs ufunc) (rd (core_offsets ufunc) i + idim) in
      if rd core_dim_sizes core_dim_index <? 0 then
        Some (CoreDimUnspecified (i - nin ufunc) idim (core_signature ufunc))
      else unspecified_dim i todo' (idim + 1) core_dim_sizes
  end.

(** [for (i = nin; i < nop; ++i)]. *)
Fixpoint unspecified_dims (todo : nat) (i : Z) (core_dim_sizes : list Z)
  : option coredim_error :=
  match todo with
  | O => None
  | S todo' =>
      match unspecified_dim i (Z.to_nat (rd (core_num_dims ufunc) i)) 0
              core_dim_sizes with
      | Some e => Some e
      | None => unspecified_dims todo' (i + 1) core_dim_sizes
      end
  end.

(** [_get_coredim_sizes]; [op] holds the [nin + nout] operands, a missing
    output being [None]. *)
Definition _get_coredim_sizes (op : list (option PyArrayObject))
           (op_core_num_dims : list Z) (core_dim_sizes : list Z)
  : coredim_result :=
  let nop := nin ufunc + nout ufunc in
  match coredim_operands (firstn (Z.to_nat nop) op) op_core_num_dims 0
          core_dim_sizes with
  | CoreDimError e => CoreDimError e
  | CoreDimOk sizes' =>
      match unspecified_dims (Z.to_nat (nout ufunc)) (nin ufunc) sizes' with
      | Some e => CoreDimError e
      | None => CoreDimOk sizes'
      end
  end.

End GetCoredimSizes.

(** The call of [_get_coredim_sizes] in
    [PyUFunc_GeneralizedFunctionInternal], with the variable parts as
    [_initialize_variable_parts] copies them from the ufunc and no axis
    remapping. *)
Definition coredim_sizes_of_call (ufunc : PyUFuncObject)
           (op : list (option PyArrayObject)) : coredim_result :=
  _get_coredim_sizes ufunc (core_dim_flags ufunc) None op
    (core_num_dims ufunc) (core_dim_sizes ufunc).

(** An operand of a given shape, for the examples. *)
Definition array_of_shape (shape : list Z) : PyArrayObject :=
  mkArray 0 shape (map (fun _ => 8) shape) (mkDescr 12 8) 0.

Definition parsed (u_nin u_nout : Z) (signature : string) : PyUFuncObject :=
  match _parse_signature (new_ufunc u_nin u_nout "f") (Some signature) true with
  | ParseOk u => u
  | _ => new_ufunc u_nin u_nout "f"
  end.


(* ------------------------------------------------------------------ *)
(** *** What the operands say about each core dimension                *)
(* ------------------------------------------------------------------ *)

(** One mention of a named core dimension by a supplied operand: the
    operand, the position reported for it, the index of the dimension in
    the table, and the extent the operand has there. *)
Record mention : Type := mkMention {
  m_operand : Z;
  m_core_dim : Z;
  m_dim : Z;
  m_size : Z
}.

Section Mentions.

Variable ufunc : PyUFuncObject.
Variable core_dim_flags : list Z.
Variable remap_axis : option (list (option (list Z))).

(** The mentions made by operand [i], in the order of its signature. *)
Fixpoint operand_mentions (i : Z) (arr : PyArrayObject) (core_start_dim : Z)
         (todo : nat) (idim dim_delta : Z) : list mention :=
  match todo with
  | O => []
  | S todo' =>
      let d := rd (core_dim_ixs ufunc) (rd (core_offsets ufunc) i + idim) in
      let e := fst (op_dim ufunc core_dim_flags remap_axis
                           i arr core_start_dim idim dim_delta) in
      let dd := snd (op_dim ufunc core_dim_flags remap_axis
                            i arr core_start_dim idim dim_delta) in
      mkMention i (idim - dd) d e
        :: operand_mentions i arr core_start_dim todo' (idim + 1) dd
  end.

(** The mentions made by all supplied operands, from operand [i] on. *)
Fixpoint mentions (op : list (option PyArrayObject))
         (op_core_num_dims : list Z) (i : Z) : list mention :=
  match op with
  | [] => []
  | None :: rest => mentions rest op_core_num_dims (i + 1)
  | Some arr :: rest =>
      operand_mentions i arr (PyArray_NDIM arr - rd op_core_num_dims i)
        (Z.to_nat (rd (core_num_dims ufunc) i)) 0 0
      ++ mentions rest op_core_num_dims (i + 1)
  end.

(** The size a dimension has after the mentions [seen]: its literal when
    the signature fixed one, else the extent of its first mention. *)
Definition resolved_size (core_dim_sizes : list Z) (seen : list mention)
           (d : Z) : Z :=
  if 0 <=? rd core_dim_sizes d then rd core_dim_sizes d
  else
    match find (fun m => m_dim m =? d) seen with
    | Some m => m_size m
    | None => rd core_dim_sizes d
    end.

(** The first loop of [_get_coredim_sizes], read as a pass over the
    mentions. *)
Fixpoint resolve (ms : list mention) (core_dim_sizes : list Z)
  : coredim_result :=
  match ms with
  | [] => CoreDimOk core_dim_sizes
  | m :: ms' =>
      if rd core_dim_sizes (m_dim m) <? 0 then
        resolve ms' (wr core_dim_sizes (m_dim m) (m_size m))
      else if negb (m_size m =? rd core_dim_sizes (m_dim m)) then
        CoreDimError
          (CoreDimMismatch (m_operand m <? nin ufunc)
             (if m_operand m <? nin ufunc then m_operand m
              else m_operand m - nin ufunc)
             (m_core_dim m) (core_signature ufunc)
             (m_size m) (rd core_dim_sizes (m_dim m)))
      else resolve ms' core_dim_sizes
  end.

End Mentions.

(** A mention the table can record: its dimension is one of the table,
    and its extent is an array extent. *)
Definition recordable (core_dim_sizes : list Z) (m : mention) : Prop :=
  0 <= m_dim m < zlen core_dim_sizes /\ 0 <= m_size m.

(* ================================================================== *)
(** ** Memory, the kernel, and what a run leaves behind                *)
(* ================================================================== *)

(** Array elements live in cells addressed by the byte address of their
    first byte; a cell holds the bit pattern of one element (for the
    object dtype, the [PyObject *] stored there, 0 being NULL).  Elements
    never overlap partially.  [ob_refcnt] is the reference count of each
    object and [err] is [PyErr_Occurred ()]. *)
Record machine : Type := mkMachine {
  mem : Z -> Z;
  ob_refcnt : Z -> Z;
  freed : list Z;
  err : bool
}.

Definition store (m : Z -> Z) (p v : Z) : Z -> Z :=
  fun q => if q =? p then v else m q.

(** What the engine does that a caller can observe besides memory. *)
Inductive event : Type :=
| EvKernel (args : list Z) (count : Z) (steps : list Z)
    (* innerloop (args, &count, steps, innerloopdata) *)
| EvIncref (o : Z)
| EvDecref (o : Z)
| EvAlloc (a : PyArrayObject).

Record run : Type := mkRun {
  mach : machine;
  trace : list event
}.

Definition log (e : event) (r : run) : run :=
  mkRun (mach r) (trace r ++ [e]).

Definition is_kernel (e : event) : bool :=
  match e with EvKernel _ _ _ => true | _ => false end.

(** The kernel invocations of a trace. *)
Definition kernel_calls (t : list event) : list event := filter is_kernel t.

(** [Py_XINCREF] and [Py_XDECREF]; an object whose count drops to zero is
    deallocated. *)
Definition Py_XINCREF (o : Z) (r : run) : run :=
  if o =? 0 then r
  else
    let m := mach r in
    log (EvIncref o)
        (mkRun (mkMachine (mem m) (store (ob_refcnt m) o (ob_refcnt m o + 1))
                          (freed m) (err m))
               (trace r)).

Definition Py_XDECREF (o : Z) (r : run) : run :=
  if o =? 0 then r
  else
    let m := mach r in
    let n := ob_refcnt m o - 1 in
    log (EvDecref o)
        (mkRun (mkMachine (mem m) (store (ob_refcnt m) o n)
                          (if n =? 0 then o :: freed m else freed m) (err m))
               (trace r)).

Definition set_mem (p v : Z) (r : run) : run :=
  let m := mach r in
  mkRun (mkMachine (store (mem m) p v) (ob_refcnt m) (freed m) (err m))
        (trace r).

(** Modelled from the spec: the type number of the reference-counted
    element kind ("object dtype"), [NPY_OBJECT] of [ndarraytypes.h]. *)
Definition NPY_OBJECT : Z := 17.

(** Modelled from the spec: the contiguity flags of an operand
    ("contiguous-C, contiguous-F"), [NPY_ARRAY_C_CONTIGUOUS] and
    [NPY_ARRAY_F_CONTIGUOUS] of [ndarraytypes.h]. *)
Definition NPY_ARRAY_C_CONTIGUOUS : Z := 1.
Definition NPY_ARRAY_F_CONTIGUOUS : Z := 2.

(** Modelled from the spec: the alignment flag of an operand ("flags
    (... aligned)"), [NPY_ARRAY_ALIGNED] of [ndarraytypes.h]. *)
Definition NPY_ARRAY_ALIGNED : Z := 256.

Definition PyArray_ISALIGNED (a : PyArrayObject) : bool :=
  negb (Z.land (flags a) NPY_ARRAY_ALIGNED =? 0).

Inductive NPY_ORDER : Type :=
| NPY_ANYORDER | NPY_CORDER | NPY_FORTRANORDER | NPY_KEEPORDER.

(** Modelled from the spec: the Allocator, "produces a new array view of
    given dtype/shape/memory-order; may fail with out-of-memory"
    ([PyArray_NewFromDescr] with no strides and no data given).  [block]
    is the address of the fresh block, [None] when memory is exhausted. *)
Fixpoint c_strides (shape : list Z) (itemsize : Z) : list Z :=
  match shape with
  | [] => []
  | _ :: rest => fold_left Z.mul rest itemsize :: c_strides rest itemsize
  end.

Fixpoint f_strides (shape : list Z) (itemsize : Z) : list Z :=
  match shape with
  | [] => []
  | d :: rest => itemsize :: f_strides rest (itemsize * d)
  end.

Definition PyArray_NewFromDescr (block : option Z) (dtype : PyArray_Descr)
           (nd : Z) (shape : list Z) (fortran : bool) : option PyArrayObject :=
  match block with
  | None => None
  | Some p =>
      let dims := firstn (Z.to_nat nd) shape in
      Some (mkArray p dims
              (if fortran then f_strides dims (elsize dtype)
               else c_strides dims (elsize dtype))
              dtype
              (if fortran then NPY_ARRAY_F_CONTIGUOUS
               else NPY_ARRAY_C_CONTIGUOUS))
  end.

(** The [__array_prepare__] hook of an output, and what a call of it
    returns. *)
Inductive hook_result : Type :=
| HookRaises                      (* the call failed *)
| HookNotArray                    (* it returned something else *)
| HookSame                        (* it returned its argument *)
| HookArray (arr : PyArrayObject).

Definition prepare_hook : Type := option (PyArrayObject -> hook_result).

(** [prepare_ufunc_output]: the operand to use, or [None] for -1.
    [equiv_types] stands for [PyArray_EquivTypes]. *)
Definition prepare_ufunc_output
           (equiv_types : PyArray_Descr -> PyArray_Descr -> bool)
           (arr_prep : prepare_hook) (op : PyArrayObject)
  : option PyArrayObject :=
  match arr_prep with
  | None => Some op
  | Some call =>
      match call op with
      | HookRaises => None
      | HookNotArray => None
      | HookSame => Some op
      | HookArray arr =>
          if negb (PyArray_NDIM arr =? PyArray_NDIM op)
             || negb (PyArray_CompareLists (dims arr) (dims op)
                                           (PyArray_NDIM arr))
             || negb (PyArray_CompareLists (strides arr) (strides op)
                                           (PyArray_NDIM arr))
             || negb (equiv_types (descr arr) (descr op))
          then None
          else Some arr
      end
  end.

(* ================================================================== *)
(** ** The trivial-loop fast path                                      *)
(* ================================================================== *)

(** The contiguity bits of an operand, [op_order] in the scan. *)
Definition op_order_of (a : PyArrayObject) : Z :=
  Z.land (flags a)
         (Z.lor NPY_ARRAY_C_CONTIGUOUS NPY_ARRAY_F_CONTIGUOUS).

(** The locals fixed by the scan of the operands. *)
Record trivial_plan : Type := mkPlan {
  operation_order : Z;
  operation_ndim : Z;
  operation_shape : list Z;
  fixed_strides : list Z
}.

Definition set_stride (pl : trivial_plan) (iop v : Z) : trivial_plan :=
  mkPlan (operation_order pl) (operation_ndim pl) (operation_shape pl)
         (wr (fixed_strides pl) iop v).

(** The body of [for (int iop = 0; iop < nop; iop++)] in
    [try_trivial_single_output_loop], for a supplied operand; [None] is
    [return -2]. *)
Definition trivial_scan_operand (a : PyArrayObject) (iop : Z)
           (pl : trivial_plan) : option trivial_plan :=
  let op_ndim := PyArray_NDIM a in
  if op_ndim =? 0 then Some (set_stride pl iop 0)
  else
    let fixed : option trivial_plan :=
      if operation_ndim pl =? 0 then
        Some (mkPlan (operation_order pl) op_ndim (dims a)
                     (fixed_strides pl))
      else if negb (op_ndim =? operation_ndim pl) then None
      else if negb (PyArray_CompareLists (operation_shape pl) (dims a)
                                         op_ndim)
      then None
      else Some pl in
    match fixed with
    | None => None
    | Some pl1 =>
        if op_ndim =? 1 then Some (set_stride pl1 iop (PyArray_STRIDE a 0))
        else
          let pl2 := set_stride pl1 iop (PyArray_ITEMSIZE a) in
          let op_order := op_order_of a in
          if op_order =? 0 then None
          else if operation_order pl2 =? 0 then
            Some (mkPlan op_order (operation_ndim pl2) (operation_shape pl2)
                         (fixed_strides pl2))
          else if negb (operation_order pl2 =? op_order) then None
          else Some pl2
    end.

(** The loop itself, from operand [iop] on; a missing output is skipped. *)
Fixpoint trivial_scan (ops : list (option PyArrayObject)) (iop : Z)
         (pl : trivial_plan) : option trivial_plan :=
  match ops with
  | [] => Some pl
  | None :: rest => trivial_scan rest (iop + 1) pl
  | Some a :: rest =>
      match trivial_scan_operand a iop pl with
      | None => None
      | Some pl' => trivial_scan rest (iop + 1) pl'
      end
  end.

(** What a loop driver hands back: its return code, the operands (with
    the output it allocated or substituted), and the run. *)
Record outcome : Type := mkOutcome {
  ret : Z;
  out_ops : list (option PyArrayObject);
  after : run
}.

Definition set_op (ops : list (option PyArrayObject)) (i : Z)
           (a : PyArrayObject) : list (option PyArrayObject) :=
  firstn (Z.to_nat i) ops ++ [Some a] ++ skipn (S (Z.to_nat i)) ops.

Definition get_op (ops : list (option PyArrayObject)) (i : Z)
  : option PyArrayObject :=
  if i <? 0 then None else nth (Z.to_nat i) ops None.

Definition data_of (o : option PyArrayObject) : Z :=
  match o with Some a => data a | None => 0 end.

Section Loops.

(** The selected inner loop: what it does to the machine, given its
    [args], dimension and [steps]. *)
Variable innerloop : list Z -> Z -> list Z -> machine -> machine.

Definition call_innerloop (args : list Z) (count : Z) (steps : list Z)
           (r : run) : run :=
  log (EvKernel args count steps)
      (mkRun (innerloop args count steps (mach r)) (trace r)).

(** The macro [PyArray_EQUIVALENTLY_ITERABLE_OVERLAP_OK] of
    [lowlevel_strided_loops.h], applied to an input and the output. *)
Variable overlap_ok : PyArrayObject -> PyArrayObject -> bool.

(** [PyArray_EquivTypes], as [prepare_ufunc_output] calls it. *)
Variable equiv_types : PyArray_Descr -> PyArray_Descr -> bool.

(** [try_trivial_single_output_loop]; [block] is where the allocator
    would put a new output. *)
Definition try_trivial_single_output_loop (ufunc : PyUFuncObject)
           (op : list (option PyArrayObject)) (dtypes : list PyArray_Descr)
           (order : NPY_ORDER) (arr_prep : prepare_hook) (block : option Z)
           (r : run) : outcome :=
  let nop := nin ufunc + 1 in
  let operation_order0 :=
    match order with
    | NPY_CORDER => NPY_ARRAY_C_CONTIGUOUS
    | NPY_FORTRANORDER => NPY_ARRAY_F_CONTIGUOUS
    | _ => 0
    end in
  match trivial_scan (firstn (Z.to_nat nop) op) 0
          (mkPlan operation_order0 0 [] (repeat 0 (Z.to_nat nop))) with
  | None => mkOutcome (-2) op r
  | Some pl =>
      let allocated : (list (option PyArrayObject) * trivial_plan * run)
                      + Z :=
        match get_op op (nin ufunc) with
        | None =>
            match PyArray_NewFromDescr block
                    (nth (Z.to_nat (nin ufunc)) dtypes (mkDescr 0 0))
                    (operation_ndim pl) (operation_shape pl)
                    (operation_order pl =? NPY_ARRAY_F_CONTIGUOUS) with
            | None => inr (-1)
            | Some out =>
                inl (set_op op (nin ufunc) out,
                     set_stride pl (nin ufunc)
                       (elsize (nth (Z.to_nat (nin ufunc)) dtypes
                                    (mkDescr 0 0))),
                     log (EvAlloc out) r)
            end
        | Some out =>
            if negb (forallb
                       (fun o => match o with
                                 | Some a => overlap_ok a out
                                 | None => true
                                 end)
                       (firstn (Z.to_nat (nin ufunc)) op))
            then inr (-2)
            else if (operation_ndim pl =? 1)
                    && (PyArray_STRIDE out 0 <? PyArray_ITEMSIZE out)
                    && negb (PyArray_STRIDE out 0 =? 0)
            then inr (-2)
            else inl (op, pl, r)
        end in
      match allocated with
      | inr code => mkOutcome code op r
      | inl (op1, pl1, r1) =>
          match get_op op1 (nin ufunc) with
          | None => mkOutcome (-1) op1 r1
          | Some out =>
              match prepare_ufunc_output equiv_types arr_prep out with
              | None => mkOutcome (-1) op1 r1
              | Some out' =>
                  let op2 := set_op op1 (nin ufunc) out' in
                  let count :=
                    PyArray_MultiplyList (operation_shape pl1)
                                         (operation_ndim pl1) in
                  let data := map data_of (firstn (Z.to_nat nop) op2) in
                  mkOutcome 0 op2
                    (call_innerloop data count (fixed_strides pl1) r1)
              end
          end
      end
  end.

(* ================================================================== *)
(** ** The generic iterator loop                                       *)
(* ================================================================== *)

(** The multi-operand iterator is an external collaborator.  What the
    engine reads from the iterator it was given: the operands (with the
    outputs it allocated), the iteration size, and the inner-loop
    positions it yields once its base pointers are set: data pointers,
    inner size and strides of each block. *)
Record block : Type := mkBlock {
  b_dataptr : list Z;
  b_count : Z;
  b_strides : list Z
}.

Record NpyIter : Type := mkIter {
  it_operands : list PyArrayObject;          (* NpyIter_GetOperandArray *)
  it_size : Z;                               (* NpyIter_GetIterSize *)
  it_reset_ok : bool;                        (* NpyIter_ResetBasePointers *)
  it_iternext_ok : bool;                     (* NpyIter_GetIterNext != NULL *)
  it_needs_api : bool;                       (* NpyIter_IterationNeedsAPI *)
  it_first : list Z -> block;                (* position after the reset *)
  it_next : list Z -> list block;            (* positions iternext moves to *)
  it_dealloc_ok : bool                       (* NpyIter_Deallocate *)
}.

(** [do { innerloop (...); } while (!(needs_api && PyErr_Occurred ())
    && iternext (iter));] from the block [b] on. *)
Fixpoint iterate (needs_api : bool) (b : block) (rest : list block)
         (r : run) : run :=
  let r' := call_innerloop (b_dataptr b) (b_count b) (b_strides b) r in
  if needs_api && err (mach r') then r'
  else
    match rest with
    | [] => r'
    | b' :: rest' => iterate needs_api b' rest' r'
    end.

(** The two loops of [iterator_loop] that call [__array_prepare__]. *)
Fixpoint prepare_existing (ops : list (option PyArrayObject))
         (arr_prep : list prepare_hook)
  : option (list (option PyArrayObject)) :=
  match ops with
  | [] => Some []
  | None :: rest =>
      match prepare_existing rest (tl arr_prep) with
      | Some rest' => Some (None :: rest')
      | None => None
      end
  | Some a :: rest =>
      match prepare_ufunc_output equiv_types (hd None arr_prep) a with
      | None => None
      | Some a' =>
          match prepare_existing rest (tl arr_prep) with
          | Some rest' => Some (Some a' :: rest')
          | None => None
          end
      end
  end.

Fixpoint prepare_allocated (ops : list (option PyArrayObject))
         (op_it : list PyArrayObject) (arr_prep : list prepare_hook)
  : option (list (option PyArrayObject) * list Z) :=
  match ops with
  | [] => Some ([], [])
  | o :: rest =>
      let it_a := hd (mkArray 0 [] [] (mkDescr 0 0) 0) op_it in
      let this : option (PyArrayObject * Z) :=
        match o with
        | None =>
            match prepare_ufunc_output equiv_types (hd None arr_prep)
                    it_a with
            | None => None
            | Some a' => Some (a', data a')
            end
        | Some a => Some (a, data it_a)
        end in
      match this with
      | None => None
      | Some (a', base) =>
          match prepare_allocated rest (tl op_it) (tl arr_prep) with
          | None => None
          | Some (rest', bases) => Some (Some a' :: rest', base :: bases)
          end
      end
  end.

(** The call [NpyIter_AdvancedNew (nop, op, ...)] of [iterator_loop]. *)
Variable NpyIter_AdvancedNew : list (option PyArrayObject) -> option NpyIter.

Definition iterator_loop (ufunc : PyUFuncObject)
           (op : list (option PyArrayObject))
           (arr_prep : list prepare_hook) (r : run) : outcome :=
  let n_in := Z.to_nat (nin ufunc) in
  let n_out := Z.to_nat (nout ufunc) in
  let inputs := firstn n_in op in
  let outputs := firstn n_out (skipn n_in op) in
  match prepare_existing outputs arr_prep with
  | None => mkOutcome (-1) op r
  | Some outputs1 =>
      let op1 := inputs ++ outputs1 in
      match NpyIter_AdvancedNew op1 with
      | None => mkOutcome (-1) op1 r
      | Some iter =>
          match prepare_allocated outputs1 (skipn n_in (it_operands iter))
                  arr_prep with
          | None => mkOutcome (-1) op1 r
          | Some (outputs2, out_bases) =>
              let op2 := inputs ++ outputs2 in
              let full_size := it_size iter in
              if full_size =? 0 then
                mkOutcome (if it_dealloc_ok iter then 0 else -1) op2 r
              else
                let baseptrs :=
                  map data (firstn n_in (it_operands iter)) ++ out_bases in
                if negb (it_reset_ok iter) then mkOutcome (-1) op2 r
                else if negb (it_iternext_ok iter) then mkOutcome (-1) op2 r
                else
                  let r' := iterate (it_needs_api iter)
                                    (it_first iter baseptrs)
                                    (it_next iter baseptrs) r in
                  mkOutcome (if it_dealloc_ok iter then 0 else -1) op2 r'
          end
      end
  end.

(** [check_for_trivial_loop]: 1 if a trivial loop is ok, 0 if it is not,
    -1 on an error, with the operands, a small unaligned or differently
    typed input having been replaced by its copy.  [equiv_types] and
    [cast_to_type] stand for [PyArray_EquivTypes] and
    [PyArray_CastToType]. *)
Fixpoint check_for_trivial_loop_from
         (equiv_types : PyArray_Descr -> PyArray_Descr -> bool)
         (cast_to_type : PyArrayObject -> PyArray_Descr
                         -> option PyArrayObject)
         (n_in buffersize : Z) (i : Z)
         (op : list (option PyArrayObject)) (dtype : list PyArray_Descr)
  : Z * list (option PyArrayObject) :=
  match op, dtype with
  | o :: rest, d :: drest =>
      let continue (o' : option PyArrayObject) :=
        let (code, rest') :=
          check_for_trivial_loop_from equiv_types cast_to_type n_in
            buffersize (i + 1) rest drest in
        (code, o' :: rest') in
      match o with
      | None => continue None
      | Some a =>
          if negb (PyArray_ISALIGNED a) || negb (equiv_types d (descr a))
          then
            if (i <? n_in)
               && ((PyArray_NDIM a =? 0)
                   || ((PyArray_NDIM a =? 1)
                       && (PyArray_DIM a 0 <=? buffersize)))
            then
              match cast_to_type a d with
              | None => (-1, op)
              | Some tmp => continue (Some tmp)
              end
            else (0, op)
          else continue (Some a)
      end
  | _, _ => (1, op)
  end.

Definition check_for_trivial_loop
           (equiv_types : PyArray_Descr -> PyArray_Descr -> bool)
           (cast_to_type : PyArrayObject -> PyArray_Descr
                           -> option PyArrayObject)
           (ufunc : PyUFuncObject) (op : list (option PyArrayObject))
           (dtype : list PyArray_Descr) (buffersize : Z)
  : Z * list (option PyArrayObject) :=
  let nop := Z.to_nat (nin ufunc + nout ufunc) in
  let (code, op') :=
    check_for_trivial_loop_from equiv_types cast_to_type (nin ufunc)
      buffersize 0 (firstn nop op) dtype in
  (code, op' ++ skipn nop op).

(** [execute_legacy_ufunc_loop]; [selector_ok] tells whether the
    [legacy_inner_loop_selector] of the ufunc found the inner loop. *)
Definition execute_legacy_ufunc_loop (ufunc : PyUFuncObject)
           (selector_ok : bool) (trivial_loop_ok : Z)
           (op : list (option PyArrayObject)) (dtypes : list PyArray_Descr)
           (order : NPY_ORDER) (arr_prep : list prepare_hook)
           (block : option Z) (r : run) : outcome :=
  if negb selector_ok then mkOutcome (-1) op r
  else
    let fast : option outcome :=
      if negb (trivial_loop_ok =? 0) && (nout ufunc =? 1) then
        let o := try_trivial_single_output_loop ufunc op dtypes order
                   (hd None arr_prep) block r in
        if negb (ret o =? -2) then Some o else None
      else None in
    match fast with
    | Some o => o
    | None =>
        let o := iterator_loop ufunc op arr_prep r in
        if ret o <? 0 then mkOutcome (-1) (out_ops o) (after o) else
          mkOutcome 0 (out_ops o) (after o)
    end.

(** The loop of [PyUFunc_GeneralizedFunctionInternal], from "Executing
    inner loop" on: the kernel is handed the fixed [inner_strides] at each
    position of the iterator over the loop dimensions.  [fperr_ok] tells
    whether [_check_ufunc_fperr] succeeds. *)
Fixpoint iterate_core (needs_api : bool) (inner_strides : list Z)
         (b : block) (rest : list block) (r : run) : run :=
  let r' := call_innerloop (b_dataptr b) (b_count b) inner_strides r in
  if needs_api && err (mach r') then r'
  else
    match rest with
    | [] => r'
    | b' :: rest' => iterate_core needs_api inner_strides b' rest' r'
    end.

Definition generalized_inner_loop (iter : NpyIter) (inner_strides : list Z)
           (fperr_ok : bool) (r : run) : Z * run :=
  let base := map data (it_operands iter) in
  let looped : option run :=
    if negb (it_size iter =? 0) then
      if negb (it_iternext_ok iter) then None
      else Some (iterate_core (it_needs_api iter) inner_strides
                              (it_first iter base) (it_next iter base) r)
    else Some r in
  match looped with
  | None => (-1, r)
  | Some r' =>
      if err (mach r') || negb fperr_ok then (-1, r')
      else if it_dealloc_ok iter then (0, r')
      else (-1, r')
  end.

End Loops.

(* ------------------------------------------------------------------ *)
(** *** The conditions of the fast path, in the words of its contract  *)
(* ------------------------------------------------------------------ *)

(** The operands that were supplied among the first [n]. *)
Fixpoint supplied (ops : list (option PyArrayObject)) : list PyArrayObject :=
  match ops with
  | [] => []
  | Some a :: rest => a :: supplied rest
  | None :: rest => supplied rest
  end.

(** "All non-0-D operands share identical rank and identical shape." *)
Definition same_rank_and_shape (ops : list PyArrayObject) : Prop :=
  forall a b, In a ops -> In b ops ->
              PyArray_NDIM a <> 0 -> PyArray_NDIM b <> 0 ->
              PyArray_NDIM a = PyArray_NDIM b /\ dims a = dims b.

(** "Each [operand of rank > 1] must be wholly C-contiguous or wholly
    F-contiguous, and all such operands must agree on the same contiguity
    order (resolvable by an explicit order request)." *)
Definition agreed_order (order : NPY_ORDER) (ops : list PyArrayObject)
  : Prop :=
  exists o,
    (o = NPY_ARRAY_C_CONTIGUOUS \/ o = NPY_ARRAY_F_CONTIGUOUS)
    /\ (order = NPY_CORDER -> o = NPY_ARRAY_C_CONTIGUOUS)
    /\ (order = NPY_FORTRANORDER -> o = NPY_ARRAY_F_CONTIGUOUS)
    /\ forall a, In a ops -> 1 < PyArray_NDIM a ->
                 Z.land (flags a) o <> 0.

(** A plan whose shape has the rank it records. *)
Definition plan_ok (pl : trivial_plan) : Prop :=
  operation_ndim pl <> 0 -> zlen (operation_shape pl) = operation_ndim pl.

(* ================================================================== *)
(** ** The reduction engine                                            *)
(* ================================================================== *)

(** The exceptions the reductions raise. *)
Inductive exn : Type :=
| ValueError (msg : string)
| TypeError (msg : string)
| RuntimeError (msg : string)
| IndexOutOfBounds (index : Z) (opname : string) (size : Z)
    (* IndexError "index %d out-of-bounds in %s.%s [0, %d)" *)
| NoMatchingType (opname : string) (otype : Z)
    (* ValueError "could not find a matching type for %s.%s, requested
       type has type code '%c'" *)
| AxisError (axis ndim : Z)
    (* "axis %d is out of bounds for array of dimension %d" *)
| FromCollaborator.
    (* the exception left by an external collaborator that failed *)

(** What an entry point returns: the array, NULL with an exception set, or
    the object an override produced. *)
Inductive result : Type :=
| Returned (a : PyArrayObject)
| Raised (e : exn)
| Overridden (res : pyobj).

(** The inner loop [get_binary_op_function] selects: the [i]-th built-in
    loop, or the [k]-th loop registered for a user type. *)
Inductive loop_id : Type :=
| BuiltinLoop (i : Z)
| UserLoop (type : Z) (k : Z).

(** The iterator over the lanes of a reduction along one axis, as
    [PyUFunc_Accumulate] and [PyUFunc_Reduceat] read it: the operands
    (copies included), and the data pointers of each lane once the
    reduced axis is removed. *)
Record RedIter : Type := mkRedIter {
  ri_operands : list PyArrayObject;     (* NpyIter_GetOperandArray *)
  ri_remove_axis_ok : bool;             (* NpyIter_RemoveAxis *)
  ri_remove_multi_index_ok : bool;      (* NpyIter_RemoveMultiIndex *)
  ri_size : Z;                          (* NpyIter_GetIterSize *)
  ri_iternext_ok : bool;                (* NpyIter_GetIterNext != NULL *)
  ri_needs_api : bool;                  (* NpyIter_IterationNeedsAPI *)
  ri_first : list Z;                    (* dataptr at the first lane *)
  ri_next : list (list Z);              (* dataptr after each iternext *)
  ri_dealloc_ok : bool                  (* NpyIter_Deallocate *)
}.

(** Modelled from the spec: the type numbers ([NPY_TYPES] of
    [ndarraytypes.h]) and their classification into "boolean", "integer"
    (signed or unsigned) and flexible kinds; [NPY_LONG] and [NPY_ULONG]
    are the "native integer width, signed or unsigned". *)
Definition NPY_BOOL : Z := 0.
Definition NPY_BYTE : Z := 1.
Definition NPY_UBYTE : Z := 2.
Definition NPY_SHORT : Z := 3.
Definition NPY_USHORT : Z := 4.
Definition NPY_INT : Z := 5.
Definition NPY_UINT : Z := 6.
Definition NPY_LONG : Z := 7.
Definition NPY_ULONG : Z := 8.
Definition NPY_LONGLONG : Z := 9.
Definition NPY_ULONGLONG : Z := 10.
Definition NPY_DOUBLE : Z := 12.
Definition NPY_STRING : Z := 18.
Definition NPY_VOID : Z := 20.

Definition PyTypeNum_ISBOOL (t : Z) : bool := t =? NPY_BOOL.
Definition PyTypeNum_ISINTEGER (t : Z) : bool :=
  (NPY_BYTE <=? t) && (t <=? NPY_ULONGLONG).
Definition PyTypeNum_ISUNSIGNED (t : Z) : bool :=
  (t =? NPY_UBYTE) || (t =? NPY_USHORT) || (t =? NPY_UINT)
  || (t =? NPY_ULONG) || (t =? NPY_ULONGLONG).
Definition PyTypeNum_ISFLEXIBLE (t : Z) : bool :=
  (NPY_STRING <=? t) && (t <=? NPY_VOID).

(** Modelled from the spec: the largest rank, [NPY_MAXDIMS] of
    [ndarraytypes.h]. *)
Definition NPY_MAXDIMS : Z := 32.

(** The external collaborators of the reductions: the kernels, the
    casting rules, the dtype constructors, the overlap solver, the
    allocator, the iterator constructor, the type resolver and the reduce
    wrapper. *)
Record collaborators : Type := mkCollab {
  loops : loop_id -> list Z -> Z -> list Z -> machine -> machine;
  PyArray_CanCastSafely : Z -> Z -> bool;
  PyTypeNum_ISUSERDEF : Z -> bool;
  get_bufsize_errmask_ok : bool;            (* _get_bufsize_errmask >= 0 *)
  PyArray_DescrFromType : Z -> option PyArray_Descr;
  PyArray_DescrNewByteorder : PyArray_Descr -> option PyArray_Descr;
  PyArray_ISNBO : PyArray_Descr -> bool;
  PyArray_EquivTypes : PyArray_Descr -> PyArray_Descr -> bool;
  solve_may_share_memory : PyArrayObject -> PyArrayObject -> Z;
  new_block : option Z;
  NpyIter_AdvancedNew : list (option PyArrayObject) -> PyArray_Descr
                        -> option RedIter;
  type_resolver : PyArrayObject -> option PyArray_Descr
                  -> Z * list PyArray_Descr;
  PyUFunc_ReduceWrapper :
    PyArrayObject -> option PyArrayObject -> option PyArrayObject
    -> PyArray_Descr -> list bool -> bool -> Z -> pyobj
    -> run -> result * run
}.

Section Reductions.

Variable env : collaborators.

(** The search of a registered loop list for a loop on [otype] only. *)
Fixpoint find_user_loop (otype : Z) (funcdata : list (list Z)) (k : Z)
  : option Z :=
  match funcdata with
  | [] => None
  | arg_types :: next =>
      if (rd arg_types 0 =? otype) && (rd arg_types 1 =? otype)
         && (rd arg_types 2 =? otype)
      then Some k
      else find_user_loop otype next (k + 1)
  end.

(** "Search for a function with compatible inputs": the first loop over
    the table, from row [i] on.  It ends with the loop found, with the
    natural type of the reduction to search again, or with nothing. *)
Inductive first_search : Type :=
| FoundLoop (otype : Z) (i : Z)
| NaturalType (otype : Z)
| NoCompatible.

Fixpoint search_compatible (ufunc : PyUFuncObject) (otype : Z) (i : Z)
         (todo : nat) : first_search :=
  match todo with
  | O => NoCompatible
  | S todo' =>
      let t0 := rd (types ufunc) (i * nargs ufunc) in
      let t1 := rd (types ufunc) (i * nargs ufunc + 1) in
      let t2 := rd (types ufunc) (i * nargs ufunc + 2) in
      if PyArray_CanCastSafely env otype t0 && (t0 =? t1)
         && ((otype =? NPY_OBJECT) || negb (t0 =? NPY_OBJECT))
      then if t2 =? t0 then FoundLoop t0 i else NaturalType t2
      else search_compatible ufunc otype (i + 1) todo'
  end.

(** "Search for the exact function". *)
Fixpoint search_exact (ufunc : PyUFuncObject) (otype : Z) (i : Z)
         (todo : nat) : option (Z * Z) :=
  match todo with
  | O => None
  | S todo' =>
      let t0 := rd (types ufunc) (i * nargs ufunc) in
      let t1 := rd (types ufunc) (i * nargs ufunc + 1) in
      let t2 := rd (types ufunc) (i * nargs ufunc + 2) in
      if PyArray_CanCastSafely env otype t0 && (t0 =? t1) && (t1 =? t2)
         && ((otype =? NPY_OBJECT) || negb (t0 =? NPY_OBJECT))
      then Some (t0, i)
      else search_exact ufunc otype (i + 1) todo'
  end.

(** [get_binary_op_function]: the final [otype] and the loop, [None]
    for -1. *)
Definition get_binary_op_function (ufunc : PyUFuncObject) (otype : Z)
  : option (Z * loop_id) :=
  let builtin (otype : Z) : option (Z * loop_id) :=
    let exact (otype : Z) :=
      match search_exact ufunc otype 0 (Z.to_nat (ntypes ufunc)) with
      | Some (t0, i) => Some (t0, BuiltinLoop i)
      | None => None
      end in
    match search_compatible ufunc otype 0 (Z.to_nat (ntypes ufunc)) with
    | FoundLoop t0 i => Some (t0, BuiltinLoop i)
    | NaturalType t2 => exact t2
    | NoCompatible => exact otype
    end in
  match userloops ufunc with
  | Some lookup =>
      if PyTypeNum_ISUSERDEF env otype then
        match lookup otype with
        | LookupFails => None
        | LookupMissing => builtin otype
        | LookupFound funcdata =>
            match find_user_loop otype funcdata 0 with
            | Some k => Some (otype, UserLoop otype k)
            | None => builtin otype
            end
        end
      else builtin otype
  | None => builtin otype
  end.

(** "Copy the first element to start the reduction": for the object
    dtype the new reference is taken before the old one is released, for
    the others the element is moved with [memmove]. *)
Definition copy_first_element (otype : Z) (dst src : Z) (r : run) : run :=
  if otype =? NPY_OBJECT then
    let r1 := Py_XINCREF (mem (mach r) src) r in
    let r2 := Py_XDECREF (mem (mach r1) dst) r1 in
    set_mem dst (mem (mach r2) src) r2
  else
    set_mem dst (mem (mach r) src) r.

Definition call_loop (id : loop_id) (args : list Z) (count : Z)
           (steps : list Z) (r : run) : run :=
  call_innerloop (loops env id) args count steps r.

(** "Set up the output data type, using the input's exact data type if
    the type number didn't change to preserve metadata". *)
Definition reduction_dtype (arr : PyArrayObject) (otype_final : Z)
  : option PyArray_Descr :=
  if type_num (descr arr) =? otype_final then
    if PyArray_ISNBO env (descr arr) then Some (descr arr)
    else PyArray_DescrNewByteorder env (descr arr)
  else PyArray_DescrFromType env otype_final.

(* ------------------------------------------------------------------ *)
(** *** accumulate                                                     *)
(* ------------------------------------------------------------------ *)

(** One lane of the accumulation: the first element is copied, then the
    inner loop runs over the [count_m1] remaining ones. *)
Definition accumulate_lane (loop : loop_id) (otype : Z)
           (count_m1 stride0 stride1 : Z) (d0 d1 : Z) (r : run) : run :=
  let r1 := copy_first_element otype d0 d1 r in
  if count_m1 >? 0 then
    call_loop loop [d0; d1 + stride1; d0 + stride0] count_m1
              [stride0; stride1; stride0] r1
  else r1.

(** [do { ... } while (!(needs_api && PyErr_Occurred ()) && iternext
    (iter));] over the lanes. *)
Fixpoint accumulate_lanes (loop : loop_id) (otype : Z)
         (count_m1 stride0 stride1 : Z) (needs_api : bool)
         (dataptr : list Z) (next : list (list Z)) (r : run) : run :=
  let r' := accumulate_lane loop otype count_m1 stride0 stride1
              (rd dataptr 0) (rd dataptr 1) r in
  if needs_api && err (mach r') then r'
  else
    match next with
    | [] => r'
    | dataptr' :: next' =>
        accumulate_lanes loop otype count_m1 stride0 stride1 needs_api
                         dataptr' next' r'
    end.

Definition PyUFunc_Accumulate (ufunc : PyUFuncObject) (arr : PyArrayObject)
           (out : option PyArrayObject) (axis : Z) (otype : Z) (r : run)
  : result * run :=
  if negb (get_bufsize_errmask_ok env) then (Raised FromCollaborator, r)
  else
    match get_binary_op_function ufunc otype with
    | None => (Raised (NoMatchingType "accumulate" otype), r)
    | Some (otype_final, innerloop) =>
        let ndim := PyArray_NDIM arr in
        match reduction_dtype arr otype_final with
        | None => (Raised FromCollaborator, r)
        | Some dtype0 =>
            let need_outer_iterator :=
              (ndim >? 1)
              || (negb (PyArray_ISALIGNED arr)
                  || match out with
                     | Some o => negb (PyArray_ISALIGNED o)
                     | None => false
                     end
                  || negb (PyArray_EquivTypes env dtype0 (descr arr))
                  || match out with
                     | Some o => negb (PyArray_EquivTypes env dtype0 (descr o))
                     | None => false
                     end)
              || match out with
                 | Some o => negb (solve_may_share_memory env o arr =? 0)
                 | None => false
                 end in
            let finish (iter : option RedIter) (out : PyArrayObject)
                       (r : run) : result * run :=
              match iter with
              | Some it =>
                  if ri_dealloc_ok it then (Returned out, r)
                  else (Raised FromCollaborator, r)
              | None => (Returned out, r)
              end in
            if need_outer_iterator then
              match NpyIter_AdvancedNew env [out; Some arr] dtype0 with
              | None => (Raised FromCollaborator, r)
              | Some it =>
                  let op0 := nth 0 (ri_operands it) arr in
                  let op1 := nth 1 (ri_operands it) arr in
                  if negb (ri_remove_axis_ok it) then
                    (Raised FromCollaborator, r)
                  else if negb (ri_remove_multi_index_ok it) then
                    (Raised FromCollaborator, r)
                  else
                    let out' := match out with
                                | Some o => o
                                | None => op0
                                end in
                    if PyArray_DIM op1 axis =? 0 then finish (Some it) out' r
                    else if PyArray_SIZE op0 =? 0 then finish (Some it) out' r
                    else if negb (ri_size it =? 0) then
                      if negb (ri_iternext_ok it) then
                        (Raised FromCollaborator, r)
                      else
                        let count_m1 := PyArray_DIM op1 axis - 1 in
                        let stride1 := PyArray_STRIDE op1 axis in
                        let stride0 := PyArray_STRIDE op0 axis in
                        finish (Some it) out'
                          (accumulate_lanes innerloop otype count_m1
                             stride0 stride1 (ri_needs_api it)
                             (ri_first it) (ri_next it) r)
                    else finish (Some it) out' r
              end
            else
              let allocated : option (PyArrayObject * run) :=
                match out with
                | Some o => Some (o, r)
                | None =>
                    match PyArray_NewFromDescr (new_block env) dtype0 ndim
                            (dims arr) false with
                    | Some o => Some (o, log (EvAlloc o) r)
                    | None => None
                    end
                end in
              match allocated with
              | None => (Raised FromCollaborator, r)
              | Some (op0, r0) =>
                  let op1 := arr in
                  if PyArray_DIM op1 axis =? 0 then finish None op0 r0
                  else if PyArray_SIZE op0 =? 0 then finish None op0 r0
                  else
                    let count := PyArray_DIM op1 axis in
                    let stride1 := PyArray_STRIDE op1 axis in
                    if negb (PyArray_NDIM op0 =? PyArray_NDIM op1)
                       || negb (PyArray_CompareLists (dims op0) (dims op1)
                                                     (PyArray_NDIM op0))
                    then
                      (Raised (ValueError
                         "provided out is the wrong size for the reduction"),
                       r0)
                    else
                      let stride0 := PyArray_STRIDE op0 axis in
                      finish None op0
                        (accumulate_lane innerloop otype (count - 1)
                           stride0 stride1 (data op0) (data op1) r0)
              end
        end
    end.

(* ------------------------------------------------------------------ *)
(** *** reduceat                                                       *)
(* ------------------------------------------------------------------ *)

(** "Check for out-of-bounds values in indices array": the first index
    outside [0, red_axis_size), from position [i] on. *)
Fixpoint first_out_of_bounds (reduceat_ind : list Z) (red_axis_size : Z)
         (i : Z) (todo : nat) : option Z :=
  match todo with
  | O => None
  | S todo' =>
      if (rd reduceat_ind i <? 0) || (rd reduceat_ind i >=? red_axis_size)
      then Some (rd reduceat_ind i)
      else first_out_of_bounds reduceat_ind red_axis_size (i + 1) todo'
  end.

(** The body of [for (i = 0; i < ind_size; ++i)]: segment [i] of the lane
    whose output starts at [d0] and whose input starts at [d1]; [len] is
    the length of the reduced axis. *)
Definition reduceat_segment (loop : loop_id) (otype : Z)
           (reduceat_ind : list Z) (ind_size len : Z)
           (stride0_ind stride1 : Z) (d0 d1 : Z) (i : Z) (r : run) : run :=
  let start := rd reduceat_ind i in
  let end_ := if i =? ind_size - 1 then len else rd reduceat_ind (i + 1) in
  let count := end_ - start in
  let p0 := d0 + stride0_ind * i in
  let p1 := d1 + stride1 * start in
  let r1 := copy_first_element otype p0 p1 r in
  if count >? 1 then
    call_loop loop [p0; p1 + stride1; p0] (count - 1) [0; stride1; 0] r1
  else r1.

Fixpoint reduceat_segments (loop : loop_id) (otype : Z)
         (reduceat_ind : list Z) (ind_size len : Z)
         (stride0_ind stride1 : Z) (d0 d1 : Z) (i : Z) (todo : nat)
         (r : run) : run :=
  match todo with
  | O => r
  | S todo' =>
      reduceat_segments loop otype reduceat_ind ind_size len
        stride0_ind stride1 d0 d1 (i + 1) todo'
        (reduceat_segment loop otype reduceat_ind ind_size len
           stride0_ind stride1 d0 d1 i r)
  end.

(** All the segments of one lane. *)
Definition reduceat_lane (loop : loop_id) (otype : Z)
           (reduceat_ind : list Z) (ind_size len : Z)
           (stride0_ind stride1 : Z) (d0 d1 : Z) (r : run) : run :=
  reduceat_segments loop otype reduceat_ind ind_size len
    stride0_ind stride1 d0 d1 0 (Z.to_nat ind_size) r.

Fixpoint reduceat_lanes (loop : loop_id) (otype : Z)
         (reduceat_ind : list Z) (ind_size len : Z)
         (stride0_ind stride1 : Z) (needs_api : bool)
         (dataptr : list Z) (next : list (list Z)) (r : run) : run :=
  let r' := reduceat_lane loop otype reduceat_ind ind_size len
              stride0_ind stride1 (rd dataptr 0) (rd dataptr 1) r in
  if needs_api && err (mach r') then r'
  else
    match next with
    | [] => r'
    | dataptr' :: next' =>
        reduceat_lanes loop otype reduceat_ind ind_size len
                       stride0_ind stride1 needs_api dataptr' next' r'
    end.

(** [PyUFunc_Reduceat]; [reduceat_ind] is the block of indices that
    [PyArray_DATA (ind)] points to. *)
Definition PyUFunc_Reduceat (ufunc : PyUFuncObject) (arr : PyArrayObject)
           (ind : PyArrayObject) (reduceat_ind : list Z)
           (out : option PyArrayObject) (axis : Z) (otype : Z) (r : run)
  : result * run :=
  let ind_size := PyArray_DIM ind 0 in
  let red_axis_size := PyArray_DIM arr axis in
  match first_out_of_bounds reduceat_ind red_axis_size 0
          (Z.to_nat ind_size) with
  | Some index =>
      (Raised (IndexOutOfBounds index "reduceat" red_axis_size), r)
  | None =>
      if negb (get_bufsize_errmask_ok env) then (Raised FromCollaborator, r)
      else
        match get_binary_op_function ufunc otype with
        | None => (Raised (NoMatchingType "reduceat" otype), r)
        | Some (otype_final, innerloop) =>
            let ndim := PyArray_NDIM arr in
            match reduction_dtype arr otype_final with
            | None => (Raised FromCollaborator, r)
            | Some dtype0 =>
                let need_outer_iterator :=
                  match out with Some _ => true | None => false end
                  || (ndim >? 1)
                  || negb (PyArray_ISALIGNED arr)
                  || negb (PyArray_EquivTypes env dtype0 (descr arr)) in
                let finish (iter : option RedIter) (out : PyArrayObject)
                           (r : run) : result * run :=
                  match iter with
                  | Some it =>
                      if ri_dealloc_ok it then (Returned out, r)
                      else (Raised FromCollaborator, r)
                  | None => (Returned out, r)
                  end in
                if need_outer_iterator then
                  match NpyIter_AdvancedNew env [out; Some arr; Some ind]
                          dtype0 with
                  | None => (Raised FromCollaborator, r)
                  | Some it =>
                      if negb (ri_remove_axis_ok it) then
                        (Raised FromCollaborator, r)
                      else if negb (ri_remove_multi_index_ok it) then
                        (Raised FromCollaborator, r)
                      else
                        let op0 := nth 0 (ri_operands it) arr in
                        let op1 := nth 1 (ri_operands it) arr in
                        let out' := match out with
                                    | Some o => o
                                    | None => op0
                                    end in
                        if PyArray_SIZE op0 =? 0 then finish (Some it) out' r
                        else if negb (ri_size it =? 0) then
                          if negb (ri_iternext_ok it) then
                            (Raised FromCollaborator, r)
                          else
                            let stride0_ind := PyArray_STRIDE op0 axis in
                            let count_m1 := PyArray_DIM op1 axis - 1 in
                            let stride1 := PyArray_STRIDE op1 axis in
                            finish (Some it) out'
                              (reduceat_lanes innerloop otype reduceat_ind
                                 ind_size (count_m1 + 1) stride0_ind stride1
                                 (ri_needs_api it)
                                 (ri_first it) (ri_next it) r)
                        else finish (Some it) out' r
                  end
                else
                  match PyArray_NewFromDescr (new_block env) dtype0 1
                          [ind_size] false with
                  | None => (Raised FromCollaborator, r)
                  | Some op0 =>
                      let r0 := log (EvAlloc op0) r in
                      let op1 := arr in
                      if PyArray_SIZE op0 =? 0 then finish None op0 r0
                      else
                        let stride0_ind := PyArray_STRIDE op0 axis in
                        let stride1 := PyArray_STRIDE op1 axis in
                        finish None op0
                          (reduceat_lane innerloop otype reduceat_ind
                             ind_size (PyArray_DIM arr axis)
                             stride0_ind stride1 (data op0) (data op1) r0)
                  end
            end
        end
  end.

(* ------------------------------------------------------------------ *)
(** *** reduce                                                         *)
(* ------------------------------------------------------------------ *)

(** "Create an array of flags for reduction": [None] when an axis comes
    twice.  [axis_flags] holds the [ndim] entries that [memset] cleared;
    the axes lie within them ("the axes must already be bounds-checked by
    the calling function"). *)
Fixpoint reduce_axis_flags (axes : list Z) (axis_flags : list Z)
  : option (list Z) :=
  match axes with
  | [] => Some axis_flags
  | axis :: rest =>
      if negb (rd axis_flags axis =? 0) then None
      else reduce_axis_flags rest (wr axis_flags axis 1)
  end.

(** [_get_identity]: the identity and whether the ufunc is reorderable. *)
Definition _get_identity (ufunc : PyUFuncObject) : option (pyobj * bool) :=
  match identity ufunc with
  | PyUFunc_One => Some (PyLong 1, true)
  | PyUFunc_Zero => Some (PyLong 0, true)
  | PyUFunc_MinusOne => Some (PyLong (-1), true)
  | PyUFunc_ReorderableNone => Some (PyNone, true)
  | PyUFunc_None => Some (PyNone, false)
  | PyUFunc_IdentityValue v => Some (v, true)
  | PyUFunc_InvalidIdentity => None
  end.

Definition is_py_none (o : pyobj) : bool :=
  match o with PyNone => true | _ => false end.

(** [reduce_type_resolver]. *)
Definition reduce_type_resolver (ufunc : PyUFuncObject)
           (arr : PyArrayObject) (odtype : option PyArray_Descr)
  : PyArray_Descr + exn :=
  let '(retcode, dtypes) := type_resolver env arr odtype in
  if retcode =? -1 then inr FromCollaborator
  else if retcode =? -2 then
    inr (RuntimeError
           "type resolution returned NotImplemented to reduce ufunc")
  else
    let d := mkDescr 0 0 in
    if negb (PyArray_EquivTypes env (nth 0 dtypes d) (nth 1 dtypes d)) then
      inr (RuntimeError
             "could not find a type resolution appropriate for reduce ufunc")
    else inl (nth 2 dtypes d).

(** [PyUFunc_Reduce]; [axes] holds the [naxes] axes, already checked to
    lie within the rank. *)
Definition PyUFunc_Reduce (ufunc : PyUFuncObject) (arr : PyArrayObject)
           (out : option PyArrayObject) (axes : list Z)
           (odtype : option PyArray_Descr) (keepdims : Z)
           (initial : option pyobj) (wheremask : option PyArrayObject)
           (r : run) : result * run :=
  let ndim := PyArray_NDIM arr in
  match reduce_axis_flags axes (repeat 0 (Z.to_nat ndim)) with
  | None => (Raised (ValueError "duplicate value in 'axis'"), r)
  | Some axis_flags =>
      if negb (get_bufsize_errmask_ok env) then (Raised FromCollaborator, r)
      else
        match _get_identity ufunc with
        | None => (Raised (ValueError "ufunc has an invalid identity"), r)
        | Some (identity, reorderable) =>
            let initial' :=
              match initial with
              | None =>
                  if negb (is_py_none identity)
                     && (type_num (descr arr) =? NPY_OBJECT)
                     && negb (PyArray_SIZE arr =? 0)
                  then PyNone
                  else identity
              | Some v => v
              end in
            match reduce_type_resolver ufunc arr odtype with
            | inr e => (Raised e, r)
            | inl dtype =>
                PyUFunc_ReduceWrapper env arr out wheremask dtype
                  (map (fun f => negb (f =? 0)) axis_flags)
                  reorderable keepdims initial' r
            end
        end
  end.

(* ------------------------------------------------------------------ *)
(** *** The common entry of reduce, accumulate and reduceat            *)
(* ------------------------------------------------------------------ *)

Inductive reduction : Type :=
| UFUNC_REDUCE
| UFUNC_ACCUMULATE
| UFUNC_REDUCEAT.

Definition _reduce_type (operation : reduction) : string :=
  match operation with
  | UFUNC_REDUCE => "reduce"
  | UFUNC_ACCUMULATE => "accumulate"
  | UFUNC_REDUCEAT => "reduceat"
  end.

(** The [axis] argument as the caller passed it.  An entry converted by
    [PyArray_PyIntAsInt] is [None] when the conversion fails. *)
Inductive axis_arg : Type :=
| AxisAbsent                          (* axes_obj == NULL *)
| AxisNone                            (* axes_obj == Py_None *)
| AxisTuple (items : list (option Z)) (* a tuple *)
| AxisOther (v : option Z).           (* anything else, read as an integer *)

(** The [out] argument: not given, [None], something that is no writable
    array, or an array. *)
Inductive out_arg : Type :=
| OutAbsent
| OutNone
| OutInvalid
| OutArray (a : PyArrayObject).

(** What [PyUFunc_CheckOverride] finds. *)
Inductive override_outcome : Type :=
| NoOverride
| OverrideFails
| OverrideReturns (res : pyobj).

(** The arguments of a reduction call, each as the converter named in
    the comment leaves it ([None] inside: the converter failed). *)
Record reduction_args : Type := mkArgs {
  ra_parsed : bool;                       (* npy_parse_arguments, PyTuple_Pack *)
  ra_out_normalized : bool;               (* _set_full_args_out *)
  ra_override : override_outcome;         (* PyUFunc_CheckOverride *)
  ra_indices : option (option (PyArrayObject * list Z));
                                          (* indices_obj, PyArray_FromAny *)
  ra_dtype : option (option PyArray_Descr);
                                          (* otype_obj not None, _get_dtype *)
  ra_out : out_arg;                       (* PyArray_OutputConverter *)
  ra_keepdims : option (option Z);        (* PyArray_PythonPyIntFromInt *)
  ra_where : option (option PyArrayObject); (* _wheremask_converter *)
  ra_initial : option pyobj;
  ra_array : option PyArrayObject;        (* PyArray_FromAny (op) *)
  ra_axis : axis_arg
}.

(** Modelled from the spec: [check_and_adjust_axis] of [common.h], which
    validates an axis "to be within rank" and counts a negative axis from
    the end; [None] is its -1, with the axis error set. *)
Definition check_and_adjust_axis (axis ndim : Z) : option Z :=
  if (axis <? - ndim) || (axis >=? ndim) then None
  else Some (if axis <? 0 then axis + ndim else axis).

(** The loop over the entries of an axis tuple. *)
Fixpoint convert_axes (items : list (option Z)) (ndim : Z)
  : list Z + exn :=
  match items with
  | [] => inl []
  | None :: _ => inr FromCollaborator
  | Some axis :: rest =>
      match check_and_adjust_axis axis ndim with
      | None => inr (AxisError axis ndim)
      | Some axis' =>
          match convert_axes rest ndim with
          | inl axes => inl (axis' :: axes)
          | inr e => inr e
          end
      end
  end.

Fixpoint range_from (i : Z) (n : nat) : list Z :=
  match n with
  | O => []
  | S n' => i :: range_from (i + 1) n'
  end.

(** "Convert the 'axis' parameter into a list of axes". *)
Definition reduction_axes (axis : axis_arg) (ndim : Z) : list Z + exn :=
  match axis with
  | AxisAbsent => if ndim =? 0 then inl [] else inl [0]
  | AxisNone => inl (range_from 0 (Z.to_nat ndim))
  | AxisTuple items =>
      if NPY_MAXDIMS <? Z.of_nat (List.length items) then
        inr (ValueError "too many values for 'axis'")
      else convert_axes items ndim
  | AxisOther None => inr FromCollaborator
  | AxisOther (Some axis) =>
      if (ndim =? 0) && ((axis =? 0) || (axis =? -1)) then inl []
      else
        match check_and_adjust_axis axis ndim with
        | None => inr (AxisError axis ndim)
        | Some axis' => inl [axis']
        end
  end.

(** [sizeof (long)] of the platform. *)
Variable sizeof_long : Z.

(** "For integer types --- make sure at least a long is used for add and
    multiply reduction to avoid overflow": the type number of the default
    output type. *)
Definition default_reduction_typenum (ufunc : PyUFuncObject)
           (mp : PyArrayObject) : Z :=
  let typenum := type_num (descr mp) in
  if (PyTypeNum_ISBOOL typenum || PyTypeNum_ISINTEGER typenum)
     && (String.eqb (name ufunc) "add"
         || String.eqb (name ufunc) "multiply")
  then
    if PyTypeNum_ISBOOL typenum then NPY_LONG
    else if (elsize (descr mp)) mod 2 ^ 64 <? sizeof_long then
      if PyTypeNum_ISUNSIGNED typenum then NPY_ULONG else NPY_LONG
    else typenum
  else typenum.

(** "If out is specified it determines otype unless otype already
    specified", else the default; [None] when [PyArray_DescrFromType]
    fails. *)
Definition reduction_otype (ufunc : PyUFuncObject) (mp : PyArrayObject)
           (otype : option PyArray_Descr) (out : option PyArrayObject)
  : option PyArray_Descr :=
  let otype1 :=
    match otype, out with
    | None, Some o => Some (descr o)
    | _, _ => otype
    end in
  match otype1 with
  | Some d => Some d
  | None => PyArray_DescrFromType env (default_reduction_typenum ufunc mp)
  end.

(** Everything [PyUFunc_GenericReduction] has settled when it reaches
    [switch (operation)]. *)
Record reduction_plan : Type := mkRedPlan {
  rp_mp : PyArrayObject;
  rp_indices : option (PyArrayObject * list Z);
  rp_out : option PyArrayObject;
  rp_axes : list Z;
  rp_otype : PyArray_Descr;
  rp_keepdims : Z;
  rp_initial : option pyobj;
  rp_wheremask : option PyArrayObject
}.

Inductive planned : Type :=
| Plan (p : reduction_plan)
| PlanRaised (e : exn)
| PlanOverridden (res : pyobj).

(** [PyUFunc_GenericReduction] up to its [switch]. *)
Definition reduction_plan_of (ufunc : option PyUFuncObject)
           (args : reduction_args) (operation : reduction) : planned :=
  match ufunc with
  | None => PlanRaised (ValueError "function not supported")
  | Some ufunc =>
      if negb (core_enabled ufunc =? 0) then
        PlanRaised
          (RuntimeError "Reduction not defined on ufunc with signature")
      else if negb (nin ufunc =? 2) then
        PlanRaised
          (ValueError (_reduce_type operation
                       ++ " only supported for binary functions"))
      else if negb (nout ufunc =? 1) then
        PlanRaised
          (ValueError (_reduce_type operation
                       ++ " only supported for functions returning a single value"))
      else if negb (ra_parsed args) then PlanRaised FromCollaborator
      else if negb (ra_out_normalized args) then PlanRaised FromCollaborator
      else
        match ra_override args with
        | OverrideFails => PlanRaised FromCollaborator
        | OverrideReturns res => PlanOverridden res
        | NoOverride =>
            match ra_indices args with
            | Some None => PlanRaised FromCollaborator
            | indices =>
                match ra_dtype args with
                | Some None => PlanRaised FromCollaborator
                | otype0 =>
                    match ra_out args with
                    | OutInvalid => PlanRaised FromCollaborator
                    | out_a =>
                        match ra_keepdims args with
                        | Some None => PlanRaised FromCollaborator
                        | keepdims =>
                            match ra_where args with
                            | Some None => PlanRaised FromCollaborator
                            | wheremask =>
                                match ra_array args with
                                | None => PlanRaised FromCollaborator
                                | Some mp =>
      let ndim := PyArray_NDIM mp in
      let otype0 := match otype0 with Some (Some d) => Some d | _ => None end in
      let out := match out_a with OutArray a => Some a | _ => None end in
      if PyTypeNum_ISFLEXIBLE (type_num (descr mp))
         || match otype0 with
            | Some d => PyTypeNum_ISFLEXIBLE (type_num d)
            | None => false
            end
      then
        PlanRaised
          (TypeError ("cannot perform " ++ _reduce_type operation
                      ++ " with flexible type"))
      else
        match reduction_axes (ra_axis args) ndim with
        | inr e => PlanRaised e
        | inl axes =>
            match reduction_otype ufunc mp otype0 out with
            | None => PlanRaised FromCollaborator
            | Some otype =>
                Plan (mkRedPlan mp
                        (match indices with Some (Some i) => Some i
                                          | _ => None end)
                        out axes otype
                        (match keepdims with Some (Some k) => k | _ => 0 end)
                        (ra_initial args)
                        (match wheremask with Some (Some w) => Some w
                                            | _ => None end))
            end
        end
                                end
                            end
                        end
                    end
                end
            end
        end
  end.

(** [PyUFunc_GenericReduction]: the plan, then the [switch].  The array
    returned is the one handed to [_apply_array_wrap]. *)
Definition PyUFunc_GenericReduction (ufunc : option PyUFuncObject)
           (args : reduction_args) (operation : reduction) (r : run)
  : result * run :=
  match reduction_plan_of ufunc args operation, ufunc with
  | PlanRaised e, _ => (Raised e, r)
  | PlanOverridden res, _ => (Overridden res, r)
  | Plan _, None => (Raised (ValueError "function not supported"), r)
  | Plan p, Some ufunc =>
      let ndim := PyArray_NDIM (rp_mp p) in
      let naxes := zlen (rp_axes p) in
      match operation with
      | UFUNC_REDUCE =>
          PyUFunc_Reduce ufunc (rp_mp p) (rp_out p) (rp_axes p)
            (Some (rp_otype p)) (rp_keepdims p) (rp_initial p)
            (rp_wheremask p) r
      | UFUNC_ACCUMULATE =>
          if ndim =? 0 then
            (Raised (TypeError "cannot accumulate on a scalar"), r)
          else if negb (naxes =? 1) then
            (Raised (ValueError "accumulate does not allow multiple axes"), r)
          else
            PyUFunc_Accumulate ufunc (rp_mp p) (rp_out p)
              (rd (rp_axes p) 0) (type_num (rp_otype p)) r
      | UFUNC_REDUCEAT =>
          if ndim =? 0 then
            (Raised (TypeError "cannot reduceat on a scalar"), r)
          else if negb (naxes =? 1) then
            (Raised (ValueError "reduceat does not allow multiple axes"), r)
          else
            match rp_indices p with
            | None => (Raised FromCollaborator, r)
            | Some (ind, reduceat_ind) =>
                PyUFunc_Reduceat ufunc (rp_mp p) ind reduceat_ind (rp_out p)
                  (rd (rp_axes p) 0) (type_num (rp_otype p)) r
            end
      end
  end.

End Reductions.

(* ================================================================== *)
(** ** A concrete kernel and concrete collaborators, for the examples  *)
(* ================================================================== *)

(** The strided binary loop of an elementwise kernel computing [f]. *)
Fixpoint binary_loop (f : Z -> Z -> Z) (n : nat) (ip1 ip2 op : Z)
         (is1 is2 os : Z) (m : Z -> Z) : Z -> Z :=
  match n with
  | O => m
  | S n' =>
      binary_loop f n' (ip1 + is1) (ip2 + is2) (op + os) is1 is2 os
                  (store m op (f (m ip1) (m ip2)))
  end.

Definition binary_kernel (f : Z -> Z -> Z) (args : list Z) (count : Z)
           (steps : list Z) (m : machine) : machine :=
  mkMachine (binary_loop f (Z.to_nat count) (rd args 0) (rd args 1)
                         (rd args 2) (rd steps 0) (rd steps 1) (rd steps 2)
                         (mem m))
            (ob_refcnt m) (freed m) (err m).

(** An iterator over the single lane of a one-dimensional reduction that
    works on the operands themselves. *)
Definition single_lane (out arr : PyArrayObject) : RedIter :=
  mkRedIter [out; arr] true true 1 true false [data out; data arr] [] true.

(** Collaborators for an [add] over the type number [NPY_LONG]: exact
    casts only, a new array put at address 1000, and an iterator over the
    operands as they are. *)
Definition add_env : collaborators :=
  mkCollab (fun _ => binary_kernel Z.add)
           (fun a b => a =? b)
           (fun _ => false)
           true
           (fun t => Some (mkDescr t 8))
           (fun d => Some d)
           (fun _ => true)
           (fun a b => type_num a =? type_num b)
           (fun a b => if data a =? data b then 1 else 0)
           (Some 1000)
           (fun ops _ =>
              match ops with
              | Some out :: Some arr :: _ => Some (single_lane out arr)
              | _ => None
              end)
           (fun _ d => (0, match d with
                           | Some d => [d; d; d]
                           | None => []
                           end))
           (fun arr _ _ _ _ _ _ _ r => (Returned arr, r)).

Definition add_ufunc : PyUFuncObject :=
  mkUFunc 2 1 3 "add" PyUFunc_Zero 1 [NPY_LONG; NPY_LONG; NPY_LONG] None
          0 0 [] [] [] [] [] "".

(** A one-dimensional aligned array of [n] elements of type [NPY_LONG] at
    address [p], and a memory that holds the values [vs] there. *)
Definition long_vector (p n : Z) : PyArrayObject :=
  mkArray p [n] [8] (mkDescr NPY_LONG 8) (NPY_ARRAY_ALIGNED + 1).

Fixpoint fill (p : Z) (vs : list Z) (m : Z -> Z) : Z -> Z :=
  match vs with
  | [] => m
  | v :: rest => fill (p + 8) rest (store m p v)
  end.

Definition fresh_run (m : Z -> Z) : run :=
  mkRun (mkMachine m (fun _ => 1) [] false) [].

(** The elements of a one-dimensional array in a memory. *)
Definition elements (m : Z -> Z) (a : PyArrayObject) : list Z :=
  map (fun i => m (data a + PyArray_STRIDE a 0 * i))
      (range_from 0 (Z.to_nat (PyArray_DIM a 0))).

(** A reduction call on the array [mp] with the axis argument [axis] and
    nothing else given, every conversion succeeding. *)
Definition plain_args (mp : PyArrayObject) (axis : axis_arg)
  : reduction_args :=
  mkArgs true true NoOverride None None OutAbsent None None None
         (Some mp) axis.

(** An aligned C-contiguous array of the given type and shape at [p]. *)
Definition c_array (p : Z) (type : Z) (itemsize : Z) (shape : list Z)
  : PyArrayObject :=
  mkArray p shape (c_strides shape itemsize) (mkDescr type itemsize)
          (NPY_ARRAY_ALIGNED + NPY_ARRAY_C_CONTIGUOUS).

(** [add] called on two empty vectors with no output given:
    [check_for_trivial_loop], then [execute_legacy_ufunc_loop]. *)
Definition empty_add_call : outcome :=
  let dtypes := [mkDescr NPY_LONG 8; mkDescr NPY_LONG 8; mkDescr NPY_LONG 8]
  in
  let (trivial_loop_ok, op) :=
    check_for_trivial_loop (PyArray_EquivTypes add_env) (fun a _ => Some a)
      add_ufunc [Some (long_vector 0 0); Some (long_vector 64 0); None]
      dtypes 8192 in
  execute_legacy_ufunc_loop (binary_kernel Z.add) (fun _ _ => true)
    (PyArray_EquivTypes add_env) (fun _ => None) add_ufunc true
    trivial_loop_ok op dtypes
    NPY_KEEPORDER [None] (Some 1000) (fresh_run (fun _ => 0)).

(** An axis within the rank. *)
Definition in_rank (ndim : Z) (axis : Z) : Prop := 0 <= axis < ndim.

(** The explicit dtype and the output array of a call, once converted. *)
Definition dtype_of_args (args : reduction_args) : option PyArray_Descr :=
  match ra_dtype args with Some (Some d) => Some d | _ => None end.

Definition out_of_args (args : reduction_args) : option PyArrayObject :=
  match ra_out args with OutArray a => Some a | _ => None end.

(** The call reaches the conversion of its axis argument: the ufunc is a
    plain binary one, no override takes the call, every argument
    converter succeeds, [mp] is the input array, and neither it nor the
    requested dtype is of a flexible type. *)
Definition arguments_converted (ufunc : PyUFuncObject)
           (args : reduction_args) (mp : PyArrayObject) : Prop :=
  core_enabled ufunc = 0 /\ nin ufunc = 2 /\ nout ufunc = 1
  /\ ra_parsed args = true /\ ra_out_normalized args = true
  /\ ra_override args = NoOverride
  /\ ra_indices args <> Some None
  /\ ra_dtype args <> Some None
  /\ ra_out args <> OutInvalid
  /\ ra_keepdims args <> Some None
  /\ ra_where args <> Some None
  /\ ra_array args = Some mp
  /\ PyTypeNum_ISFLEXIBLE (type_num (descr mp)) = false
  /\ match dtype_of_args args with
     | Some d => PyTypeNum_ISFLEXIBLE (type_num d) = false
     | None => True
     end.

(** The plan of a converted call with the axes [axes] and the output type
    [otype]. *)
Definition plan_with (args : reduction_args) (mp : PyArrayObject)
           (axes : list Z) (otype : PyArray_Descr) : reduction_plan :=
  mkRedPlan mp
    (match ra_indices args with Some (Some i) => Some i | _ => None end)
    (out_of_args args) axes otype
    (match ra_keepdims args with Some (Some k) => k | _ => 0 end)
    (ra_initial args)
    (match ra_where args with Some (Some w) => Some w | _ => None end).

(* ------------------------------------------------------------------ *)
(** *** The contract of a kernel, and what a run added to the trace    *)
(* ------------------------------------------------------------------ *)

(** The cells a kernel invocation may write: the [count] elements of its
    last operand. *)
Definition kernel_targets (e : event) (q : Z) : Prop :=
  match e with
  | EvKernel args count steps =>
      exists j, 0 <= j < count /\ q = rd args 2 + j * rd steps 2
  | _ => False
  end.

(** A binary kernel writes nothing but the elements of its output
    operand. *)
Definition kernel_frame
           (k : list Z -> Z -> list Z -> machine -> machine) : Prop :=
  forall args count steps m q,
    ~ kernel_targets (EvKernel args count steps) q ->
    mem (k args count steps m) q = mem m q.

(** The events a run added to an earlier one. *)
Definition added (before after : run) (extra : list event) : Prop :=
  trace after = trace before ++ extra.

(** The cells one lane of an accumulation writes: the [count_m1 + 1]
    elements of its output lane that starts at [d0]. *)
Definition accumulate_cells (count_m1 stride0 d0 : Z) (q : Z) : Prop :=
  exists k, 0 <= k <= Z.max 0 count_m1 /\ q = d0 + k * stride0.

(** The cells one lane of a reduceat writes: the [ind_size] elements of
    its output lane that starts at [d0]. *)
Definition reduceat_cells (ind_size stride0_ind d0 : Z) (q : Z) : Prop :=
  exists i, 0 <= i < ind_size /\ q = d0 + stride0_ind * i.

(** The output cell of segment [i] in the lane with output at [d0], and
    the input cell its index names in the lane with input at [d1]. *)
Definition out_cell (stride0_ind d0 i : Z) : Z := d0 + stride0_ind * i.

Definition in_cell (reduceat_ind : list Z) (stride1 d1 i : Z) : Z :=
  d1 + stride1 * rd reduceat_ind i.

(** The number of elements of segment [i]: up to the next index, or up to
    the end of the axis for the last segment. *)
Definition segment_count (reduceat_ind : list Z) (ind_size len i : Z) : Z :=
  (if i =? ind_size - 1 then len else rd reduceat_ind (i + 1))
  - rd reduceat_ind i.

(** A segment of at most one element, which reduceat copies without
    reduction. *)
Definition copied_segment (reduceat_ind : list Z) (ind_size len i : Z)
  : Prop :=
  segment_count reduceat_ind ind_size len i <= 1.

(** Between two runs no kernel was invoked and the machine was left as
    it was. *)
Definition ran_no_kernel (before after : run) : Prop :=
  mach after = mach before
  /\ kernel_calls (trace after) = kernel_calls (trace before).

(* ------------------------------------------------------------------ *)
(** *** Dimension names and their modifier, as the signature shows them *)
(* ------------------------------------------------------------------ *)

(** The name that starts at a position: its letters, digits and
    underscores. *)
Fixpoint name_at (p : string) : string :=
  match p with
  | String c p' =>
      if _is_alnum_underscore c then String c (name_at p') else EmptyString
  | EmptyString => EmptyString
  end.

(** A dimension name starts at offset [k] of the signature. *)
Definition name_starts (signature : string) (k : Z) : Prop :=
  0 <= k
  /\ _is_alpha_underscore (at_ signature k) = true
  /\ (k = 0 \/ _is_alnum_underscore (at_ signature (k - 1)) = false).

(** The name that starts at offset [k] carries the modifier '?'. *)
Definition marked (signature : string) (k : Z) : bool :=
  is_char (at_ signature (k + strlen (name_at (ptr signature k)))) "?".

(** The "ignorable" flag the parser holds for the dimension [ix]. *)
Definition can_ignore_flag (st : parse_state) (ix : Z) : bool :=
  negb (Z.land (rd (p_dim_flags st) ix) UFUNC_CORE_DIM_CAN_IGNORE =? 0).

(** What the parser holds agrees with the names up to the offset [b]:
    every name that starts before [b] is a dimension the parser holds with
    the modifier that name carries, and no name is held twice. *)
Definition consistent_upto (signature : string) (st : parse_state) (b : Z)
  : Prop :=
  0 <= p_num_dim_ix st <= b
  /\ zlen (p_var_names st) = strlen signature
  /\ zlen (p_dim_flags st) = strlen signature
  /\ (forall ix, p_num_dim_ix st <= ix -> can_ignore_flag st ix = false)
  /\ (forall k, name_starts signature k -> k < b ->
                exists ix, 0 <= ix < p_num_dim_ix st
                           /\ name_at (ptr signature k)
                              = name_at (ptr signature
                                             (rd (p_var_names st) ix))
                           /\ can_ignore_flag st ix = marked signature k)
  /\ (forall ix ix',
         0 <= ix < p_num_dim_ix st -> 0 <= ix' < p_num_dim_ix st ->
         _is_alpha_underscore (at_ signature (rd (p_var_names st) ix))
         = true ->
         name_at (ptr signature (rd (p_var_names st) ix))
         = name_at (ptr signature (rd (p_var_names st) ix')) ->
         ix = ix').

Definition consistent (signature : string) (st : parse_state) : Prop :=
  consistent_upto signature st (p_i st).

(** No character in [a, b) can start a name. *)
Definition no_alpha (signature : string) (a b : Z) : Prop :=
  forall k, a <= k < b -> _is_alpha_underscore (at_ signature k) = false.

(* ================================================================== *)
(** * More of the engine                                               *)
(* ================================================================== *)

(** The contract of a binary inner loop that computes [f] element by
    element: on the memory it does what the strided loop over its three
    operands does. *)
Definition computes (f : Z -> Z -> Z)
           (k : list Z -> Z -> list Z -> machine -> machine) : Prop :=
  forall args count steps m,
    mem (k args count steps m)
    = binary_loop f (Z.to_nat count) (rd args 0) (rd args 1) (rd args 2)
                  (rd steps 0) (rd steps 1) (rd steps 2) (mem m).

(** The elements [from], [from + 1], ..., of the lane at [p]. *)
Definition lane_elements (m : Z -> Z) (p stride : Z) (from : Z) (n : nat)
  : list Z :=
  map (fun k => m (p + stride * k)) (range_from from n).

(** The fold of [f] over the elements of segment [i] of a reduceat, read
    from the memory [m]: from the element the index names up to the next
    index (the end of the axis for the last segment). *)
Definition segment_fold (f : Z -> Z -> Z) (reduceat_ind : list Z)
           (ind_size len stride1 : Z) (m : Z -> Z) (d1 i : Z) : Z :=
  let start := rd reduceat_ind i in
  let end_ := if i =? ind_size - 1 then len else rd reduceat_ind (i + 1) in
  fold_left f
    (lane_elements m d1 stride1 (start + 1) (Z.to_nat (end_ - start - 1)))
    (m (in_cell reduceat_ind stride1 d1 i)).

(** The one stride the trivial loop hands the kernel for an operand: 0
    for a 0-D operand (it is broadcast), the stride of a 1-D operand, the
    item size of a contiguous operand of higher rank. *)
Definition trivial_stride (a : PyArrayObject) : Z :=
  if PyArray_NDIM a =? 0 then 0
  else if PyArray_NDIM a =? 1 then PyArray_STRIDE a 0
  else PyArray_ITEMSIZE a.

(* ------------------------------------------------------------------ *)
(** *** The tables the signature parser fills                          *)
(* ------------------------------------------------------------------ *)

(** The sum of the first [k] entries. *)
Definition sum_first (l : list Z) (k : Z) : Z :=
  fold_right Z.add 0 (firstn (Z.to_nat k) l).

(** A size and its flags agree: a named dimension has the size -1 and is
    flagged as inferred, a frozen one has its positive size and is not. *)
Definition size_flag_ok (size flags : Z) : Prop :=
  (size = -1
   /\ Z.land flags UFUNC_CORE_DIM_SIZE_INFERRED
      = UFUNC_CORE_DIM_SIZE_INFERRED)
  \/ (0 < size /\ Z.land flags UFUNC_CORE_DIM_SIZE_INFERRED = 0).

(** What the parser keeps of its tables while it runs over the signature
    of a ufunc with [u_nargs] operands. *)
Definition tables_ok (signature : string) (u_nargs : Z) (st : parse_state)
  : Prop :=
  (0 <= p_nd st /\ 0 <= p_cur_arg st <= u_nargs /\ 0 <= p_num_dim_ix st)
  /\ sum_first (p_num_dims st) (p_cur_arg st) + p_nd st = p_cur_core_dim st
  /\ (p_cur_core_dim st <= p_i st /\ p_num_dim_ix st <= p_i st)
  /\ (zlen (p_num_dims st) = u_nargs /\ zlen (p_offsets st) = u_nargs
      /\ zlen (p_dim_ixs st) = strlen signature
      /\ zlen (p_dim_sizes st) = strlen signature
      /\ zlen (p_dim_flags st) = strlen signature)
  /\ (forall k, 0 <= k < p_cur_arg st ->
                0 <= rd (p_num_dims st) k
                /\ rd (p_offsets st) k = sum_first (p_num_dims st) k)
  /\ (forall j, 0 <= j < p_cur_core_dim st ->
                0 <= rd (p_dim_ixs st) j < p_num_dim_ix st)
  /\ (forall ix, 0 <= ix < p_num_dim_ix st ->
                 size_flag_ok (rd (p_dim_sizes st) ix)
                              (rd (p_dim_flags st) ix))
  /\ (forall ix, p_num_dim_ix st <= ix -> rd (p_dim_flags st) ix = 0).

(* ================================================================== *)
(** ** The axis argument of a generalized call                         *)
(* ================================================================== *)

(** [for (axis = from; axis < from + n; axis++) row[axis] = axis + shift]. *)
Fixpoint fill_axes (row : list Z) (axis shift : Z) (n : nat) : list Z :=
  match n with
  | O => row
  | S n' => fill_axes (wr row axis (axis + shift)) (axis + 1) shift n'
  end.

(** The number of dimensions [_parse_axis_arg] takes operand [iop] to
    have: its own, or [broadcast_ndim + 1] for an output not supplied. *)
Definition axis_op_ndim (o : option PyArrayObject) (broadcast_ndim : Z) : Z :=
  match o with
  | Some a => PyArray_NDIM a
  | None => broadcast_ndim + 1
  end.

(** The body of the loop of [_parse_axis_arg] for one operand: the new
    [remap_axis[iop]] ([None] is NULL), or the error of its [return -1].
    [row] is the block [remap_axis[iop]] points to. *)
Definition parse_axis_operand (core_num_dims_iop : Z)
           (o : option PyArrayObject) (broadcast_ndim axis_int : Z)
           (row : list Z) : option (list Z) + exn :=
  if core_num_dims_iop =? 0 then inl None
  else
    let op_ndim := axis_op_ndim o broadcast_ndim in
    match check_and_adjust_axis axis_int op_ndim with
    | None => inr (AxisError axis_int op_ndim)
    | Some op_axis =>
        if op_axis =? op_ndim - 1 then inl None
        else
          let row1 := wr row (op_ndim - 1) op_axis in
          let row2 := fill_axes row1 0 0 (Z.to_nat op_axis) in
          inl (Some (fill_axes row2 op_axis 1
                               (Z.to_nat (op_ndim - 1 - op_axis))))
    end.

(** [for (iop = 0; iop < nop; ++iop)], from operand [iop] on. *)
Fixpoint parse_axis_operands (core_num_dims : list Z)
         (op : list (option PyArrayObject)) (broadcast_ndim axis_int : Z)
         (remap_axis : list (list Z)) (iop : Z) (todo : nat)
  : list (option (list Z)) + exn :=
  match todo with
  | O => inl []
  | S todo' =>
      match parse_axis_operand (rd core_num_dims iop) (get_op op iop)
              broadcast_ndim axis_int (nth (Z.to_nat iop) remap_axis []) with
      | inr e => inr e
      | inl row =>
          match parse_axis_operands core_num_dims op broadcast_ndim axis_int
                  remap_axis (iop + 1) todo' with
          | inr e => inr e
          | inl rows => inl (row :: rows)
          end
      end
  end.

(** [_parse_axis_arg]; [axis] is what [PyArray_PyIntAsInt] makes of the
    argument ([None]: the conversion failed) and [remap_axis] the blocks
    the rows point to on entry. *)
Definition _parse_axis_arg (ufunc : PyUFuncObject) (core_num_dims : list Z)
           (axis : option Z) (op : list (option PyArrayObject))
           (broadcast_ndim : Z) (remap_axis : list (list Z))
  : list (option (list Z)) + exn :=
  match axis with
  | None => inr FromCollaborator
  | Some axis_int =>
      parse_axis_operands core_num_dims op broadcast_ndim axis_int
        remap_axis 0 (Z.to_nat (nargs ufunc))
  end.

(* ================================================================== *)
(** ** Flexible core dimensions                                        *)
(* ================================================================== *)

(** What [_validate_num_dims] reports with its -1: "%s: %s operand %d
    does not have enough dimensions (has %d, gufunc core with signature
    %s requires %d)". *)
Record too_few_dims : Type := mkTooFew {
  tf_is_input : bool;
  tf_operand : Z;
  tf_has : Z;
  tf_signature : string;
  tf_requires : Z
}.

Section ValidateNumDims.

Variable ufunc : PyUFuncObject.

(** [for (j1 = 0; j1 < ufunc->core_num_dims[i1]; j1++)]: the mentions of
    [core_dim_index] by operand [i1], read from position [k] on; the result
    is the new [k] and the counts. *)
Fixpoint drop_mentions (core_dim_index i1 : Z) (todo : nat) (k : Z)
         (op_core_num_dims : list Z) : Z * list Z :=
  match todo with
  | O => (k, op_core_num_dims)
  | S todo' =>
      drop_mentions core_dim_index i1 todo' (k + 1)
        (if rd (core_dim_ixs ufunc) k =? core_dim_index
         then wr op_core_num_dims i1 (rd op_core_num_dims i1 - 1)
         else op_core_num_dims)
  end.

(** [for (i1 = 0, k = 0; i1 < nop; i1++)]: "reduce the number of core
    dimensions for all operands that use this one". *)
Fixpoint drop_dimension (core_dim_index : Z) (todo : nat) (i1 k : Z)
         (op_core_num_dims : list Z) : list Z :=
  match todo with
  | O => op_core_num_dims
  | S todo' =>
      let '(k', counts) :=
        drop_mentions core_dim_index i1
          (Z.to_nat (rd (core_num_dims ufunc) i1)) k op_core_num_dims in
      drop_dimension core_dim_index todo' (i1 + 1) k' counts
  end.

(** [for (j = core_offset; j < core_offset + ufunc->core_num_dims[i];
    j++)]: the search for dimensions of operand [i] that can be ignored,
    from position [j] on. *)
Fixpoint ignore_dimensions (i op_ndim : Z) (todo : nat) (j : Z)
         (core_dim_flags op_core_num_dims : list Z) : list Z * list Z :=
  match todo with
  | O => (core_dim_flags, op_core_num_dims)
  | S todo' =>
      let core_dim_index := rd (core_dim_ixs ufunc) j in
      if negb (Z.land (rd core_dim_flags core_dim_index)
                      UFUNC_CORE_DIM_CAN_IGNORE =? 0)
      then
        let flags' :=
          wr core_dim_flags core_dim_index
             (Z.lxor (Z.lor (rd core_dim_flags core_dim_index)
                            UFUNC_CORE_DIM_MISSING)
                     UFUNC_CORE_DIM_CAN_IGNORE) in
        let counts' :=
          drop_dimension core_dim_index (Z.to_nat (nargs ufunc)) 0 0
                         op_core_num_dims in
        if op_ndim =? rd counts' i then (flags', counts')
        else ignore_dimensions i op_ndim todo' (j + 1) flags' counts'
      else ignore_dimensions i op_ndim todo' (j + 1) core_dim_flags
                             op_core_num_dims
  end.

(** [for (i = 0; i < nop; i++)], from operand [i] on: the flags and the
    counts it leaves, or the error. *)
Fixpoint validate_operands (op : list (option PyArrayObject)) (todo : nat)
         (i : Z) (core_dim_flags op_core_num_dims : list Z)
  : (list Z * list Z) + too_few_dims :=
  match todo with
  | O => inl (core_dim_flags, op_core_num_dims)
  | S todo' =>
      match get_op op i with
      | None =>
          validate_operands op todo' (i + 1) core_dim_flags op_core_num_dims
      | Some a =>
          let op_ndim := PyArray_NDIM a in
          if op_ndim <? rd op_core_num_dims i then
            let '(flags', counts') :=
              ignore_dimensions i op_ndim
                (Z.to_nat (rd (core_num_dims ufunc) i))
                (rd (core_offsets ufunc) i)
                core_dim_flags op_core_num_dims in
            if op_ndim <? rd counts' i then
              inr (mkTooFew (i <? nin ufunc)
                     (if i <? nin ufunc then i else i - nin ufunc)
                     op_ndim (core_signature ufunc) (rd counts' i))
            else validate_operands op todo' (i + 1) flags' counts'
          else
            validate_operands op todo' (i + 1) core_dim_flags
                              op_core_num_dims
      end
  end.

(** [_validate_num_dims]. *)
Definition _validate_num_dims (op : list (option PyArrayObject))
           (core_dim_flags op_core_num_dims : list Z)
  : (list Z * list Z) + too_few_dims :=
  validate_operands op (Z.to_nat (nargs ufunc)) 0 core_dim_flags
                    op_core_num_dims.

End ValidateNumDims.

(** How the flags of one core dimension may change: not at all, or from
    ignorable to missing. *)
Definition flag_step (f f' : Z) : Prop :=
  f' = f
  \/ (Z.land f UFUNC_CORE_DIM_CAN_IGNORE <> 0
      /\ f' = Z.lxor (Z.lor f UFUNC_CORE_DIM_MISSING)
                     UFUNC_CORE_DIM_CAN_IGNORE).

(* ================================================================== *)
(** ** The keepdims check                                              *)
(* ================================================================== *)

(** What [_check_keepdims_support] reports with its -1: "%s does not
    support keepdims: its signature %s requires %s %d to have %d core
    dimensions, ...". *)
Record keepdims_error : Type := mkKeepdimsError {
  kd_signature : string;
  kd_is_input : bool;
  kd_operand : Z;
  kd_core_dims : Z
}.

(** [for (i = 1; i < nin + nout; i++)], from operand [i] on. *)
Fixpoint check_keepdims_from (ufunc : PyUFuncObject) (input_core_dims : Z)
         (i : Z) (todo : nat) : option keepdims_error :=
  match todo with
  | O => None
  | S todo' =>
      if negb (rd (core_num_dims ufunc) i
               =? (if i <? nin ufunc then input_core_dims else 0))
      then Some (mkKeepdimsError (core_signature ufunc) (i <? nin ufunc)
                   (if i <? nin ufunc then i else i - nin ufunc)
                   (rd (core_num_dims ufunc) i))
      else check_keepdims_from ufunc input_core_dims (i + 1) todo'
  end.

(** [_check_keepdims_support]: [None] is its 0. *)
Definition _check_keepdims_support (ufunc : PyUFuncObject)
  : option keepdims_error :=
  check_keepdims_from ufunc (rd (core_num_dims ufunc) 0) 1
                      (Z.to_nat (nin ufunc + nout ufunc - 1)).

(** [_has_output_coredims], from output [i] on. *)
Fixpoint has_output_coredims_from (ufunc : PyUFuncObject) (i : Z)
         (todo : nat) : Z :=
  match todo with
  | O => 0
  | S todo' =>
      if rd (core_num_dims ufunc) i >? 0 then 1
      else has_output_coredims_from ufunc (i + 1) todo'
  end.

Definition _has_output_coredims (ufunc : PyUFuncObject) : Z :=
  has_output_coredims_from ufunc (nin ufunc) (Z.to_nat (nout ufunc)).

(* ================================================================== *)
(** ** The per-operand iterator flags                                  *)
(* ================================================================== *)

Section SetupFlags.

(** The access flags of the iterator, [NPY_ITER_READWRITE],
    [NPY_ITER_READONLY] and [NPY_ITER_WRITEONLY] of [ndarraytypes.h],
    each one bit of an [npy_uint32]. *)
Variable NPY_ITER_READWRITE NPY_ITER_READONLY NPY_ITER_WRITEONLY : Z.

(** The flags [_ufunc_setup_flags] gives the input [i]. *)
Definition input_flags (ufunc_op_flags : list Z) (op_in_flags i : Z) : Z :=
  let f := Z.lor (rd ufunc_op_flags i) op_in_flags in
  if negb (Z.land f (Z.lor NPY_ITER_READWRITE NPY_ITER_WRITEONLY) =? 0)
  then Z.land f (Z.lxor (Z.ones 32) NPY_ITER_READONLY)
  else f.

(** The flags it gives the output [i]. *)
Definition output_flags (ufunc_op_flags : list Z) (op_out_flags i : Z) : Z :=
  if negb (rd ufunc_op_flags i =? 0) then rd ufunc_op_flags i
  else op_out_flags.

(** The two loops, writing [op_flags[i]] for [i] from [i] on. *)
Fixpoint setup_flags_from (flags_of : Z -> Z) (i : Z) (todo : nat)
         (op_flags : list Z) : list Z :=
  match todo with
  | O => op_flags
  | S todo' => setup_flags_from flags_of (i + 1) todo'
                                (wr op_flags i (flags_of i))
  end.

(** [_ufunc_setup_flags]; [ufunc_op_flags] is the field [op_flags] of the
    ufunc and [op_flags] the array that is filled. *)
Definition _ufunc_setup_flags (ufunc : PyUFuncObject)
           (ufunc_op_flags : list Z) (op_in_flags op_out_flags : Z)
           (op_flags : list Z) : list Z :=
  let op_flags1 :=
    setup_flags_from (input_flags ufunc_op_flags op_in_flags) 0
                     (Z.to_nat (nin ufunc)) op_flags in
  setup_flags_from (output_flags ufunc_op_flags op_out_flags) (nin ufunc)
                   (Z.to_nat (nout ufunc)) op_flags1.

End SetupFlags.

(* ================================================================== *)
(** ** Replacing a built-in loop                                       *)
(* ================================================================== *)

(** [for (j = 0; j < func->nargs; j++) if (signature[j] !=
    func->types[i*func->nargs+j]) break;]: the [j] the loop ends with. *)
Fixpoint signature_mismatch (func : PyUFuncObject) (signature : list Z)
         (i j : Z) (todo : nat) : Z :=
  match todo with
  | O => j
  | S todo' =>
      if negb (rd signature j =? rd (types func) (i * nargs func + j))
      then j
      else signature_mismatch func signature i (j + 1) todo'
  end.

(** [for (i = 0; i < func->ntypes; i++)], from row [i] on: the return
    code, the functions and what [oldfunc] points to ([None]: [oldfunc]
    is NULL). *)
Fixpoint replace_loop_from (func : PyUFuncObject) (functions : list Z)
         (newfunc : Z) (signature : list Z) (oldfunc : option Z) (i : Z)
         (todo : nat) : Z * list Z * option Z :=
  match todo with
  | O => (-1, functions, oldfunc)
  | S todo' =>
      if signature_mismatch func signature i 0 (Z.to_nat (nargs func))
         <? nargs func
      then replace_loop_from func functions newfunc signature oldfunc
                             (i + 1) todo'
      else (0, wr functions i newfunc,
            match oldfunc with
            | Some _ => Some (rd functions i)
            | None => None
            end)
  end.

(** [PyUFunc_ReplaceLoopBySignature]; [functions] is the field of the
    ufunc of that name. *)
Definition PyUFunc_ReplaceLoopBySignature (func : PyUFuncObject)
           (functions : list Z) (newfunc : Z) (signature : list Z)
           (oldfunc : option Z) : Z * list Z * option Z :=
  replace_loop_from func functions newfunc signature oldfunc 0
                    (Z.to_nat (ntypes func)).

(** Row [i] of the type table is the signature. *)
Definition row_matches (func : PyUFuncObject) (signature : list Z) (i : Z)
  : Prop :=
  forall j, 0 <= j < nargs func ->
            rd signature j = rd (types func) (i * nargs func + j).

(* ================================================================== *)
(** ** The out argument of a call                                      *)
(* ================================================================== *)

(** The [out] keyword as [_set_full_args_out] tells it apart: an exact
    tuple or any other object. *)
Inductive out_object : Type :=
| OutTuple (items : list pyobj)       (* PyTuple_CheckExact *)
| OutSingle (o : pyobj).

(** [tuple_all_none]. *)
Fixpoint tuple_all_none (tup : list pyobj) : bool :=
  match tup with
  | [] => true
  | o :: rest => if negb (is_py_none o) then false else tuple_all_none rest
  end.

(** [_set_full_args_out]: [full_args->out] after a return of 0
    ([None] is NULL), or the exception of its -1.  [out] is
    [full_args->out] on entry and [pack_ok] tells whether [PyTuple_Pack]
    succeeds. *)
Definition _set_full_args_out (nout : Z) (out_obj : out_object)
           (pack_ok : bool) (out : option (list pyobj))
  : option (list pyobj) + exn :=
  match out_obj with
  | OutTuple items =>
      if negb (Z.of_nat (List.length items) =? nout) then
        inr (ValueError
               "The 'out' tuple must have exactly one entry per ufunc output")
      else if tuple_all_none items then inl out
      else inl (Some items)
  | OutSingle o =>
      if nout =? 1 then
        if is_py_none o then inl out
        else if pack_ok then inl (Some [o])
        else inr FromCollaborator
      else
        inr (TypeError
               (if nout >? 1 then "'out' must be a tuple of arrays"
                else "'out' must be an array or a tuple with a single array"))
  end.

(* ================================================================== *)
(** ** Registering a loop for a user-defined type                      *)
(* ================================================================== *)

(** A node of the list of loops registered for one user type,
    [PyUFunc_Loop1d], the list being the chain of the [next] pointers. *)
Record PyUFunc_Loop1d : Type := mkLoop1d {
  l_func : Z;
  l_data : Z;
  l_arg_types : list Z;
  l_arg_dtypes : option (list PyArray_Descr);
  l_nargs : Z
}.

(** What [PyUFunc_RegisterLoopForType] leaves behind: -1 with the
    exception, 0 with the dictionary untouched, or 0 with a list stored
    under the key of the type. *)
Inductive register_error : Type :=
| UnknownUserType        (* TypeError "unknown user-defined type" *)
| RegisterNoMemory       (* PyErr_NoMemory *)
| RegisterFailed.        (* the exception a collaborator left *)

Inductive register_result : Type :=
| RegisterError (e : register_error)
| RegisterNothing
| RegisterStored (loops : list PyUFunc_Loop1d).

(** What the dictionary holds under the key: the lookup raises, there is
    no entry, or the capsule of a list (the empty list: its pointer is
    NULL). *)
Inductive loops_lookup : Type :=
| LoopsFails
| LoopsMissing
| LoopsFound (loops : list PyUFunc_Loop1d).

Section RegisterLoop.

(** [PyArray_EquivTypenums] and [PyArray_CanCastSafely]. *)
Variable PyArray_EquivTypenums : Z -> Z -> bool.
Variable PyArray_CanCastSafely : Z -> Z -> bool.

(** The first type number of the user-defined types, [NPY_USERDEF] of
    [ndarraytypes.h]. *)
Variable NPY_USERDEF : Z.

(** [cmp_arg_types]: "return 1 if arg1 > arg2, 0 if arg1 == arg2, and -1
    if arg1 < arg2". *)
Fixpoint cmp_arg_types (arg1 arg2 : list Z) (n : nat) : Z :=
  match n with
  | O => 0
  | S n' =>
      if PyArray_EquivTypenums (rd arg1 0) (rd arg2 0)
      then cmp_arg_types (tl arg1) (tl arg2) n'
      else if PyArray_CanCastSafely (rd arg1 0) (rd arg2 0) then -1
      else 1
  end.

(** [while (current != NULL) { cmp = ...; if (cmp >= 0) break; prev =
    current; current = current->next; }]: the nodes passed, the last
    [cmp] and the nodes from [current] on. *)
Fixpoint find_place (newtypes : list Z) (n : nat)
         (current : list PyUFunc_Loop1d) (cmp : Z)
  : list PyUFunc_Loop1d * Z * list PyUFunc_Loop1d :=
  match current with
  | [] => ([], cmp, [])
  | c :: rest =>
      let cmp' := cmp_arg_types (l_arg_types c) newtypes n in
      if cmp' >=? 0 then ([], cmp', current)
      else
        let '(passed, last, after) := find_place newtypes n rest cmp' in
        (c :: passed, last, after)
  end.

(** [PyUFunc_RegisterLoopForType].  [descr_ok], [key_ok], [funcdata_ok],
    [newtypes_ok] and [capsule_ok] tell whether [PyArray_DescrFromType],
    [PyLong_FromLong], the two [PyArray_malloc] and [PyCapsule_New]
    succeed; [entry] is what the dictionary holds under the key. *)
Definition PyUFunc_RegisterLoopForType (ufunc : PyUFuncObject)
           (usertype function : Z) (arg_types : option (list Z)) (data : Z)
           (descr_ok key_ok funcdata_ok newtypes_ok capsule_ok : bool)
           (entry : loops_lookup) : register_result :=
  if ((usertype <? NPY_USERDEF) && negb (usertype =? NPY_VOID))
     || negb descr_ok
  then RegisterError UnknownUserType
  else if negb key_ok then RegisterError RegisterFailed
  else if negb funcdata_ok then RegisterError RegisterNoMemory
  else if negb newtypes_ok then RegisterError RegisterNoMemory
  else
    let newtypes :=
      match arg_types with
      | Some types => map (rd types) (range_from 0 (Z.to_nat (nargs ufunc)))
      | None => map (fun _ => usertype)
                    (range_from 0 (Z.to_nat (nargs ufunc)))
      end in
    let funcdata := mkLoop1d function data newtypes None 0 in
    match entry with
    | LoopsFails => RegisterNothing
    | LoopsMissing =>
        if negb capsule_ok then RegisterError RegisterFailed
        else RegisterStored [funcdata]
    | LoopsFound [] => RegisterError RegisterFailed
    | LoopsFound loops =>
        let '(passed, cmp, after) :=
          find_place newtypes (Z.to_nat (nargs ufunc)) loops 1 in
        if cmp =? 0 then
          match after with
          | current :: rest =>
              RegisterStored
                (passed
                 ++ mkLoop1d function data (l_arg_types current)
                      (l_arg_dtypes current) (l_nargs current) :: rest)
          | [] => RegisterStored loops
          end
        else RegisterStored (passed ++ funcdata :: after)
    end.

End RegisterLoop.

(** The invocation of the kernel at a position of the iterator. *)
Definition block_event (b : block) : event :=
  EvKernel (b_dataptr b) (b_count b) (b_strides b).

(* ================================================================== *)
(** ** Construction of a ufunc and its signature attribute             *)
(* ================================================================== *)

(** Why [PyUFunc_FromFuncAndDataAndSignatureAndIdentity] returns NULL. *)
Inductive construct_error : Type :=
| TooManyOperands (max_args n_in n_out : Z)
    (* ValueError "Cannot construct a ufunc with more than %d operands
       (requested number were: inputs = %d and outputs = %d)" *)
| ConstructFailed                  (* PyObject_GC_New *)
| ConstructNoMemory                (* PyErr_NoMemory *)
| ConstructParse (r : parse_result).

Section Construct.

(** The largest number of operands, [NPY_MAXARGS] of [ndarraytypes.h]. *)
Variable NPY_MAXARGS : Z.

(** [PyUFunc_FromFuncAndDataAndSignatureAndIdentity], as far as the
    fields of the model go.  [gc_new_ok] and [op_flags_ok] tell whether
    [PyObject_GC_New] and the allocation of [op_flags] succeed, and
    [parse_alloc_ok] whether the allocations of the parser do. *)
Definition PyUFunc_FromFuncAndDataAndSignatureAndIdentity
           (u_types : list Z) (u_ntypes u_nin u_nout : Z)
           (u_identity : ufunc_identity) (u_name : option string)
           (signature : option string)
           (gc_new_ok op_flags_ok parse_alloc_ok : bool)
  : PyUFuncObject + construct_error :=
  if u_nin + u_nout >? NPY_MAXARGS then
    inr (TooManyOperands NPY_MAXARGS u_nin u_nout)
  else if negb gc_new_ok then inr ConstructFailed
  else
    let ufunc :=
      mkUFunc u_nin u_nout (u_nin + u_nout)
        (match u_name with Some n => n | None => "?" end)
        u_identity u_ntypes u_types None 0 0 [] [] [] [] [] "" in
    if negb op_flags_ok then inr ConstructNoMemory
    else
      match signature with
      | None => inl ufunc
      | Some s =>
          match _parse_signature ufunc (Some s) parse_alloc_ok with
          | ParseOk u => inl u
          | r => inr (ConstructParse r)
          end
      end.

End Construct.

(** [ufunc_get_signature]: the attribute [signature], [None] being the
    Python None. *)
Definition ufunc_get_signature (ufunc : PyUFuncObject) : option string :=
  if core_enabled ufunc =? 0 then None else Some (core_signature ufunc).

(* ================================================================== *)
(** ** The axes argument of a generalized call                         *)
(* ================================================================== *)

(** An entry of the [axes] list: a tuple, whose items are given as
    [PyArray_PyIntAsInt] converts them ([None]: the conversion fails), or
    another object, given the same way. *)
Inductive axes_item : Type :=
| AxesTuple (items : list (option Z))
| AxesObject (v : option Z).

(** What [_parse_axes_arg] reports with its -1. *)
Inductive axes_error : Type :=
| AxesNotList                      (* TypeError "axes should be a list." *)
| AxesWrongLength (nop : Z)
    (* ValueError "axes should be a list with an entry for all %d inputs
       and outputs; entries for outputs can only be omitted if none of
       them has core axes." *)
| AxesItemSingle (iop : Z)
    (* ValueError "axes item %d should be a tuple with a single element,
       or an integer" *)
| AxesItemLength (iop op_ncore : Z)
    (* ValueError "axes item %d should be a tuple with %d elements" *)
| AxesItemNotTuple (iop : Z)
    (* TypeError "axes item %d should be a tuple" *)
| AxesRepeated (iop op_axis : Z)
    (* ValueError "axes item %d has value %d repeated" *)
| AxesAxisError (axis ndim : Z)    (* check_and_adjust_axis *)
| AxesFailed.                      (* the exception a collaborator left *)

(** "Get axes tuple for operand. If not a tuple already, make it one if
    there is only one axis"; [pack_ok] tells whether [PyTuple_Pack]
    succeeds. *)
Definition axes_tuple_of (iop op_ncore : Z) (item : axes_item)
           (pack_ok : bool) : list (option Z) + axes_error :=
  match item with
  | AxesTuple items =>
      if negb (Z.of_nat (List.length items) =? op_ncore) then
        inr (if op_ncore =? 1 then AxesItemSingle iop
             else AxesItemLength iop op_ncore)
      else inl items
  | AxesObject v =>
      if op_ncore =? 1 then
        if pack_ok then inl [v] else inr AxesFailed
      else inr (AxesItemNotTuple iop)
  end.

(** [for (axis = op_nbroadcast; axis < op_ndim; axis++)]: "create the
    remap, starting with the core dimensions", from [axis] on. *)
Fixpoint core_axes (iop op_nbroadcast op_ndim : Z)
         (op_axes_tuple : list (option Z)) (todo : nat) (axis : Z)
         (have_seen_axis row : list Z) : (list Z * list Z) + axes_error :=
  match todo with
  | O => inl (have_seen_axis, row)
  | S todo' =>
      match nth (Z.to_nat (axis - op_nbroadcast)) op_axes_tuple None with
      | None => inr AxesFailed
      | Some v =>
          match check_and_adjust_axis v op_ndim with
          | None => inr (AxesAxisError v op_ndim)
          | Some op_axis =>
              if negb (rd have_seen_axis op_axis =? 0)
              then inr (AxesRepeated iop op_axis)
              else core_axes iop op_nbroadcast op_ndim op_axes_tuple todo'
                             (axis + 1) (wr have_seen_axis op_axis 1)
                             (wr row axis op_axis)
          end
      end
  end.

(** [while (have_seen_axis[op_axis]) op_axis++;]: at most one turn per
    entry of [have_seen_axis], past which nothing is marked. *)
Fixpoint skip_seen (have_seen_axis : list Z) (op_axis : Z) (fuel : nat) : Z :=
  match fuel with
  | O => op_axis
  | S fuel' =>
      if negb (rd have_seen_axis op_axis =? 0)
      then skip_seen have_seen_axis (op_axis + 1) fuel'
      else op_axis
  end.

(** [for (axis = 0, op_axis = 0; axis < op_nbroadcast; axis++)]: "fill
    the op_nbroadcast=op_ndim-op_ncore axes not yet set"; the result is
    [axis], [op_axis] and the row. *)
Fixpoint broadcast_axes (have_seen_axis : list Z) (todo : nat)
         (axis op_axis : Z) (row : list Z) : Z * Z * list Z :=
  match todo with
  | O => (axis, op_axis, row)
  | S todo' =>
      let a := skip_seen have_seen_axis op_axis
                         (S (List.length have_seen_axis)) in
      broadcast_axes have_seen_axis todo' (axis + 1) (a + 1) (wr row axis a)
  end.

(** [while (axis < op_ndim && remap_axis[iop][axis] == axis) axis++;]. *)
Fixpoint identity_run (row : list Z) (op_ndim axis : Z) (fuel : nat) : Z :=
  match fuel with
  | O => axis
  | S fuel' =>
      if (axis <? op_ndim) && (rd row axis =? axis)
      then identity_run row op_ndim (axis + 1) fuel'
      else axis
  end.

(** The numbers of dimensions and of broadcast dimensions
    [_parse_axes_arg] takes operand [iop] to have: for an output not
    supplied, those of the broadcast. *)
Definition axes_op_ndim (o : option PyArrayObject)
           (broadcast_ndim op_ncore : Z) : Z :=
  match o with
  | Some a => PyArray_NDIM a
  | None => broadcast_ndim + op_ncore
  end.

Definition axes_op_nbroadcast (o : option PyArrayObject)
           (broadcast_ndim op_ncore : Z) : Z :=
  match o with
  | Some a => PyArray_NDIM a - op_ncore
  | None => broadcast_ndim
  end.

(** The body of the loop over the entries of [axes], for operand [iop]:
    the new [remap_axis[iop]] ([None] is NULL). *)
Definition parse_axes_operand (iop op_ncore : Z) (o : option PyArrayObject)
           (broadcast_ndim : Z) (item : axes_item) (pack_ok : bool)
           (row : list Z) : option (list Z) + axes_error :=
  let op_ndim := axes_op_ndim o broadcast_ndim op_ncore in
  let op_nbroadcast := axes_op_nbroadcast o broadcast_ndim op_ncore in
  match axes_tuple_of iop op_ncore item pack_ok with
  | inr e => inr e
  | inl op_axes_tuple =>
      match core_axes iop op_nbroadcast op_ndim op_axes_tuple
              (Z.to_nat (op_ndim - op_nbroadcast)) op_nbroadcast
              (repeat 0 (Z.to_nat NPY_MAXDIMS)) row with
      | inr e => inr e
      | inl (have_seen_axis, row1) =>
          let '(axis, op_axis, row2) :=
            broadcast_axes have_seen_axis (Z.to_nat op_nbroadcast) 0 0 row1 in
          let axis' :=
            if axis =? op_axis
            then identity_run row2 op_ndim axis (Z.to_nat (op_ndim - axis))
            else axis in
          if axis' =? op_ndim then inl None else inl (Some row2)
      end
  end.

(** [for (iop = 0; iop < list_size; ++iop)], from operand [iop] on. *)
Fixpoint parse_axes_operands (op_core_num_dims : list Z)
         (op : list (option PyArrayObject)) (broadcast_ndim : Z)
         (pack_ok : bool) (remap_axis : list (list Z))
         (axes : list axes_item) (iop : Z)
  : list (option (list Z)) + axes_error :=
  match axes with
  | [] => inl []
  | item :: rest =>
      match parse_axes_operand iop (rd op_core_num_dims iop) (get_op op iop)
              broadcast_ndim item pack_ok
              (nth (Z.to_nat iop) remap_axis []) with
      | inr e => inr e
      | inl row =>
          match parse_axes_operands op_core_num_dims op broadcast_ndim
                  pack_ok remap_axis rest (iop + 1) with
          | inr e => inr e
          | inl rows => inl (row :: rows)
          end
      end
  end.

(** [_parse_axes_arg]; [axes] is [None] when the argument is no list. *)
Definition _parse_axes_arg (ufunc : PyUFuncObject)
           (op_core_num_dims : list Z) (axes : option (list axes_item))
           (op : list (option PyArrayObject)) (broadcast_ndim : Z)
           (pack_ok : bool) (remap_axis : list (list Z))
  : list (option (list Z)) + axes_error :=
  match axes with
  | None => inr AxesNotList
  | Some items =>
      let list_size := Z.of_nat (List.length items) in
      if negb (list_size =? nargs ufunc)
         && (negb (list_size =? nin ufunc)
             || negb (_has_output_coredims ufunc =? 0))
      then inr (AxesWrongLength (nargs ufunc))
      else
        match parse_axes_operands op_core_num_dims op broadcast_ndim pack_ok
                remap_axis items 0 with
        | inr e => inr e
        | inl rows =>
            inl (if negb (list_size =? nargs ufunc)
                 then rows ++ repeat None (Z.to_nat (nargs ufunc - nin ufunc))
                 else rows)
        end
  end.

(** The number of axes below [n] that [have_seen_axis] does not mark. *)
Fixpoint unseen_below (have_seen_axis : list Z) (n : nat) : Z :=
  match n with
  | O => 0
  | S n' =>
      unseen_below have_seen_axis n'
      + (if rd have_seen_axis (Z.of_nat n') =? 0 then 1 else 0)
  end.

(** The axis a row of the remap gives for [axis], NULL being no remap. *)
Definition remap_value (row : option (list Z)) (axis : Z) : Z :=
  match row with
  | Some r => rd r axis
  | None => axis
  end.

(* ================================================================== *)
(** ** The inputs of the outer method                                  *)
(* ================================================================== *)

(** An argument of [outer] as [prepare_input_arguments_for_outer] sees
    it: whether it is a [numpy.matrix], whether the deprecation warning
    can be issued without raising, and what [PyArray_FromObject] or
    [PyArray_FROM_O] make of it. *)
Record outer_arg : Type := mkOuterArg {
  oa_is_matrix : bool;
  oa_warn_ok : bool;
  oa_array : option PyArrayObject
}.

Inductive outer_error : Type :=
| OuterFailed                         (* the exception a collaborator left *)
| OuterTooManyDims (max_dims : Z) (ufunc_name : string) (len : Z)
    (* ValueError "maximum supported dimension for an ndarray is %d, but
       `%s.outer()` result would have %d." *)
| OuterShapeModified (ufunc_name : string).
    (* TypeError "%s.outer() called with ndarray-subclass of type '%s'
       which modified its shape after a reshape. ..." *)

(** [memcpy (newshape, PyArray_DIMS (ap1), ...)], entry by entry from
    entry [i] on, and the loop that stores 1 from entry [i] on. *)
Fixpoint copy_shape (src : list Z) (dst : list Z) (i : Z) (todo : nat)
  : list Z :=
  match todo with
  | O => dst
  | S todo' => copy_shape src (wr dst i (rd src i)) (i + 1) todo'
  end.

Fixpoint fill_ones (dst : list Z) (i : Z) (todo : nat) : list Z :=
  match todo with
  | O => dst
  | S todo' => fill_ones (wr dst i 1) (i + 1) todo'
  end.

Section Outer.

(** [PyArray_Newshape (ap1, &newdims, NPY_CORDER)], given the [len]
    entries of [newdims]. *)
Variable PyArray_Newshape : PyArrayObject -> list Z -> option PyArrayObject.

(** [prepare_input_arguments_for_outer]; [newshape] is the block of
    [NPY_MAXDIMS] entries the new shape is built in. *)
Definition prepare_input_arguments_for_outer (ufunc : PyUFuncObject)
           (arg0 arg1 : outer_arg) (newshape : list Z)
  : (PyArrayObject * PyArrayObject) + outer_error :=
  if oa_is_matrix arg0 && negb (oa_warn_ok arg0) then inr OuterFailed
  else
    match oa_array arg0 with
    | None => inr OuterFailed
    | Some ap1 =>
        if oa_is_matrix arg1 && negb (oa_warn_ok arg1) then inr OuterFailed
        else
          match oa_array arg1 with
          | None => inr OuterFailed
          | Some ap2 =>
              let len := PyArray_NDIM ap1 + PyArray_NDIM ap2 in
              if len >? NPY_MAXDIMS then
                inr (OuterTooManyDims NPY_MAXDIMS (name ufunc) len)
              else
                let newshape1 :=
                  copy_shape (dims ap1) newshape 0
                             (Z.to_nat (PyArray_NDIM ap1)) in
                let newshape2 :=
                  fill_ones newshape1 (PyArray_NDIM ap1)
                            (Z.to_nat (len - PyArray_NDIM ap1)) in
                match PyArray_Newshape ap1
                        (firstn (Z.to_nat len) newshape2) with
                | None => inr OuterFailed
                | Some ap_new =>
                    if negb (PyArray_NDIM ap_new =? len)
                       || negb (PyArray_CompareLists (dims ap_new) newshape2
                                                     len)
                    then inr (OuterShapeModified (name ufunc))
                    else inl (ap_new, ap2)
                end
          end
    end.

End Outer.

(* ================================================================== *)
(** ** The method taken from the inputs                                *)
(* ================================================================== *)

Section FindArrayMethod.

(** The priorities [PyArray_GetPriority] returns, with the comparison
    [>] of the C doubles. *)
Variable priority_t : Type.
Variable priority_gt : priority_t -> priority_t -> bool.

(** An argument as [_find_array_method] looks at it: whether it is an
    exact array or a scalar, what [PyObject_GetAttr] finds under the
    method name ([None]: the lookup raises), whether that is callable,
    and its priority. *)
Record method_arg : Type := mkMethodArg {
  ma_exact_or_scalar : bool;
  ma_attr : option Z;
  ma_callable : bool;
  ma_priority : priority_t
}.

(** The first loop: the arguments with a callable method, in order, each
    with its method, and the value [method] is left with. *)
Fixpoint collect_methods (args : list method_arg) (method : option Z)
  : list (method_arg * Z) * option Z :=
  match args with
  | [] => ([], method)
  | obj :: rest =>
      if ma_exact_or_scalar obj then collect_methods rest method
      else
        match ma_attr obj with
        | Some m =>
            if ma_callable obj then
              let '(found, last) := collect_methods rest (Some m) in
              ((obj, m) :: found, last)
            else collect_methods rest None
        | None => collect_methods rest None
        end
  end.

(** [for (i = 1; i < n_methods; ++i)]: "find the one of highest
    priority". *)
Fixpoint highest_priority (found : list (method_arg * Z))
         (maxpriority : priority_t) (method : Z) : Z :=
  match found with
  | [] => method
  | (obj, m) :: rest =>
      if priority_gt (ma_priority obj) maxpriority
      then highest_priority rest (ma_priority obj) m
      else highest_priority rest maxpriority method
  end.

(** [_find_array_method]: the method, [None] being NULL. *)
Definition _find_array_method (args : list method_arg) : option Z :=
  let '(found, method) := collect_methods args None in
  match found with
  | [] => method
  | [(_, m)] => Some m
  | (obj, m) :: rest => Some (highest_priority rest (ma_priority obj) m)
  end.

End FindArrayMethod.

Arguments ma_exact_or_scalar {priority_t} _.
Arguments ma_attr {priority_t} _.
Arguments ma_callable {priority_t} _.
Arguments ma_priority {priority_t} _.
Arguments collect_methods {priority_t} _ _.
Arguments highest_priority {priority_t} _ _ _ _.
Arguments _find_array_method {priority_t} _ _.

(* ================================================================== *)
(** ** The broadcast dimensions of a generalized call                  *)
(* ================================================================== *)

(** "Figure out the number of iteration dimensions, which is the
    broadcast result of all the non-core dimensions": the loop of
    [PyUFunc_GeneralizedFunctionInternal] over the operands, from operand
    [i] on. *)
Fixpoint broadcast_ndim_from (op : list (option PyArrayObject))
         (op_core_num_dims : list Z) (i : Z) (todo : nat)
         (broadcast_ndim : Z) : Z :=
  match todo with
  | O => broadcast_ndim
  | S todo' =>
      match get_op op i with
      | None =>
          broadcast_ndim_from op op_core_num_dims (i + 1) todo' broadcast_ndim
      | Some a =>
          let n := PyArray_NDIM a - rd op_core_num_dims i in
          broadcast_ndim_from op op_core_num_dims (i + 1) todo'
            (if n >? broadcast_ndim then n else broadcast_ndim)
      end
  end.

(** The steps of [PyUFunc_GeneralizedFunctionInternal] from the check of
    the dimensions to the number of iteration dimensions: the flags, the
    counts and [broadcast_ndim]. *)
Definition validated_broadcast_ndim (ufunc : PyUFuncObject)
           (op : list (option PyArrayObject))
           (core_dim_flags op_core_num_dims : list Z)
  : (list Z * list Z * Z) + too_few_dims :=
  match _validate_num_dims ufunc op core_dim_flags op_core_num_dims with
  | inr e => inr e
  | inl (flags', counts') =>
      inl (flags', counts',
           broadcast_ndim_from op counts' 0
             (Z.to_nat (nin ufunc + nout ufunc)) 0)
  end.

(** The arguments that provide a callable method, in order, each with
    its method. *)
Definition with_method {priority_t : Type}
           (args : list (method_arg priority_t))
  : list (method_arg priority_t * Z) :=
  flat_map (fun obj =>
              if ma_exact_or_scalar obj then []
              else
                match ma_attr obj with
                | Some m => if ma_callable obj then [(obj, m)] else []
                | None => []
                end) args.

(* ================================================================== *)
(** ** The masked inner loop of a reduction                            *)
(* ================================================================== *)

Section MaskedLoop.

Variable innerloop : list Z -> Z -> list Z -> machine -> machine.

(** [while (n < count && mask == *maskptr) { n++; maskptr +=
    mask_stride; }], the mask being read from the memory [m]. *)
Fixpoint extend_run (m : Z -> Z) (mask mask_stride count : Z)
         (n maskptr : Z) (fuel : nat) : Z * Z :=
  match fuel with
  | O => (n, maskptr)
  | S fuel' =>
      if (n <? count) && (mask =? m maskptr)
      then extend_run m mask mask_stride count (n + 1)
                      (maskptr + mask_stride) fuel'
      else (n, maskptr)
  end.

(** [while (count) { ... }] of the masked branch of [reduce_loop]: "if
    mask set, apply inner loop on this contiguous region". *)
Fixpoint masked_runs (stride0 stride1 mask_stride : Z)
         (dataptr0 dataptr1 : Z) (count n maskptr : Z) (fuel : nat)
         (r : run) : run :=
  match fuel with
  | O => r
  | S fuel' =>
      if count =? 0 then r
      else
        let mask := mem (mach r) maskptr in
        let '(n', maskptr') :=
          extend_run (mem (mach r)) mask mask_stride count n
                     (maskptr + mask_stride) (Z.to_nat count) in
        let r' :=
          if negb (mask =? 0)
          then call_innerloop innerloop [dataptr0; dataptr1; dataptr0] n'
                              [stride0; stride1; stride0] r
          else r in
        masked_runs stride0 stride1 mask_stride
                    (dataptr0 + n' * stride0) (dataptr1 + n' * stride1)
                    (count - n') 1 maskptr' fuel' r'
  end.

(** The masked branch of the body of the second loop of [reduce_loop],
    at a position of the iterator with the data pointers [dataptrs], the
    strides [strides] and the inner size [count]. *)
Definition masked_inner_loop (dataptrs strides : list Z) (count : Z)
           (r : run) : run :=
  let mask_stride := rd strides 2 in
  masked_runs (rd strides 0) (rd strides 1) mask_stride
              (rd dataptrs 0) (rd dataptrs 1) count
              (if mask_stride =? 0 then count else 1)
              (rd dataptrs 2) (Z.to_nat count) r.

End MaskedLoop.

(** The kernel invocation on the [n] elements from element [s] on of a
    position of a reduction. *)
Definition run_event (dataptrs strides : list Z) (sn : Z * Z) : event :=
  EvKernel [rd dataptrs 0 + fst sn * rd strides 0;
            rd dataptrs 1 + fst sn * rd strides 1;
            rd dataptrs 0 + fst sn * rd strides 0]
           (snd sn)
           [rd strides 0; rd strides 1; rd strides 0].

(** Runs of elements, each given by its first element and its length,
    that lie in [from, upto), none empty, in order and apart. *)
Fixpoint runs_in (from upto : Z) (runs : list (Z * Z)) : Prop :=
  match runs with
  | [] => True
  | (s, n) :: rest =>
      from <= s /\ 1 <= n /\ s + n <= upto /\ runs_in (s + n) upto rest
  end.

(** Element [k] lies in one of the runs. *)
Definition in_runs (runs : list (Z * Z)) (k : Z) : Prop :=
  exists s n, In (s, n) runs /\ s <= k < s + n.

(* ================================================================== *)
(** * What the entry points hand back                                  *)
(* ================================================================== *)

(** The kernel invoked at each position of a list, in their order. *)
Fixpoint run_blocks
         (innerloop : list Z -> Z -> list Z -> machine -> machine)
         (bs : list block) (r : run) : run :=
  match bs with
  | [] => r
  | b :: rest =>
      run_blocks innerloop rest
        (call_innerloop innerloop (b_dataptr b) (b_count b) (b_strides b) r)
  end.

(* ------------------------------------------------------------------ *)
(** *** The lanes accumulate and reduceat walk                         *)
(* ------------------------------------------------------------------ *)

(** The lanes of a list walked one after the other: [lane d0 d1] is what
    is done on the lane whose output starts at [d0] and whose input
    starts at [d1]. *)
Fixpoint walk_lanes (lane : Z -> Z -> run -> run) (lanes : list (list Z))
         (r : run) : run :=
  match lanes with
  | [] => r
  | l :: rest => walk_lanes lane rest (lane (rd l 0) (rd l 1) r)
  end.

(** The kernels leave the error indicator as they find it. *)
Definition kernels_keep_err (env : collaborators) : Prop :=
  forall id args count steps m,
    err (loops env id args count steps m) = err m.

(** No error interrupts a walk over the lanes: the iteration does not
    need the API, or no error is set at its start and the kernels set
    none. *)
Definition uninterrupted (env : collaborators) (needs_api : bool) (r : run)
  : Prop :=
  needs_api = false \/ (err (mach r) = false /\ kernels_keep_err env).

(** The arrays a call of [PyUFunc_Accumulate] that returns [res] works
    on, and the lanes it walks.  Without iterator, which takes an input
    of at most one dimension, they are the output (the one given, or the
    one allocated with the shape of the input) and the input themselves,
    in one lane from their first bytes.  With the
    iterator they are its operands, the array returned being the output
    given or else the iterator's, and the lanes are the positions the
    iterator yields (none when its size is zero). *)
Definition accumulate_walk (env : collaborators) (arr : PyArrayObject)
           (out : option PyArrayObject) (res op0 op1 : PyArrayObject)
           (lanes : list (list Z)) (needs_api : bool) : Prop :=
  (op0 = res /\ op1 = arr /\ lanes = [[data res; data arr]]
   /\ needs_api = false /\ PyArray_NDIM arr <= 1
   /\ match out with
      | Some o => res = o
      | None =>
          exists dtype0,
            PyArray_NewFromDescr (new_block env) dtype0 (PyArray_NDIM arr)
                                 (dims arr) false = Some res
      end)
  \/ exists dtype0 it,
      NpyIter_AdvancedNew env [out; Some arr] dtype0 = Some it
      /\ op0 = nth 0 (ri_operands it) arr
      /\ op1 = nth 1 (ri_operands it) arr
      /\ res = match out with Some o => o | None => op0 end
      /\ lanes = (if ri_size it =? 0 then []
                  else ri_first it :: ri_next it)
      /\ needs_api = ri_needs_api it.

(** The same for a call of [PyUFunc_Reduceat]: without iterator the
    output is the one the call allocates, with one element per index. *)
Definition reduceat_walk (env : collaborators) (arr ind : PyArrayObject)
           (out : option PyArrayObject) (res op0 op1 : PyArrayObject)
           (lanes : list (list Z)) (needs_api : bool) : Prop :=
  (op0 = res /\ op1 = arr /\ lanes = [[data res; data arr]]
   /\ needs_api = false /\ PyArray_NDIM arr <= 1 /\ out = None
   /\ exists dtype0,
       PyArray_NewFromDescr (new_block env) dtype0 1 [PyArray_DIM ind 0]
                            false = Some res)
  \/ exists dtype0 it,
      NpyIter_AdvancedNew env [out; Some arr; Some ind] dtype0 = Some it
      /\ op0 = nth 0 (ri_operands it) arr
      /\ op1 = nth 1 (ri_operands it) arr
      /\ res = match out with Some o => o | None => op0 end
      /\ lanes = (if ri_size it =? 0 then []
                  else ri_first it :: ri_next it)
      /\ needs_api = ri_needs_api it.

(* ------------------------------------------------------------------ *)
(** *** The type of the array a reduction returns                      *)
(* ------------------------------------------------------------------ *)

(** The loop table has a loop on the type [t] alone, at row [i], and no
    earlier row can take its place: row [i] is [t t -> t], [t] casts
    safely to itself and to the first type of no row before [i]. *)
Definition first_loop_on (env : collaborators) (ufunc : PyUFuncObject)
           (t i : Z) : Prop :=
  0 <= i < ntypes ufunc
  /\ rd (types ufunc) (i * nargs ufunc) = t
  /\ rd (types ufunc) (i * nargs ufunc + 1) = t
  /\ rd (types ufunc) (i * nargs ufunc + 2) = t
  /\ PyArray_CanCastSafely env t t = true
  /\ forall j, 0 <= j < i ->
               PyArray_CanCastSafely env t (rd (types ufunc) (j * nargs ufunc))
               = false.

(** The descriptor constructors answer in the type asked of them:
    [PyArray_DescrFromType] in the type of the number given,
    [PyArray_DescrNewByteorder] in the type of its argument. *)
Definition descr_constructors_keep_type (env : collaborators) : Prop :=
  (forall t d, PyArray_DescrFromType env t = Some d -> type_num d = t)
  /\ (forall d d', PyArray_DescrNewByteorder env d = Some d' ->
                   type_num d' = type_num d).

(** The iterator makes an output that is not given in the type asked of
    it. *)
Definition iterator_allocates_in_type (env : collaborators) : Prop :=
  forall ops dtype it arr,
    NpyIter_AdvancedNew env (None :: ops) dtype = Some it ->
    descr (nth 0 (ri_operands it) arr) = dtype.

(** The type resolver and the reduce wrapper of a ufunc whose loops are
    on one type each, as those of add and multiply: asked for two inputs
    of a type, the resolver answers with that type for the result, and
    the wrapper makes a result that is not given in the type it is
    handed. *)
Definition reduce_keeps_type (env : collaborators) : Prop :=
  (forall arr d retcode dtypes,
      type_resolver env arr (Some d) = (retcode, dtypes) ->
      retcode <> -1 -> retcode <> -2 ->
      type_num (nth 2 dtypes (mkDescr 0 0)) = type_num d)
  /\ (forall arr wheremask dtype axis_flags reorderable keepdims initial r
             res r',
         PyUFunc_ReduceWrapper env arr None wheremask dtype axis_flags
                               reorderable keepdims initial r
         = (Returned res, r') ->
         descr res = dtype).

(** Collaborators for an [add] over the type number [NPY_LONG] whose
    iterator makes the output that is not given, at address 1000, and
    works on a copy of the input in that type, at address 2000; the
    reduce wrapper returns a 0-D array at address 1000. *)
Definition alloc_env : collaborators :=
  mkCollab (fun _ => binary_kernel Z.add)
           (fun a b => a =? b)
           (fun _ => false)
           true
           (fun t => Some (mkDescr t 8))
           (fun d => Some d)
           (fun _ => true)
           (fun a b => type_num a =? type_num b)
           (fun a b => if data a =? data b then 1 else 0)
           (Some 1000)
           (fun ops dtype =>
              match ops with
              | None :: Some arr :: _ =>
                  Some (single_lane
                          (c_array 1000 (type_num dtype) (elsize dtype)
                                   (dims arr))
                          (c_array 2000 (type_num dtype) (elsize dtype)
                                   (dims arr)))
              | Some out :: Some arr :: _ => Some (single_lane out arr)
              | _ => None
              end)
           (fun _ d => (0, match d with
                           | Some d => [d; d; d]
                           | None => []
                           end))
           (fun arr _ _ dtype _ _ _ _ r =>
              (Returned (c_array 1000 (type_num dtype) (elsize dtype) []),
               r)).

(* ================================================================== *)
(** * The calls: the plain call, outer and at                          *)
(* ================================================================== *)

(** An array with a dimension of extent 0. *)
Definition has_zero_extent (a : PyArrayObject) : Prop :=
  exists k, 0 <= k < PyArray_NDIM a /\ PyArray_DIM a k = 0.

(* ------------------------------------------------------------------ *)
(** *** The loop with a mask                                           *)
(* ------------------------------------------------------------------ *)

(** The iterator of a generalized call, with the calls that take the
    core dimensions of the outputs out of it. *)
Record CoreIter : Type := mkCoreIter {
  ci_iter : NpyIter;
  ci_remove_axis_ok : bool;             (* NpyIter_RemoveAxis *)
  ci_remove_multi_index_ok : bool;      (* NpyIter_RemoveMultiIndex *)
  ci_external_loop_ok : bool            (* NpyIter_EnableExternalLoop *)
}.

(** The external collaborators of the engine of a call: the inner loops
    the selectors of the ufunc select, the macro and the functions of
    the array library, the allocator, the iterator constructor (for an
    elementwise and for a generalized call), [_get_bufsize_errmask] (the
    buffer size, [None] for its -1), [_check_ufunc_fperr], and the
    constants [NPY_MAXARGS], [NPY_SUCCEED] and [NPY_FAIL] of
    [ndarraytypes.h]. *)
Record engine : Type := mkEngine {
  eg_innerloop : list Z -> Z -> list Z -> machine -> machine;
  eg_selector_ok : bool;          (* legacy_inner_loop_selector >= 0 *)
  eg_masked_innerloop :
    list Z -> list Z -> Z -> Z -> Z -> machine -> machine;
  eg_masked_selector_ok : bool;   (* masked_inner_loop_selector >= 0 *)
  eg_overlap_ok : PyArrayObject -> PyArrayObject -> bool;
  eg_equiv_types : PyArray_Descr -> PyArray_Descr -> bool;
  eg_cast_to_type : PyArrayObject -> PyArray_Descr -> option PyArrayObject;
  eg_block : option Z;
  eg_iter : list (option PyArrayObject) -> option NpyIter;
  eg_core_iter : list (option PyArrayObject) -> option CoreIter;
  eg_bufsize : option Z;
  eg_fperr_ok : bool;
  eg_maxargs : Z;
  eg_succeed : Z;
  eg_fail : Z
}.

(** [innerloop (dataptr, strides, dataptr[nop], strides[nop], *countptr,
    innerloopdata)] of the masked loop. *)
Definition call_masked_innerloop
           (k : list Z -> list Z -> Z -> Z -> Z -> machine -> machine)
           (nop : Z) (dataptr : list Z) (count : Z) (strides : list Z)
           (r : run) : run :=
  log (EvKernel dataptr count strides)
      (mkRun (k dataptr strides (rd dataptr nop) (rd strides nop) count
                (mach r))
             (trace r)).

(** [do { innerloop (...); } while (!(needs_api && PyErr_Occurred ())
    && iternext (iter));] of [execute_fancy_ufunc_loop]. *)
Fixpoint iterate_masked
         (k : list Z -> list Z -> Z -> Z -> Z -> machine -> machine)
         (nop : Z) (needs_api : bool) (b : block) (rest : list block)
         (r : run) : run :=
  let r' := call_masked_innerloop k nop (b_dataptr b) (b_count b)
                                  (b_strides b) r in
  if needs_api && err (mach r') then r'
  else
    match rest with
    | [] => r'
    | b' :: rest' => iterate_masked k nop needs_api b' rest' r'
    end.

(** "Call the __array_prepare__ functions where necessary", over the
    outputs: an output that is not given is the one the iterator
    allocated, and the hook must leave the data pointer as it is. *)
Fixpoint prepare_masked
         (equiv_types : PyArray_Descr -> PyArray_Descr -> bool)
         (ops : list (option PyArrayObject)) (op_it : list PyArrayObject)
         (arr_prep : list prepare_hook)
  : option (list (option PyArrayObject)) :=
  match ops with
  | [] => Some []
  | o :: rest =>
      let op_tmp :=
        match o with
        | None => hd (mkArray 0 [] [] (mkDescr 0 0) 0) op_it
        | Some a => a
        end in
      match prepare_ufunc_output equiv_types (hd None arr_prep) op_tmp with
      | None => None
      | Some a' =>
          if negb (data a' =? data op_tmp) then None
          else
            match prepare_masked equiv_types rest (tl op_it)
                                 (tl arr_prep) with
            | None => None
            | Some rest' => Some (Some a' :: rest')
            end
      end
  end.

(** [execute_fancy_ufunc_loop]; [op] holds the mask after the operands.
    The value returned after the loop is that of [NpyIter_Deallocate]. *)
Definition execute_fancy_ufunc_loop (eg : engine) (ufunc : PyUFuncObject)
           (wheremask : option PyArrayObject)
           (op : list (option PyArrayObject))
           (arr_prep : list prepare_hook) (r : run) : outcome :=
  let n_in := Z.to_nat (nin ufunc) in
  let n_out := Z.to_nat (nout ufunc) in
  let nop := nin ufunc + nout ufunc in
  let inputs := firstn n_in op in
  let outputs := firstn n_out (skipn n_in op) in
  match eg_iter eg
          (firstn (Z.to_nat (nop + match wheremask with
                                   | Some _ => 1
                                   | None => 0
                                   end)) op) with
  | None => mkOutcome (-1) op r
  | Some iter =>
      match prepare_masked (eg_equiv_types eg) outputs
              (skipn n_in (it_operands iter)) arr_prep with
      | None => mkOutcome (-1) op r
      | Some outputs1 =>
          let op1 := inputs ++ outputs1 ++ skipn (n_in + n_out) op in
          let looped : option run :=
            if negb (it_size iter =? 0) then
              if negb (eg_masked_selector_ok eg) then None
              else if negb (it_iternext_ok iter) then None
              else
                let base := map data (it_operands iter) in
                Some (iterate_masked (eg_masked_innerloop eg) nop
                        (it_needs_api iter) (it_first iter base)
                        (it_next iter base) r)
            else Some r in
          match looped with
          | None => mkOutcome (-1) op1 r
          | Some r' =>
              mkOutcome (if it_dealloc_ok iter then eg_succeed eg
                         else eg_fail eg) op1 r'
          end
      end
  end.

(* ------------------------------------------------------------------ *)
(** *** The engine of an elementwise call                              *)
(* ------------------------------------------------------------------ *)

(** [PyUFunc_GenericFunctionInternal]. *)
Definition PyUFunc_GenericFunctionInternal (eg : engine)
           (ufunc : PyUFuncObject) (operation_descrs : list PyArray_Descr)
           (op : list (option PyArrayObject)) (order : NPY_ORDER)
           (output_array_prepare : list prepare_hook)
           (wheremask : option PyArrayObject) (r : run) : outcome :=
  let nop := nin ufunc + nout ufunc in
  match eg_bufsize eg with
  | None => mkOutcome (-1) op r
  | Some buffersize =>
      let o :=
        match wheremask with
        | Some mask =>
            if nop + 1 >? eg_maxargs eg then mkOutcome (-1) op r
            else
              execute_fancy_ufunc_loop eg ufunc wheremask
                (set_op op nop mask) output_array_prepare r
        | None =>
            let (trivial_loop_ok, op1) :=
              check_for_trivial_loop (eg_equiv_types eg)
                (eg_cast_to_type eg) ufunc op operation_descrs buffersize in
            if trivial_loop_ok <? 0 then mkOutcome (-1) op1 r
            else
              execute_legacy_ufunc_loop (eg_innerloop eg)
                (eg_overlap_ok eg) (eg_equiv_types eg) (eg_iter eg) ufunc
                (eg_selector_ok eg) trivial_loop_ok op1 operation_descrs
                order output_array_prepare (eg_block eg) r
        end in
      if ret o <? 0 then mkOutcome (-1) (out_ops o) (after o)
      else if err (mach (after o)) || negb (eg_fperr_ok eg) then
        mkOutcome (-1) (out_ops o) (after o)
      else o
  end.

(* ------------------------------------------------------------------ *)
(** *** The engine of a generalized call                               *)
(* ------------------------------------------------------------------ *)

(** [_check_axis_support]: whether it returns 0. *)
Definition _check_axis_support (ufunc : PyUFuncObject) : bool :=
  core_num_dim_ix ufunc =? 1.

(** "signal that all output dimensions will be the same too": [for (i =
    nin; i < nop; ++i) op_core_num_dims[i] = num_dims], from output [i]
    on. *)
Fixpoint keep_output_dims (op_core_num_dims : list Z) (num_dims : Z)
         (i : Z) (todo : nat) : list Z :=
  match todo with
  | O => op_core_num_dims
  | S todo' =>
      keep_output_dims (wr op_core_num_dims i num_dims) num_dims (i + 1)
                       todo'
  end.

(** [for (i = nin; i < nop; ++i) iter_ndim += op_core_num_dims[i]], from
    output [i] on. *)
Fixpoint add_core_dims (op_core_num_dims : list Z) (i : Z) (todo : nat)
         (iter_ndim : Z) : Z :=
  match todo with
  | O => iter_ndim
  | S todo' =>
      add_core_dims op_core_num_dims (i + 1) todo'
                    (iter_ndim + rd op_core_num_dims i)
  end.

(** "Fill in any allocated outputs", over the outputs. *)
Fixpoint fill_allocated (ops : list (option PyArrayObject))
         (operands : list PyArrayObject) : list (option PyArrayObject) :=
  match ops with
  | [] => []
  | o :: rest =>
      match o with
      | Some a => Some a
      | None => Some (hd (mkArray 0 [] [] (mkDescr 0 0) 0) operands)
      end :: fill_allocated rest (tl operands)
  end.

(** "Copy the strides after the first nop": the strides of the core
    dimensions of the operand [arr] at index [i], from its core
    dimension [j] on. *)
Fixpoint core_strides_operand (ufunc : PyUFuncObject)
         (core_dim_flags : list Z)
         (remap_axis : option (list (option (list Z))))
         (i : Z) (arr : PyArrayObject) (core_start_dim : Z) (todo : nat)
         (j num_removed : Z) : list Z :=
  match todo with
  | O => []
  | S todo' =>
      let core_dim_index :=
        rd (core_dim_ixs ufunc) (rd (core_offsets ufunc) i + j) in
      if negb (Z.land (rd core_dim_flags core_dim_index)
                      UFUNC_CORE_DIM_MISSING =? 0)
      then
        0 :: core_strides_operand ufunc core_dim_flags remap_axis i arr
               core_start_dim todo' (j + 1) (num_removed + 1)
      else
        let remapped_axis :=
          REMAP_AXIS remap_axis i (core_start_dim + j - num_removed) in
        (if negb (PyArray_DIM arr remapped_axis =? 1)
         then PyArray_STRIDE arr remapped_axis else 0)
          :: core_strides_operand ufunc core_dim_flags remap_axis i arr
               core_start_dim todo' (j + 1) num_removed
  end.

(** The same over the operands of the iterator, from operand [i] on. *)
Fixpoint core_strides (ufunc : PyUFuncObject) (core_dim_flags : list Z)
         (remap_axis : option (list (option (list Z))))
         (op_core_num_dims : list Z) (operands : list PyArrayObject)
         (i : Z) : list Z :=
  match operands with
  | [] => []
  | arr :: rest =>
      core_strides_operand ufunc core_dim_flags remap_axis i arr
        (PyArray_NDIM arr - rd op_core_num_dims i)
        (Z.to_nat (rd (core_num_dims ufunc) i)) 0 0
      ++ core_strides ufunc core_dim_flags remap_axis op_core_num_dims
           rest (i + 1)
  end.

(** [PyUFunc_GeneralizedFunctionInternal].  [axis] is the argument as
    [PyArray_PyIntAsInt] reads it and [axes] the list the argument is,
    each [None] when it is not given; [remap_memory] is the blocks
    [PyArray_malloc] gives for the remapped axes, [None] when it fails,
    and [strides_ok] tells whether it gives the block for the inner
    strides.  What the call hands to the iterator besides the operands,
    [op_axes] and [iter_shape], is not modelled. *)
Definition PyUFunc_GeneralizedFunctionInternal (eg : engine)
           (ufunc : PyUFuncObject) (op : list (option PyArrayObject))
           (axis : option (option Z))
           (axes : option (option (list axes_item))) (keepdims : Z)
           (remap_memory : option (list (list Z)))
           (pack_ok strides_ok : bool) (r : run) : outcome :=
  let n_in := Z.to_nat (nin ufunc) in
  let n_out := Z.to_nat (nout ufunc) in
  let nop := nin ufunc + nout ufunc in
  let fail := mkOutcome (-1) op r in
  if negb (keepdims =? -1)
     && match _check_keepdims_support ufunc with
        | Some _ => true
        | None => false
        end
  then fail
  else if match axis with Some _ => true | None => false end
          && negb (_check_axis_support ufunc)
  then fail
  else
    let op_core_num_dims :=
      if keepdims =? 1 then
        keep_output_dims (core_num_dims ufunc)
          (rd (core_num_dims ufunc) 0) (nin ufunc) n_out
      else core_num_dims ufunc in
    match _validate_num_dims ufunc op (core_dim_flags ufunc)
            op_core_num_dims with
    | inr _ => fail
    | inl (core_dim_flags1, op_core_num_dims1) =>
        let broadcast_ndim :=
          broadcast_ndim_from op op_core_num_dims1 0 (Z.to_nat nop) 0 in
        let remapped : option (option (list (option (list Z)))) :=
          match axes, axis with
          | None, None => Some None
          | _, _ =>
              match remap_memory with
              | None => None
              | Some blocks =>
                  match axis with
                  | Some a =>
                      match _parse_axis_arg ufunc op_core_num_dims1 a op
                              broadcast_ndim blocks with
                      | inl rows => Some (Some rows)
                      | inr _ => None
                      end
                  | None =>
                      match _parse_axes_arg ufunc op_core_num_dims1
                              (match axes with
                               | Some a => a
                               | None => None
                               end) op broadcast_ndim pack_ok blocks with
                      | inl rows => Some (Some rows)
                      | inr _ => None
                      end
                  end
              end
          end in
        match remapped with
        | None => fail
        | Some remap_axis =>
            match _get_coredim_sizes ufunc core_dim_flags1 remap_axis op
                    op_core_num_dims1 (core_dim_sizes ufunc) with
            | CoreDimError _ => fail
            | CoreDimOk _ =>
                let iter_ndim :=
                  add_core_dims op_core_num_dims1 (nin ufunc) n_out
                                broadcast_ndim in
                if iter_ndim >? NPY_MAXDIMS then fail
                else
                  match eg_bufsize eg with
                  | None => fail
                  | Some _ =>
                      if negb (eg_selector_ok eg) then fail
                      else
                        match eg_core_iter eg
                                (firstn (Z.to_nat nop) op) with
                        | None => fail
                        | Some ci =>
      let iter := ci_iter ci in
      let op1 :=
        firstn n_in op
        ++ fill_allocated (firstn n_out (skipn n_in op))
                          (skipn n_in (it_operands iter))
        ++ skipn (n_in + n_out) op in
      let fail1 := mkOutcome (-1) op1 r in
      if negb strides_ok then fail1
      else
        let core :=
          core_strides ufunc core_dim_flags1 remap_axis op_core_num_dims1
            (firstn (Z.to_nat nop) (it_operands iter)) 0 in
        if (broadcast_ndim <? iter_ndim) && negb (ci_remove_axis_ok ci)
        then fail1
        else if negb (ci_remove_multi_index_ok ci) then fail1
        else if negb (ci_external_loop_ok ci) then fail1
        else
          let base := map data (it_operands iter) in
          let inner_strides :=
            firstn (Z.to_nat nop) (b_strides (it_first iter base)) ++ core
          in
          let (code, r') :=
            generalized_inner_loop (eg_innerloop eg) iter inner_strides
                                   (eg_fperr_ok eg) r in
          mkOutcome code op1 r'
                        end
                  end
            end
        end
    end.

(* ------------------------------------------------------------------ *)
(** *** The call                                                       *)
(* ------------------------------------------------------------------ *)

(** An input of a call: the object the caller passed, or the array
    [prepare_input_arguments_for_outer] put in its place. *)
Inductive in_object : Type :=
| InObject (o : pyobj)
| InArray (a : PyArrayObject).

(** The keyword arguments of a call, each as its converter leaves it:
    the outer [None] is for an argument that is not given, the inner one
    for a converter that fails. *)
Record call_keywords : Type := mkKeywords {
  kw_parsed : bool;                          (* npy_parse_arguments *)
  kw_out : option out_object;                (* out_obj *)
  kw_pack_ok : bool;                         (* PyTuple_Pack *)
  kw_where : option (option (option PyArrayObject));
                                             (* _wheremask_converter *)
  kw_axes : option (option (list axes_item));
  kw_axis : option (option Z);               (* PyArray_PyIntAsInt *)
  kw_keepdims : option (option bool);        (* _keepdims_converter *)
  kw_casting_ok : bool;                      (* PyArray_CastingConverter *)
  kw_order : option (option NPY_ORDER);      (* PyArray_OrderConverter *)
  kw_subok : option (option bool);           (* _subok_converter *)
  kw_signature_ok : bool         (* _check_and_copy_sig_to_signature *)
}.

(** No keyword argument: [kwnames == NULL]. *)
Definition no_keywords : call_keywords :=
  mkKeywords true None true None None None None true None None true.

(** The collaborators of a call besides its engine: what tells an array
    from another object and makes an array of either, the override
    check, the reshaping of [outer] and the block its new shape is built
    in, the type resolution, the hooks [_find_array_prepare] finds, the
    memory of the generalized call, and the wrapping of the results. *)
Record caller : Type := mkCaller {
  cl_array_of : pyobj -> option PyArrayObject;  (* PyArray_Check *)
  cl_from_array : PyArrayObject -> option PyArrayObject;
                                  (* PyArray_FromArray (obj_a, NULL, 0) *)
  cl_from_any : pyobj -> option PyArrayObject;  (* PyArray_FromAny *)
  cl_writeable : PyArrayObject -> bool;  (* PyArray_FailUnlessWriteable *)
  cl_in_packed : bool;                   (* PyArray_TupleFromItems *)
  cl_out_packed : bool;                  (* PyTuple_New (nout) *)
  cl_override : override_outcome;        (* PyUFunc_CheckOverride *)
  cl_outer_arg : pyobj -> outer_arg;
  cl_newshape : PyArrayObject -> list Z -> option PyArrayObject;
                                         (* PyArray_Newshape *)
  cl_newshape_block : list Z;
  cl_typetup_ok : bool;                  (* _get_normalized_typetup *)
  cl_type_resolver : list (option PyArrayObject)
                     -> option (list PyArray_Descr);
  cl_prepare : list prepare_hook;        (* _find_array_prepare *)
  cl_remap_memory : option (list (list Z));
  cl_strides_ok : bool;
  cl_wrap_ok : Z -> PyArrayObject -> bool;  (* _apply_array_wrap != NULL *)
  cl_tuple_ok : bool                     (* PyTuple_New (nout) *)
}.

(** What a call hands back: the arrays of its outputs, as they are
    handed to [_apply_array_wrap]; NULL with the exception the call
    itself or [prepare_input_arguments_for_outer] raises, or with the one
    a step that failed has left; or the object an override produced. *)
Inductive call_result : Type :=
| CallReturned (outs : list PyArrayObject)
| CallRaised (e : exn)
| CallOuterRaised (e : outer_error)
| CallFailed
| CallOverridden (res : pyobj).

(** [_set_out_array]: the array to store ([None] for NULL), or [None]
    for -1. *)
Definition _set_out_array (cl : caller) (obj : pyobj)
  : option (option PyArrayObject) :=
  if is_py_none obj then Some None
  else
    match cl_array_of cl obj with
    | Some a => if cl_writeable cl a then Some (Some a) else None
    | None => None
    end.

(** "Convert and fill in input arguments". *)
Fixpoint convert_inputs (cl : caller) (objs : list in_object)
  : option (list (option PyArrayObject)) :=
  match objs with
  | [] => Some []
  | obj :: rest =>
      let converted :=
        match obj with
        | InArray a => cl_from_array cl a
        | InObject o =>
            match cl_array_of cl o with
            | Some a => cl_from_array cl a
            | None => cl_from_any cl o
            end
        end in
      match converted with
      | None => None
      | Some a =>
          match convert_inputs cl rest with
          | None => None
          | Some rest' => Some (Some a :: rest')
          end
      end
  end.

(** "Convert and fill in output arguments". *)
Fixpoint convert_outputs (cl : caller) (objs : list pyobj)
  : option (list (option PyArrayObject)) :=
  match objs with
  | [] => Some []
  | obj :: rest =>
      match _set_out_array cl obj with
      | None => None
      | Some o =>
          match convert_outputs cl rest with
          | None => None
          | Some rest' => Some (o :: rest')
          end
      end
  end.

(** What [convert_ufunc_arguments] fills in. *)
Record converted : Type := mkConverted {
  cd_operands : list (option PyArrayObject);
  cd_order : NPY_ORDER;
  cd_subok : bool;
  cd_wheremask : option PyArrayObject;
  cd_keepdims : Z
}.

(** [convert_ufunc_arguments]: [None] is its -1. *)
Definition convert_ufunc_arguments (cl : caller) (ufunc : PyUFuncObject)
           (full_in : list in_object) (full_out : option (list pyobj))
           (kw : call_keywords) (keepdims_obj : option (option bool))
  : option converted :=
  match convert_inputs cl full_in with
  | None => None
  | Some inputs =>
      match match full_out with
            | Some objs => convert_outputs cl objs
            | None => Some (repeat None (Z.to_nat (nout ufunc)))
            end with
      | None => None
      | Some outputs =>
          match kw_where kw with
          | Some None => None
          | where_ =>
              match keepdims_obj with
              | Some None => None
              | keepdims =>
                  if negb (kw_casting_ok kw) then None
                  else
                    match kw_order kw with
                    | Some None => None
                    | order =>
                        match kw_subok kw with
                        | Some None => None
                        | subok =>
                            Some
                              (mkConverted (inputs ++ outputs)
                                 (match order with
                                  | Some (Some o) => o
                                  | _ => NPY_KEEPORDER
                                  end)
                                 (match subok with
                                  | Some (Some b) => b
                                  | _ => true
                                  end)
                                 (match where_ with
                                  | Some (Some w) => w
                                  | _ => None
                                  end)
                                 (match keepdims with
                                  | Some (Some true) => 1
                                  | Some (Some false) => 0
                                  | _ => -1
                                  end))
                        end
                    end
              end
          end
      end
  end.

(** The loop of [replace_with_wrapped_result_and_return] over the
    results, from output [i] on: whether every one is wrapped. *)
Fixpoint wrap_results (cl : caller) (i : Z) (results : list PyArrayObject)
  : bool :=
  match results with
  | [] => true
  | a :: rest =>
      if cl_wrap_ok cl i a then wrap_results cl (i + 1) rest else false
  end.

(** Everything [ufunc_generic_fastcall] has settled when it reaches its
    engine: the operands, their types, the order, the hooks of the
    outputs, the mask, and for a generalized ufunc the arguments on the
    axes. *)
Record call_plan : Type := mkCallPlan {
  cp_operands : list (option PyArrayObject);
  cp_descrs : list PyArray_Descr;
  cp_order : NPY_ORDER;
  cp_prepare : list prepare_hook;
  cp_wheremask : option PyArrayObject;
  cp_keepdims : Z;
  cp_axis : option (option Z);
  cp_axes : option (option (list axes_item));
  cp_pack_ok : bool
}.

Inductive call_planned : Type :=
| CallPlan (p : call_plan)
| CallStops (res : call_result).

(** [ufunc_generic_fastcall] up to "Do the final preparations and call
    the inner-loop"; [args] holds the [len_args] positional arguments and
    [kwnames] is [None] for NULL. *)
Definition call_plan_of (cl : caller) (ufunc : PyUFuncObject)
           (args : list pyobj) (kwnames : option call_keywords)
           (outer : bool) : call_planned :=
  let n_in := Z.to_nat (nin ufunc) in
  let n_out := Z.to_nat (nout ufunc) in
  let nop := nargs ufunc in
  let len_args := Z.of_nat (List.length args) in
  if (len_args <? nin ufunc) || (len_args >? nop) then
    CallStops
      (CallRaised
         (TypeError
            "%s() takes from %d to %d positional arguments but %zd were given"))
  else if negb (cl_in_packed cl) then CallStops CallFailed
  else
    let full_in := map InObject (firstn n_in args) in
    let out_is_passed_by_position := len_args >? nin ufunc in
    if out_is_passed_by_position && negb (cl_out_packed cl) then
      CallStops CallFailed
    else
      let full_out0 : option (list pyobj) :=
        if out_is_passed_by_position then
          let items :=
            skipn n_in args ++ repeat PyNone (Z.to_nat (nop - len_args)) in
          if tuple_all_none items then None else Some items
        else None in
      let kw := match kwnames with Some kw => kw | None => no_keywords end in
      let axes_obj :=
        if negb (core_enabled ufunc =? 0) then kw_axes kw else None in
      let axis_obj :=
        if negb (core_enabled ufunc =? 0) then kw_axis kw else None in
      let keepdims_obj :=
        if negb (core_enabled ufunc =? 0) then kw_keepdims kw else None in
      if negb (kw_parsed kw) then CallStops CallFailed
      else if match axes_obj, axis_obj with
              | Some _, Some _ => true
              | _, _ => false
              end
      then
        CallStops
          (CallRaised (TypeError "cannot specify both 'axis' and 'axes'"))
      else
        let full_out1 : option (list pyobj) + call_result :=
          match kw_out kw with
          | None => inl full_out0
          | Some out_obj =>
              if out_is_passed_by_position then
                inr (CallRaised
                       (TypeError
                          "cannot specify 'out' as both a positional and keyword argument"))
              else
                match _set_full_args_out (nout ufunc) out_obj
                        (kw_pack_ok kw) full_out0 with
                | inr e => inr (CallRaised e)
                | inl out => inl out
                end
          end in
        match full_out1 with
        | inr res => CallStops res
        | inl full_out =>
            if negb (kw_signature_ok kw) then CallStops CallFailed
            else
              match cl_override cl with
              | OverrideFails => CallStops CallFailed
              | OverrideReturns res => CallStops (CallOverridden res)
              | NoOverride =>
                  let new_in : list in_object + call_result :=
                    if outer then
                      match prepare_input_arguments_for_outer
                              (cl_newshape cl) ufunc
                              (cl_outer_arg cl (nth 0 args PyNone))
                              (cl_outer_arg cl (nth 1 args PyNone))
                              (cl_newshape_block cl) with
                      | inr e => inr (CallOuterRaised e)
                      | inl (ap_new, ap2) => inl [InArray ap_new; InArray ap2]
                      end
                    else inl full_in in
                  match new_in with
                  | inr res => CallStops res
                  | inl full_in1 =>
                      if negb (cl_typetup_ok cl) then CallStops CallFailed
                      else
                        match convert_ufunc_arguments cl ufunc full_in1
                                full_out kw keepdims_obj with
                        | None => CallStops CallFailed
                        | Some cd =>
                            match cl_type_resolver cl (cd_operands cd) with
                            | None => CallStops CallFailed
                            | Some operation_descrs =>
                                CallPlan
                                  (mkCallPlan (cd_operands cd)
                                     operation_descrs (cd_order cd)
                                     (if cd_subok cd then cl_prepare cl
                                      else repeat None n_out)
                                     (cd_wheremask cd) (cd_keepdims cd)
                                     axis_obj axes_obj (kw_pack_ok kw))
                            end
                        end
                  end
              end
        end.

(** [ufunc_generic_fastcall]: the plan, the engine, and the wrapping of
    the results. *)
Definition ufunc_generic_fastcall (eg : engine) (cl : caller)
           (ufunc : PyUFuncObject) (args : list pyobj)
           (kwnames : option call_keywords) (outer : bool) (r : run)
  : call_result * run :=
  match call_plan_of cl ufunc args kwnames outer with
  | CallStops res => (res, r)
  | CallPlan p =>
      let n_in := Z.to_nat (nin ufunc) in
      let n_out := Z.to_nat (nout ufunc) in
      let o :=
        if core_enabled ufunc =? 0 then
          PyUFunc_GenericFunctionInternal eg ufunc (cp_descrs p)
            (cp_operands p) (cp_order p) (cp_prepare p) (cp_wheremask p) r
        else
          PyUFunc_GeneralizedFunctionInternal eg ufunc (cp_operands p)
            (cp_axis p) (cp_axes p) (cp_keepdims p) (cl_remap_memory cl)
            (cp_pack_ok p) (cl_strides_ok cl) r in
      if ret o <? 0 then (CallFailed, after o)
      else
        let results := supplied (firstn n_out (skipn n_in (out_ops o))) in
        if negb (wrap_results cl 0 results) then (CallFailed, after o)
        else if negb (nout ufunc =? 1) && negb (cl_tuple_ok cl) then
          (CallFailed, after o)
        else (CallReturned results, after o)
  end.

(** [ufunc_outer]. *)
Definition ufunc_outer (eg : engine) (cl : caller) (ufunc : PyUFuncObject)
           (args : list pyobj) (kwnames : option call_keywords) (r : run)
  : call_result * run :=
  if negb (core_enabled ufunc =? 0) then
    (CallRaised
       (TypeError
          "method outer is not allowed in ufunc with non-trivial signature"),
     r)
  else if negb (nin ufunc =? 2) then
    (CallRaised
       (ValueError "outer product only supported for binary functions"), r)
  else if negb (Z.of_nat (List.length args) =? 2) then
    (CallRaised (TypeError "exactly two arguments expected"), r)
  else ufunc_generic_fastcall eg cl ufunc args kwnames true r.

(* ------------------------------------------------------------------ *)
(** *** at                                                             *)
(* ------------------------------------------------------------------ *)

(** The iterator over the positions an index selects in the first
    operand of [at], as [ufunc_at] reads it. *)
Record MapIter : Type := mkMapIter {
  mi_array : PyArrayObject;           (* iter->array *)
  mi_subspace : bool;                 (* iter->subspace != NULL *)
  mi_consec : bool;                   (* iter->consec *)
  mi_size : Z;                        (* iter->size *)
  mi_dataptr : Z -> Z
      (* iter->dataptr after so many calls of PyArray_MapIterNext *)
}.

(** The buffered iterator over one element of each operand:
    [NpyIter_ResetBasePointers] copies the elements at the pointers given
    into the buffers, whose addresses it yields, or leaves an error
    message ([None]), and [iternext] copies the result back. *)
Record BufferIter : Type := mkBufferIter {
  bf_needs_api : bool;                (* NpyIter_IterationNeedsAPI *)
  bf_iternext_ok : bool;              (* NpyIter_GetIterNext != NULL *)
  bf_reset : list Z -> machine -> option (list Z * machine);
  bf_iternext : machine -> machine
}.

(** The arguments of a call of [at]. *)
Record at_args : Type := mkAtArgs {
  at_parsed : bool;                   (* PyArg_ParseTuple *)
  at_op1 : pyobj;
  at_idx : pyobj;
  at_op2 : option pyobj;
  at_override : override_outcome      (* PyUFunc_CheckOverride *)
}.

(** The collaborators of [at]. *)
Record at_collaborators : Type := mkAtCollab {
  ac_array_of : pyobj -> option PyArrayObject;  (* PyArray_Check *)
  ac_from_any : pyobj -> option PyArrayObject;  (* PyArray_FromAny *)
  ac_map_iter : PyArrayObject -> pyobj -> option PyArrayObject
                -> option MapIter;   (* PyArray_MapIterArrayCopyIfOverlap *)
  ac_swap_axes : MapIter -> PyArrayObject -> option PyArrayObject;
                                     (* PyArray_MapIterSwapAxes *)
  ac_broadcast : PyArrayObject -> MapIter -> option (Z -> Z);
      (* PyArray_BroadcastToShape: PyArray_ITER_DATA after so many
         PyArray_ITER_NEXT *)
  ac_type_resolver_ok : bool;        (* ufunc->type_resolver >= 0 *)
  ac_selector_ok : bool;             (* legacy_inner_loop_selector >= 0 *)
  ac_innerloop : list Z -> Z -> list Z -> machine -> machine;
  ac_needs_api : bool;               (* as the selector sets it *)
  ac_new_array : PyArray_Descr -> Z -> option PyArrayObject;
      (* PyArray_NewFromDescr of one element at a data pointer *)
  ac_bufsize_ok : bool;              (* _get_bufsize_errmask >= 0 *)
  ac_buffer_iter : list (option PyArrayObject) -> option BufferIter
                                     (* NpyIter_AdvancedNew *)
}.

Inductive at_result : Type :=
| AtNone                              (* Py_RETURN_NONE *)
| AtRaised (e : exn)
| AtFailed                            (* NULL, a step having failed *)
| AtOverridden (res : pyobj).

(** [new_array_op]. *)
Definition new_array_op (ac : at_collaborators) (op_array : PyArrayObject)
           (data : Z) : option PyArrayObject :=
  ac_new_array ac (descr op_array) data.

(** The value of the stride entries [ufunc_at] hands to the kernel. *)
Definition DEADBEEF : Z := 3735928559.

(** [i = iter->size; while (i > 0) { ... i--; }] of [ufunc_at], from the
    position [k] on: whether an error message was left, and the run. *)
Fixpoint at_loop (ac : at_collaborators) (iter : MapIter)
         (iter2 : option (Z -> Z)) (iter_buffer : BufferIter)
         (needs_api : bool) (todo : nat) (k : Z) (r : run) : bool * run :=
  match todo with
  | O => (false, r)
  | S todo' =>
      let dataptr :=
        match iter2 with
        | Some data2 => [mi_dataptr iter k; data2 k; mi_dataptr iter k]
        | None => [mi_dataptr iter k; mi_dataptr iter k; 0]
        end in
      match bf_reset iter_buffer dataptr (mach r) with
      | None => (true, r)
      | Some (buffer_dataptr, m1) =>
          let r1 :=
            call_innerloop (ac_innerloop ac) buffer_dataptr 1
              [DEADBEEF; DEADBEEF; DEADBEEF] (mkRun m1 (trace r)) in
          if needs_api && err (mach r1) then (false, r1)
          else
            at_loop ac iter iter2 iter_buffer needs_api todo' (k + 1)
                    (mkRun (bf_iternext iter_buffer (mach r1)) (trace r1))
      end
  end.

(** [PyErr_SetString]. *)
Definition set_err (r : run) : run :=
  let m := mach r in
  mkRun (mkMachine (mem m) (ob_refcnt m) (freed m) true) (trace r).

(** [ufunc_at]. *)
Definition ufunc_at (ac : at_collaborators) (ufunc : PyUFuncObject)
           (args : at_args) (r : run) : at_result * run :=
  if nin ufunc >? 2 then
    (AtRaised
       (ValueError "Only unary and binary ufuncs supported at this time"), r)
  else if negb (nout ufunc =? 1) then
    (AtRaised
       (ValueError "Only single output ufuncs supported at this time"), r)
  else if negb (at_parsed args) then (AtFailed, r)
  else if (nin ufunc =? 2)
          && match at_op2 args with None => true | Some _ => false end
  then (AtRaised (ValueError "second operand needed for ufunc"), r)
  else
    match at_override args with
    | OverrideFails => (AtFailed, r)
    | OverrideReturns res => (AtOverridden res, r)
    | NoOverride =>
        match ac_array_of ac (at_op1 args) with
        | None => (AtRaised (TypeError "first operand must be array"), r)
        | Some op1 =>
            let op2_converted : option (option PyArrayObject) :=
              match at_op2 args with
              | None => Some None
              | Some o =>
                  match ac_from_any ac o with
                  | None => None
                  | Some a => Some (Some a)
                  end
              end in
            match op2_converted with
            | None => (AtFailed, r)
            | Some op2_array =>
                match ac_map_iter ac op1 (at_idx args) op2_array with
                | None => (AtFailed, r)
                | Some iter =>
                    let op1_array := mi_array iter in
                    let second
                        : option (option (PyArrayObject * (Z -> Z))) :=
                      match op2_array with
                      | None => Some None
                      | Some a =>
                          match (if mi_subspace iter && mi_consec iter
                                 then ac_swap_axes ac iter a
                                 else Some a) with
                          | None => None
                          | Some a' =>
                              match ac_broadcast ac a' iter with
                              | None => None
                              | Some data2 => Some (Some (a', data2))
                              end
                          end
                      end in
                    match second with
                    | None => (AtFailed, r)
                    | Some second =>
      if negb (ac_type_resolver_ok ac) then (AtFailed, r)
      else if negb (ac_selector_ok ac) then (AtFailed, r)
      else
        let array_operands :=
          match second with
          | Some (op2', data2) =>
              [new_array_op ac op1_array (mi_dataptr iter 0);
               new_array_op ac op2' (data2 0);
               new_array_op ac op1_array (mi_dataptr iter 0)]
          | None =>
              [new_array_op ac op1_array (mi_dataptr iter 0);
               new_array_op ac op1_array (mi_dataptr iter 0)]
          end in
        if negb (ac_bufsize_ok ac) then (AtFailed, r)
        else
          match ac_buffer_iter ac array_operands with
          | None => (AtFailed, r)
          | Some iter_buffer =>
              let needs_api := ac_needs_api ac || bf_needs_api iter_buffer
              in
              if negb (bf_iternext_ok iter_buffer) then (AtFailed, r)
              else
                let (err_msg, r1) :=
                  at_loop ac iter
                    (match second with
                     | Some (_, data2) => Some data2
                     | None => None
                     end) iter_buffer needs_api
                    (Z.to_nat (mi_size iter)) 0 r in
                let r2 := if err_msg then set_err r1 else r1 in
                if needs_api && err (mach r2) then (AtFailed, r2)
                else (AtNone, r2)
          end
                    end
                end
            end
        end
    end.

(* ------------------------------------------------------------------ *)
(** *** What the collaborators do with an empty operand                *)
(* ------------------------------------------------------------------ *)

(** The array read where there is none. *)
Definition no_array : PyArrayObject := mkArray 0 [] [] (mkDescr 0 0) 0.

(** A kernel invoked on no element writes nothing. *)
Definition idle_on_nothing
           (k : list Z -> Z -> list Z -> machine -> machine) : Prop :=
  forall args steps m q, mem (k args 0 steps m) q = mem m q.

(** The iterator of an elementwise call has nothing to iterate over
    when one of the operands it is given has a dimension of extent 0,
    and an operand it allocates has as many elements as the iteration. *)
Definition iterates_nothing_over_empty
           (new_iter : list (option PyArrayObject) -> option NpyIter)
  : Prop :=
  forall ops it,
    new_iter ops = Some it ->
    ((exists a, In (Some a) ops /\ has_zero_extent a) -> it_size it = 0)
    /\ forall k, nth_error ops k = Some None ->
                 PyArray_SIZE (nth k (it_operands it) no_array)
                 = it_size it.

(** The arrays made of an array, by [PyArray_FromArray] and by
    [PyArray_CastToType], have its shape. *)
Definition conversions_keep_shape (eg : engine) (cl : caller) : Prop :=
  (forall a a', cl_from_array cl a = Some a' -> dims a' = dims a)
  /\ (forall a d a', eg_cast_to_type eg a d = Some a' -> dims a' = dims a).

(** The iterator of accumulate works on operands of the shape of the
    input, and the one of reduceat along [axis] on an input of that
    shape and an output that has as many elements along [axis] as there
    are indices. *)
Definition accumulate_iterator_keeps_shape (env : collaborators) : Prop :=
  forall out arr dtype it,
    NpyIter_AdvancedNew env [out; Some arr] dtype = Some it ->
    dims (nth 0 (ri_operands it) arr) = dims arr
    /\ dims (nth 1 (ri_operands it) arr) = dims arr.

Definition reduceat_iterator_keeps_shape (env : collaborators) (axis : Z)
  : Prop :=
  forall out arr ind dtype it,
    NpyIter_AdvancedNew env [out; Some arr; Some ind] dtype = Some it ->
    dims (nth 0 (ri_operands it) arr)
    = wr (dims arr) axis (PyArray_DIM ind 0)
    /\ dims (nth 1 (ri_operands it) arr) = dims arr.

(** The iterators of [at] have no position when the first or the second
    operand has a dimension of extent 0. *)
Definition at_iterates_nothing_over_empty (ac : at_collaborators) : Prop :=
  forall op1 idx op2 iter,
    ac_map_iter ac op1 idx op2 = Some iter ->
    (has_zero_extent op1 -> mi_size iter = 0)
    /\ forall a a' data2,
        op2 = Some a -> has_zero_extent a ->
        (if mi_subspace iter && mi_consec iter then ac_swap_axes ac iter a
         else Some a) = Some a' ->
        ac_broadcast ac a' iter = Some data2 ->
        mi_size iter = 0.

(** Two operands of one shape, or both missing. *)
Definition same_shape (o o' : option PyArrayObject) : Prop :=
  match o, o' with
  | None, None => True
  | Some a, Some a' => dims a' = dims a
  | _, _ => False
  end.

(** An output of a call on an empty operand: of the shape of the array
    given for it, or without element when none is given. *)
Definition empty_output (given : option PyArrayObject) (out : PyArrayObject)
  : Prop :=
  match given with
  | Some a => dims out = dims a
  | None => PyArray_SIZE out = 0
  end.

(** What a call that computes no element leaves behind: the memory as it
    was, and no kernel invocation but, at most, one on no element. *)
Definition computed_nothing (r r' : run) : Prop :=
  (forall q, mem (mach r') q = mem (mach r) q)
  /\ (kernel_calls (trace r') = kernel_calls (trace r)
      \/ exists data steps,
          kernel_calls (trace r')
          = kernel_calls (trace r) ++ [EvKernel data 0 steps]).

(* ------------------------------------------------------------------ *)
(** *** A call on operands without element                             *)
(* ------------------------------------------------------------------ *)

(** An engine for [add] on arrays of C longs: every array is handed over
    as it is, and the iterator over operands of the shapes (0) and (1, 0)
    has the size 0 and allocates an output of the shape (1, 0). *)
Definition long_engine : engine :=
  mkEngine (binary_kernel Z.add) true (fun _ _ _ _ _ m => m) true
           (fun _ _ => true)
           (fun d d' => type_num d =? type_num d')
           (fun a _ => Some a) (Some 1000)
           (fun ops =>
              Some (mkIter
                      (map (fun o =>
                              match o with
                              | Some a => a
                              | None => c_array 1000 NPY_LONG 8 [1; 0]
                              end) ops)
                      0 true true false (fun _ => mkBlock [] 0 [])
                      (fun _ => []) true))
           (fun _ => None) (Some 8192) true 32 1 0.

(** A caller whose objects 1 and 2 are arrays of the shapes (0) and
    (1, 0). *)
Definition long_caller : caller :=
  mkCaller (fun o =>
              match o with
              | PyObj 1 => Some (c_array 0 NPY_LONG 8 [0])
              | PyObj 2 => Some (c_array 64 NPY_LONG 8 [1; 0])
              | _ => None
              end)
           Some (fun _ => None) (fun _ => true) true true NoOverride
           (fun _ => mkOuterArg false true None) (fun _ _ => None) []
           true
           (fun _ =>
              Some [mkDescr NPY_LONG 8; mkDescr NPY_LONG 8;
                    mkDescr NPY_LONG 8])
           [None] None true (fun _ _ => true) true.

(** [add] called on the two. *)
Definition empty_broadcast_call : call_result * run :=
  ufunc_generic_fastcall long_engine long_caller add_ufunc
                         [PyObj 1; PyObj 2] None false
                         (fresh_run (fun _ => 0)).


(* ------------------------------------------------------------------ *)
(** *** Positions stay inside the signature, and the loops terminate   *)
(* ------------------------------------------------------------------ *)

Section ParserBounds.

Lemma advance_length (p : string) (n : nat) :
  String.length (advance p n) = (String.length p - n)%nat.
Proof.
  revert p; induction n as [|n IH]; intros [|c t]; simpl; auto.
Qed.

Lemma deref_nonNUL_length (p : string) :
  deref p <> NUL -> (0 < String.length p)%nat.
Proof. destruct p; simpl; [congruence | lia]. Qed.

Lemma at_nonNUL (str : string) (i : Z) :
  at_ str i <> NUL -> 0 <= i < strlen str.
Proof.
  unfold at_, ptr, strlen; intros H.
  destruct (i <? 0) eqn:E; [simpl in H; congruence|].
  apply Z.ltb_ge in E. apply deref_nonNUL_length in H.
  rewrite advance_length in H. lia.
Qed.

Lemma is_char_at (str : string) (i : Z) (c : ascii) :
  is_char (at_ str i) c = true -> c <> NUL -> 0 <= i < strlen str.
Proof.
  unfold is_char; intros H Hc. apply Ascii.eqb_eq in H.
  apply at_nonNUL. congruence.
Qed.

Lemma skip_blank_bounds (p : string) (ret : Z) :
  ret <= skip_blank p ret <= ret + Z.of_nat (String.length p).
Proof.
  revert ret; induction p as [|c p IH]; intros ret; simpl; [lia|].
  destruct (is_blank c); [specialize (IH (ret + 1))|]; lia.
Qed.

Lemma next_non_white_space_bounds (str : string) (offset : Z) :
  0 <= offset <= strlen str ->
  offset <= _next_non_white_space str offset <= strlen str.
Proof.
  intros H. unfold _next_non_white_space, ptr, strlen in *.
  destruct (offset <? 0) eqn:E; [apply Z.ltb_lt in E; lia|].
  pose proof (skip_blank_bounds (advance str (Z.to_nat offset)) offset) as B.
  rewrite advance_length in B. lia.
Qed.

Lemma skip_alnum_bounds (p : string) (ret : Z) :
  ret <= fst (skip_alnum p ret)
  /\ fst (skip_alnum p ret)
     + Z.of_nat (String.length (snd (skip_alnum p ret)))
     = ret + Z.of_nat (String.length p).
Proof.
  revert ret; induction p as [|c p IH]; intros ret; simpl; [lia|].
  destruct (_is_alnum_underscore c); simpl; [|lia].
  specialize (IH (ret + 1)). lia.
Qed.

Lemma skip_alnum_progress (c : ascii) (p : string) (ret : Z) :
  _is_alnum_underscore c = true ->
  ret + 1 <= fst (skip_alnum (String c p) ret).
Proof.
  intros H; simpl; rewrite H. apply skip_alnum_bounds.
Qed.

Lemma get_end_of_name_bounds (str : string) (offset : Z) :
  0 <= offset <= strlen str ->
  offset <= _get_end_of_name str offset <= strlen str.
Proof.
  intros H. unfold _get_end_of_name, ptr, strlen in *.
  destruct (offset <? 0) eqn:E; [apply Z.ltb_lt in E; lia|].
  pose proof (skip_alnum_bounds (advance str (Z.to_nat offset)) offset) as B.
  rewrite advance_length in B.
  destruct (skip_alnum (advance str (Z.to_nat offset)) offset) as [ret p].
  simpl in B.
  destruct (is_char (deref p) "?") eqn:Q; [|lia].
  assert (0 < String.length p)%nat.
  { apply deref_nonNUL_length. apply Ascii.eqb_eq in Q.
    rewrite Q. discriminate. }
  lia.
Qed.

Lemma alpha_is_alnum (c : ascii) :
  _is_alpha_underscore c = true -> _is_alnum_underscore c = true.
Proof. unfold _is_alnum_underscore; intros ->; reflexivity. Qed.

Lemma get_end_of_name_progress (str : string) (offset : Z) :
  _is_alpha_underscore (at_ str offset) = true ->
  offset + 1 <= _get_end_of_name str offset.
Proof.
  unfold _get_end_of_name, at_. intros H.
  destruct (ptr str offset) as [|c p] eqn:P; [discriminate H|].
  simpl in H. apply alpha_is_alnum in H.
  pose proof (skip_alnum_progress c p offset H) as B.
  destruct (skip_alnum (String c p) offset) as [ret q]; simpl in B.
  destruct (is_char (deref q) "?"); lia.
Qed.

(** A token that starts with a comma is no size. *)
Lemma get_size_comma (p : string) :
  is_char (deref p) "," = true -> _get_size p = -1.
Proof.
  destruct p as [|c p]; [discriminate|].
  unfold is_char; simpl. intros H. apply Ascii.eqb_eq in H. subst c.
  reflexivity.
Qed.

Lemma register_dim_cases (st : parse_state) (i fs : Z) (ci : bool) (ix : Z) :
  (exists st1, register_dim st i fs ci ix = Go st1 /\ p_i st1 = p_i st)
  \/ register_dim st i fs ci ix
     = Stop i (Fail "? cannot be used, name already seen without ?")
  \/ register_dim st i fs ci ix
     = Stop i (Fail "? must be used, name already seen with ?").
Proof.
  unfold register_dim.
  destruct (ix =? p_num_dim_ix st).
  - left; eexists; split; reflexivity.
  - destruct (ci && _); [right; left; reflexivity|].
    destruct (negb ci && _); [right; right; reflexivity|].
    left; eexists; split; reflexivity.
Qed.

(** Every turn over a core dimension moves [i] forward and leaves it
    inside the string; a failure is reported at a position inside it. *)
Lemma parse_dim_bounds (signature : string) (st : parse_state) :
  in_bounds signature st ->
  is_char (at_ signature (p_i st)) ")" = false ->
  match parse_dim signature st with
  | Go st' => in_bounds signature st' /\ p_i st < p_i st'
  | Stop j _ => 0 <= j <= strlen signature
  end.
Proof.
  unfold in_bounds; intros B Hclose. unfold parse_dim.
  destruct (is_char (at_ signature (p_i st)) "000") eqn:E0; [exact B|].
  set (i := p_i st) in *.
  set (fs := if _is_alpha_underscore (at_ signature i) then -1
             else _get_size (ptr signature i)).
  destruct (negb (_is_alpha_underscore (at_ signature i)) && (fs <=? 0))
    eqn:Ebad; [exact B|].
  pose proof (get_end_of_name_bounds signature i B) as Bend.
  set (i_end := _get_end_of_name signature i) in *.
  assert (Bws : i_end <= _next_non_white_space signature i_end
                       <= strlen signature)
    by (apply next_non_white_space_bounds; lia).
  set (i1 := _next_non_white_space signature i_end) in *.
  (* progress of the token itself *)
  assert (Hprog : i < i1 \/
                  (is_char (at_ signature i1) "," = false
                   /\ is_char (at_ signature i1) ")" = false)).
  { destruct (_is_alpha_underscore (at_ signature i)) eqn:A.
    - left. pose proof (get_end_of_name_progress signature i A). lia.
    - destruct (Z.eq_dec i1 i) as [Heq|]; [right|left; lia].
      rewrite Heq. split; [|exact Hclose].
      destruct (is_char (at_ signature i) ",") eqn:C; [|reflexivity].
      exfalso. simpl in Ebad. unfold fs in Ebad.
      unfold at_ in C. rewrite (get_size_comma _ C) in Ebad.
      discriminate. }
  destruct (register_dim_cases st i fs
              ((i_end >? 0) && is_char (at_ signature (i_end - 1)) "?")
              (find_dim signature st i fs 0 (Z.to_nat (p_num_dim_ix st))))
    as [(st1 & Hc & Hi1) | [Hc | Hc]]; rewrite Hc; try exact B.
  fold i1. unfold i in Hi1.
  destruct (negb (is_char (at_ signature i1) ",")
            && negb (is_char (at_ signature i1) ")")) eqn:Esep; [lia|].
  assert (Hlt : i < i1).
  { destruct Hprog as [|[Hx Hy]]; [assumption|].
    rewrite Hx, Hy in Esep; discriminate. }
  destruct (is_char (at_ signature i1) ",") eqn:Ecomma.
  - pose proof (is_char_at signature i1 "," Ecomma ltac:(discriminate)) as Bc.
    assert (Bws2 : i1 + 1 <= _next_non_white_space signature (i1 + 1)
                          <= strlen signature)
      by (apply next_non_white_space_bounds; lia).
    destruct (is_char (at_ signature
                         (_next_non_white_space signature (i1 + 1))) ")");
      simpl; lia.
  - simpl; lia.
Qed.

Lemma parse_dims_bounds (signature : string) (fuel : nat) :
  forall st,
    in_bounds signature st ->
    strlen signature - p_i st < Z.of_nat fuel ->
    match parse_dims signature st fuel with
    | Go st' => in_bounds signature st' /\ p_i st <= p_i st'
                /\ is_char (at_ signature (p_i st')) ")" = true
    | Stop j why => 0 <= j <= strlen signature /\ why <> Fuel
    end.
Proof.
  induction fuel as [|fuel IH]; intros st B F.
  - unfold in_bounds in B; lia.
  - simpl.
    destruct (is_char (at_ signature (p_i st)) ")") eqn:Hclose.
    + repeat split; try apply B; [lia | exact Hclose].
    + pose proof (parse_dim_bounds signature st B Hclose) as D.
      destruct (parse_dim signature st) as [st'|j why] eqn:E.
      * destruct D as [B' Hlt].
        specialize (IH st' B' ltac:(lia)).
        destruct (parse_dims signature st' fuel) as [st''|j why];
          [|exact IH].
        destruct IH as (? & ? & ?); repeat split; try apply H; auto; lia.
      * split; [exact D|].
        unfold parse_dim in E.
        repeat match type of E with
               | (if ?b then _ else _) = _ => destruct b
               | Stop _ _ = Stop _ _ => inversion E; discriminate
               end.
        destruct (register_dim_cases st (p_i st)
                    (if _is_alpha_underscore (at_ signature (p_i st))
                     then -1 else _get_size (ptr signature (p_i st)))
                    ((_get_end_of_name signature (p_i st) >? 0)
                     && is_char (at_ signature
                           (_get_end_of_name signature (p_i st) - 1)) "?")
                    (find_dim signature st (p_i st)
                       (if _is_alpha_underscore (at_ signature (p_i st))
                        then -1 else _get_size (ptr signature (p_i st)))
                       0 (Z.to_nat (p_num_dim_ix st))))
          as [(st1 & Hc & _) | [Hc | Hc]]; rewrite Hc in E;
          try (inversion E; discriminate).
        repeat match type of E with
               | (if ?b then _ else _) = _ => destruct b
               | Stop _ _ = Stop _ _ => inversion E; discriminate
               | Go _ = Stop _ _ => discriminate E
               end.
Qed.

Lemma set_i_bounds (signature : string) (st : parse_state) (i : Z) :
  0 <= i <= strlen signature -> in_bounds signature (set_i st i).
Proof. unfold in_bounds; simpl; auto. Qed.

Lemma parse_arg_bounds (u_nin u_nargs : Z) (signature : string)
      (st : parse_state) (fuel : nat) :
  in_bounds signature st ->
  strlen signature - p_i st <= Z.of_nat fuel ->
  is_char (at_ signature (p_i st)) "000" = false ->
  match parse_arg u_nin u_nargs signature st fuel with
  | Go st' => in_bounds signature st' /\ p_i st < p_i st'
  | Stop j why => 0 <= j <= strlen signature /\ why <> Fuel
  end.
Proof.
  intros B F Hnul. unfold parse_arg.
  assert (Harrow :
    match (if p_cur_arg st =? u_nin then
             if negb (is_char (at_ signature (p_i st)) "-")
                || negb (is_char (at_ signature (p_i st + 1)) ">")
             then Stop (p_i st) (Fail "expect '->'")
             else Go (set_i st (_next_non_white_space signature (p_i st + 2)))
           else Go st) with
    | Go st1 => in_bounds signature st1 /\ p_i st <= p_i st1
    | Stop j why => 0 <= j <= strlen signature /\ why <> Fuel
    end).
  { destruct (p_cur_arg st =? u_nin); [|split; [exact B|lia]].
    destruct (is_char (at_ signature (p_i st)) "-") eqn:E1;
      [|simpl; split; [exact B|discriminate]].
    destruct (is_char (at_ signature (p_i st + 1)) ">") eqn:E2;
      [|simpl; split; [exact B|discriminate]].
    simpl.
    pose proof (is_char_at signature (p_i st + 1) ">" E2 ltac:(discriminate)).
    pose proof (next_non_white_space_bounds signature (p_i st + 2)
                  ltac:(unfold in_bounds in B; lia)).
    unfold in_bounds; simpl; lia. }
  destruct (if p_cur_arg st =? u_nin then _ else _) as [st1|j why];
    [|exact Harrow].
  destruct Harrow as [B1 L1].
  destruct (is_char (at_ signature (p_i st1)) "(") eqn:Eopen;
    [|simpl; split; [exact B1|discriminate]].
  simpl.
  pose proof (is_char_at signature (p_i st1) "(" Eopen ltac:(discriminate))
    as Bo.
  pose proof (next_non_white_space_bounds signature (p_i st1 + 1)
                ltac:(lia)) as Bw.
  set (i2 := _next_non_white_space signature (p_i st1 + 1)) in *.
  assert (B2 : in_bounds signature (set_i st1 i2))
    by (apply set_i_bounds; lia).
  assert (F2 : strlen signature - p_i (set_i st1 i2) < Z.of_nat fuel)
    by (simpl; lia).
  pose proof (parse_dims_bounds signature fuel (set_i st1 i2) B2 F2) as D.
  destruct (parse_dims signature _ fuel) as [st3|j why]; [|exact D].
  destruct D as (B3 & L3 & Hclose). simpl in L3.
  destruct ((p_cur_arg st3 <? 0) || (u_nargs <=? p_cur_arg st3));
    [split; [exact B3|discriminate]|].
  pose proof (is_char_at signature (p_i st3) ")" Hclose ltac:(discriminate))
    as Bc.
  pose proof (next_non_white_space_bounds signature (p_i st3 + 1)
                ltac:(lia)) as Bw4.
  set (i4 := _next_non_white_space signature (p_i st3 + 1)) in *.
  simpl.
  destruct (negb (p_cur_arg st3 + 1 =? u_nin)
            && negb (p_cur_arg st3 + 1 =? u_nargs)).
  - destruct (is_char (at_ signature i4) ",") eqn:Ecomma; simpl.
    + pose proof (is_char_at signature i4 "," Ecomma ltac:(discriminate)).
      pose proof (next_non_white_space_bounds signature (i4 + 1)
                    ltac:(lia)).
      unfold in_bounds; simpl; lia.
    + split; [lia|discriminate].
  - unfold in_bounds; simpl; lia.
Qed.

Lemma parse_args_bounds (u_nin u_nargs : Z) (signature : string)
      (fuel : nat) :
  forall st,
    in_bounds signature st ->
    strlen signature - p_i st < Z.of_nat fuel ->
    match parse_args u_nin u_nargs signature st fuel with
    | Go st' => in_bounds signature st'
    | Stop j why => 0 <= j <= strlen signature /\ why <> Fuel
    end.
Proof.
  induction fuel as [|fuel IH]; intros st B F.
  - unfold in_bounds in B; lia.
  - simpl.
    destruct (is_char (at_ signature (p_i st)) "000") eqn:Hnul;
      [exact B|].
    pose proof (parse_arg_bounds u_nin u_nargs signature st fuel B
                  ltac:(lia) Hnul) as A.
    destruct (parse_arg u_nin u_nargs signature st fuel) as [st'|j why];
      [|exact A].
    destruct A as [B' L]. apply IH; [exact B'|lia].
Qed.

(** The loop bound of the model is never reached: the parser returns on
    every signature. *)
Lemma parse_signature_total (ufunc : PyUFuncObject)
      (signature : option string) (alloc_ok : bool) :
  _parse_signature ufunc signature alloc_ok <> ParseFuel.
Proof.
  unfold _parse_signature.
  destruct signature as [signature|]; [|discriminate].
  destruct alloc_ok; cbn [negb]; [|discriminate].
  match goal with
  | |- context [parse_args ?a ?b ?c ?st ?f] =>
      pose proof (parse_args_bounds a b c f st) as P;
      destruct (parse_args a b c st f) as [st'|j why]
  end.
  - destruct (p_cur_arg st' =? nargs ufunc); discriminate.
  - destruct why; try discriminate.
    exfalso. apply P; [| |reflexivity].
    + unfold in_bounds; simpl.
      pose proof (next_non_white_space_bounds signature 0).
      unfold strlen in *; lia.
    + simpl. pose proof (next_non_white_space_bounds signature 0).
      unfold strlen in *; lia.
Qed.

(** A parse error carries an offset inside the signature and the
    signature text itself. *)
Lemma parse_error_reports (ufunc : PyUFuncObject) (signature : string)
      (alloc_ok : bool) (msg : string) (pos : Z) (text : string) :
  _parse_signature ufunc (Some signature) alloc_ok
    = ParseError msg pos text ->
  text = signature /\ 0 <= pos <= strlen signature.
Proof.
  unfold _parse_signature.
  destruct alloc_ok; cbn [negb]; [|discriminate].
  match goal with
  | |- context [parse_args ?a ?b ?c ?st ?f] =>
      pose proof (parse_args_bounds a b c f st) as P;
      destruct (parse_args a b c st f) as [st'|j why]
  end.
  - destruct (p_cur_arg st' =? nargs ufunc); simpl; [discriminate|].
    intros E; injection E as E1 E2 E3. split; [symmetry; exact E3|].
    rewrite <- E2. apply P.
    + unfold in_bounds; simpl.
      pose proof (next_non_white_space_bounds signature 0).
      unfold strlen in *; lia.
    + simpl. pose proof (next_non_white_space_bounds signature 0).
      unfold strlen in *; lia.
  - destruct why; try discriminate.
    intros E; injection E as E1 E2 E3. split; [symmetry; exact E3|].
    rewrite <- E2. apply P.
    + unfold in_bounds; simpl.
      pose proof (next_non_white_space_bounds signature 0).
      unfold strlen in *; lia.
    + simpl. pose proof (next_non_white_space_bounds signature 0).
      unfold strlen in *; lia.
Qed.

End ParserBounds.

Section MentionsFacts.

Variable ufunc : PyUFuncObject.
Variable core_dim_flags : list Z.
Variable remap_axis : option (list (option (list Z))).

Lemma resolve_app (ms1 ms2 : list mention) (sizes : list Z) :
  resolve ufunc (ms1 ++ ms2) sizes =
  match resolve ufunc ms1 sizes with
  | CoreDimOk sizes' => resolve ufunc ms2 sizes'
  | CoreDimError e => CoreDimError e
  end.
Proof.
  revert sizes; induction ms1 as [|m ms1 IH]; intros sizes; simpl; auto.
  destruct (rd sizes (m_dim m) <? 0); [apply IH|].
  destruct (negb (m_size m =? rd sizes (m_dim m))); [reflexivity|apply IH].
Qed.

Lemma coredim_operand_resolve (i : Z) (arr : PyArrayObject)
      (core_start_dim : Z) (todo : nat) :
  forall idim dim_delta sizes,
    coredim_operand ufunc core_dim_flags remap_axis
      i arr core_start_dim todo idim dim_delta sizes
    = resolve ufunc (operand_mentions ufunc core_dim_flags remap_axis i arr core_start_dim todo idim dim_delta)
              sizes.
Proof.
  induction todo as [|todo IH]; intros idim dim_delta sizes; simpl; auto.
  destruct (op_dim ufunc core_dim_flags remap_axis i arr core_start_dim
                   idim dim_delta) as [e dd]; simpl.
  destruct (rd sizes _ <? 0); [apply IH|].
  destruct (negb (e =? _)); [reflexivity|apply IH].
Qed.

Lemma coredim_operands_resolve (op : list (option PyArrayObject))
      (op_core_num_dims : list Z) :
  forall i sizes,
    coredim_operands ufunc core_dim_flags remap_axis op op_core_num_dims
      i sizes
    = resolve ufunc (mentions ufunc core_dim_flags remap_axis op op_core_num_dims i) sizes.
Proof.
  induction op as [|[arr|] op IH]; intros i sizes; simpl; auto.
  rewrite resolve_app, coredim_operand_resolve.
  destruct (resolve ufunc _ sizes); [apply IH|reflexivity].
Qed.

End MentionsFacts.

Section ArrayCells.

Lemma wr_nat_length (a : list Z) (i : nat) (v : Z) :
  List.length (wr_nat a i v) = List.length a.
Proof.
  revert i; induction a as [|x a IH]; intros [|i]; simpl; auto.
Qed.

Lemma zlen_wr (a : list Z) (i v : Z) : zlen (wr a i v) = zlen a.
Proof.
  unfold zlen, wr. destruct (i <? 0); [reflexivity|].
  now rewrite wr_nat_length.
Qed.

Lemma nth_wr_nat_same (a : list Z) (i : nat) (v : Z) :
  (i < List.length a)%nat -> nth i (wr_nat a i v) 0 = v.
Proof.
  revert i; induction a as [|x a IH]; intros [|i] H; simpl in *;
    try lia; auto.
  apply IH; lia.
Qed.

Lemma nth_wr_nat_other (a : list Z) (i j : nat) (v : Z) :
  i <> j -> nth j (wr_nat a i v) 0 = nth j a 0.
Proof.
  revert i j; induction a as [|x a IH]; intros [|i] [|j] H; simpl;
    try congruence; auto.
Qed.

Lemma rd_wr_same (a : list Z) (i v : Z) :
  0 <= i < zlen a -> rd (wr a i v) i = v.
Proof.
  unfold rd, wr, zlen. intros H.
  destruct (i <? 0) eqn:E; [apply Z.ltb_lt in E; lia|].
  apply nth_wr_nat_same. lia.
Qed.

Lemma rd_wr_other (a : list Z) (i j v : Z) :
  i <> j -> rd (wr a i v) j = rd a j.
Proof.
  unfold rd, wr. intros H.
  destruct (j <? 0) eqn:Ej; [reflexivity|].
  destruct (i <? 0) eqn:Ei; [reflexivity|].
  apply Z.ltb_ge in Ej, Ei.
  apply nth_wr_nat_other. lia.
Qed.

End ArrayCells.

Section ResolveFacts.

Variable ufunc : PyUFuncObject.

Lemma recordable_wr (sizes : list Z) (d e : Z) (ms : list mention) :
  Forall (recordable sizes) ms -> Forall (recordable (wr sizes d e)) ms.
Proof.
  apply Forall_impl. unfold recordable. intros m. now rewrite zlen_wr.
Qed.

Lemma resolve_ok (ms : list mention) :
  forall sizes sizes',
    Forall (recordable sizes) ms ->
    resolve ufunc ms sizes = CoreDimOk sizes' ->
    (forall d, 0 <= rd sizes d -> rd sizes' d = rd sizes d)
    /\ (forall d, (forall m, In m ms -> m_dim m <> d) ->
                  rd sizes' d = rd sizes d)
    /\ (forall m, In m ms -> rd sizes' (m_dim m) = m_size m).
Proof.
  induction ms as [|m ms IH]; intros sizes sizes' G R; simpl in R.
  - injection R as <-. repeat split; auto. intros m [].
  - inversion G as [|? ? [Gd Ge] G']; subst.
    destruct (rd sizes (m_dim m) <? 0) eqn:Eneg.
    + apply Z.ltb_lt in Eneg.
      destruct (IH _ _ (recordable_wr sizes (m_dim m) (m_size m) ms G') R)
        as (K1 & K2 & K3).
      repeat split.
      * intros d Hd. assert (N : m_dim m <> d) by (intros <-; lia).
        rewrite K1; rewrite (rd_wr_other sizes (m_dim m) d (m_size m) N); auto.
      * intros d Hd. rewrite K2 by (intros m' Hm'; apply Hd; now right).
        apply rd_wr_other. apply Hd; now left.
      * intros m' [<-|Hm']; [|now apply K3].
        rewrite K1; rewrite rd_wr_same by assumption; auto.
    + apply Z.ltb_ge in Eneg.
      destruct (m_size m =? rd sizes (m_dim m)) eqn:Eeq; simpl in R;
        [|discriminate].
      apply Z.eqb_eq in Eeq.
      destruct (IH _ _ G' R) as (K1 & K2 & K3).
      repeat split; auto.
      * intros d Hd. apply K2. intros m' Hm'; apply Hd; now right.
      * intros m' [<-|Hm']; [|now apply K3].
        rewrite K1; auto.
Qed.

Lemma resolve_err (ms : list mention) :
  forall sizes e,
    Forall (recordable sizes) ms ->
    resolve ufunc ms sizes = CoreDimError e ->
    exists ms1 m ms2 sizes1,
      ms = ms1 ++ m :: ms2
      /\ resolve ufunc ms1 sizes = CoreDimOk sizes1
      /\ 0 <= rd sizes1 (m_dim m)
      /\ m_size m <> rd sizes1 (m_dim m)
      /\ e = CoreDimMismatch (m_operand m <? nin ufunc)
               (if m_operand m <? nin ufunc then m_operand m
                else m_operand m - nin ufunc)
               (m_core_dim m) (core_signature ufunc)
               (m_size m) (rd sizes1 (m_dim m)).
Proof.
  induction ms as [|m ms IH]; intros sizes e G R; simpl in R;
    [discriminate|].
  inversion G as [|? ? Gm G']; subst.
  destruct (rd sizes (m_dim m) <? 0) eqn:Eneg.
  - destruct (IH _ _ (recordable_wr sizes (m_dim m) (m_size m) ms G') R)
      as (ms1 & m' & ms2 & sizes1 & -> & R1 & P1 & P2 & ->).
    exists (m :: ms1), m', ms2, sizes1. simpl. rewrite Eneg.
    repeat split; auto.
  - destruct (m_size m =? rd sizes (m_dim m)) eqn:Eeq; simpl in R.
    + destruct (IH _ _ G' R)
        as (ms1 & m' & ms2 & sizes1 & -> & R1 & P1 & P2 & ->).
      exists (m :: ms1), m', ms2, sizes1. simpl. rewrite Eneg, Eeq. simpl.
      repeat split; auto.
    + injection R as <-. apply Z.ltb_ge in Eneg. apply Z.eqb_neq in Eeq.
      exists [], m, ms, sizes. repeat split; auto.
Qed.

Lemma resolved_size_correct (ms : list mention) (sizes sizes' : list Z)
      (d : Z) :
  Forall (recordable sizes) ms ->
  resolve ufunc ms sizes = CoreDimOk sizes' ->
  rd sizes' d = resolved_size sizes ms d.
Proof.
  intros G R. destruct (resolve_ok ms sizes sizes' G R) as (K1 & K2 & K3).
  unfold resolved_size.
  destruct (0 <=? rd sizes d) eqn:E; [apply K1; now apply Z.leb_le|].
  apply Z.leb_gt in E.
  destruct (find (fun m => m_dim m =? d) ms) as [m0|] eqn:F.
  - apply find_some in F. destruct F as [Hin Hd].
    apply Z.eqb_eq in Hd. subst d. now apply K3.
  - apply K2. intros m Hm Hd.
    pose proof (find_none _ _ F m Hm) as N. simpl in N.
    apply Z.eqb_neq in N. contradiction.
Qed.

End ResolveFacts.

Section CoredimSizesSpec.

Variable ufunc : PyUFuncObject.
Variable core_dim_flags : list Z.
Variable remap_axis : option (list (option (list Z))).
Variable op : list (option PyArrayObject).
Variable op_core_num_dims : list Z.
Variable core_dim_sizes : list Z.

Let ms : list mention :=
  mentions ufunc core_dim_flags remap_axis
    (firstn (Z.to_nat (nin ufunc + nout ufunc)) op) op_core_num_dims 0.

Hypothesis Hrec : Forall (recordable core_dim_sizes) ms.

Lemma get_coredim_sizes_first_loop :
  match _get_coredim_sizes ufunc core_dim_flags remap_axis
          op op_core_num_dims core_dim_sizes with
  | CoreDimOk sizes' => resolve ufunc ms core_dim_sizes = CoreDimOk sizes'
  | CoreDimError (CoreDimUnspecified _ _ _) =>
      exists sizes', resolve ufunc ms core_dim_sizes = CoreDimOk sizes'
  | CoreDimError (CoreDimMismatch a b c d e f) =>
      resolve ufunc ms core_dim_sizes
      = CoreDimError (CoreDimMismatch a b c d e f)
  end.
Proof.
  unfold _get_coredim_sizes. rewrite coredim_operands_resolve. fold ms.
  destruct (resolve ufunc ms core_dim_sizes) as [sizes'|e] eqn:R.
  - destruct (unspecified_dims ufunc _ _ sizes') as [e|] eqn:U;
      [|reflexivity].
    assert (exists a b c, e = CoreDimUnspecified a b c) as (a & b & c & ->).
    { clear -U. revert U.
      generalize (nin ufunc) as i. generalize (Z.to_nat (nout ufunc)) as n.
      induction n as [|n IH]; intros i; simpl; [discriminate|].
      destruct (unspecified_dim ufunc i _ 0 sizes') as [e'|] eqn:V.
      - intros [= <-]. clear IH. revert V.
        generalize 0 as idim.
        generalize (Z.to_nat (rd (core_num_dims ufunc) i)) as k.
        induction k as [|k IHk]; intros idim; simpl; [discriminate|].
        destruct (rd sizes' _ <? 0); [intros [= <-]; eauto|apply IHk].
      - apply IH. }
    eauto.
  - destruct (resolve_err ufunc ms core_dim_sizes e Hrec R)
      as (ms1 & m & ms2 & sizes1 & _ & _ & _ & _ & ->).
    reflexivity.
Qed.

Lemma get_coredim_sizes_spec :
  match _get_coredim_sizes ufunc core_dim_flags remap_axis
          op op_core_num_dims core_dim_sizes with
  | CoreDimOk sizes' =>
      (forall m, In m ms -> rd sizes' (m_dim m) = m_size m)
      /\ (forall d, rd sizes' d = resolved_size core_dim_sizes ms d)
  | CoreDimError (CoreDimMismatch is_input operand core_dim signature
                                  op_dim_size core_dim_size) =>
      exists ms1 m ms2,
        ms = ms1 ++ m :: ms2
        /\ op_dim_size = m_size m
        /\ core_dim_size = resolved_size core_dim_sizes ms1 (m_dim m)
        /\ 0 <= core_dim_size
        /\ op_dim_size <> core_dim_size
        /\ signature = core_signature ufunc
        /\ is_input = (m_operand m <? nin ufunc)
        /\ operand = (if m_operand m <? nin ufunc then m_operand m
                      else m_operand m - nin ufunc)
        /\ core_dim = m_core_dim m
  | CoreDimError (CoreDimUnspecified _ _ _) =>
      forall m1 m2, In m1 ms -> In m2 ms -> m_dim m1 = m_dim m2 ->
                    m_size m1 = m_size m2
  end.
Proof.
  pose proof get_coredim_sizes_first_loop as L.
  destruct (_get_coredim_sizes ufunc core_dim_flags remap_axis
              op op_core_num_dims core_dim_sizes) as [sizes'|[a b c d e f|a b c]].
  - destruct (resolve_ok ufunc ms core_dim_sizes sizes' Hrec L) as (_ & _ & K3).
    split; [exact K3|].
    intros d0. now apply (resolved_size_correct ufunc ms core_dim_sizes sizes').
  - destruct (resolve_err ufunc ms core_dim_sizes _ Hrec L)
      as (ms1 & m & ms2 & sizes1 & E & R1 & P1 & P2 & Q).
    injection Q as -> -> -> -> -> ->.
    exists ms1, m, ms2.
    assert (G1 : Forall (recordable core_dim_sizes) ms1).
    { rewrite E in Hrec. apply Forall_app in Hrec. apply Hrec. }
    rewrite (resolved_size_correct ufunc ms1 core_dim_sizes sizes1
               (m_dim m) G1 R1) in *.
    repeat split; auto.
  - destruct L as (sizes' & R).
    destruct (resolve_ok ufunc ms core_dim_sizes sizes' Hrec R) as (_ & _ & K3).
    intros m1 m2 H1 H2 Hd.
    rewrite <- (K3 m1 H1), <- (K3 m2 H2), Hd. reflexivity.
Qed.

Lemma get_coredim_sizes_mismatch :
  (exists m1 m2, In m1 ms /\ In m2 ms /\ m_dim m1 = m_dim m2
                 /\ m_size m1 <> m_size m2) ->
  exists is_input operand core_dim op_dim_size core_dim_size,
    _get_coredim_sizes ufunc core_dim_flags remap_axis
      op op_core_num_dims core_dim_sizes
    = CoreDimError (CoreDimMismatch is_input operand core_dim
                      (core_signature ufunc) op_dim_size core_dim_size)
    /\ op_dim_size <> core_dim_size.
Proof.
  intros (m1 & m2 & H1 & H2 & Hd & Hs).
  pose proof get_coredim_sizes_spec as S.
  destruct (_get_coredim_sizes ufunc core_dim_flags remap_axis
              op op_core_num_dims core_dim_sizes) as [sizes'|[a b c d e f|a b c]].
  - destruct S as [K _]. exfalso. apply Hs.
    rewrite <- (K m1 H1), <- (K m2 H2), Hd. reflexivity.
  - destruct S as (ms1 & m & ms2 & _ & -> & -> & _ & N & -> & _).
    eexists _, _, _, _, _. split; [reflexivity|exact N].
  - exfalso. apply Hs. now apply S.
Qed.

End CoredimSizesSpec.

(** C4.  In [_get_coredim_sizes], the first supplied operand that mentions
    a named core dimension fixes its resolved size, unless the signature
    fixed it as a literal; every later mention must have exactly that
    extent, otherwise the call fails with the core-dimension mismatch
    error, which cites the operand's extent and the size fixed before.  So
    a successful call leaves every mention equal to the resolved size, and
    two mentions of one dimension with different extents always end in the
    mismatch error.  With the signature "(i),(i)->()" the shapes (3,4) and
    (3,4) succeed with i = 4, and the shapes (3,4) and (3,5) fail naming
    the sizes 5 and 4. *)
Theorem coredim_first_mention_fixes_size :
  (forall (ufunc : PyUFuncObject) (core_dim_flags : list Z)
          (remap_axis : option (list (option (list Z))))
          (op : list (option PyArrayObject))
          (op_core_num_dims core_dim_sizes : list Z),
      let ms := mentions ufunc core_dim_flags remap_axis
                  (firstn (Z.to_nat (nin ufunc + nout ufunc)) op)
                  op_core_num_dims 0 in
      Forall (recordable core_dim_sizes) ms ->
      match _get_coredim_sizes ufunc core_dim_flags remap_axis
              op op_core_num_dims core_dim_sizes with
      | CoreDimOk sizes' =>
          (forall m, In m ms -> rd sizes' (m_dim m) = m_size m)
          /\ (forall d, rd sizes' d = resolved_size core_dim_sizes ms d)
      | CoreDimError (CoreDimMismatch is_input operand core_dim signature
                                      op_dim_size core_dim_size) =>
          exists ms1 m ms2,
            ms = ms1 ++ m :: ms2
            /\ op_dim_size = m_size m
            /\ core_dim_size = resolved_size core_dim_sizes ms1 (m_dim m)
            /\ 0 <= core_dim_size
            /\ op_dim_size <> core_dim_size
            /\ signature = core_signature ufunc
            /\ is_input = (m_operand m <? nin ufunc)
            /\ operand = (if m_operand m <? nin ufunc then m_operand m
                          else m_operand m - nin ufunc)
            /\ core_dim = m_core_dim m
      | CoreDimError (CoreDimUnspecified _ _ _) =>
          forall m1 m2, In m1 ms -> In m2 ms -> m_dim m1 = m_dim m2 ->
                        m_size m1 = m_size m2
      end
      /\ ((exists m1 m2, In m1 ms /\ In m2 ms /\ m_dim m1 = m_dim m2
                         /\ m_size m1 <> m_size m2) ->
          exists is_input operand core_dim op_dim_size core_dim_size,
            _get_coredim_sizes ufunc core_dim_flags remap_axis
              op op_core_num_dims core_dim_sizes
            = CoreDimError (CoreDimMismatch is_input operand core_dim
                              (core_signature ufunc)
                              op_dim_size core_dim_size)
            /\ op_dim_size <> core_dim_size))
  /\ coredim_sizes_of_call (parsed 2 1 "(i),(i)->()")
       [Some (array_of_shape [3; 4]); Some (array_of_shape [3; 4]); None]
     = CoreDimOk [4]
  /\ coredim_sizes_of_call (parsed 2 1 "(i),(i)->()")
       [Some (array_of_shape [3; 4]); Some (array_of_shape [3; 5]); None]
     = CoreDimError (CoreDimMismatch true 1 0 "(i),(i)->()" 5 4).
Proof.
  split; [|split; reflexivity].
  intros ufunc core_dim_flags remap_axis op op_core_num_dims core_dim_sizes
         ms Hrec.
  split.
  - exact (get_coredim_sizes_spec ufunc core_dim_flags remap_axis
             op op_core_num_dims core_dim_sizes Hrec).
  - exact (get_coredim_sizes_mismatch ufunc core_dim_flags remap_axis
             op op_core_num_dims core_dim_sizes Hrec).
Qed.

(** The table the parser builds for "(i),(i)->()". *)
Lemma parsed_inner_signature :
  parsed 2 1 "(i),(i)->()"
  = mkUFunc 2 1 3 "f" PyUFunc_None 0 [] None 1 1 [1; 1; 0] [0; 1; 2] [0; 0] [-1] [2] "(i),(i)->()".
Proof. vm_compute. reflexivity. Qed.

(** The general part at the operands of shapes (3,4) and (3,5) under the
    table of "(i),(i)->()": their two mentions of [i] disagree, so the
    call is the mismatch error. *)
Lemma coredim_first_mention_fixes_size_witness :
  exists is_input operand core_dim op_dim_size core_dim_size,
    _get_coredim_sizes
      (mkUFunc 2 1 3 "f" PyUFunc_None 0 [] None 1 1 [1; 1; 0] [0; 1; 2] [0; 0] [-1] [2]
               "(i),(i)->()")
      [2] None
      [Some (array_of_shape [3; 4]); Some (array_of_shape [3; 5]); None]
      [1; 1; 0] [-1]
    = CoreDimError (CoreDimMismatch is_input operand core_dim
                      "(i),(i)->()" op_dim_size core_dim_size)
    /\ op_dim_size <> core_dim_size.
Proof.
  apply (proj1 coredim_first_mention_fixes_size
           (mkUFunc 2 1 3 "f" PyUFunc_None 0 [] None 1 1 [1; 1; 0] [0; 1; 2] [0; 0] [-1] [2]
                    "(i),(i)->()")
           [2] None
           [Some (array_of_shape [3; 4]); Some (array_of_shape [3; 5]); None]
           [1; 1; 0] [-1]).
  - vm_compute. repeat constructor; discriminate.
  - exists (mkMention 0 0 0 4), (mkMention 1 0 0 5).
    vm_compute. repeat split; try (now left); try (right; now left);
      discriminate.
Defined.

(* ================================================================== *)
(** ** The trivial-loop fast path                                      *)
(* ================================================================== *)

Section TrivialLoopFacts.

Lemma compare_lists_eq (n : nat) :
  forall l1 l2,
    List.length l1 = n -> List.length l2 = n ->
    compare_lists l1 l2 n = true -> l1 = l2.
Proof.
  induction n as [|n IH]; intros [|x l1] [|y l2] H1 H2 C;
    simpl in *; try discriminate; auto.
  apply andb_true_iff in C. destruct C as [E C].
  apply Z.eqb_eq in E. subst y. f_equal. apply IH; auto.
Qed.

Lemma ndim_nonneg (a : PyArrayObject) : 0 <= PyArray_NDIM a.
Proof. unfold PyArray_NDIM, zlen. lia. Qed.

Lemma trivial_scan_operand_sound (a : PyArrayObject) (iop : Z)
      (pl pl1 : trivial_plan) :
  plan_ok pl ->
  trivial_scan_operand a iop pl = Some pl1 ->
  plan_ok pl1
  /\ (exists v, fixed_strides pl1 = wr (fixed_strides pl) iop v
                /\ (PyArray_NDIM a = 0 -> v = 0))
  /\ (operation_ndim pl <> 0 ->
      operation_ndim pl1 = operation_ndim pl
      /\ operation_shape pl1 = operation_shape pl)
  /\ (operation_order pl <> 0 -> operation_order pl1 = operation_order pl)
  /\ (PyArray_NDIM a <> 0 ->
      operation_ndim pl1 = PyArray_NDIM a /\ operation_shape pl1 = dims a)
  /\ (1 < PyArray_NDIM a ->
      op_order_of a <> 0 /\ operation_order pl1 = op_order_of a).
Proof.
  unfold trivial_scan_operand, plan_ok. intros W S.
  pose proof (ndim_nonneg a) as Nn.
  destruct (PyArray_NDIM a =? 0) eqn:E0.
  { apply Z.eqb_eq in E0. injection S as <-. simpl.
    split; [exact W|]. split; [eauto|].
    repeat split; auto; intros; lia. }
  apply Z.eqb_neq in E0.
  destruct (if operation_ndim pl =? 0 then _ else _) as [pl0|] eqn:F;
    [|discriminate S].
  assert (P : operation_ndim pl0 = PyArray_NDIM a
              /\ operation_shape pl0 = dims a
              /\ operation_order pl0 = operation_order pl
              /\ fixed_strides pl0 = fixed_strides pl
              /\ (operation_ndim pl <> 0 ->
                  operation_ndim pl0 = operation_ndim pl
                  /\ operation_shape pl0 = operation_shape pl)).
  { destruct (operation_ndim pl =? 0) eqn:En.
    - apply Z.eqb_eq in En. injection F as <-. simpl.
      repeat split; auto; congruence.
    - apply Z.eqb_neq in En.
      destruct (PyArray_NDIM a =? operation_ndim pl) eqn:Er;
        [|discriminate F].
      apply Z.eqb_eq in Er. simpl in F.
      destruct (PyArray_CompareLists (operation_shape pl) (dims a)
                                     (PyArray_NDIM a)) eqn:Ec;
        [|discriminate F].
      injection F as <-. specialize (W En).
      assert (operation_shape pl = dims a).
      { apply (compare_lists_eq (Z.to_nat (PyArray_NDIM a))); auto.
        - unfold PyArray_NDIM, zlen in *. lia.
        - unfold PyArray_NDIM, zlen. lia. }
      repeat split; auto. }
  destruct P as (P1 & P2 & P3 & P4 & P5).
  assert (Wk : zlen (dims a) = PyArray_NDIM a) by reflexivity.
  destruct (PyArray_NDIM a =? 1) eqn:E1.
  { apply Z.eqb_eq in E1. injection S as <-. simpl.
    rewrite P1, P2, P3, P4.
    split; [auto|]. split; [eexists; split; [reflexivity|intros; lia]|].
    split; [intros Hn; destruct (P5 Hn); split; congruence|].
    repeat split; auto; intros; lia. }
  apply Z.eqb_neq in E1. cbv zeta in S.
  destruct (op_order_of a =? 0) eqn:Eo; [discriminate S|].
  apply Z.eqb_neq in Eo. simpl in S.
  destruct (operation_order pl0 =? 0) eqn:Ez.
  { apply Z.eqb_eq in Ez. injection S as <-. simpl.
    rewrite P1, P2, P4.
    split; [auto|]. split; [eexists; split; [reflexivity|intros; lia]|].
    split; [intros Hn; destruct (P5 Hn); split; congruence|].
    split; [intros; congruence|].
    repeat split; auto. }
  apply Z.eqb_neq in Ez.
  destruct (operation_order pl0 =? op_order_of a) eqn:Ee;
    [|discriminate S].
  apply Z.eqb_eq in Ee. injection S as <-. simpl.
  rewrite P1, P2, P3, P4.
  split; [auto|]. split; [eexists; split; [reflexivity|intros; lia]|].
  split; [intros Hn; destruct (P5 Hn); split; congruence|].
  repeat split; auto; congruence.
Qed.

Lemma trivial_scan_sound (ops : list (option PyArrayObject)) :
  forall iop pl pl',
    plan_ok pl ->
    trivial_scan ops iop pl = Some pl' ->
    plan_ok pl'
    /\ (operation_ndim pl <> 0 ->
        operation_ndim pl' = operation_ndim pl
        /\ operation_shape pl' = operation_shape pl)
    /\ (operation_order pl <> 0 -> operation_order pl' = operation_order pl)
    /\ (forall a, In a (supplied ops) -> PyArray_NDIM a <> 0 ->
                  PyArray_NDIM a = operation_ndim pl'
                  /\ dims a = operation_shape pl')
    /\ (forall a, In a (supplied ops) -> 1 < PyArray_NDIM a ->
                  op_order_of a <> 0 /\ op_order_of a = operation_order pl').
Proof.
  induction ops as [|[b|] ops IH]; intros iop pl pl' W S; simpl in S.
  - injection S as <-. split; [exact W|].
    split; [auto|]. split; [auto|]. split; intros a [].
  - destruct (trivial_scan_operand b iop pl) as [pl1|] eqn:B;
      [|discriminate S].
    destruct (trivial_scan_operand_sound b iop pl pl1 W B)
      as (W1 & _ & B1 & B2 & B3 & B4).
    destruct (IH _ _ _ W1 S) as (W' & K1 & K2 & K3 & K4).
    split; [exact W'|].
    split. { intros Hn. destruct (B1 Hn) as [E1 E2].
             destruct (K1 ltac:(congruence)). split; congruence. }
    split. { intros Ho. rewrite K2; rewrite (B2 Ho); auto. }
    split.
    + intros a [<-|Ha] Hn; [|now apply K3].
      destruct (B3 Hn) as [E1 E2].
      destruct (K1 ltac:(congruence)). split; congruence.
    + intros a [<-|Ha] Hn; [|now apply K4].
      destruct (B4 Hn) as [E1 E2]. split; [exact E1|].
      rewrite K2; congruence.
  - destruct (IH _ _ _ W S) as (W' & K1 & K2 & K3 & K4).
    repeat split; auto; try (apply K1; assumption).
    + intros; now apply K3.
    + intros; now apply K3.
    + now apply K4.
    + now apply K4.
Qed.

Lemma trivial_scan_strides (ops : list (option PyArrayObject)) :
  forall iop pl pl',
    plan_ok pl ->
    0 <= iop ->
    iop + Z.of_nat (List.length ops) <= zlen (fixed_strides pl) ->
    trivial_scan ops iop pl = Some pl' ->
    zlen (fixed_strides pl') = zlen (fixed_strides pl)
    /\ (forall k a, nth_error ops k = Some (Some a) -> PyArray_NDIM a = 0 ->
                    rd (fixed_strides pl') (iop + Z.of_nat k) = 0)
    /\ (forall j, j < iop ->
                  rd (fixed_strides pl') j = rd (fixed_strides pl) j).
Proof.
  induction ops as [|o ops IH]; intros iop pl pl' W Hi Hl Sc.
  - simpl in Sc. injection Sc as <-. repeat split; auto.
    intros [|k] a H; discriminate H.
  - simpl in Hl. destruct o as [b|]; simpl in Sc.
    + destruct (trivial_scan_operand b iop pl) as [pl1|] eqn:B;
        [|discriminate Sc].
      destruct (trivial_scan_operand_sound b iop pl pl1 W B)
        as (W1 & (v & Ev & Hv) & _).
      destruct (IH (iop + 1) pl1 pl' W1 ltac:(lia)
                  ltac:(rewrite Ev, zlen_wr; lia) Sc) as (L & Z0 & U).
      rewrite Ev in L, U. rewrite zlen_wr in L.
      split; [exact L|]. split.
      * intros [|k] a H N; simpl in H.
        -- injection H as ->. rewrite Z.add_0_r.
           rewrite U by lia. rewrite rd_wr_same by lia. auto.
        -- replace (iop + Z.of_nat (S k)) with (iop + 1 + Z.of_nat k) by lia.
           now apply (Z0 k a).
      * intros j Hj. rewrite U by lia. apply rd_wr_other; lia.
    + destruct (IH (iop + 1) pl pl' W ltac:(lia) ltac:(lia) Sc)
        as (L & Z0 & U).
      split; [exact L|]. split.
      * intros [|k] a H N; simpl in H; [discriminate H|].
        replace (iop + Z.of_nat (S k)) with (iop + 1 + Z.of_nat k) by lia.
        now apply (Z0 k a).
      * intros j Hj. apply U; lia.
Qed.

Lemma kernel_calls_app (t1 t2 : list event) :
  kernel_calls (t1 ++ t2) = kernel_calls t1 ++ kernel_calls t2.
Proof. unfold kernel_calls. apply filter_app. Qed.

Lemma get_op_firstn (op : list (option PyArrayObject)) (n iop : Z)
      (a : PyArrayObject) :
  0 <= iop < n -> get_op op iop = Some a ->
  nth_error (firstn (Z.to_nat n) op) (Z.to_nat iop) = Some (Some a).
Proof.
  unfold get_op. intros H G.
  destruct (iop <? 0) eqn:E; [discriminate G|].
  assert (L : (Z.to_nat iop < List.length op)%nat).
  { destruct (Nat.lt_ge_cases (Z.to_nat iop) (List.length op)); auto.
    rewrite nth_overflow in G by lia. discriminate G. }
  rewrite nth_error_firstn.
  destruct (Nat.ltb_spec (Z.to_nat iop) (Z.to_nat n)); [|lia].
  rewrite (nth_error_nth' op None L). now rewrite G.
Qed.

Lemma supplied_in (ops : list (option PyArrayObject)) (a : PyArrayObject) :
  In a (supplied ops) <-> In (Some a) ops.
Proof.
  induction ops as [|[b|] ops IH]; simpl; [tauto| |].
  - rewrite IH. split; intros [H|H]; auto; left; congruence.
  - rewrite IH. split; [auto|]. intros [H|H]; [discriminate|auto].
Qed.

Lemma order_bit_of_op_order (f o : Z) :
  o = NPY_ARRAY_C_CONTIGUOUS \/ o = NPY_ARRAY_F_CONTIGUOUS ->
  Z.land f o
  = Z.land (Z.land f (Z.lor NPY_ARRAY_C_CONTIGUOUS NPY_ARRAY_F_CONTIGUOUS)) o.
Proof.
  intros [-> | ->]; rewrite <- Z.land_assoc; reflexivity.
Qed.

Lemma op_order_some_bit (a : PyArrayObject) :
  op_order_of a <> 0 ->
  Z.land (op_order_of a) NPY_ARRAY_C_CONTIGUOUS <> 0
  \/ Z.land (op_order_of a) NPY_ARRAY_F_CONTIGUOUS <> 0.
Proof.
  intros H.
  destruct (Z.eq_dec (Z.land (op_order_of a) NPY_ARRAY_C_CONTIGUOUS) 0)
    as [E1|]; [|now left].
  right. intros E2. apply H.
  assert (I : op_order_of a
              = Z.land (op_order_of a)
                  (Z.lor NPY_ARRAY_C_CONTIGUOUS NPY_ARRAY_F_CONTIGUOUS)).
  { unfold op_order_of. rewrite <- Z.land_assoc. now rewrite Z.land_diag. }
  rewrite I, Z.land_lor_distr_r, E1, E2. reflexivity.
Qed.

Lemma agreed_order_of_scan (order : NPY_ORDER) (ops : list PyArrayObject)
      (v : Z) :
  (match order with
   | NPY_CORDER => NPY_ARRAY_C_CONTIGUOUS
   | NPY_FORTRANORDER => NPY_ARRAY_F_CONTIGUOUS
   | _ => 0
   end <> 0 ->
   v = match order with
       | NPY_CORDER => NPY_ARRAY_C_CONTIGUOUS
       | NPY_FORTRANORDER => NPY_ARRAY_F_CONTIGUOUS
       | _ => 0
       end) ->
  (forall a, In a ops -> 1 < PyArray_NDIM a ->
             op_order_of a <> 0 /\ op_order_of a = v) ->
  agreed_order order ops.
Proof.
  intros Hv Ho.
  assert (Bit : forall o,
             o = NPY_ARRAY_C_CONTIGUOUS \/ o = NPY_ARRAY_F_CONTIGUOUS ->
             (forall a, In a ops -> 1 < PyArray_NDIM a ->
                        Z.land (op_order_of a) o <> 0) ->
             forall a, In a ops -> 1 < PyArray_NDIM a ->
                       Z.land (flags a) o <> 0).
  { intros o Oo H a Ia Na. rewrite (order_bit_of_op_order (flags a) o Oo).
    now apply H. }
  assert (Cases :
            (order = NPY_CORDER /\ v = NPY_ARRAY_C_CONTIGUOUS)
            \/ (order = NPY_FORTRANORDER /\ v = NPY_ARRAY_F_CONTIGUOUS)
            \/ (order <> NPY_CORDER /\ order <> NPY_FORTRANORDER)).
  { destruct order.
    - right; right; split; discriminate.
    - left; split; [reflexivity|apply Hv; discriminate].
    - right; left; split; [reflexivity|apply Hv; discriminate].
    - right; right; split; discriminate. }
  destruct Cases as [[Eo Ev] | [[Eo Ev] | [N1 N2]]].
  - exists NPY_ARRAY_C_CONTIGUOUS.
    split; [now left|]. split; [auto|]. split; [congruence|].
    apply Bit; [now left|]. intros a Ia Na.
    destruct (Ho a Ia Na) as [_ E]. rewrite E, Ev. discriminate.
  - exists NPY_ARRAY_F_CONTIGUOUS.
    split; [now right|]. split; [congruence|]. split; [auto|].
    apply Bit; [now right|]. intros a Ia Na.
    destruct (Ho a Ia Na) as [_ E]. rewrite E, Ev. discriminate.
  - destruct (Z.eq_dec (Z.land v NPY_ARRAY_C_CONTIGUOUS) 0) as [Ec|Ec].
    + exists NPY_ARRAY_F_CONTIGUOUS.
      split; [now right|]. split; [congruence|]. split; [congruence|].
      apply Bit; [now right|]. intros a Ia Na.
      destruct (Ho a Ia Na) as [Nz E].
      destruct (op_order_some_bit a Nz) as [B|B]; [|exact B].
      rewrite E in B. contradiction.
    + exists NPY_ARRAY_C_CONTIGUOUS.
      split; [now left|]. split; [congruence|]. split; [congruence|].
      apply Bit; [now left|]. intros a Ia Na.
      destruct (Ho a Ia Na) as [_ E]. now rewrite E.
Qed.

End TrivialLoopFacts.
Lemma firstn_length_le {A} (n : nat) (l : list A) :
  (List.length (firstn n l) <= n)%nat.
Proof. rewrite length_firstn. lia. Qed.

(** What [try_trivial_single_output_loop] does, case by case. *)
Lemma try_trivial_cases
      (innerloop : list Z -> Z -> list Z -> machine -> machine)
      (overlap_ok : PyArrayObject -> PyArrayObject -> bool)
      (equiv_types : PyArray_Descr -> PyArray_Descr -> bool)
      (ufunc : PyUFuncObject) (op : list (option PyArrayObject))
      (dtypes : list PyArray_Descr) (order : NPY_ORDER)
      (arr_prep : prepare_hook) (block : option Z) (r : run) :
  let o := try_trivial_single_output_loop innerloop overlap_ok
             equiv_types ufunc op dtypes order arr_prep block r in
  let nop := nin ufunc + 1 in
  let pl0 := mkPlan match order with
                    | NPY_CORDER => NPY_ARRAY_C_CONTIGUOUS
                    | NPY_FORTRANORDER => NPY_ARRAY_F_CONTIGUOUS
                    | _ => 0
                    end 0 [] (repeat 0 (Z.to_nat nop)) in
  (ret o = -2 /\ after o = r /\ out_ops o = op)
  \/ (ret o = -1 /\ kernel_calls (trace (after o)) = kernel_calls (trace r)
      /\ exists pl, trivial_scan (firstn (Z.to_nat nop) op) 0 pl0 = Some pl)
  \/ (ret o = 0
      /\ exists pl data steps,
          trivial_scan (firstn (Z.to_nat nop) op) 0 pl0 = Some pl
          /\ kernel_calls (trace (after o))
             = kernel_calls (trace r)
               ++ [EvKernel data
                     (PyArray_MultiplyList (operation_shape pl)
                                           (operation_ndim pl))
                     steps]
          /\ (steps = fixed_strides pl
              \/ (get_op op (nin ufunc) = None
                  /\ exists v, steps = wr (fixed_strides pl) (nin ufunc) v))).
Proof.
  intros o nop pl0. subst o. unfold try_trivial_single_output_loop.
  fold nop. fold pl0.
  destruct (trivial_scan (firstn (Z.to_nat nop) op) 0 pl0) as [pl|] eqn:Sc;
    [|left; auto].
  destruct (get_op op (nin ufunc)) as [out|] eqn:G.
  - destruct (negb (forallb _ _)); [left; auto|].
    destruct (_ && _ && _); [left; auto|].
    rewrite G.
    destruct (prepare_ufunc_output equiv_types arr_prep out) as [out'|].
    + right; right. split; [reflexivity|].
      eexists pl, _, _. split; [reflexivity|]. split.
      * simpl. rewrite kernel_calls_app. reflexivity.
      * now left.
    + right; left. simpl. eauto.
  - destruct (PyArray_NewFromDescr block _ _ _ _) as [out|];
      [|right; left; simpl; eauto].
    destruct (get_op (set_op op (nin ufunc) out) (nin ufunc)) as [out1|].
    + destruct (prepare_ufunc_output equiv_types arr_prep out1) as [out'|].
      * right; right. split; [reflexivity|].
        eexists pl, _, _. split; [reflexivity|]. split.
        -- simpl. rewrite !kernel_calls_app. simpl.
           rewrite app_nil_r. reflexivity.
        -- right. split; [reflexivity|]. simpl. eauto.
      * right; left. simpl. rewrite kernel_calls_app. simpl.
        rewrite app_nil_r. eauto.
    + right; left. simpl. rewrite kernel_calls_app. simpl.
      rewrite app_nil_r. eauto.
Qed.

(** C7.  The trivial-loop fast path accepts an operand set only if all
    its non-0-D operands have identical rank and identical shape and every
    operand of rank > 1 is C-contiguous or F-contiguous, all of them in one
    order, the requested one when C or Fortran order is asked for; an
    operand set that violates this is rejected with -2, before anything is
    allocated or computed.  When the fast path runs, it calls the kernel
    once, over the full element count, with byte-stride 0 for each rank-0
    operand. *)
Theorem trivial_loop_accepts_only_matching_operands
        (innerloop : list Z -> Z -> list Z -> machine -> machine)
        (overlap_ok : PyArrayObject -> PyArrayObject -> bool)
        (equiv_types : PyArray_Descr -> PyArray_Descr -> bool)
        (ufunc : PyUFuncObject) (op : list (option PyArrayObject))
        (dtypes : list PyArray_Descr) (order : NPY_ORDER)
        (arr_prep : prepare_hook) (block : option Z) (r : run) :
  let o := try_trivial_single_output_loop innerloop overlap_ok
             equiv_types ufunc op dtypes order arr_prep block r in
  let ops := supplied (firstn (Z.to_nat (nin ufunc + 1)) op) in
  (ret o <> -2 -> same_rank_and_shape ops /\ agreed_order order ops)
  /\ (~ (same_rank_and_shape ops /\ agreed_order order ops) ->
      ret o = -2 /\ after o = r /\ out_ops o = op)
  /\ (ret o = 0 ->
      exists data count steps,
        kernel_calls (trace (after o))
        = kernel_calls (trace r) ++ [EvKernel data count steps]
        /\ (forall a, In a ops -> PyArray_NDIM a <> 0 ->
                      count = PyArray_SIZE a)
        /\ (forall iop a, 0 <= iop < nin ufunc + 1 ->
                          get_op op iop = Some a -> PyArray_NDIM a = 0 ->
                          rd steps iop = 0)).
Proof.
  intros o ops.
  pose proof (try_trivial_cases innerloop overlap_ok equiv_types ufunc op dtypes order
                arr_prep block r) as C.
  cbv zeta in C. fold o in C.
  set (nop := nin ufunc + 1) in *.
  set (pl0 := mkPlan match order with
                     | NPY_CORDER => NPY_ARRAY_C_CONTIGUOUS
                     | NPY_FORTRANORDER => NPY_ARRAY_F_CONTIGUOUS
                     | _ => 0
                     end 0 [] (repeat 0 (Z.to_nat nop))) in *.
  assert (W0 : plan_ok pl0) by (intros H; simpl in H; congruence).
  assert (Acc : forall pl,
             trivial_scan (firstn (Z.to_nat nop) op) 0 pl0 = Some pl ->
             same_rank_and_shape ops /\ agreed_order order ops).
  { intros pl Sc.
    destruct (trivial_scan_sound _ 0 pl0 pl W0 Sc) as (_ & _ & K2 & K3 & K4).
    split.
    - intros a b Ia Ib Na Nb.
      destruct (K3 a Ia Na) as [A1 A2]. destruct (K3 b Ib Nb) as [B1 B2].
      split; congruence.
    - apply (agreed_order_of_scan order ops (operation_order pl)).
      + intros H. now apply K2.
      + exact K4. }
  assert (First : ret o <> -2 ->
                  same_rank_and_shape ops /\ agreed_order order ops).
  { intros H.
    destruct C as [(E & _) | [(_ & _ & pl & Sc) | (_ & pl & _ & _ & Sc & _)]];
      [contradiction| |]; now apply (Acc pl). }
  split; [exact First|]. split.
  - intros V.
    destruct C as [(E & A & B) | [(E & _) | (E & _)]]; [auto| |];
      exfalso; apply V, First; rewrite E; discriminate.
  - intros E0.
    destruct C as [(E & _) | [(E & _) | (_ & pl & dat & steps & Sc & K & St)]];
      [rewrite E in E0; discriminate E0 .. |].
    exists dat, (PyArray_MultiplyList (operation_shape pl) (operation_ndim pl)),
           steps.
    split; [exact K|].
    destruct (trivial_scan_sound _ 0 pl0 pl W0 Sc) as (_ & _ & _ & K3 & _).
    assert (Len : 0 + Z.of_nat (List.length (firstn (Z.to_nat nop) op))
                  <= zlen (fixed_strides pl0)).
    { unfold pl0, zlen. cbn [fixed_strides]. rewrite repeat_length.
      pose proof (firstn_length_le (Z.to_nat nop) op). lia. }
    destruct (trivial_scan_strides _ 0 pl0 pl W0 ltac:(lia) Len Sc)
      as (L & Z0 & _).
    split.
    + intros a Ia Na. destruct (K3 a Ia Na) as [A1 A2].
      unfold PyArray_SIZE. congruence.
    + intros iop a Hi G Na.
      pose proof (get_op_firstn op nop iop a Hi G) as Nth.
      pose proof (Z0 _ a Nth Na) as Zs.
      rewrite Z2Nat.id in Zs by lia. simpl in Zs.
      destruct St as [-> | (Gn & v & ->)]; [exact Zs|].
      rewrite rd_wr_other; [exact Zs|].
      intros E. rewrite <- E, Gn in G. discriminate G.
Qed.
(* ================================================================== *)
(** ** The reduction entry point                                       *)
(* ================================================================== *)

Section ReductionFacts.

Variable env : collaborators.
Variable sizeof_long : Z.

Lemma check_and_adjust_axis_in_rank (axis ndim axis' : Z) :
  check_and_adjust_axis axis ndim = Some axis' -> in_rank ndim axis'.
Proof.
  unfold check_and_adjust_axis, in_rank.
  destruct ((axis <? - ndim) || (axis >=? ndim)) eqn:E; [discriminate|].
  apply orb_false_iff in E. destruct E as [E1 E2].
  apply Z.ltb_ge in E1. rewrite Z.geb_leb in E2. apply Z.leb_gt in E2.
  intros [= <-]. destruct (axis <? 0) eqn:N;
    [apply Z.ltb_lt in N|apply Z.ltb_ge in N]; lia.
Qed.

Lemma convert_axes_in_rank (items : list (option Z)) (ndim : Z) :
  forall axes, convert_axes items ndim = inl axes ->
               Forall (in_rank ndim) axes.
Proof.
  induction items as [|[a|] items IH]; intros axes C; simpl in C.
  - injection C as <-. constructor.
  - destruct (check_and_adjust_axis a ndim) as [a'|] eqn:A; [|discriminate].
    destruct (convert_axes items ndim) as [rest|]; [|discriminate].
    injection C as <-. constructor.
    + now apply (check_and_adjust_axis_in_rank a).
    + now apply IH.
  - discriminate.
Qed.

Lemma range_from_in_rank (n : nat) :
  forall i, 0 <= i ->
            Forall (in_rank (i + Z.of_nat n)) (range_from i n).
Proof.
  induction n as [|n IH]; intros i Hi; simpl; constructor.
  - unfold in_rank; lia.
  - replace (i + Z.pos (Pos.of_succ_nat n)) with (i + 1 + Z.of_nat n) by lia.
    apply IH; lia.
Qed.

Lemma reduction_axes_in_rank (axis : axis_arg) (ndim : Z) (axes : list Z) :
  0 <= ndim ->
  reduction_axes axis ndim = inl axes -> Forall (in_rank ndim) axes.
Proof.
  intros Hn. destruct axis as [| |items|[a|]]; simpl.
  - destruct (ndim =? 0) eqn:E; intros [= <-]; constructor;
      [|constructor]. apply Z.eqb_neq in E. unfold in_rank; lia.
  - intros [= <-]. pose proof (range_from_in_rank (Z.to_nat ndim) 0) as R.
    rewrite Z2Nat.id in R by lia. now apply R.
  - destruct (NPY_MAXDIMS <? _); [discriminate|].
    apply convert_axes_in_rank.
  - destruct ((ndim =? 0) && _); [intros [= <-]; constructor|].
    destruct (check_and_adjust_axis a ndim) as [a'|] eqn:A; [|discriminate].
    intros [= <-]. constructor; [|constructor].
    now apply (check_and_adjust_axis_in_rank a).
  - discriminate.
Qed.

(** The flags of the axes seen so far catch every repetition. *)
Lemma reduce_axis_flags_none (axes : list Z) :
  forall axis_flags,
    Forall (in_rank (zlen axis_flags)) axes ->
    (reduce_axis_flags axes axis_flags = None
     <-> ~ (NoDup axes /\ forall a, In a axes -> rd axis_flags a = 0)).
Proof.
  induction axes as [|a axes IH]; intros fl R; simpl.
  - split; [discriminate|]. intros H. exfalso. apply H.
    split; [constructor|intros a []].
  - inversion R as [|? ? Ra R']; subst.
    destruct (rd fl a =? 0) eqn:E; simpl.
    + apply Z.eqb_eq in E.
      rewrite IH by (now rewrite zlen_wr).
      split; intros H [N Z0]; apply H.
      * inversion N as [|? ? Nin N']; subst. split; [exact N'|].
        intros b Hb. rewrite rd_wr_other; [apply Z0; now right|].
        intros ->. contradiction.
      * split.
        -- constructor; [|exact N].
           intros Hin. specialize (Z0 a Hin).
           rewrite rd_wr_same in Z0 by exact Ra. discriminate Z0.
        -- intros b [<-|Hb]; [exact E|].
           specialize (Z0 b Hb).
           destruct (Z.eq_dec a b) as [->|Ne];
             [rewrite rd_wr_same in Z0 by exact Ra; discriminate Z0|].
           now rewrite rd_wr_other in Z0.
    + apply Z.eqb_neq in E. split; [|reflexivity].
      intros _ [_ Z0]. apply E, Z0. now left.
Qed.

Lemma rd_repeat_zero (n : nat) (i : Z) : rd (repeat 0 n) i = 0.
Proof.
  unfold rd. destruct (i <? 0); [reflexivity|].
  generalize (Z.to_nat i) as k. induction n as [|n IH]; intros [|k];
    simpl; auto.
Qed.

Lemma reduce_duplicate_axis (ufunc : PyUFuncObject) (arr : PyArrayObject)
      (out : option PyArrayObject) (axes : list Z)
      (odtype : option PyArray_Descr) (keepdims : Z)
      (initial : option pyobj) (wheremask : option PyArrayObject)
      (r : run) :
  Forall (in_rank (PyArray_NDIM arr)) axes ->
  ~ NoDup axes ->
  PyUFunc_Reduce env ufunc arr out axes odtype keepdims initial wheremask r
  = (Raised (ValueError "duplicate value in 'axis'"), r).
Proof.
  intros R D. unfold PyUFunc_Reduce.
  assert (L : zlen (repeat 0 (Z.to_nat (PyArray_NDIM arr)))
              = PyArray_NDIM arr).
  { unfold zlen. rewrite repeat_length.
    pose proof (ndim_nonneg arr). lia. }
  assert (N : reduce_axis_flags axes
                (repeat 0 (Z.to_nat (PyArray_NDIM arr))) = None).
  { apply reduce_axis_flags_none; [now rewrite L|].
    intros [Nd _]. contradiction. }
  now rewrite N.
Qed.

End ReductionFacts.

Section PlanFacts.

Variable env : collaborators.
Variable sizeof_long : Z.

Ltac plan_step H :=
  match type of H with
  | (if ?b then _ else _) = _ => destruct b eqn:?
  | match ?x with _ => _ end = _ => destruct x eqn:?
  end; try discriminate H.

(** What is known once the plan is made. *)
Lemma reduction_plan_inv (ufunc : PyUFuncObject) (args : reduction_args)
      (operation : reduction) (p : reduction_plan) :
  reduction_plan_of env sizeof_long (Some ufunc) args operation = Plan p ->
  core_enabled ufunc = 0 /\ nin ufunc = 2 /\ nout ufunc = 1
  /\ ra_override args = NoOverride
  /\ ra_array args = Some (rp_mp p)
  /\ reduction_axes (ra_axis args) (PyArray_NDIM (rp_mp p))
     = inl (rp_axes p)
  /\ rp_out p = match ra_out args with OutArray a => Some a | _ => None end
  /\ reduction_otype env sizeof_long ufunc (rp_mp p) (dtype_of_args args)
                     (rp_out p)
     = Some (rp_otype p).
Proof.
  unfold reduction_plan_of. intros H.
  do 6 plan_step H.
  assert (Ec : core_enabled ufunc = 0).
  { match goal with E : negb (core_enabled ufunc =? 0) = false |- _ =>
      apply negb_false_iff, Z.eqb_eq in E; exact E end. }
  assert (Ei : nin ufunc = 2).
  { match goal with E : negb (nin ufunc =? 2) = false |- _ =>
      apply negb_false_iff, Z.eqb_eq in E; exact E end. }
  assert (Eo : nout ufunc = 1).
  { match goal with E : negb (nout ufunc =? 1) = false |- _ =>
      apply negb_false_iff, Z.eqb_eq in E; exact E end. }
  unfold dtype_of_args.
  repeat plan_step H;
    injection H as <-; cbn [rp_mp rp_axes rp_out rp_otype];
    repeat split; auto.
Qed.

(** The plan of a call whose arguments all convert. *)
Lemma reduction_plan_of_converted (ufunc : PyUFuncObject)
      (args : reduction_args) (operation : reduction) (mp : PyArrayObject) :
  arguments_converted ufunc args mp ->
  reduction_plan_of env sizeof_long (Some ufunc) args operation
  = match reduction_axes (ra_axis args) (PyArray_NDIM mp) with
    | inr e => PlanRaised e
    | inl axes =>
        match reduction_otype env sizeof_long ufunc mp (dtype_of_args args)
                (out_of_args args) with
        | None => PlanRaised FromCollaborator
        | Some otype => Plan (plan_with args mp axes otype)
        end
    end.
Proof.
  unfold arguments_converted, reduction_plan_of, plan_with, dtype_of_args,
    out_of_args.
  intros (Ec & Ei & Eo & Ep & En & Ev & Hi & Hd & Hout & Hk & Hw & Ea
          & Fm & Fd).
  rewrite Ec, Ei, Eo, Ep, En, Ev, Ea. cbn [negb Z.eqb].
  destruct (ra_indices args) as [[i|]|]; try contradiction;
    destruct (ra_dtype args) as [[d|]|]; try contradiction;
    destruct (ra_out args); try contradiction;
    destruct (ra_keepdims args) as [[k|]|]; try contradiction;
    destruct (ra_where args) as [[w|]|]; try contradiction;
    rewrite Fm; try rewrite Fd; cbn [orb]; reflexivity.
Qed.

Lemma reduction_plan_overridden (ufunc : PyUFuncObject)
      (args : reduction_args) (operation : reduction) (res : pyobj) :
  reduction_plan_of env sizeof_long (Some ufunc) args operation
  = PlanOverridden res ->
  ra_override args = OverrideReturns res.
Proof.
  unfold reduction_plan_of. intros H.
  do 6 plan_step H.
  - repeat plan_step H.
  - injection H as <-. reflexivity.
Qed.

End PlanFacts.

(** C5.  A reduce, accumulate or reduceat call is rejected with an error,
    the run left as it was, when the ufunc has a core signature, when it
    does not have exactly two inputs, when it does not have exactly one
    output, and, for reduce with no override taking the call, when the
    requested axes, counted from the front, hold one axis twice: the
    error is then the duplicate-axis error unless an earlier conversion
    already failed.  A signature without core dimensions, "(),()->()",
    leaves the ufunc without core signature. *)
Theorem reduction_rejected_before_computation
        (env : collaborators) (sizeof_long : Z) (ufunc : PyUFuncObject)
        (args : reduction_args) (operation : reduction) (r : run) :
  core_enabled ufunc <> 0 \/ nin ufunc <> 2 \/ nout ufunc <> 1
  \/ (operation = UFUNC_REDUCE /\ ra_override args = NoOverride
      /\ exists mp axes,
          ra_array args = Some mp
          /\ reduction_axes (ra_axis args) (PyArray_NDIM mp) = inl axes
          /\ ~ NoDup axes) ->
  (exists e,
      PyUFunc_GenericReduction env sizeof_long (Some ufunc) args operation r
      = (Raised e, r)
      /\ (core_enabled ufunc <> 0 ->
          e = RuntimeError "Reduction not defined on ufunc with signature")
      /\ (core_enabled ufunc = 0 -> nin ufunc <> 2 ->
          e = ValueError (_reduce_type operation
                          ++ " only supported for binary functions"))
      /\ (core_enabled ufunc = 0 -> nin ufunc = 2 -> nout ufunc <> 1 ->
          e = ValueError (_reduce_type operation
                ++ " only supported for functions returning a single value"))
      /\ (forall p,
             reduction_plan_of env sizeof_long (Some ufunc) args operation
             = Plan p ->
             e = ValueError "duplicate value in 'axis'"))
  /\ core_enabled (parsed 2 1 "(),()->()") = 0
  /\ core_enabled (parsed 2 1 "(i),(i)->()") = 1.
Proof.
  intros H. split; [|split; reflexivity].
  unfold PyUFunc_GenericReduction.
  destruct (Z.eq_dec (core_enabled ufunc) 0) as [Ec|Ec].
  2:{ unfold reduction_plan_of.
      apply Z.eqb_neq in Ec. rewrite Ec. simpl.
      eexists; split; [reflexivity|].
      apply Z.eqb_neq in Ec.
      repeat split; try reflexivity; try contradiction; discriminate. }
  destruct (Z.eq_dec (nin ufunc) 2) as [Ei|Ei].
  2:{ unfold reduction_plan_of.
      rewrite Ec. apply Z.eqb_neq in Ei. rewrite Ei. simpl.
      eexists; split; [reflexivity|].
      apply Z.eqb_neq in Ei.
      repeat split; try reflexivity; try contradiction; discriminate. }
  destruct (Z.eq_dec (nout ufunc) 1) as [Eo|Eo].
  2:{ unfold reduction_plan_of.
      rewrite Ec, Ei. apply Z.eqb_neq in Eo. rewrite Eo. simpl.
      eexists; split; [reflexivity|].
      apply Z.eqb_neq in Eo.
      repeat split; try reflexivity; try contradiction; discriminate. }
  destruct H as [H|[H|[H|(Eop & Eov & mp & axes & Ea & Ex & Dup)]]];
    try contradiction.
  subst operation.
  destruct (reduction_plan_of env sizeof_long (Some ufunc) args UFUNC_REDUCE)
    as [p|e|res] eqn:P.
  - destruct (reduction_plan_inv env sizeof_long ufunc args UFUNC_REDUCE p P)
      as (_ & _ & _ & _ & Ea' & Ex' & _).
    rewrite Ea in Ea'. injection Ea' as ->. rewrite Ex in Ex'.
    injection Ex' as ->.
    rewrite (reduce_duplicate_axis env ufunc (rp_mp p) (rp_out p)
               (rp_axes p) (Some (rp_otype p)) (rp_keepdims p)
               (rp_initial p) (rp_wheremask p) r).
    + eexists; split; [reflexivity|].
      repeat split; try reflexivity; try contradiction.
    + apply (reduction_axes_in_rank (ra_axis args)); [apply ndim_nonneg|].
      exact Ex.
    + exact Dup.
  - exists e. split; [reflexivity|].
    repeat split; try contradiction. discriminate.
  - apply reduction_plan_overridden in P. rewrite Eov in P. discriminate P.
Qed.

(** The theorem at [add] reducing a 2 x 3 array over the axes (1, -1),
    which name the last axis twice. *)
Lemma reduction_rejected_before_computation_witness :
  (exists e,
      PyUFunc_GenericReduction add_env 8 (Some add_ufunc)
        (plain_args (c_array 0 NPY_LONG 8 [2; 3])
                    (AxisTuple [Some 1; Some (-1)]))
        UFUNC_REDUCE (fresh_run (fun _ => 0))
      = (Raised e, fresh_run (fun _ => 0))
      /\ (core_enabled add_ufunc <> 0 ->
          e = RuntimeError "Reduction not defined on ufunc with signature")
      /\ (core_enabled add_ufunc = 0 -> nin add_ufunc <> 2 ->
          e = ValueError (_reduce_type UFUNC_REDUCE
                          ++ " only supported for binary functions"))
      /\ (core_enabled add_ufunc = 0 -> nin add_ufunc = 2 ->
          nout add_ufunc <> 1 ->
          e = ValueError (_reduce_type UFUNC_REDUCE
                ++ " only supported for functions returning a single value"))
      /\ (forall p,
             reduction_plan_of add_env 8 (Some add_ufunc)
               (plain_args (c_array 0 NPY_LONG 8 [2; 3])
                           (AxisTuple [Some 1; Some (-1)]))
               UFUNC_REDUCE
             = Plan p ->
             e = ValueError "duplicate value in 'axis'"))
  /\ core_enabled (parsed 2 1 "(),()->()") = 0
  /\ core_enabled (parsed 2 1 "(i),(i)->()") = 1.
Proof.
  apply (reduction_rejected_before_computation add_env 8 add_ufunc
           (plain_args (c_array 0 NPY_LONG 8 [2; 3])
                       (AxisTuple [Some 1; Some (-1)]))
           UFUNC_REDUCE (fresh_run (fun _ => 0))).
  right; right; right. split; [reflexivity|]. split; [reflexivity|].
  exists (c_array 0 NPY_LONG 8 [2; 3]), [1; 1].
  split; [reflexivity|]. split; [reflexivity|].
  intros N. inversion N as [|? ? Nin _]. apply Nin. now left.
Defined.

(** C10, as stated, fails: [add.accumulate] on a rank-0 array with
    [axis=1] fails with the axis error, not with "cannot accumulate on a
    scalar". *)
Lemma accumulate_scalar_axis_error :
  PyUFunc_GenericReduction add_env 8 (Some add_ufunc)
    (plain_args (c_array 0 NPY_LONG 8 []) (AxisOther (Some 1)))
    UFUNC_ACCUMULATE (fresh_run (fun _ => 0))
  = (Raised (AxisError 1 0), fresh_run (fun _ => 0))
  /\ Raised (AxisError 1 0)
     <> Raised (TypeError "cannot accumulate on a scalar").
Proof. split; [reflexivity|discriminate]. Qed.

(** C10, amended.  On a rank-0 input, which has no valid axis, a call
    whose arguments convert behaves as follows.  With the integer axis 0
    or -1, reduce runs as a reduction over no axes.  Accumulate and
    reduceat never return an array: they fail with "cannot accumulate (or
    reduceat) on a scalar" whenever the axis argument is accepted (absent,
    None, 0, -1 or the empty tuple), and with the axis error for every
    other integer axis. *)
Theorem scalar_reduction_axis
        (env : collaborators) (sizeof_long : Z) (ufunc : PyUFuncObject)
        (args : reduction_args) (mp : PyArrayObject) (otype : PyArray_Descr)
        (r : run) :
  arguments_converted ufunc args mp ->
  PyArray_NDIM mp = 0 ->
  reduction_otype env sizeof_long ufunc mp (dtype_of_args args)
                  (out_of_args args) = Some otype ->
  (forall axis, check_and_adjust_axis axis 0 = None)
  /\ (ra_axis args = AxisOther (Some 0)
      \/ ra_axis args = AxisOther (Some (-1)) ->
      PyUFunc_GenericReduction env sizeof_long (Some ufunc) args
        UFUNC_REDUCE r
      = PyUFunc_Reduce env ufunc mp (out_of_args args) [] (Some otype)
          (rp_keepdims (plan_with args mp [] otype)) (ra_initial args)
          (rp_wheremask (plan_with args mp [] otype)) r)
  /\ (forall operation,
         operation = UFUNC_ACCUMULATE \/ operation = UFUNC_REDUCEAT ->
         (forall a,
             fst (PyUFunc_GenericReduction env sizeof_long (Some ufunc) args
                    operation r) <> Returned a)
         /\ (ra_axis args = AxisAbsent \/ ra_axis args = AxisNone
             \/ ra_axis args = AxisTuple []
             \/ ra_axis args = AxisOther (Some 0)
             \/ ra_axis args = AxisOther (Some (-1)) ->
             PyUFunc_GenericReduction env sizeof_long (Some ufunc) args
               operation r
             = (Raised (TypeError ("cannot " ++ _reduce_type operation
                                   ++ " on a scalar")), r))
         /\ (forall axis,
                ra_axis args = AxisOther (Some axis) ->
                axis <> 0 -> axis <> -1 ->
                PyUFunc_GenericReduction env sizeof_long (Some ufunc) args
                  operation r
                = (Raised (AxisError axis 0), r))).
Proof.
  intros C N Ot.
  assert (Chk : forall axis, check_and_adjust_axis axis 0 = None).
  { intros axis. unfold check_and_adjust_axis.
    destruct (Z.ltb_spec axis (- 0)); [reflexivity|].
    destruct (Z.geb_spec axis 0); [reflexivity|]. lia. }
  pose proof (fun operation =>
                reduction_plan_of_converted env sizeof_long ufunc args
                  operation mp C) as P.
  rewrite N, Ot in P.
  assert (Acc : forall axes,
             reduction_axes (ra_axis args) 0 = inl axes -> axes = []).
  { intros axes. destruct (ra_axis args) as [| |items|[a|]]; simpl.
    - intros [= <-]; reflexivity.
    - intros [= <-]; reflexivity.
    - destruct (NPY_MAXDIMS <? _); [discriminate|].
      destruct items as [|[i|] items]; simpl;
        [intros [= <-]; reflexivity| |discriminate].
      rewrite Chk. discriminate.
    - destruct ((a =? 0) || (a =? -1)); [intros [= <-]; reflexivity|].
      rewrite Chk. discriminate.
    - discriminate. }
  split; [exact Chk|]. split.
  - intros Ha. unfold PyUFunc_GenericReduction. rewrite P.
    destruct Ha as [-> | ->]; reflexivity.
  - intros operation Hop. split; [|split].
    + intros a. unfold PyUFunc_GenericReduction. rewrite P.
      destruct (reduction_axes (ra_axis args) 0) as [axes|e];
        [|discriminate].
      cbn [plan_with rp_mp]. rewrite N.
      destruct Hop as [-> | ->]; discriminate.
    + intros Ha. unfold PyUFunc_GenericReduction. rewrite P.
      assert (Ax : reduction_axes (ra_axis args) 0 = inl [])
        by (destruct Ha as [-> | [-> | [-> | [-> | ->]]]]; reflexivity).
      rewrite Ax. cbn [plan_with rp_mp]. rewrite N.
      destruct Hop as [-> | ->]; reflexivity.
    + intros axis Ha H0 H1. unfold PyUFunc_GenericReduction. rewrite P, Ha.
      simpl. apply Z.eqb_neq in H0, H1. rewrite H0, H1. simpl.
      rewrite Chk. reflexivity.
Qed.

(** The theorem at [add] on a rank-0 array with the axis 0: reduce runs
    over no axes and accumulate fails with its scalar error. *)
Lemma scalar_reduction_axis_witness :
  PyUFunc_GenericReduction add_env 8 (Some add_ufunc)
    (plain_args (c_array 0 NPY_LONG 8 []) (AxisOther (Some 0)))
    UFUNC_REDUCE (fresh_run (fun _ => 0))
  = PyUFunc_Reduce add_env add_ufunc (c_array 0 NPY_LONG 8 []) None []
      (Some (mkDescr NPY_LONG 8)) 0 None None (fresh_run (fun _ => 0))
  /\ PyUFunc_GenericReduction add_env 8 (Some add_ufunc)
       (plain_args (c_array 0 NPY_LONG 8 []) (AxisOther (Some 0)))
       UFUNC_ACCUMULATE (fresh_run (fun _ => 0))
     = (Raised (TypeError "cannot accumulate on a scalar"),
        fresh_run (fun _ => 0)).
Proof.
  assert (C : arguments_converted add_ufunc
                (plain_args (c_array 0 NPY_LONG 8 []) (AxisOther (Some 0)))
                (c_array 0 NPY_LONG 8 [])).
  { unfold arguments_converted. simpl.
    repeat split; try reflexivity; discriminate. }
  destruct (scalar_reduction_axis add_env 8 add_ufunc
              (plain_args (c_array 0 NPY_LONG 8 []) (AxisOther (Some 0)))
              (c_array 0 NPY_LONG 8 []) (mkDescr NPY_LONG 8)
              (fresh_run (fun _ => 0)) C eq_refl eq_refl)
    as (_ & R & A).
  split.
  - exact (R (or_introl eq_refl)).
  - destruct (A UFUNC_ACCUMULATE (or_introl eq_refl)) as (_ & S & _).
    exact (S (or_intror (or_intror (or_intror (or_introl eq_refl))))).
Defined.
(* ================================================================== *)
(** ** The first element of a reduction                                *)
(* ================================================================== *)

Section FirstElement.

Variable env : collaborators.

Lemma store_same (m : Z -> Z) (p v : Z) : store m p v p = v.
Proof. unfold store. now rewrite Z.eqb_refl. Qed.

Lemma store_other (m : Z -> Z) (p v q : Z) : q <> p -> store m p v q = m q.
Proof. unfold store. intros H. apply Z.eqb_neq in H. now rewrite H. Qed.

Lemma added_refl (r : run) : added r r [].
Proof. unfold added. now rewrite app_nil_r. Qed.

Lemma added_trans (r1 r2 r3 : run) (e1 e2 : list event) :
  added r1 r2 e1 -> added r2 r3 e2 -> added r1 r3 (e1 ++ e2).
Proof. unfold added. intros H1 H2. now rewrite H2, H1, app_assoc. Qed.

Lemma incref_mem (o : Z) (r : run) : mem (mach (Py_XINCREF o r)) = mem (mach r).
Proof. unfold Py_XINCREF. destruct (o =? 0); reflexivity. Qed.

Lemma decref_mem (o : Z) (r : run) : mem (mach (Py_XDECREF o r)) = mem (mach r).
Proof. unfold Py_XDECREF. destruct (o =? 0); reflexivity. Qed.

(** The copy moves the element of [src] into [dst], touches no other
    cell, and invokes no kernel. *)
Lemma copy_first_element_spec (otype dst src : Z) (r : run) :
  mem (mach (copy_first_element otype dst src r)) dst = mem (mach r) src
  /\ (forall q, q <> dst ->
                mem (mach (copy_first_element otype dst src r)) q
                = mem (mach r) q)
  /\ exists extra,
      added r (copy_first_element otype dst src r) extra
      /\ kernel_calls extra = [].
Proof.
  unfold copy_first_element.
  destruct (otype =? NPY_OBJECT).
  - cbn [set_mem mach mem trace].
    rewrite !decref_mem, !incref_mem.
    split; [apply store_same|]. split; [intros q Hq; now apply store_other|].
    unfold Py_XDECREF. rewrite incref_mem. unfold Py_XINCREF, added.
    destruct (mem (mach r) src =? 0); destruct (mem (mach r) dst =? 0);
      unfold set_mem, log; cbn [mach mem trace];
      [exists [] | eexists [_] | eexists [_] | eexists [_; _]];
      rewrite <- ?app_assoc; rewrite ?app_nil_r; split; reflexivity.
  - cbn [set_mem mach mem trace].
    split; [apply store_same|]. split; [intros q Hq; now apply store_other|].
    exists []. split; [|reflexivity].
    unfold added, set_mem. cbn [trace]. now rewrite app_nil_r.
Qed.

(** For the object dtype the reference to the new element is taken
    before the reference to the old one is dropped. *)
Lemma copy_first_element_object_order (dst src : Z) (r : run) :
  mem (mach r) src <> 0 -> mem (mach r) dst <> 0 ->
  added r (copy_first_element NPY_OBJECT dst src r)
        [EvIncref (mem (mach r) src); EvDecref (mem (mach r) dst)].
Proof.
  intros Hs Hd. unfold copy_first_element, added.
  rewrite Z.eqb_refl. cbn [set_mem trace].
  unfold Py_XDECREF. rewrite incref_mem.
  apply Z.eqb_neq in Hd. rewrite Hd. cbn [log trace].
  unfold Py_XINCREF. apply Z.eqb_neq in Hs. rewrite Hs. cbn [log trace].
  now rewrite <- app_assoc.
Qed.

(** Copying an object element onto itself leaves the object alive, with
    the reference count it had. *)
Lemma copy_first_element_object_in_place (p : Z) (r : run) :
  mem (mach r) p <> 0 ->
  0 < ob_refcnt (mach r) (mem (mach r) p) ->
  let r' := copy_first_element NPY_OBJECT p p r in
  mem (mach r') p = mem (mach r) p
  /\ ob_refcnt (mach r') (mem (mach r) p)
     = ob_refcnt (mach r) (mem (mach r) p)
  /\ freed (mach r') = freed (mach r).
Proof.
  intros Ho Hc. unfold copy_first_element. rewrite Z.eqb_refl.
  cbn [set_mem mach mem ob_refcnt freed].
  rewrite !decref_mem, !incref_mem.
  split; [apply store_same|].
  unfold Py_XDECREF. rewrite incref_mem.
  apply Z.eqb_neq in Ho. rewrite Ho. cbn [log mach ob_refcnt freed].
  unfold Py_XINCREF. rewrite Ho. cbn [log mach ob_refcnt freed mem].
  rewrite !store_same.
  split; [lia|].
  destruct (Z.eqb_spec (ob_refcnt (mach r) (mem (mach r) p) + 1 - 1) 0);
    [lia|reflexivity].
Qed.

End FirstElement.

Section AccumulateFacts.

Variable env : collaborators.

Lemma call_loop_spec (id : loop_id) (args : list Z) (count : Z)
      (steps : list Z) (r : run) :
  kernel_frame (loops env id) ->
  (forall q, ~ kernel_targets (EvKernel args count steps) q ->
             mem (mach (call_loop env id args count steps r)) q
             = mem (mach r) q)
  /\ added r (call_loop env id args count steps r)
           [EvKernel args count steps].
Proof.
  intros F. unfold call_loop, call_innerloop, log, added.
  cbn [mach trace]. split; [|reflexivity].
  intros q Hq. now apply F.
Qed.

(** One lane: the output's first element is the input's, the kernel is
    never asked for it, and nothing outside the lane's output is
    written. *)
Lemma accumulate_lane_spec (loop : loop_id) (otype : Z)
      (count_m1 stride0 stride1 d0 d1 : Z) (r : run) :
  kernel_frame (loops env loop) ->
  stride0 <> 0 ->
  let r' := accumulate_lane env loop otype count_m1 stride0 stride1 d0 d1 r in
  mem (mach r') d0 = mem (mach r) d1
  /\ (forall q, ~ accumulate_cells count_m1 stride0 d0 q ->
                mem (mach r') q = mem (mach r) q)
  /\ exists extra,
      added r r' extra
      /\ (forall e, In e extra -> ~ kernel_targets e d0)
      /\ (kernel_calls extra = []
          \/ kernel_calls extra
             = [EvKernel [d0; d1 + stride1; d0 + stride0] count_m1
                         [stride0; stride1; stride0]]).
Proof.
  intros F S r'. subst r'. unfold accumulate_lane.
  destruct (copy_first_element_spec otype d0 d1 r)
    as (C1 & C2 & extra & A & K).
  assert (Knone : forall e, In e extra -> ~ kernel_targets e d0).
  { intros e He T. destruct e; try contradiction.
    assert (In (EvKernel args count steps) (kernel_calls extra)).
    { unfold kernel_calls. apply filter_In. split; [exact He|reflexivity]. }
    rewrite K in H. contradiction. }
  destruct (count_m1 >? 0) eqn:E.
  - apply Z.gtb_lt in E.
    destruct (call_loop_spec loop [d0; d1 + stride1; d0 + stride0] count_m1
                [stride0; stride1; stride0]
                (copy_first_element otype d0 d1 r) F) as (L1 & L2).
    assert (Nt : ~ kernel_targets
                     (EvKernel [d0; d1 + stride1; d0 + stride0] count_m1
                               [stride0; stride1; stride0]) d0).
    { intros (j & Hj & Eq). unfold rd in Eq. simpl in Eq.
      assert (M : (j + 1) * stride0 = 0) by lia.
      apply Z.mul_eq_0 in M. lia. }
    split; [rewrite L1 by exact Nt; exact C1|]. split.
    + intros q Hq. rewrite L1.
      * apply C2. intros ->. apply Hq. exists 0. split; [lia|ring].
      * intros (j & Hj & Eq). unfold rd in Eq. simpl in Eq. apply Hq.
        exists (j + 1). split; [lia|]. rewrite Eq. ring.
    + exists (extra ++ [EvKernel [d0; d1 + stride1; d0 + stride0] count_m1
                               [stride0; stride1; stride0]]).
      split; [exact (added_trans _ _ _ _ _ A L2)|]. split.
      * intros e He. apply in_app_or in He. destruct He as [He|[<-|[]]];
          [now apply Knone|exact Nt].
      * right. rewrite kernel_calls_app, K. reflexivity.
  - split; [exact C1|]. split.
    + intros q Hq. apply C2. intros ->. apply Hq.
      exists 0. split; [lia|ring].
    + exists extra. split; [exact A|]. split; [exact Knone|now left].
Qed.

(** The lanes of an iteration that no error interrupts. *)
Lemma accumulate_lanes_spec (loop : loop_id) (otype : Z)
      (count_m1 stride0 stride1 : Z) (next : list (list Z)) :
  kernel_frame (loops env loop) ->
  stride0 <> 0 ->
  forall (dataptr : list Z) (r : run),
    let lanes := dataptr :: next in
    let r' := accumulate_lanes env loop otype count_m1 stride0 stride1 false
                dataptr next r in
    (forall q,
        (forall l, In l lanes ->
                   ~ accumulate_cells count_m1 stride0 (rd l 0) q) ->
        mem (mach r') q = mem (mach r) q)
    /\ (forall pre l post,
           lanes = pre ++ l :: post ->
           (forall l', In l' pre ->
                       ~ accumulate_cells count_m1 stride0 (rd l' 0)
                                          (rd l 1)) ->
           (forall l', In l' post ->
                       ~ accumulate_cells count_m1 stride0 (rd l' 0)
                                          (rd l 0)) ->
           mem (mach r') (rd l 0) = mem (mach r) (rd l 1)).
Proof.
  intros F S. induction next as [|d next IH]; intros dataptr r lanes r'.
  - subst r' lanes. cbn [accumulate_lanes andb].
    destruct (accumulate_lane_spec loop otype count_m1 stride0 stride1
                (rd dataptr 0) (rd dataptr 1) r F S) as (L1 & L2 & _).
    split.
    + intros q Hq. apply L2. apply Hq. now left.
    + intros pre l post E _ _.
      destruct pre as [|x pre]; [|destruct pre; discriminate E].
      injection E as <- _. exact L1.
  - subst r' lanes. cbn [accumulate_lanes andb].
    destruct (accumulate_lane_spec loop otype count_m1 stride0 stride1
                (rd dataptr 0) (rd dataptr 1) r F S) as (L1 & L2 & _).
    set (r1 := accumulate_lane env loop otype count_m1 stride0 stride1
                 (rd dataptr 0) (rd dataptr 1) r) in *.
    destruct (IH d r1) as (I1 & I2). split.
    + intros q Hq. rewrite I1 by (intros l Hl; apply Hq; now right).
      apply L2. apply Hq. now left.
    + intros pre l post E Hpre Hpost.
      destruct pre as [|x pre].
      * injection E as <- <-.
        rewrite I1 by exact Hpost. exact L1.
      * injection E as <- E.
        rewrite (I2 pre l post E).
        -- apply L2. apply Hpre. now left.
        -- intros l' Hl'. apply Hpre. now right.
        -- exact Hpost.
Qed.

End AccumulateFacts.

Section AccumulateCall.

Variable env : collaborators.

Lemma accumulate_lanes_single (loop : loop_id) (otype : Z)
      (count_m1 stride0 stride1 : Z) (needs_api : bool) (d0 d1 : Z)
      (r : run) :
  accumulate_lanes env loop otype count_m1 stride0 stride1 needs_api
                   [d0; d1] [] r
  = accumulate_lane env loop otype count_m1 stride0 stride1 d0 d1 r.
Proof.
  cbn [accumulate_lanes]. unfold rd. simpl.
  destruct (needs_api && _); reflexivity.
Qed.

(** What a call of [PyUFunc_Accumulate] runs: nothing (an error, or an
    empty axis or output), or the lanes of its operands over a non-empty
    axis. *)
Lemma accumulate_run_cases (ufunc : PyUFuncObject) (arr : PyArrayObject)
      (out : option PyArrayObject) (axis otype : Z) (r : run) :
  let call := PyUFunc_Accumulate env ufunc arr out axis otype r in
  (snd call = r \/ exists op0, snd call = log (EvAlloc op0) r)
  \/ exists loop op0 op1 needs_api first next r0,
      (r0 = r \/ r0 = log (EvAlloc op0) r)
      /\ PyArray_DIM op1 axis <> 0
      /\ snd call
         = accumulate_lanes env loop otype (PyArray_DIM op1 axis - 1)
             (PyArray_STRIDE op0 axis) (PyArray_STRIDE op1 axis)
             needs_api first next r0.
Proof.
  intros call. subst call. unfold PyUFunc_Accumulate.
  destruct (negb (get_bufsize_errmask_ok env)); [left; left; reflexivity|].
  destruct (get_binary_op_function env ufunc otype) as [[otype_final loop]|];
    [|left; left; reflexivity].
  destruct (reduction_dtype env arr otype_final) as [dtype0|];
    [|left; left; reflexivity].
  match goal with
  | |- context [if ?b then _ else _] => destruct b
  end.
  - destruct (NpyIter_AdvancedNew env [out; Some arr] dtype0) as [it|];
      [|left; left; reflexivity].
    destruct (negb (ri_remove_axis_ok it)); [left; left; reflexivity|].
    destruct (negb (ri_remove_multi_index_ok it));
      [left; left; reflexivity|].
    destruct (PyArray_DIM (nth 1 (ri_operands it) arr) axis =? 0) eqn:E0.
    { left; left. destruct (ri_dealloc_ok it); reflexivity. }
    destruct (PyArray_SIZE (nth 0 (ri_operands it) arr) =? 0).
    { left; left. destruct (ri_dealloc_ok it); reflexivity. }
    destruct (negb (ri_size it =? 0)).
    + destruct (negb (ri_iternext_ok it)); [left; left; reflexivity|].
      right. apply Z.eqb_neq in E0.
      exists loop, (nth 0 (ri_operands it) arr),
        (nth 1 (ri_operands it) arr), (ri_needs_api it), (ri_first it),
        (ri_next it), r.
      split; [now left|]. split; [exact E0|].
      destruct (ri_dealloc_ok it); reflexivity.
    + left; left. destruct (ri_dealloc_ok it); reflexivity.
  - assert (A : forall op0 r0,
               (r0 = r \/ r0 = log (EvAlloc op0) r) ->
               let call :=
                 if PyArray_DIM arr axis =? 0 then (Returned op0, r0)
                 else if PyArray_SIZE op0 =? 0 then (Returned op0, r0)
                 else if negb (PyArray_NDIM op0 =? PyArray_NDIM arr)
                         || negb (PyArray_CompareLists (dims op0) (dims arr)
                                                       (PyArray_NDIM op0))
                 then (Raised (ValueError
                         "provided out is the wrong size for the reduction"),
                       r0)
                 else (Returned op0,
                       accumulate_lane env loop otype
                         (PyArray_DIM arr axis - 1) (PyArray_STRIDE op0 axis)
                         (PyArray_STRIDE arr axis) (data op0) (data arr) r0)
               in
               (snd call = r \/ exists op0, snd call = log (EvAlloc op0) r)
               \/ exists loop op0 op1 needs_api first next r0,
                   (r0 = r \/ r0 = log (EvAlloc op0) r)
                   /\ PyArray_DIM op1 axis <> 0
                   /\ snd call
                      = accumulate_lanes env loop otype
                          (PyArray_DIM op1 axis - 1)
                          (PyArray_STRIDE op0 axis) (PyArray_STRIDE op1 axis)
                          needs_api first next r0).
    { intros op0 r0 Hr0 call. subst call.
      assert (N : snd (Returned op0, r0) = r
                  \/ exists op0', snd (Returned op0, r0) = log (EvAlloc op0') r)
        by (destruct Hr0 as [-> | ->]; [now left|right; now exists op0]).
      destruct (PyArray_DIM arr axis =? 0) eqn:E0; [left; exact N|].
      destruct (PyArray_SIZE op0 =? 0); [left; exact N|].
      destruct (negb _ || negb _); [left; exact N|].
      right. apply Z.eqb_neq in E0.
      exists loop, op0, arr, false, [data op0; data arr], [], r0.
      split; [exact Hr0|]. split; [exact E0|].
      cbn [snd]. now rewrite accumulate_lanes_single. }
    destruct out as [o|].
    + exact (A o r (or_introl eq_refl)).
    + destruct (PyArray_NewFromDescr (new_block env) dtype0
                  (PyArray_NDIM arr) (dims arr) false) as [o|];
        [|left; left; reflexivity].
      exact (A o (log (EvAlloc o) r) (or_intror eq_refl)).
Qed.

End AccumulateCall.

Lemma binary_loop_frame (f : Z -> Z -> Z) (n : nat) :
  forall ip1 ip2 op is1 is2 os m q,
    (forall j, 0 <= j < Z.of_nat n -> q <> op + j * os) ->
    binary_loop f n ip1 ip2 op is1 is2 os m q = m q.
Proof.
  induction n as [|n IH]; intros ip1 ip2 op is1 is2 os m q H;
    [reflexivity|].
  cbn [binary_loop]. rewrite IH.
  - apply store_other. specialize (H 0 ltac:(lia)). lia.
  - intros j Hj. specialize (H (j + 1) ltac:(lia)). lia.
Qed.

Lemma binary_kernel_frame (f : Z -> Z -> Z) : kernel_frame (binary_kernel f).
Proof.
  intros args count steps m q H. unfold binary_kernel. cbn [mem].
  apply binary_loop_frame. intros j Hj E. apply H.
  exists j. split; [lia|exact E].
Qed.

(* ================================================================== *)
(** ** reduceat                                                        *)
(* ================================================================== *)

Section ReduceatFacts.

Variable env : collaborators.
Variable loop : loop_id.
Variable otype : Z.
Variable reduceat_ind : list Z.
Variable ind_size len : Z.
Variable stride0_ind stride1 : Z.

Hypothesis F : kernel_frame (loops env loop).


Lemma reduceat_segment_spec (d0 d1 i : Z) (r : run) :
  let r' := reduceat_segment env loop otype reduceat_ind ind_size len
              stride0_ind stride1 d0 d1 i r in
  (forall q, q <> out_cell stride0_ind d0 i ->
             mem (mach r') q = mem (mach r) q)
  /\ (copied_segment reduceat_ind ind_size len i ->
      mem (mach r') (out_cell stride0_ind d0 i)
      = mem (mach r) (in_cell reduceat_ind stride1 d1 i))
  /\ exists extra,
      added r r' extra
      /\ (forall e q, In e extra -> kernel_targets e q ->
                      q = out_cell stride0_ind d0 i)
      /\ (copied_segment reduceat_ind ind_size len i ->
          kernel_calls extra = []).
Proof.
  intros r'. subst r'.
  unfold reduceat_segment, copied_segment, segment_count, out_cell, in_cell.
  set (count := (if i =? ind_size - 1 then len else rd reduceat_ind (i + 1))
                - rd reduceat_ind i).
  set (p0 := d0 + stride0_ind * i).
  set (p1 := d1 + stride1 * rd reduceat_ind i).
  destruct (copy_first_element_spec otype p0 p1 r)
    as (C1 & C2 & extra & A & K).
  assert (Knone : forall e q, In e extra -> kernel_targets e q -> q = p0).
  { intros e q He T. destruct e; try contradiction.
    assert (In (EvKernel args count0 steps) (kernel_calls extra)).
    { unfold kernel_calls. apply filter_In. split; [exact He|reflexivity]. }
    rewrite K in H. contradiction. }
  destruct (count >? 1) eqn:E.
  - apply Z.gtb_lt in E.
    destruct (call_loop_spec env loop [p0; p1 + stride1; p0] (count - 1)
                [0; stride1; 0] (copy_first_element otype p0 p1 r) F)
      as (L1 & L2).
    assert (T : forall q,
               kernel_targets (EvKernel [p0; p1 + stride1; p0] (count - 1)
                                        [0; stride1; 0]) q -> q = p0).
    { intros q (j & Hj & Eq). unfold rd in Eq. simpl in Eq. lia. }
    split; [|split].
    + intros q Hq. rewrite L1; [now apply C2|].
      intros Tq. apply Hq. now apply T.
    + intros Hc. lia.
    + exists (extra ++ [EvKernel [p0; p1 + stride1; p0] (count - 1)
                               [0; stride1; 0]]).
      split; [exact (added_trans _ _ _ _ _ A L2)|]. split.
      * intros e q He Tq. apply in_app_or in He.
        destruct He as [He|[<-|[]]]; [now apply (Knone e)|now apply T].
      * intros Hc. lia.
  - split; [exact C2|]. split; [intros _; exact C1|].
    exists extra. split; [exact A|]. split; [exact Knone|intros _; exact K].
Qed.

Lemma reduceat_segments_spec (d0 d1 : Z) (todo : nat) :
  stride0_ind <> 0 ->
  forall (i : Z) (r : run),
    let r' := reduceat_segments env loop otype reduceat_ind ind_size len
                stride0_ind stride1 d0 d1 i todo r in
    (forall q,
        (forall j, i <= j < i + Z.of_nat todo ->
                   q <> out_cell stride0_ind d0 j) ->
        mem (mach r') q = mem (mach r) q)
    /\ (forall k,
           i <= k < i + Z.of_nat todo ->
           copied_segment reduceat_ind ind_size len k ->
           (forall j, i <= j < k ->
                      in_cell reduceat_ind stride1 d1 k
                      <> out_cell stride0_ind d0 j) ->
           mem (mach r') (out_cell stride0_ind d0 k)
           = mem (mach r) (in_cell reduceat_ind stride1 d1 k))
    /\ exists extra,
        added r r' extra
        /\ (forall e q, In e extra -> kernel_targets e q ->
                        exists j,
                          i <= j < i + Z.of_nat todo
                          /\ ~ copied_segment reduceat_ind ind_size len j
                          /\ q = out_cell stride0_ind d0 j).
Proof.
  intros S. induction todo as [|todo IH]; intros i r r'; subst r'.
  - cbn [reduceat_segments]. split; [reflexivity|].
    split; [intros k Hk; lia|].
    exists []. split; [apply added_refl|]. intros e q [].
  - cbn [reduceat_segments].
    destruct (reduceat_segment_spec d0 d1 i r)
      as (G1 & G2 & ex1 & A1 & T1 & K1).
    set (r1 := reduceat_segment env loop otype reduceat_ind ind_size len
                 stride0_ind stride1 d0 d1 i r) in *.
    destruct (IH (i + 1) r1) as (I1 & I2 & ex2 & A2 & T2).
    split; [|split].
    + intros q Hq. rewrite I1 by (intros j Hj; apply Hq; lia).
      apply G1. apply Hq. lia.
    + intros k Hk Hc Hin.
      destruct (Z.eq_dec k i) as [->|Ne].
      * rewrite I1; [now apply G2|].
        intros j Hj. unfold out_cell. intros E.
        assert (stride0_ind * (i - j) = 0) by lia.
        apply Z.mul_eq_0 in H. lia.
      * rewrite I2; [|lia|exact Hc|intros j Hj; apply Hin; lia].
        apply G1. apply Hin. lia.
    + exists (ex1 ++ ex2). split; [exact (added_trans _ _ _ _ _ A1 A2)|].
      intros e q He Tq. apply in_app_or in He. destruct He as [He|He].
      * exists i. split; [lia|]. split; [|now apply (T1 e)].
        intros Hc. specialize (K1 Hc).
        destruct e; try contradiction.
        assert (In (EvKernel args count steps) (kernel_calls ex1)).
        { unfold kernel_calls. apply filter_In. split; [exact He|reflexivity]. }
        rewrite K1 in H. contradiction.
      * destruct (T2 e q He Tq) as (j & Hj & Hn & Eq).
        exists j. split; [lia|]. split; assumption.
Qed.

(** One lane: only its [ind_size] output cells are written; a segment of
    at most one element is a copy of the element its index names, and no
    kernel invocation writes its cell. *)
Lemma reduceat_lane_spec (d0 d1 : Z) (r : run) :
  stride0_ind <> 0 ->
  let r' := reduceat_lane env loop otype reduceat_ind ind_size len
              stride0_ind stride1 d0 d1 r in
  (forall q, ~ reduceat_cells ind_size stride0_ind d0 q ->
             mem (mach r') q = mem (mach r) q)
  /\ (forall k,
         0 <= k < ind_size ->
         copied_segment reduceat_ind ind_size len k ->
         (forall j, 0 <= j < k ->
                    in_cell reduceat_ind stride1 d1 k
                    <> out_cell stride0_ind d0 j) ->
         mem (mach r') (out_cell stride0_ind d0 k)
         = mem (mach r) (in_cell reduceat_ind stride1 d1 k))
  /\ exists extra,
      added r r' extra
      /\ forall k,
          0 <= k < ind_size ->
          copied_segment reduceat_ind ind_size len k ->
          forall e, In e extra ->
                    ~ kernel_targets e (out_cell stride0_ind d0 k).
Proof.
  intros S r'. subst r'. unfold reduceat_lane.
  destruct (reduceat_segments_spec d0 d1 (Z.to_nat ind_size) S 0 r)
    as (G1 & G2 & extra & A & T).
  split; [|split].
  - intros q Hq. apply G1. intros j Hj E. apply Hq.
    exists j. split; [lia|exact E].
  - intros k Hk Hc Hin. apply G2; [lia|exact Hc|exact Hin].
  - exists extra. split; [exact A|].
    intros k Hk Hc e He Tk.
    destruct (T e _ He Tk) as (j & Hj & Hn & E).
    unfold out_cell in E.
    assert (M : stride0_ind * (k - j) = 0) by lia.
    apply Z.mul_eq_0 in M. destruct M as [M|M]; [contradiction|].
    assert (k = j) by lia. subst j. contradiction.
Qed.

(** The lanes of an iteration that no error interrupts. *)
Lemma reduceat_lanes_spec (next : list (list Z)) :
  stride0_ind <> 0 ->
  forall (dataptr : list Z) (r : run),
    let lanes := dataptr :: next in
    let r' := reduceat_lanes env loop otype reduceat_ind ind_size len
                stride0_ind stride1 false dataptr next r in
    (forall q,
        (forall l, In l lanes ->
                   ~ reduceat_cells ind_size stride0_ind (rd l 0) q) ->
        mem (mach r') q = mem (mach r) q)
    /\ (forall pre l post k,
           lanes = pre ++ l :: post ->
           0 <= k < ind_size ->
           copied_segment reduceat_ind ind_size len k ->
           (forall l', In l' pre ->
                       ~ reduceat_cells ind_size stride0_ind (rd l' 0)
                           (in_cell reduceat_ind stride1 (rd l 1) k)) ->
           (forall j, 0 <= j < k ->
                      in_cell reduceat_ind stride1 (rd l 1) k
                      <> out_cell stride0_ind (rd l 0) j) ->
           (forall l', In l' post ->
                       ~ reduceat_cells ind_size stride0_ind (rd l' 0)
                                        (out_cell stride0_ind (rd l 0) k)) ->
           mem (mach r') (out_cell stride0_ind (rd l 0) k)
           = mem (mach r) (in_cell reduceat_ind stride1 (rd l 1) k)).
Proof.
  intros S. induction next as [|d next IH]; intros dataptr r lanes r'.
  - subst r' lanes. cbn [reduceat_lanes andb].
    destruct (reduceat_lane_spec (rd dataptr 0) (rd dataptr 1) r S)
      as (L1 & L2 & _).
    split.
    + intros q Hq. apply L1. apply Hq. now left.
    + intros pre l post k E Hk Hc _ Hin _.
      destruct pre as [|x pre]; [|destruct pre; discriminate E].
      injection E as <- _. now apply L2.
  - subst r' lanes. cbn [reduceat_lanes andb].
    destruct (reduceat_lane_spec (rd dataptr 0) (rd dataptr 1) r S)
      as (L1 & L2 & _).
    set (r1 := reduceat_lane env loop otype reduceat_ind ind_size len
                 stride0_ind stride1 (rd dataptr 0) (rd dataptr 1) r) in *.
    destruct (IH d r1) as (I1 & I2). split.
    + intros q Hq. rewrite I1 by (intros l Hl; apply Hq; now right).
      apply L1. apply Hq. now left.
    + intros pre l post k E Hk Hc Hpre Hin Hpost.
      destruct pre as [|x pre].
      * injection E as <- <-.
        rewrite I1 by exact Hpost. now apply L2.
      * injection E as <- E.
        rewrite (I2 pre l post k E Hk Hc).
        -- apply L1. apply Hpre. now left.
        -- intros l' Hl'. apply Hpre. now right.
        -- exact Hin.
        -- exact Hpost.
Qed.

End ReduceatFacts.

Section ReduceatCall.

Variable env : collaborators.

Lemma first_out_of_bounds_spec (reduceat_ind : list Z) (n : Z) (todo : nat) :
  forall i,
    match first_out_of_bounds reduceat_ind n i todo with
    | Some index =>
        exists k, 0 <= k < Z.of_nat todo
                  /\ index = rd reduceat_ind (i + k)
                  /\ ~ (0 <= index < n)
                  /\ forall j, 0 <= j < k -> 0 <= rd reduceat_ind (i + j) < n
    | None =>
        forall k, 0 <= k < Z.of_nat todo -> 0 <= rd reduceat_ind (i + k) < n
    end.
Proof.
  induction todo as [|todo IH]; intros i; cbn [first_out_of_bounds].
  - intros k Hk. lia.
  - destruct ((rd reduceat_ind i <? 0) || (rd reduceat_ind i >=? n)) eqn:E.
    + exists 0. rewrite Z.add_0_r. split; [lia|]. split; [reflexivity|].
      split; [|intros j Hj; lia].
      apply orb_true_iff in E. destruct E as [E|E].
      * apply Z.ltb_lt in E. lia.
      * rewrite Z.geb_leb in E. apply Z.leb_le in E. lia.
    + apply orb_false_iff in E. destruct E as [E1 E2].
      apply Z.ltb_ge in E1. rewrite Z.geb_leb in E2. apply Z.leb_gt in E2.
      specialize (IH (i + 1)).
      destruct (first_out_of_bounds reduceat_ind n (i + 1) todo) as [index|].
      * destruct IH as (k & Hk & Ei & Hb & Hj).
        exists (k + 1). split; [lia|].
        split; [rewrite Ei; f_equal; lia|]. split; [exact Hb|].
        intros j Hj'. destruct (Z.eq_dec j 0) as [->|Nz].
        -- rewrite Z.add_0_r. lia.
        -- replace (i + j) with (i + 1 + (j - 1)) by lia. apply Hj. lia.
      * intros k Hk. destruct (Z.eq_dec k 0) as [->|Nz].
        -- rewrite Z.add_0_r. lia.
        -- replace (i + k) with (i + 1 + (k - 1)) by lia. apply IH. lia.
Qed.

Lemma reduceat_lanes_single (loop : loop_id) (otype : Z)
      (reduceat_ind : list Z) (ind_size len stride0_ind stride1 : Z)
      (needs_api : bool) (d0 d1 : Z) (r : run) :
  reduceat_lanes env loop otype reduceat_ind ind_size len stride0_ind
                 stride1 needs_api [d0; d1] [] r
  = reduceat_lane env loop otype reduceat_ind ind_size len stride0_ind
                  stride1 d0 d1 r.
Proof.
  cbn [reduceat_lanes]. unfold rd. simpl.
  destruct (needs_api && _); reflexivity.
Qed.

(** What a call of [PyUFunc_Reduceat] runs: the index check fails and
    nothing else happens; or nothing is computed (an error, or an empty
    output); or the lanes of its operands are run, the output having been
    allocated with one element per index when there is no iterator. *)
Lemma reduceat_run_cases (ufunc : PyUFuncObject) (arr ind : PyArrayObject)
      (reduceat_ind : list Z) (out : option PyArrayObject)
      (axis otype : Z) (r : run) :
  let call := PyUFunc_Reduceat env ufunc arr ind reduceat_ind out axis otype r
  in
  match first_out_of_bounds reduceat_ind (PyArray_DIM arr axis) 0
          (Z.to_nat (PyArray_DIM ind 0)) with
  | Some index =>
      call = (Raised (IndexOutOfBounds index "reduceat"
                                       (PyArray_DIM arr axis)), r)
  | None =>
      (forall index s n, fst call <> Raised (IndexOutOfBounds index s n))
      /\ ((snd call = r
           \/ exists op0, snd call = log (EvAlloc op0) r
                          /\ fst call = Returned op0
                          /\ dims op0 = [PyArray_DIM ind 0])
          \/ exists loop op0 op1 needs_api first next r0,
              (r0 = r
               \/ (r0 = log (EvAlloc op0) r /\ fst call = Returned op0
                   /\ dims op0 = [PyArray_DIM ind 0]))
              /\ snd call
                 = reduceat_lanes env loop otype reduceat_ind
                     (PyArray_DIM ind 0) (PyArray_DIM op1 axis)
                     (PyArray_STRIDE op0 axis) (PyArray_STRIDE op1 axis)
                     needs_api first next r0)
  end.
Proof.
  intros call. subst call. unfold PyUFunc_Reduceat.
  destruct (first_out_of_bounds reduceat_ind (PyArray_DIM arr axis) 0
              (Z.to_nat (PyArray_DIM ind 0))) as [index|]; [reflexivity|].
  destruct (negb (get_bufsize_errmask_ok env));
    [split; [discriminate|left; left; reflexivity]|].
  destruct (get_binary_op_function env ufunc otype) as [[otype_final loop]|];
    [|split; [discriminate|left; left; reflexivity]].
  destruct (reduction_dtype env arr otype_final) as [dtype0|];
    [|split; [discriminate|left; left; reflexivity]].
  match goal with
  | |- context [if ?b then _ else _] => destruct b
  end.
  - destruct (NpyIter_AdvancedNew env [out; Some arr; Some ind] dtype0)
      as [it|]; [|split; [discriminate|left; left; reflexivity]].
    destruct (negb (ri_remove_axis_ok it));
      [split; [discriminate|left; left; reflexivity]|].
    destruct (negb (ri_remove_multi_index_ok it));
      [split; [discriminate|left; left; reflexivity]|].
    destruct (PyArray_SIZE (nth 0 (ri_operands it) arr) =? 0).
    { destruct (ri_dealloc_ok it);
        (split; [discriminate|left; left; reflexivity]). }
    destruct (negb (ri_size it =? 0)).
    + destruct (negb (ri_iternext_ok it));
        [split; [discriminate|left; left; reflexivity]|].
      split; [destruct (ri_dealloc_ok it); discriminate|].
      right.
      exists loop, (nth 0 (ri_operands it) arr),
        (nth 1 (ri_operands it) arr), (ri_needs_api it), (ri_first it),
        (ri_next it), r.
      split; [now left|].
      replace (PyArray_DIM (nth 1 (ri_operands it) arr) axis - 1 + 1)
        with (PyArray_DIM (nth 1 (ri_operands it) arr) axis) by lia.
      destruct (ri_dealloc_ok it); reflexivity.
    + destruct (ri_dealloc_ok it);
        (split; [discriminate|left; left; reflexivity]).
  - destruct (PyArray_NewFromDescr (new_block env) dtype0 1
                [PyArray_DIM ind 0] false) as [op0|] eqn:N;
      [|split; [discriminate|left; left; reflexivity]].
    assert (D : dims op0 = [PyArray_DIM ind 0]).
    { unfold PyArray_NewFromDescr in N.
      destruct (new_block env); [|discriminate N].
      injection N as <-. reflexivity. }
    destruct (PyArray_SIZE op0 =? 0).
    + split; [discriminate|]. left; right. exists op0. auto.
    + split; [discriminate|]. right.
      exists loop, op0, arr, false, [data op0; data arr], [],
        (log (EvAlloc op0) r).
      split; [right; auto|].
      cbn [snd]. now rewrite reduceat_lanes_single.
Qed.

End ReduceatCall.

(** C6.  [PyUFunc_Reduceat] checks every index against the length of
    the reduced axis before it does anything else.  If some index is
    negative or not below that length, the call fails on the first such
    index, the error naming that index and the length of the axis, and
    the run is left as it was: no array allocated, no kernel invoked.
    Conversely an index error of a call always names its first
    out-of-range index and leaves the run as it was; and a reduceat that
    goes through [PyUFunc_GenericReduction] fails in the same way. *)
Theorem reduceat_indices_validated_first (env : collaborators)
        (ufunc : PyUFuncObject) (arr ind : PyArrayObject)
        (reduceat_ind : list Z) (out : option PyArrayObject)
        (axis otype : Z) (r : run) :
  let n := PyArray_DIM arr axis in
  let bad i := ~ (0 <= rd reduceat_ind i < n) in
  let first_bad i :=
      0 <= i < PyArray_DIM ind 0 /\ bad i
      /\ forall j, 0 <= j < i -> 0 <= rd reduceat_ind j < n in
  ((exists i, 0 <= i < PyArray_DIM ind 0 /\ bad i) ->
   exists i, first_bad i
             /\ PyUFunc_Reduceat env ufunc arr ind reduceat_ind out axis
                                 otype r
                = (Raised (IndexOutOfBounds (rd reduceat_ind i) "reduceat" n),
                   r))
  /\ (forall index opname size r',
         PyUFunc_Reduceat env ufunc arr ind reduceat_ind out axis otype r
         = (Raised (IndexOutOfBounds index opname size), r') ->
         r' = r /\ opname = "reduceat"%string /\ size = n
         /\ exists i, first_bad i /\ index = rd reduceat_ind i)
  /\ (forall sizeof_long args p,
         reduction_plan_of env sizeof_long (Some ufunc) args UFUNC_REDUCEAT
         = Plan p ->
         PyArray_NDIM (rp_mp p) <> 0 -> zlen (rp_axes p) = 1 ->
         rp_mp p = arr -> rd (rp_axes p) 0 = axis ->
         rp_indices p = Some (ind, reduceat_ind) ->
         (exists i, 0 <= i < PyArray_DIM ind 0 /\ bad i) ->
         exists i, first_bad i
                   /\ PyUFunc_GenericReduction env sizeof_long (Some ufunc)
                        args UFUNC_REDUCEAT r
                      = (Raised (IndexOutOfBounds (rd reduceat_ind i)
                                                  "reduceat" n), r)).
Proof.
  intros n bad first_bad.
  assert (Fst : forall out' otype',
             (exists i, 0 <= i < PyArray_DIM ind 0 /\ bad i) ->
             exists i, first_bad i
                       /\ PyUFunc_Reduceat env ufunc arr ind reduceat_ind
                            out' axis otype' r
                          = (Raised (IndexOutOfBounds (rd reduceat_ind i)
                                                      "reduceat" n), r)).
  { intros out' otype' (i & Hi & Hb).
    pose proof (reduceat_run_cases env ufunc arr ind reduceat_ind out' axis
                  otype' r) as C.
    pose proof (first_out_of_bounds_spec reduceat_ind n
                  (Z.to_nat (PyArray_DIM ind 0)) 0) as B.
    cbv zeta in C. fold n in C.
    destruct (first_out_of_bounds reduceat_ind n 0
                (Z.to_nat (PyArray_DIM ind 0))) as [index|].
    - destruct B as (k & Hk & Ek & Nb & Low). rewrite Z.add_0_l in Ek.
      exists k. split.
      + split; [lia|]. split; [unfold bad; now rewrite <- Ek|].
        intros j Hj. specialize (Low j Hj). now rewrite Z.add_0_l in Low.
      + rewrite <- Ek. exact C.
    - exfalso. apply Hb. specialize (B i ltac:(lia)).
      now rewrite Z.add_0_l in B. }
  split; [apply Fst|]. split.
  - intros index opname size r' E.
    pose proof (reduceat_run_cases env ufunc arr ind reduceat_ind out axis
                  otype r) as C.
    pose proof (first_out_of_bounds_spec reduceat_ind n
                  (Z.to_nat (PyArray_DIM ind 0)) 0) as B.
    cbv zeta in C. fold n in C.
    destruct (first_out_of_bounds reduceat_ind n 0
                (Z.to_nat (PyArray_DIM ind 0))) as [index'|].
    + rewrite C in E. injection E as <- <- <- <-.
      split; [reflexivity|]. split; [reflexivity|]. split; [reflexivity|].
      destruct B as (k & Hk & Ek & Nb & Low). rewrite Z.add_0_l in Ek.
      exists k. split; [|exact Ek].
      split; [lia|]. split; [unfold bad; now rewrite <- Ek|].
      intros j Hj. specialize (Low j Hj). now rewrite Z.add_0_l in Low.
    + destruct C as (C & _). exfalso. apply (C index opname size).
      now rewrite E.
  - intros sizeof_long args p P Nd Na <- <- I Hb.
    destruct (Fst (rp_out p) (type_num (rp_otype p)) Hb) as (i & Hf & E).
    exists i. split; [exact Hf|].
    unfold PyUFunc_GenericReduction. rewrite P.
    apply Z.eqb_neq in Nd. rewrite Nd, Na, I. cbn [Z.eqb negb].
    rewrite Pos.eqb_refl. cbn [negb]. exact E.
Qed.

(** The theorem at [add.reduceat] over five elements with the indices
    0, 3, 5, 4: the call fails on the index 5 and nothing has been run. *)
Lemma reduceat_indices_validated_first_witness :
  exists i,
    (0 <= i < 4
     /\ ~ (0 <= rd [0; 3; 5; 4] i < 5)
     /\ forall j, 0 <= j < i -> 0 <= rd [0; 3; 5; 4] j < 5)
    /\ PyUFunc_Reduceat add_env add_ufunc (long_vector 0 5)
         (long_vector 500 4) [0; 3; 5; 4] None 0 NPY_LONG
         (fresh_run (fun _ => 0))
       = (Raised (IndexOutOfBounds (rd [0; 3; 5; 4] i) "reduceat" 5),
          fresh_run (fun _ => 0)).
Proof.
  apply (proj1 (reduceat_indices_validated_first add_env add_ufunc
                  (long_vector 0 5) (long_vector 500 4) [0; 3; 5; 4] None 0
                  NPY_LONG (fresh_run (fun _ => 0)))).
  exists 2. unfold PyArray_DIM, long_vector, rd. simpl. lia.
Defined.

(** A segment that ends at or before its start is one of those reduceat
    copies. *)
Lemma degenerate_segment_copied (reduceat_ind : list Z)
      (ind_size len i : Z) :
  0 <= i < ind_size - 1 ->
  rd reduceat_ind (i + 1) <= rd reduceat_ind i ->
  copied_segment reduceat_ind ind_size len i.
Proof.
  intros Hi Hd. unfold copied_segment, segment_count.
  destruct (i =? ind_size - 1) eqn:E; [apply Z.eqb_eq in E; lia|lia].
Qed.

(* ================================================================== *)
(** ** Operands of size zero                                           *)
(* ================================================================== *)

Lemma ran_no_kernel_refl (r : run) : ran_no_kernel r r.
Proof. split; reflexivity. Qed.

Lemma ran_no_kernel_alloc (r : run) (a : PyArrayObject) :
  ran_no_kernel r (log (EvAlloc a) r).
Proof.
  split; [reflexivity|]. unfold log. cbn [trace].
  rewrite kernel_calls_app. cbn. apply app_nil_r.
Qed.

(** The element count the fast path hands the kernel is the size of any
    operand that is not 0-D. *)
Lemma trivial_count_is_size
      (innerloop : list Z -> Z -> list Z -> machine -> machine)
      (overlap_ok : PyArrayObject -> PyArrayObject -> bool)
      (equiv_types : PyArray_Descr -> PyArray_Descr -> bool)
      (ufunc : PyUFuncObject) (op : list (option PyArrayObject))
      (dtypes : list PyArray_Descr) (order : NPY_ORDER)
      (arr_prep : prepare_hook) (block : option Z) (r : run)
      (a : PyArrayObject) :
  let o := try_trivial_single_output_loop innerloop overlap_ok
             equiv_types ufunc op dtypes order arr_prep block r in
  In a (supplied (firstn (Z.to_nat (nin ufunc + 1)) op)) ->
  PyArray_NDIM a <> 0 ->
  (ret o = -2 /\ after o = r)
  \/ (ret o = -1 /\ kernel_calls (trace (after o)) = kernel_calls (trace r))
  \/ (ret o = 0
      /\ exists data steps,
          kernel_calls (trace (after o))
          = kernel_calls (trace r) ++ [EvKernel data (PyArray_SIZE a) steps]).
Proof.
  intros o Ha Hn.
  destruct (try_trivial_cases innerloop overlap_ok equiv_types ufunc op dtypes order
              arr_prep block r) as [C|[C|C]]; fold o in C.
  - left. tauto.
  - right; left. tauto.
  - right; right. destruct C as (R & pl & data & steps & Sc & K & _).
    split; [exact R|]. exists data, steps. rewrite K.
    apply trivial_scan_sound in Sc; [|intros Hz; now contradiction Hz].
    destruct Sc as (_ & _ & _ & Sh & _).
    destruct (Sh a Ha Hn) as [E1 E2].
    unfold PyArray_SIZE. now rewrite E1, E2.
Qed.



(* ------------------------------------------------------------------ *)
(** *** The modifier '?' of a name is the same at every occurrence     *)
(* ------------------------------------------------------------------ *)

Section NameFacts.

Lemma same_name_iff (s1 s2 : string) :
  _is_same_name s1 s2 = true <-> name_at s1 = name_at s2.
Proof.
  revert s2. induction s1 as [|c1 t1 IH]; intros [|c2 t2]; simpl.
  - split; auto.
  - destruct (_is_alnum_underscore c2); simpl; split;
      auto; discriminate.
  - destruct (_is_alnum_underscore c1); simpl; split;
      auto; discriminate.
  - destruct (_is_alnum_underscore c1), (_is_alnum_underscore c2); simpl;
      try (split; auto; discriminate).
    destruct (Ascii.eqb c1 c2) eqn:E.
    + apply Ascii.eqb_eq in E. subst c2. rewrite IH.
      split; [intros ->; reflexivity|intros H; now injection H].
    + apply Ascii.eqb_neq in E. split; [discriminate|].
      intros H. injection H as H _. contradiction.
Qed.

Lemma advance_add (p : string) (n m : nat) :
  advance p (n + m) = advance (advance p n) m.
Proof.
  revert p. induction n as [|n IH]; intros p;
    [destruct p; reflexivity|].
  destruct p as [|c t]; simpl.
  - destruct m; reflexivity.
  - apply IH.
Qed.

Lemma ptr_add (str : string) (i n : Z) :
  0 <= i -> 0 <= n ->
  ptr str (i + n) = advance (ptr str i) (Z.to_nat n).
Proof.
  intros Hi Hn. unfold ptr.
  destruct (i + n <? 0) eqn:E; [apply Z.ltb_lt in E; lia|].
  destruct (i <? 0) eqn:E'; [apply Z.ltb_lt in E'; lia|].
  rewrite Z2Nat.inj_add by lia. apply advance_add.
Qed.

Lemma at_add (str : string) (i n : Z) :
  0 <= i -> 0 <= n ->
  at_ str (i + n) = deref (advance (ptr str i) (Z.to_nat n)).
Proof. intros Hi Hn. unfold at_. now rewrite ptr_add. Qed.

(** [skip_alnum] stops at the end of the name. *)
Lemma skip_alnum_name (p : string) (ret : Z) :
  skip_alnum p ret
  = (ret + strlen (name_at p), advance p (String.length (name_at p))).
Proof.
  revert ret. induction p as [|c p IH]; intros ret; simpl.
  - unfold strlen. simpl. f_equal. lia.
  - destruct (_is_alnum_underscore c).
    + rewrite IH. unfold strlen. simpl. f_equal. lia.
    + unfold strlen. simpl. f_equal. lia.
Qed.

(** The characters of the name are letters, digits or underscores. *)
Lemma name_chars (p : string) (n : nat) :
  (n < String.length (name_at p))%nat ->
  _is_alnum_underscore (deref (advance p n)) = true.
Proof.
  revert n. induction p as [|c p IH]; intros n; simpl; [lia|].
  destruct (_is_alnum_underscore c) eqn:A; simpl; [|lia].
  destruct n as [|n]; simpl; [intros _; exact A|].
  intros H. apply IH. lia.
Qed.

Lemma name_nonempty (p : string) :
  _is_alnum_underscore (deref p) = true ->
  (0 < String.length (name_at p))%nat.
Proof.
  destruct p as [|c p]; simpl; [discriminate|].
  intros ->. simpl. lia.
Qed.

Lemma question_not_alnum (c : ascii) :
  is_char c "?" = true -> _is_alnum_underscore c = false.
Proof.
  unfold is_char. intros H. apply Ascii.eqb_eq in H. subst c. reflexivity.
Qed.

Lemma get_end_of_name_eq (str : string) (i : Z) :
  0 <= i ->
  _get_end_of_name str i
  = let e := i + strlen (name_at (ptr str i)) in
    if marked str i then e + 1 else e.
Proof.
  intros Hi. unfold _get_end_of_name, marked. rewrite skip_alnum_name.
  cbv zeta. rewrite at_add by (unfold strlen; lia).
  unfold strlen at 3. rewrite Nat2Z.id. reflexivity.
Qed.

(** The modifier the parser reads for a name is the one the name
    carries. *)
Lemma can_ignore_marked (str : string) (i : Z) :
  0 <= i ->
  _is_alpha_underscore (at_ str i) = true ->
  let i_end := _get_end_of_name str i in
  (i_end >? 0) && is_char (at_ str (i_end - 1)) "?" = marked str i.
Proof.
  intros Hi A. cbv zeta. rewrite get_end_of_name_eq by exact Hi. cbv zeta.
  pose proof (name_nonempty (ptr str i) (alpha_is_alnum _ A)) as N.
  destruct (marked str i) eqn:M.
  - replace (i + strlen (name_at (ptr str i)) + 1 - 1)
      with (i + strlen (name_at (ptr str i))) by lia.
    unfold marked in M. rewrite M.
    assert (G : (i + strlen (name_at (ptr str i)) + 1 >? 0) = true).
    { rewrite Z.gtb_ltb. apply Z.ltb_lt. unfold strlen. lia. }
    now rewrite G.
  - assert (G : (i + strlen (name_at (ptr str i)) >? 0) = true).
    { rewrite Z.gtb_ltb. apply Z.ltb_lt. unfold strlen. lia. }
    rewrite G. cbn [andb].
    replace (i + strlen (name_at (ptr str i)) - 1)
      with (i + (strlen (name_at (ptr str i)) - 1)) by lia.
    rewrite at_add by (unfold strlen; lia).
    pose proof (name_chars (ptr str i)
                  (Z.to_nat (strlen (name_at (ptr str i)) - 1))
                  ltac:(unfold strlen; lia)) as C.
    destruct (is_char _ "?") eqn:Q; [|reflexivity].
    apply question_not_alnum in Q. congruence.
Qed.

(** Inside a name no name starts. *)
Lemma no_name_inside (str : string) (i k : Z) :
  0 <= i -> i < k < i + strlen (name_at (ptr str i)) ->
  ~ name_starts str k.
Proof.
  intros Hi Hk (_ & _ & [->|P]); [lia|].
  replace (k - 1) with (i + (k - 1 - i)) in P by lia.
  rewrite at_add in P by lia.
  rewrite name_chars in P; [discriminate|unfold strlen in Hk; lia].
Qed.

Lemma no_alpha_empty (str : string) (a b : Z) : b <= a -> no_alpha str a b.
Proof. intros H k Hk. lia. Qed.

Lemma no_alpha_app (str : string) (a b c : Z) :
  no_alpha str a b -> no_alpha str b c -> no_alpha str a c.
Proof.
  intros H1 H2 k Hk. destruct (Z_lt_ge_dec k b); [apply H1|apply H2]; lia.
Qed.

Lemma no_alpha_char (str : string) (a : Z) (c : ascii) :
  is_char (at_ str a) c = true -> _is_alpha_underscore c = false ->
  no_alpha str a (a + 1).
Proof.
  intros H Hc k Hk. assert (k = a) by lia. subst k.
  unfold is_char in H. apply Ascii.eqb_eq in H. now rewrite H.
Qed.

Lemma blank_not_alpha (c : ascii) :
  is_blank c = true -> _is_alpha_underscore c = false.
Proof.
  unfold is_blank, is_char. intros H. apply orb_true_iff in H.
  destruct H as [H|H]; apply Ascii.eqb_eq in H; subst c; reflexivity.
Qed.

Lemma skip_blank_chars (p : string) (ret : Z) (n : nat) :
  ret + Z.of_nat n < skip_blank p ret ->
  is_blank (deref (advance p n)) = true.
Proof.
  revert ret n. induction p as [|c p IH]; intros ret n; simpl.
  - lia.
  - destruct (is_blank c) eqn:B; [|lia].
    destruct n as [|n]; simpl; [intros _; exact B|].
    intros H. apply (IH (ret + 1)). lia.
Qed.

Lemma no_alpha_blank (str : string) (offset : Z) :
  0 <= offset ->
  no_alpha str offset (_next_non_white_space str offset).
Proof.
  intros Ho k Hk. apply blank_not_alpha.
  replace k with (offset + (k - offset)) by lia.
  rewrite at_add by lia.
  apply (skip_blank_chars _ offset). unfold _next_non_white_space in Hk.
  lia.
Qed.

End NameFacts.

Section QuestionMark.

Variable signature : string.

Lemma find_dim_spec (st : parse_state) (i fs : Z) (todo : nat) :
  forall ix,
    let r := find_dim signature st i fs ix todo in
    ix <= r <= ix + Z.of_nat todo
    /\ (fs <= 0 -> r < ix + Z.of_nat todo ->
        _is_same_name (ptr signature i)
                      (ptr signature (rd (p_var_names st) r)) = true)
    /\ (fs <= 0 -> forall j, ix <= j < r ->
        _is_same_name (ptr signature i)
                      (ptr signature (rd (p_var_names st) j)) = false).
Proof.
  induction todo as [|todo IH]; intros ix; cbn [find_dim].
  - cbv zeta. split; [lia|]. split; intros; lia.
  - cbv zeta.
    destruct (if fs >? 0 then fs =? rd (p_dim_sizes st) ix
              else _is_same_name (ptr signature i)
                     (ptr signature (rd (p_var_names st) ix))) eqn:E.
    + split; [lia|]. split; [|intros; lia].
      intros Hf _.
      assert (G : (fs >? 0) = false)
        by (rewrite Z.gtb_ltb; apply Z.ltb_ge; lia).
      now rewrite G in E.
    + destruct (IH (ix + 1)) as (R1 & R2 & R3). cbv zeta in R1, R2, R3.
      split; [lia|]. split.
      * intros Hf Hr. apply R2; [exact Hf|lia].
      * intros Hf j Hj. destruct (Z.eq_dec j ix) as [->|Ne].
        -- assert (G : (fs >? 0) = false)
             by (rewrite Z.gtb_ltb; apply Z.ltb_ge; lia).
           now rewrite G in E.
        -- apply R3; [exact Hf|lia].
Qed.

(** The invariant only reads the names, their number and their flags. *)
Lemma consistent_upto_fields (st st' : parse_state) (b : Z) :
  p_var_names st' = p_var_names st ->
  p_num_dim_ix st' = p_num_dim_ix st ->
  p_dim_flags st' = p_dim_flags st ->
  consistent_upto signature st b -> consistent_upto signature st' b.
Proof.
  unfold consistent_upto, can_ignore_flag. intros -> -> ->. auto.
Qed.

Lemma consistent_upto_extend (st : parse_state) (b b' : Z) :
  b <= b' ->
  (forall k, b <= k < b' -> ~ name_starts signature k) ->
  consistent_upto signature st b -> consistent_upto signature st b'.
Proof.
  intros Le Hn (C1 & C2 & C3 & C4 & C5 & C6).
  split; [lia|]. split; [exact C2|]. split; [exact C3|].
  split; [exact C4|]. split; [|exact C6].
  intros k Hs Hk. destruct (Z_lt_ge_dec k b) as [L|G].
  - now apply C5.
  - exfalso. apply (Hn k); [lia|exact Hs].
Qed.

Lemma no_alpha_no_name (a b : Z) :
  no_alpha signature a b ->
  forall k, a <= k < b -> ~ name_starts signature k.
Proof. intros H k Hk (_ & A & _). rewrite (H k Hk) in A. discriminate. Qed.

Lemma name_at_alpha (p q : string) :
  _is_alpha_underscore (deref p) = true ->
  name_at p = name_at q ->
  _is_alpha_underscore (deref q) = true.
Proof.
  destruct p as [|c p]; simpl; [discriminate|].
  intros A. rewrite (alpha_is_alnum _ A).
  destruct q as [|d q]; simpl; [discriminate|].
  destruct (_is_alnum_underscore d); [|discriminate].
  intros E. injection E as <- _. exact A.
Qed.

Lemma land_lor_can_ignore (a : Z) :
  Z.land (Z.lor a UFUNC_CORE_DIM_SIZE_INFERRED) UFUNC_CORE_DIM_CAN_IGNORE
  = Z.land a UFUNC_CORE_DIM_CAN_IGNORE.
Proof.
  rewrite Z.land_lor_distr_l.
  change (Z.land UFUNC_CORE_DIM_SIZE_INFERRED UFUNC_CORE_DIM_CAN_IGNORE)
    with 0.
  apply Z.lor_0_r.
Qed.

Lemma land_lor_set (a : Z) :
  Z.land (Z.lor a UFUNC_CORE_DIM_CAN_IGNORE) UFUNC_CORE_DIM_CAN_IGNORE
  = UFUNC_CORE_DIM_CAN_IGNORE.
Proof.
  apply Z.bits_inj'. intros n Hn.
  rewrite Z.land_spec, Z.lor_spec.
  destruct (Z.testbit a n), (Z.testbit UFUNC_CORE_DIM_CAN_IGNORE n);
    reflexivity.
Qed.

(** "If a new dimension, store its properties; if old, check
    consistency" keeps the invariant, now with the name at [i]. *)
Lemma register_consistent (st st1 : parse_state) (i fs : Z) (ci : bool) :
  consistent_upto signature st i ->
  0 <= i < strlen signature ->
  (_is_alpha_underscore (at_ signature i) = true ->
   fs <= 0 /\ ci = marked signature i) ->
  register_dim st i fs ci
    (find_dim signature st i fs 0 (Z.to_nat (p_num_dim_ix st))) = Go st1 ->
  consistent_upto signature st1 (i + 1).
Proof.
  intros (C1 & C2 & C3 & C4 & C5 & C6) Hi Ha.
  destruct (find_dim_spec st i fs (Z.to_nat (p_num_dim_ix st)) 0)
    as (R1 & R2 & R3).
  cbv zeta in R1, R2, R3. rewrite Z2Nat.id in R1, R2 by lia.
  set (r := find_dim signature st i fs 0 (Z.to_nat (p_num_dim_ix st))) in *.
  unfold register_dim.
  destruct (r =? p_num_dim_ix st) eqn:E.
  - apply Z.eqb_eq in E. intros G. injection G as <-.
    unfold consistent_upto, can_ignore_flag. cbn [p_num_dim_ix p_var_names
      p_dim_flags p_i].
    rewrite !zlen_wr.
    split; [lia|]. split; [exact C2|]. split; [exact C3|].
    split; [|split].
    + intros ix Hix. rewrite rd_wr_other by lia.
      apply (C4 ix). lia.
    + intros k Hs Hk. destruct (Z.eq_dec k i) as [->|Ne].
      * destruct Hs as (_ & A & _). destruct (Ha A) as [Hf Hc].
        exists r. split; [lia|].
        rewrite !rd_wr_same by lia. split; [reflexivity|].
        pose proof (C4 r ltac:(lia)) as Z0. unfold can_ignore_flag in Z0.
        apply negb_false_iff in Z0. apply Z.eqb_eq in Z0.
        assert (Z1 : Z.land (if fs <? 0
                             then Z.lor (rd (p_dim_flags st) r)
                                        UFUNC_CORE_DIM_SIZE_INFERRED
                             else rd (p_dim_flags st) r)
                            UFUNC_CORE_DIM_CAN_IGNORE = 0).
        { destruct (fs <? 0); [rewrite land_lor_can_ignore|]; exact Z0. }
        rewrite <- Hc. destruct ci.
        -- rewrite land_lor_set. reflexivity.
        -- rewrite Z1. reflexivity.
      * destruct (C5 k Hs ltac:(lia)) as (ix & Hix & N & Fl).
        exists ix. split; [lia|].
        rewrite !rd_wr_other by lia. split; [exact N|exact Fl].
    + assert (New : forall ix,
                 0 <= ix < p_num_dim_ix st ->
                 _is_alpha_underscore (at_ signature i) = true
                 \/ _is_alpha_underscore
                      (at_ signature (rd (p_var_names st) ix)) = true ->
                 name_at (ptr signature (rd (p_var_names st) ix))
                 <> name_at (ptr signature i)).
      { intros ix Hix Hal N.
        assert (A : _is_alpha_underscore (at_ signature i) = true).
        { destruct Hal as [A|A]; [exact A|].
          exact (name_at_alpha _ _ A N). }
        destruct (Ha A) as [Hf _].
        specialize (R3 Hf ix ltac:(lia)).
        assert (T : _is_same_name (ptr signature i)
                      (ptr signature (rd (p_var_names st) ix)) = true)
          by (apply same_name_iff; now symmetry).
        congruence. }
      intros ix ix' Hix Hix' A N.
      destruct (Z.eq_dec ix r) as [->|Nx], (Z.eq_dec ix' r) as [->|Nx'];
        [reflexivity| | |].
      * rewrite rd_wr_same in A, N by lia.
        rewrite rd_wr_other in N by lia.
        exfalso. apply (New ix' ltac:(lia)); [now left|now symmetry].
      * rewrite rd_wr_other in A, N by lia.
        rewrite rd_wr_same in N by lia.
        exfalso. apply (New ix ltac:(lia)); [now right|exact N].
      * rewrite rd_wr_other in A by lia.
        rewrite (rd_wr_other _ r ix) in N by lia.
        rewrite (rd_wr_other _ r ix') in N by lia.
        apply C6; [lia|lia|exact A|exact N].
  - apply Z.eqb_neq in E.
    destruct (ci && (Z.land (rd (p_dim_flags st) r)
                            UFUNC_CORE_DIM_CAN_IGNORE =? 0)) eqn:K1;
      [discriminate|].
    destruct (negb ci && negb (Z.land (rd (p_dim_flags st) r)
                                      UFUNC_CORE_DIM_CAN_IGNORE =? 0))
      eqn:K2; [discriminate|].
    intros G. injection G as <-.
    split; [lia|]. split; [exact C2|]. split; [exact C3|].
    split; [exact C4|]. split; [|exact C6].
    intros k Hs Hk. destruct (Z.eq_dec k i) as [->|Ne].
    + destruct Hs as (_ & A & _). destruct (Ha A) as [Hf Hc].
      exists r. split; [lia|]. split.
      * apply same_name_iff. apply R2; [exact Hf|lia].
      * rewrite <- Hc. unfold can_ignore_flag.
        destruct ci, (Z.land (rd (p_dim_flags st) r)
                             UFUNC_CORE_DIM_CAN_IGNORE =? 0);
          simpl in *; congruence.
    + apply C5; [exact Hs|lia].
Qed.

(** One turn over a core dimension keeps the invariant. *)
Lemma parse_dim_consistent (st st' : parse_state) :
  in_bounds signature st ->
  consistent signature st ->
  is_char (at_ signature (p_i st)) ")" = false ->
  parse_dim signature st = Go st' ->
  consistent signature st'.
Proof.
  intros B C Hclose P.
  pose proof (parse_dim_bounds signature st B Hclose) as BD.
  rewrite P in BD. destruct BD as [_ Lt].
  revert P. unfold in_bounds, consistent in *. unfold parse_dim.
  destruct (is_char (at_ signature (p_i st)) "000") eqn:E0; [discriminate|].
  set (i := p_i st) in *.
  assert (Hi : 0 <= i < strlen signature).
  { apply at_nonNUL. unfold is_char in E0. apply Ascii.eqb_neq in E0.
    exact E0. }
  set (fs := if _is_alpha_underscore (at_ signature i) then -1
             else _get_size (ptr signature i)).
  destruct (negb (_is_alpha_underscore (at_ signature i)) && (fs <=? 0))
    eqn:Ebad; [discriminate|].
  set (e := i + strlen (name_at (ptr signature i))).
  assert (He : i <= e) by (unfold e, strlen; lia).
  pose proof (get_end_of_name_eq signature i ltac:(lia)) as Eend.
  cbv zeta in Eend. fold e in Eend.
  set (i_end := _get_end_of_name signature i) in *.
  assert (Hend : e <= i_end /\ no_alpha signature e i_end).
  { rewrite Eend. destruct (marked signature i) eqn:M.
    - split; [lia|]. unfold marked in M. fold e in M.
      exact (no_alpha_char signature e "?" M eq_refl).
    - split; [lia|]. apply no_alpha_empty. lia. }
  destruct Hend as [Le1 NA1].
  pose proof (no_alpha_blank signature i_end ltac:(lia)) as NA2.
  pose proof (skip_blank_bounds (ptr signature i_end) i_end) as Le2.
  fold (_next_non_white_space signature i_end) in Le2.
  set (i1 := _next_non_white_space signature i_end) in *.
  set (ci := (i_end >? 0) && is_char (at_ signature (i_end - 1)) "?").
  destruct (register_dim st i fs ci
              (find_dim signature st i fs 0 (Z.to_nat (p_num_dim_ix st))))
    as [st1|j why] eqn:R; [|discriminate].
  assert (C1 : consistent_upto signature st1 (i + 1)).
  { apply (register_consistent st st1 i fs ci C Hi); [|exact R].
    intros A. split.
    - unfold fs. rewrite A. lia.
    - unfold ci, i_end. apply can_ignore_marked; [lia|exact A]. }
  assert (Inside : forall k, i + 1 <= k < e -> ~ name_starts signature k).
  { intros k Hk. apply (no_name_inside signature i k); [lia|].
    fold e. lia. }
  assert (Ext : forall st2 b,
             p_var_names st2 = p_var_names st1 ->
             p_num_dim_ix st2 = p_num_dim_ix st1 ->
             p_dim_flags st2 = p_dim_flags st1 ->
             i < b -> i1 <= b -> no_alpha signature i1 b ->
             consistent_upto signature st2 b).
  { intros st2 b F1 F2 F3 Lib Lb NA3.
    apply (consistent_upto_fields st1 st2 b F1 F2 F3).
    apply (consistent_upto_extend st1 (i + 1) b); [lia| |exact C1].
    intros k Hk. destruct (Z_lt_ge_dec k e) as [L|G].
    - apply Inside. lia.
    - apply (no_alpha_no_name e b); [|lia].
      apply (no_alpha_app signature e i_end b NA1).
      apply (no_alpha_app signature i_end i1 b NA2 NA3). }
  destruct (negb (is_char (at_ signature i1) ",")
            && negb (is_char (at_ signature i1) ")")); [discriminate|].
  destruct (is_char (at_ signature i1) ",") eqn:Ecomma.
  - pose proof (no_alpha_char signature i1 "," Ecomma eq_refl) as NA3.
    pose proof (no_alpha_blank signature (i1 + 1) ltac:(lia)) as NA4.
    pose proof (skip_blank_bounds (ptr signature (i1 + 1)) (i1 + 1)) as Le4.
    fold (_next_non_white_space signature (i1 + 1)) in Le4.
    destruct (is_char (at_ signature
                         (_next_non_white_space signature (i1 + 1))) ")");
      [discriminate|].
    intros G. injection G as <-. cbn [p_i] in *.
    apply Ext; [reflexivity|reflexivity|reflexivity|exact Lt|lia|].
    exact (no_alpha_app signature _ _ _ NA3 NA4).
  - intros G. injection G as <-. cbn [p_i] in *.
    apply Ext; [reflexivity|reflexivity|reflexivity|exact Lt|lia|].
    apply no_alpha_empty. lia.
Qed.

Lemma parse_dims_consistent (fuel : nat) :
  forall st st',
    in_bounds signature st ->
    consistent signature st ->
    parse_dims signature st fuel = Go st' ->
    consistent signature st'.
Proof.
  induction fuel as [|fuel IH]; intros st st' B C; cbn [parse_dims].
  - destruct (is_char (at_ signature (p_i st)) ")"); [|discriminate].
    intros G. injection G as <-. exact C.
  - destruct (is_char (at_ signature (p_i st)) ")") eqn:Hc.
    + intros G. injection G as <-. exact C.
    + pose proof (parse_dim_bounds signature st B Hc) as BD.
      destruct (parse_dim signature st) as [st1|j why] eqn:P;
        [|discriminate].
      apply IH; [exact (proj1 BD)|].
      exact (parse_dim_consistent st st1 B C Hc P).
Qed.

Lemma parse_dims_stops_at_paren (fuel : nat) :
  forall st st',
    parse_dims signature st fuel = Go st' ->
    is_char (at_ signature (p_i st')) ")" = true.
Proof.
  induction fuel as [|fuel IH]; intros st st'; cbn [parse_dims].
  - destruct (is_char (at_ signature (p_i st)) ")") eqn:Hc; [|discriminate].
    intros G. injection G as <-. exact Hc.
  - destruct (is_char (at_ signature (p_i st)) ")") eqn:Hc.
    + intros G. injection G as <-. exact Hc.
    + destruct (parse_dim signature st) as [st1|j why]; [|discriminate].
      apply IH.
Qed.

(** Moving over characters that start no name keeps the invariant. *)
Lemma consistent_skip (st st' : parse_state) :
  consistent signature st ->
  p_var_names st' = p_var_names st ->
  p_num_dim_ix st' = p_num_dim_ix st ->
  p_dim_flags st' = p_dim_flags st ->
  p_i st <= p_i st' ->
  no_alpha signature (p_i st) (p_i st') ->
  consistent signature st'.
Proof.
  unfold consistent. intros C F1 F2 F3 Le NA.
  apply (consistent_upto_fields st st' _ F1 F2 F3).
  apply (consistent_upto_extend st (p_i st) (p_i st') Le); [|exact C].
  now apply no_alpha_no_name.
Qed.

(** A character that is no letter, and the blanks after it. *)
Lemma skip_char_and_blanks (a : Z) (c : ascii) :
  is_char (at_ signature a) c = true -> c <> NUL ->
  _is_alpha_underscore c = false ->
  a + 1 <= _next_non_white_space signature (a + 1) <= strlen signature
  /\ no_alpha signature a (_next_non_white_space signature (a + 1)).
Proof.
  intros H Hn Hc.
  pose proof (is_char_at signature a c H Hn) as Ba.
  split.
  - apply next_non_white_space_bounds. lia.
  - apply (no_alpha_app signature a (a + 1)).
    + exact (no_alpha_char signature a c H Hc).
    + apply no_alpha_blank. lia.
Qed.

Lemma parse_arg_consistent (u_nin u_nargs : Z) (st st' : parse_state)
      (fuel : nat) :
  in_bounds signature st ->
  consistent signature st ->
  parse_arg u_nin u_nargs signature st fuel = Go st' ->
  consistent signature st'.
Proof.
  intros B C. unfold parse_arg.
  set (arrow := if p_cur_arg st =? u_nin then _ else _).
  assert (A : forall st1, arrow = Go st1 ->
                          in_bounds signature st1
                          /\ consistent signature st1).
  { subst arrow. intros st1.
    destruct (p_cur_arg st =? u_nin);
      [|intros G; injection G as <-; split; assumption].
    destruct (is_char (at_ signature (p_i st)) "-") eqn:E1;
      [|discriminate].
    destruct (is_char (at_ signature (p_i st + 1)) ">") eqn:E2;
      [|discriminate].
    cbn [negb orb]. intros G. injection G as <-.
    destruct (skip_char_and_blanks (p_i st + 1) ">" E2 ltac:(discriminate)
                eq_refl) as [Le NA].
    replace (p_i st + 1 + 1) with (p_i st + 2) in Le, NA by lia.
    split.
    - apply set_i_bounds. unfold in_bounds in B. lia.
    - apply (consistent_skip st); try reflexivity; [exact C| |];
        cbn [set_i p_i]; [lia|].
      apply (no_alpha_app signature _ (p_i st + 1)); [|exact NA].
      exact (no_alpha_char signature (p_i st) "-" E1 eq_refl). }
  destruct arrow as [st1|j why]; [|discriminate].
  destruct (A st1 eq_refl) as [B1 C1]. clear A.
  destruct (is_char (at_ signature (p_i st1)) "(") eqn:Eo;
    [|discriminate].
  cbn [negb].
  destruct (skip_char_and_blanks (p_i st1) "(" Eo ltac:(discriminate)
              eq_refl) as [Le2 NA2].
  set (st2 := set_i st1 (_next_non_white_space signature (p_i st1 + 1))).
  assert (B2 : in_bounds signature st2).
  { apply set_i_bounds. unfold in_bounds in B1. lia. }
  assert (C2 : consistent signature st2).
  { apply (consistent_skip st1); try reflexivity; [exact C1| |];
      cbn [set_i p_i st2]; [lia|exact NA2]. }
  destruct (parse_dims signature st2 fuel) as [st3|j why] eqn:P;
    [|discriminate].
  pose proof (parse_dims_consistent fuel st2 st3 B2 C2 P) as C3.
  pose proof (parse_dims_stops_at_paren fuel st2 st3 P) as Ec.
  destruct ((p_cur_arg st3 <? 0) || (u_nargs <=? p_cur_arg st3));
    [discriminate|].
  destruct (skip_char_and_blanks (p_i st3) ")" Ec ltac:(discriminate)
              eq_refl) as [Le4 NA4].
  set (i4 := _next_non_white_space signature (p_i st3 + 1)) in *.
  match goal with
  | |- (if ?c then _ else _) = _ -> _ => destruct c
  end.
  - destruct (is_char (at_ signature i4) ",") eqn:Ecomma; [|discriminate].
    cbn [negb]. intros G. injection G as <-.
    destruct (skip_char_and_blanks i4 "," Ecomma ltac:(discriminate)
                eq_refl) as [Le5 NA5].
    apply (consistent_skip st3); try reflexivity; [exact C3| |];
      cbn [set_i p_i]; [lia|].
    exact (no_alpha_app signature _ _ _ NA4 NA5).
  - intros G. injection G as <-.
    apply (consistent_skip st3); try reflexivity; [exact C3| |];
      cbn [p_i]; [lia|exact NA4].
Qed.

Lemma parse_args_consistent (u_nin u_nargs : Z) (fuel : nat) :
  forall st st',
    in_bounds signature st ->
    strlen signature - p_i st < Z.of_nat fuel ->
    consistent signature st ->
    parse_args u_nin u_nargs signature st fuel = Go st' ->
    consistent signature st'
    /\ is_char (at_ signature (p_i st')) "000" = true.
Proof.
  induction fuel as [|fuel IH]; intros st st' B F C; cbn [parse_args].
  - unfold in_bounds in B. lia.
  - destruct (is_char (at_ signature (p_i st)) "000") eqn:Hnul.
    + intros G. injection G as <-. split; assumption.
    + pose proof (parse_arg_bounds u_nin u_nargs signature st fuel B
                    ltac:(lia) Hnul) as A.
      destruct (parse_arg u_nin u_nargs signature st fuel) as [st1|j why]
        eqn:P; [|discriminate].
      destruct A as [B1 L].
      apply IH; [exact B1|lia|].
      exact (parse_arg_consistent u_nin u_nargs st st1 fuel B C P).
Qed.

End QuestionMark.

Lemma parse_start_consistent (ufunc : PyUFuncObject) (signature : string) :
  let len := String.length signature in
  consistent signature
    (mkParse (_next_non_white_space signature 0) 0 0 0
       (repeat 0 len) 0
       (repeat 0 (Z.to_nat (nargs ufunc)))
       (repeat 0 (Z.to_nat (nargs ufunc)))
       (repeat 0 len) (repeat 0 len) (repeat 0 len)).
Proof.
  intros len. unfold consistent, consistent_upto, can_ignore_flag.
  cbn [p_i p_num_dim_ix p_var_names p_dim_flags].
  pose proof (next_non_white_space_bounds signature 0
                ltac:(unfold strlen; lia)) as B.
  assert (L : zlen (repeat 0 len) = strlen signature).
  { unfold zlen, strlen. now rewrite repeat_length. }
  split; [lia|]. split; [exact L|]. split; [exact L|].
  split; [|split].
  - intros ix _. now rewrite rd_repeat_zero.
  - intros k Hs Hk. exfalso.
    apply (no_alpha_no_name signature 0 _
             (no_alpha_blank signature 0 ltac:(lia)) k); [|exact Hs].
    destruct Hs as (Hk0 & _). lia.
  - intros ix ix' Hix. lia.
Qed.

(** A signature that parses holds every name with one modifier. *)
Lemma parsed_names_agree (ufunc : PyUFuncObject) (signature : string)
      (alloc_ok : bool) (u : PyUFuncObject) (i j : Z) :
  (forall k, 0 <= k < strlen signature -> at_ signature k <> NUL) ->
  _parse_signature ufunc (Some signature) alloc_ok = ParseOk u ->
  name_starts signature i -> name_starts signature j ->
  name_at (ptr signature i) = name_at (ptr signature j) ->
  marked signature i = marked signature j.
Proof.
  intros Hc. unfold _parse_signature.
  destruct alloc_ok; cbn [negb]; [|discriminate].
  pose proof (parse_start_consistent ufunc signature) as C0.
  cbv zeta in C0.
  match goal with
  | |- context [parse_args ?a ?b ?c ?st ?f] =>
      pose proof (parse_args_bounds a b c f st) as PB;
      pose proof (parse_args_consistent c a b f st) as PC;
      destruct (parse_args a b c st f) as [st'|pos why]
  end; [|destruct why; discriminate].
  pose proof (next_non_white_space_bounds signature 0
                ltac:(unfold strlen; lia)) as B0.
  assert (B : in_bounds signature st').
  { apply PB; unfold in_bounds; cbn [p_i]; unfold strlen in *; lia. }
  destruct (PC st') as [C E];
    [exact B0|cbn [p_i]; unfold strlen in *; lia|exact C0|reflexivity|].
  intros _ Si Sj N.
  assert (End : p_i st' = strlen signature).
  { unfold in_bounds in B.
    destruct (Z.eq_dec (p_i st') (strlen signature)) as [|Ne]; [assumption|].
    exfalso. apply (Hc (p_i st')); [lia|].
    unfold is_char in E. now apply Ascii.eqb_eq in E. }
  assert (In : forall k, name_starts signature k -> k < p_i st').
  { intros k (_ & A & _). rewrite End.
    apply at_nonNUL. intros Z0. rewrite Z0 in A. discriminate A. }
  destruct C as (_ & _ & _ & _ & C5 & C6).
  destruct (C5 i Si (In i Si)) as (ix & Hix & Ni & Fi).
  destruct (C5 j Sj (In j Sj)) as (jx & Hjx & Nj & Fj).
  assert (ix = jx).
  { apply C6; [exact Hix|exact Hjx| |congruence].
    destruct Si as (_ & A & _).
    exact (name_at_alpha _ _ A Ni). }
  subst jx. congruence.
Qed.

(** C9.  A dimension name carries the modifier '?' at all of its
    occurrences or at none: a signature (a C string, so without a NUL
    inside) in which two occurrences of one name differ in the modifier
    does not parse, whatever the ufunc: the parser ends with a parse error
    that holds the signature and an offset inside it, unless the
    signature has more argument lists than the ufunc has arguments, where
    the source writes past [core_num_dims].  The check itself, made where
    a name is met again, fails at the offset of the name with the message
    for the modifier it found.  Every parse error holds the text of the
    signature and an offset between 0 and its length, and the parser
    returns on every signature. *)
Theorem question_mark_is_used_consistently :
  (forall ufunc signature alloc_ok i j,
      (forall k, 0 <= k < strlen signature -> at_ signature k <> NUL) ->
      name_starts signature i -> name_starts signature j ->
      name_at (ptr signature i) = name_at (ptr signature j) ->
      marked signature i <> marked signature j ->
      (forall u, _parse_signature ufunc (Some signature) alloc_ok
                 <> ParseOk u)
      /\ (alloc_ok = true ->
          _parse_signature ufunc (Some signature) alloc_ok = ParseOverrun
          \/ exists msg pos,
              _parse_signature ufunc (Some signature) alloc_ok
              = ParseError msg pos signature
              /\ 0 <= pos <= strlen signature))
  /\ (forall st i frozen_size can_ignore ix,
         ix <> p_num_dim_ix st ->
         can_ignore <> can_ignore_flag st ix ->
         register_dim st i frozen_size can_ignore ix
         = Stop i (Fail (if can_ignore
                         then "? cannot be used, name already seen without ?"
                         else "? must be used, name already seen with ?")))
  /\ (forall ufunc signature alloc_ok msg pos text,
         _parse_signature ufunc (Some signature) alloc_ok
         = ParseError msg pos text ->
         text = signature /\ 0 <= pos <= strlen signature)
  /\ (forall ufunc signature alloc_ok,
         _parse_signature ufunc signature alloc_ok <> ParseFuel).
Proof.
  split; [|split; [|split]].
  - intros ufunc signature alloc_ok i j Hc Si Sj N M.
    assert (NotOk : forall u, _parse_signature ufunc (Some signature)
                                alloc_ok <> ParseOk u).
    { intros u P. apply M.
      exact (parsed_names_agree ufunc signature alloc_ok u i j Hc P Si Sj
               N). }
    split; [exact NotOk|]. intros ->.
    pose proof (parse_signature_total ufunc (Some signature) true) as T.
    pose proof (parse_error_reports ufunc signature true) as R.
    destruct (_parse_signature ufunc (Some signature) true)
      as [u|msg pos text| | | |] eqn:P.
    + exfalso. exact (NotOk u eq_refl).
    + right. destruct (R msg pos text eq_refl) as [-> Hp].
      exists msg, pos. split; [reflexivity|exact Hp].
    + unfold _parse_signature in P. cbn [negb] in P.
      destruct (parse_args _ _ _ _ _) as [st|p w];
        [destruct (negb _); discriminate P|destruct w; discriminate P].
    + unfold _parse_signature in P. cbn [negb] in P.
      destruct (parse_args _ _ _ _ _) as [st|p w];
        [destruct (negb _); discriminate P|destruct w; discriminate P].
    + now left.
    + contradiction.
  - intros st i frozen_size can_ignore ix Nx Nf.
    unfold register_dim. apply Z.eqb_neq in Nx. rewrite Nx.
    unfold can_ignore_flag in Nf.
    destruct can_ignore,
      (Z.land (rd (p_dim_flags st) ix) UFUNC_CORE_DIM_CAN_IGNORE =? 0);
      simpl in *; try reflexivity; congruence.
  - intros ufunc signature alloc_ok msg pos text.
    apply parse_error_reports.
  - intros ufunc signature alloc_ok. apply parse_signature_total.
Qed.

(** The theorem at the signature "(i),(i?)->()" of a ufunc with two
    inputs and one output: the name [i] at offset 1 has no modifier, at
    offset 5 it has one, and the parser ends with a parse error. *)
Lemma question_mark_is_used_consistently_witness :
  _parse_signature (new_ufunc 2 1 "f") (Some "(i),(i?)->()"%string) true
  = ParseOverrun
  \/ exists msg pos,
      _parse_signature (new_ufunc 2 1 "f") (Some "(i),(i?)->()"%string) true
      = ParseError msg pos "(i),(i?)->()"
      /\ 0 <= pos <= strlen "(i),(i?)->()".
Proof.
  apply (proj2 (proj1 question_mark_is_used_consistently
                  (new_ufunc 2 1 "f") "(i),(i?)->()"%string true 1 5
                  ltac:(intros k Hk; change (strlen "(i),(i?)->()") with 12 in Hk;
                        assert (K : k = 0 \/ k = 1 \/ k = 2 \/ k = 3
                                    \/ k = 4 \/ k = 5 \/ k = 6 \/ k = 7
                                    \/ k = 8 \/ k = 9 \/ k = 10 \/ k = 11)
                          by lia;
                        repeat (destruct K as [->|K]; [discriminate|]);
                        subst k; discriminate)
                  ltac:(split; [lia|split; [reflexivity|right; reflexivity]])
                  ltac:(split; [lia|split; [reflexivity|right; reflexivity]])
                  eq_refl
                  ltac:(discriminate))
               eq_refl).
Defined.

(* ================================================================== *)
(** ** What accumulate and reduceat compute                            *)
(* ================================================================== *)

Section Folds.

Variable f : Z -> Z -> Z.

(** The strided loop when its first input is the output one step
    behind: a running fold. *)
Lemma binary_loop_running (n : nat) :
  forall (o ip2 os is2 : Z) (m : Z -> Z),
    os <> 0 ->
    (forall k j, 0 <= j < k -> k < Z.of_nat n ->
                 ip2 + k * is2 <> o + (j + 1) * os) ->
    let m' := binary_loop f n o ip2 (o + os) os is2 os m in
    m' o = m o
    /\ forall k, 0 <= k < Z.of_nat n ->
                 m' (o + (k + 1) * os)
                 = f (m' (o + k * os)) (m (ip2 + k * is2)).
Proof.
  induction n as [|n IH]; intros o ip2 os is2 m Hos Sep m'; subst m'.
  - split; [reflexivity|]. intros k Hk. simpl in Hk. lia.
  - cbn [binary_loop].
    set (m1 := store m (o + os) (f (m o) (m ip2))).
    destruct (IH (o + os) (ip2 + is2) os is2 m1 Hos) as [I0 I1].
    { intros k j Hj Hk.
      specialize (Sep (k + 1) (j + 1) ltac:(lia) ltac:(lia)). lia. }
    cbv zeta in I0, I1.
    set (m' := binary_loop f n (o + os) (ip2 + is2) (o + os + os) os is2 os
                 m1) in *.
    assert (F0 : m' o = m o).
    { unfold m'. rewrite binary_loop_frame.
      - unfold m1. apply store_other. lia.
      - intros j Hj E.
        assert (Z0 : (j + 2) * os = 0) by lia.
        apply Z.mul_eq_0 in Z0. lia. }
    split; [exact F0|].
    intros k Hk. destruct (Z.eq_dec k 0) as [->|Nz].
    + replace (o + (0 + 1) * os) with (o + os) by lia.
      replace (o + 0 * os) with o by lia.
      replace (ip2 + 0 * is2) with ip2 by lia.
      rewrite I0, F0. unfold m1. apply store_same.
    + specialize (I1 (k - 1) ltac:(lia)).
      replace (o + os + (k - 1 + 1) * os) with (o + (k + 1) * os) in I1
        by lia.
      replace (o + os + (k - 1) * os) with (o + k * os) in I1 by lia.
      replace (ip2 + is2 + (k - 1) * is2) with (ip2 + k * is2) in I1 by lia.
      rewrite I1. f_equal. unfold m1. apply store_other.
      specialize (Sep k 0 ltac:(lia) ltac:(lia)). lia.
Qed.

Lemma lane_elements_shift (m : Z -> Z) (p s : Z) (n : nat) :
  forall a, lane_elements m (p + s) s a n = lane_elements m p s (a + 1) n.
Proof.
  unfold lane_elements. induction n as [|n IH]; intros a; [reflexivity|].
  cbn [range_from map]. f_equal; [f_equal; lia|apply IH].
Qed.

Lemma lane_elements_ext (m1 m2 : Z -> Z) (p s : Z) (n : nat) :
  forall a,
    (forall k, a <= k < a + Z.of_nat n -> m1 (p + s * k) = m2 (p + s * k)) ->
    lane_elements m1 p s a n = lane_elements m2 p s a n.
Proof.
  unfold lane_elements. induction n as [|n IH]; intros a H; [reflexivity|].
  cbn [range_from map]. f_equal; [apply H; lia|].
  apply IH. intros k Hk. apply H. lia.
Qed.

Lemma lane_elements_length (m : Z -> Z) (p s a : Z) (n : nat) :
  List.length (lane_elements m p s a n) = n.
Proof.
  unfold lane_elements. rewrite length_map. revert a.
  induction n as [|n IH]; intros a; simpl; [reflexivity|].
  now rewrite IH.
Qed.

(** The strided loop when its first input and its output are one cell:
    a fold into that cell. *)
Lemma binary_loop_fold (n : nat) :
  forall (o ip2 is2 : Z) (m : Z -> Z),
    (forall k, 0 <= k < Z.of_nat n -> ip2 + is2 * k <> o) ->
    let m' := binary_loop f n o ip2 o 0 is2 0 m in
    m' o = fold_left f (lane_elements m ip2 is2 0 n) (m o)
    /\ forall q, q <> o -> m' q = m q.
Proof.
  induction n as [|n IH]; intros o ip2 is2 m Sep m'; subst m'.
  - split; reflexivity.
  - cbn [binary_loop].
    replace (o + 0) with o by lia.
    set (m1 := store m o (f (m o) (m ip2))).
    destruct (IH o (ip2 + is2) is2 m1) as [I0 I1].
    { intros k Hk. specialize (Sep (k + 1) ltac:(lia)). lia. }
    cbv zeta in I0, I1. split.
    + rewrite I0. rewrite lane_elements_shift.
      rewrite (lane_elements_ext m1 m).
      * unfold lane_elements at 2. cbn [range_from map fold_left].
        replace (ip2 + is2 * 0) with ip2 by lia.
        unfold m1. now rewrite store_same.
      * intros k Hk. unfold m1. apply store_other.
        apply Sep. lia.
    + intros q Hq. rewrite I1 by exact Hq. unfold m1.
      now apply store_other.
Qed.

End Folds.

Lemma lane_elements_offset (m : Z -> Z) (p s a : Z) (n : nat) :
  forall b, lane_elements m (p + s * a) s b n = lane_elements m p s (a + b) n.
Proof.
  unfold lane_elements. induction n as [|n IH]; intros b; [reflexivity|].
  cbn [range_from map]. f_equal; [f_equal; lia|].
  rewrite IH. f_equal. f_equal. lia.
Qed.

Lemma call_loop_mem (env : collaborators) (loop : loop_id) (args : list Z)
      (count : Z) (steps : list Z) (r : run) :
  mem (mach (call_loop env loop args count steps r))
  = mem (loops env loop args count steps (mach r)).
Proof. reflexivity. Qed.

(** One lane of an accumulation, with a kernel that computes [f]
    element by element: output element 0 is input element 0 and every
    later output element is [f] of the output element before it and of
    its input element, provided no input element lies on an output
    element written before it is read. *)
Lemma accumulate_lane_fold
        (env : collaborators) (loop : loop_id) (f : Z -> Z -> Z)
        (otype count_m1 stride0 stride1 d0 d1 : Z) (r : run) :
  computes f (loops env loop) ->
  stride0 <> 0 ->
  (forall i j, 0 <= j < i -> i <= count_m1 ->
               d1 + i * stride1 <> d0 + j * stride0) ->
  let r' := accumulate_lane env loop otype count_m1 stride0 stride1 d0 d1 r
  in
  let out i := mem (mach r') (d0 + i * stride0) in
  let inp i := mem (mach r) (d1 + i * stride1) in
  out 0 = inp 0
  /\ forall i, 1 <= i <= count_m1 -> out i = f (out (i - 1)) (inp i).
Proof.
  intros K Hs Sep r' out inp. subst r' out inp. cbv beta.
  unfold accumulate_lane.
  destruct (copy_first_element_spec otype d0 d1 r) as (C0 & C1 & _).
  set (r1 := copy_first_element otype d0 d1 r) in *.
  replace (d0 + 0 * stride0) with d0 by lia.
  replace (d1 + 0 * stride1) with d1 by lia.
  destruct (count_m1 >? 0) eqn:G.
  - rewrite Z.gtb_ltb in G. apply Z.ltb_lt in G.
    assert (E : mem (mach (call_loop env loop
                             [d0; d1 + stride1; d0 + stride0] count_m1
                             [stride0; stride1; stride0] r1))
                = binary_loop f (Z.to_nat count_m1) d0 (d1 + stride1)
                    (d0 + stride0) stride0 stride1 stride0 (mem (mach r1))).
    { rewrite call_loop_mem, K. reflexivity. }
    rewrite E.
    destruct (binary_loop_running f (Z.to_nat count_m1) d0 (d1 + stride1)
                stride0 stride1 (mem (mach r1)) Hs) as [B0 B1].
    { intros k j Hj Hk.
      specialize (Sep (k + 1) (j + 1) ltac:(lia) ltac:(lia)). lia. }
    cbv zeta in B0, B1. split; [now rewrite B0|].
    intros i Hi. specialize (B1 (i - 1) ltac:(lia)).
    replace (i - 1 + 1) with i in B1 by lia.
    rewrite B1. f_equal.
    replace (d1 + stride1 + (i - 1) * stride1) with (d1 + i * stride1)
      by lia.
    apply C1. specialize (Sep i 0 ltac:(lia) ltac:(lia)). lia.
  - rewrite Z.gtb_ltb in G. apply Z.ltb_ge in G.
    split; [exact C0|]. intros i Hi. lia.
Qed.

Section ReduceatFolds.

Variable env : collaborators.
Variable loop : loop_id.
Variable f : Z -> Z -> Z.
Variable otype : Z.
Variable reduceat_ind : list Z.
Variable ind_size len : Z.
Variable stride0_ind stride1 : Z.

Hypothesis K : computes f (loops env loop).
Hypothesis Hs : stride0_ind <> 0.

Lemma reduceat_segment_value (d0 d1 i : Z) (r : run) :
  0 <= rd reduceat_ind i ->
  (forall k, rd reduceat_ind i <= k ->
             k < (if i =? ind_size - 1 then len
                  else rd reduceat_ind (i + 1)) ->
             d1 + stride1 * k <> out_cell stride0_ind d0 i) ->
  let r' := reduceat_segment env loop otype reduceat_ind ind_size len
              stride0_ind stride1 d0 d1 i r in
  mem (mach r') (out_cell stride0_ind d0 i)
  = segment_fold f reduceat_ind ind_size len stride1 (mem (mach r)) d1 i
  /\ forall q, q <> out_cell stride0_ind d0 i ->
               mem (mach r') q = mem (mach r) q.
Proof.
  intros H0 Sep r'. subst r'.
  unfold reduceat_segment, segment_fold, out_cell, in_cell in *.
  set (start := rd reduceat_ind i) in *.
  set (end_ := if i =? ind_size - 1 then len else rd reduceat_ind (i + 1))
    in *.
  set (p0 := d0 + stride0_ind * i) in *.
  set (p1 := d1 + stride1 * start) in *.
  destruct (copy_first_element_spec otype p0 p1 r) as (C0 & C1 & _).
  set (r1 := copy_first_element otype p0 p1 r) in *.
  destruct (end_ - start >? 1) eqn:G.
  - rewrite Z.gtb_ltb in G. apply Z.ltb_lt in G.
    rewrite call_loop_mem, K.
    change (rd [p0; p1 + stride1; p0] 0) with p0.
    change (rd [p0; p1 + stride1; p0] 1) with (p1 + stride1).
    change (rd [p0; p1 + stride1; p0] 2) with p0.
    change (rd [0; stride1; 0] 0) with 0.
    change (rd [0; stride1; 0] 1) with stride1.
    change (rd [0; stride1; 0] 2) with 0.
    destruct (binary_loop_fold f (Z.to_nat (end_ - start - 1)) p0
                (p1 + stride1) stride1 (mem (mach r1))) as [B0 B1].
    { intros k Hk. specialize (Sep (start + 1 + k) ltac:(lia) ltac:(lia)).
      unfold p1. lia. }
    cbv zeta in B0, B1. split.
    + rewrite B0, C0.
      replace (p1 + stride1) with (d1 + stride1 * (start + 1))
        by (unfold p1; lia).
      rewrite lane_elements_offset. rewrite Z.add_0_r.
      rewrite (lane_elements_ext (mem (mach r1)) (mem (mach r))).
      * reflexivity.
      * intros k Hk. apply C1. apply Sep; lia.
    + intros q Hq. rewrite B1 by exact Hq. now apply C1.
  - rewrite Z.gtb_ltb in G. apply Z.ltb_ge in G.
    replace (Z.to_nat (end_ - start - 1)) with O by lia.
    split; [exact C0|exact C1].
Qed.

Lemma reduceat_segments_values (d0 d1 : Z) (todo : nat) :
  forall (i : Z) (r : run),
    0 <= i -> i + Z.of_nat todo = ind_size ->
    (forall k, i <= k < i + Z.of_nat todo ->
               0 <= rd reduceat_ind k < len) ->
    (forall k j, 0 <= k < len -> i <= j < i + Z.of_nat todo ->
                 d1 + stride1 * k <> out_cell stride0_ind d0 j) ->
    let r' := reduceat_segments env loop otype reduceat_ind ind_size len
                stride0_ind stride1 d0 d1 i todo r in
    (forall q, (forall j, i <= j < i + Z.of_nat todo ->
                          q <> out_cell stride0_ind d0 j) ->
               mem (mach r') q = mem (mach r) q)
    /\ forall k, i <= k < i + Z.of_nat todo ->
                 mem (mach r') (out_cell stride0_ind d0 k)
                 = segment_fold f reduceat_ind ind_size len stride1
                     (mem (mach r)) d1 k.
Proof.
  induction todo as [|todo IH]; intros i r Hi Hn In Sep r'; subst r'.
  - cbn [reduceat_segments]. split; [reflexivity|]. intros k Hk. lia.
  - cbn [reduceat_segments].
    assert (End : (if i =? ind_size - 1 then len
                   else rd reduceat_ind (i + 1)) <= len).
    { destruct (i =? ind_size - 1) eqn:E; [lia|].
      apply Z.eqb_neq in E. specialize (In (i + 1) ltac:(lia)). lia. }
    destruct (reduceat_segment_value d0 d1 i r) as [V0 V1].
    { specialize (In i ltac:(lia)). lia. }
    { intros k Hk1 Hk2. apply Sep; [|lia].
      specialize (In i ltac:(lia)). lia. }
    cbv zeta in V0, V1.
    set (r1 := reduceat_segment env loop otype reduceat_ind ind_size len
                 stride0_ind stride1 d0 d1 i r) in *.
    destruct (IH (i + 1) r1) as [I0 I1]; [lia|lia| | |].
    { intros k Hk. apply In. lia. }
    { intros k j Hk Hj. apply Sep; [exact Hk|lia]. }
    cbv zeta in I0, I1. split.
    + intros q Hq. rewrite I0 by (intros j Hj; apply Hq; lia).
      apply V1. apply Hq. lia.
    + assert (Same : forall k,
                 i + 1 <= k < i + 1 + Z.of_nat todo ->
                 segment_fold f reduceat_ind ind_size len stride1
                   (mem (mach r1)) d1 k
                 = segment_fold f reduceat_ind ind_size len stride1
                     (mem (mach r)) d1 k).
      { intros k Hk. unfold segment_fold.
        assert (Ek : (if k =? ind_size - 1 then len
                      else rd reduceat_ind (k + 1)) <= len).
        { destruct (k =? ind_size - 1) eqn:E; [lia|].
          apply Z.eqb_neq in E. specialize (In (k + 1) ltac:(lia)). lia. }
        pose proof (In k ltac:(lia)) as Ik.
        rewrite (lane_elements_ext (mem (mach r1)) (mem (mach r))).
        - f_equal. apply V1. unfold in_cell. apply Sep; lia.
        - intros j Hj. apply V1. apply Sep; lia. }
      intros k Hk. destruct (Z.eq_dec k i) as [->|Ne].
      * rewrite I0; [exact V0|].
        intros j Hj E. unfold out_cell in E.
        assert (Z0 : stride0_ind * (i - j) = 0) by lia.
        apply Z.mul_eq_0 in Z0. lia.
      * rewrite I1 by lia. apply Same. lia.
Qed.

End ReduceatFolds.

(** One lane of a reduceat, with a kernel that computes [f] element
    by element, indices in range and an output that does not overlap the
    input: the output element of every segment is the fold of [f] over
    the input elements from the segment's index up to the next index (up
    to the end of the axis for the last segment). *)
Lemma reduceat_lane_folds
        (env : collaborators) (loop : loop_id) (f : Z -> Z -> Z)
        (otype : Z) (reduceat_ind : list Z)
        (ind_size len stride0_ind stride1 d0 d1 : Z) (r : run) :
  computes f (loops env loop) ->
  stride0_ind <> 0 ->
  (forall i, 0 <= i < ind_size -> 0 <= rd reduceat_ind i < len) ->
  (forall k j, 0 <= k < len -> 0 <= j < ind_size ->
               d1 + stride1 * k <> out_cell stride0_ind d0 j) ->
  let r' := reduceat_lane env loop otype reduceat_ind ind_size len
              stride0_ind stride1 d0 d1 r in
  forall i, 0 <= i < ind_size ->
            mem (mach r') (out_cell stride0_ind d0 i)
            = segment_fold f reduceat_ind ind_size len stride1
                (mem (mach r)) d1 i.
Proof.
  intros K Hs In Sep r' i Hi. subst r'. unfold reduceat_lane.
  destruct (reduceat_segments_values env loop f otype reduceat_ind ind_size
              len stride0_ind stride1 K Hs d0 d1 (Z.to_nat ind_size) 0 r)
    as [_ V]; try lia.
  - intros k Hk. apply In. lia.
  - intros k j Hk Hj. apply Sep; lia.
  - apply V. lia.
Qed.

(* ================================================================== *)
(** ** The loop a reduction selects                                    *)
(* ================================================================== *)

Section BinaryOpFunction.

Variable env : collaborators.
Variable ufunc : PyUFuncObject.

(** The three type numbers of row [i] of the loop table. *)
Lemma search_compatible_spec (otype : Z) (todo : nat) :
  forall i,
    match search_compatible env ufunc otype i todo with
    | FoundLoop t j =>
        i <= j < i + Z.of_nat todo
        /\ rd (types ufunc) (j * nargs ufunc) = t
        /\ rd (types ufunc) (j * nargs ufunc + 1) = t
        /\ rd (types ufunc) (j * nargs ufunc + 2) = t
        /\ PyArray_CanCastSafely env otype t = true
    | NaturalType t2 =>
        exists j, i <= j < i + Z.of_nat todo
                  /\ rd (types ufunc) (j * nargs ufunc + 2) = t2
                  /\ rd (types ufunc) (j * nargs ufunc)
                     = rd (types ufunc) (j * nargs ufunc + 1)
                  /\ rd (types ufunc) (j * nargs ufunc) <> t2
                  /\ PyArray_CanCastSafely env otype
                       (rd (types ufunc) (j * nargs ufunc)) = true
    | NoCompatible => True
    end.
Proof.
  induction todo as [|todo IH]; intros i; cbn [search_compatible];
    [exact I|].
  set (t0 := rd (types ufunc) (i * nargs ufunc)).
  set (t1 := rd (types ufunc) (i * nargs ufunc + 1)).
  set (t2 := rd (types ufunc) (i * nargs ufunc + 2)).
  destruct (PyArray_CanCastSafely env otype t0 && (t0 =? t1)
            && ((otype =? NPY_OBJECT) || negb (t0 =? NPY_OBJECT))) eqn:C.
  - apply andb_true_iff in C. destruct C as [C _].
    apply andb_true_iff in C. destruct C as [C E1].
    apply Z.eqb_eq in E1.
    destruct (t2 =? t0) eqn:E2.
    + apply Z.eqb_eq in E2. repeat split; try lia; try congruence.
    + apply Z.eqb_neq in E2. exists i. repeat split; try lia; auto.
  - specialize (IH (i + 1)).
    destruct (search_compatible env ufunc otype (i + 1) todo) as [t j|t|].
    + destruct IH as (H & R). split; [lia|exact R].
    + destruct IH as (j & H & R). exists j. split; [lia|exact R].
    + exact I.
Qed.

Lemma search_exact_spec (otype : Z) (todo : nat) :
  forall i t j,
    search_exact env ufunc otype i todo = Some (t, j) ->
    i <= j < i + Z.of_nat todo
    /\ rd (types ufunc) (j * nargs ufunc) = t
    /\ rd (types ufunc) (j * nargs ufunc + 1) = t
    /\ rd (types ufunc) (j * nargs ufunc + 2) = t
    /\ PyArray_CanCastSafely env otype t = true.
Proof.
  induction todo as [|todo IH]; intros i t j; cbn [search_exact];
    [discriminate|].
  set (t0 := rd (types ufunc) (i * nargs ufunc)).
  set (t1 := rd (types ufunc) (i * nargs ufunc + 1)).
  set (t2 := rd (types ufunc) (i * nargs ufunc + 2)).
  destruct (PyArray_CanCastSafely env otype t0 && (t0 =? t1) && (t1 =? t2)
            && ((otype =? NPY_OBJECT) || negb (t0 =? NPY_OBJECT))) eqn:C.
  - apply andb_true_iff in C. destruct C as [C _].
    apply andb_true_iff in C. destruct C as [C E2].
    apply andb_true_iff in C. destruct C as [C E1].
    apply Z.eqb_eq in E1, E2.
    intros G. injection G as <- <-.
    repeat split; try lia; try congruence.
  - intros G. destruct (IH (i + 1) t j G) as (H & R).
    split; [lia|exact R].
Qed.

Lemma find_user_loop_spec (otype : Z) (funcdata : list (list Z)) :
  forall k j,
    find_user_loop otype funcdata k = Some j ->
    exists n arg_types,
      j = k + Z.of_nat n
      /\ nth_error funcdata n = Some arg_types
      /\ rd arg_types 0 = otype /\ rd arg_types 1 = otype
      /\ rd arg_types 2 = otype
      /\ forall n' other,
          (n' < n)%nat -> nth_error funcdata n' = Some other ->
          ~ (rd other 0 = otype /\ rd other 1 = otype
             /\ rd other 2 = otype).
Proof.
  induction funcdata as [|arg_types next IH]; intros k j;
    cbn [find_user_loop]; [discriminate|].
  destruct ((rd arg_types 0 =? otype) && (rd arg_types 1 =? otype)
            && (rd arg_types 2 =? otype)) eqn:C.
  - intros G. injection G as <-.
    apply andb_true_iff in C. destruct C as [C E2].
    apply andb_true_iff in C. destruct C as [E0 E1].
    apply Z.eqb_eq in E0, E1, E2.
    exists O, arg_types.
    split; [lia|]. split; [reflexivity|].
    split; [exact E0|]. split; [exact E1|]. split; [exact E2|].
    intros n' other Hn. lia.
  - intros G. destruct (IH (k + 1) j G) as (n & a & Ej & Hn & R0 & R1 & R2 & F).
    exists (S n), a.
    split; [lia|]. split; [exact Hn|].
    split; [exact R0|]. split; [exact R1|]. split; [exact R2|].
    intros [|n'] other Hlt Ho; simpl in Ho.
    + injection Ho as <-. intros (E0 & E1 & E2).
      rewrite E0, E1, E2, !Z.eqb_refl in C. discriminate C.
    + apply (F n' other); [lia|exact Ho].
Qed.

End BinaryOpFunction.

(** X3.  The loop [get_binary_op_function] selects for a reduction is
    always one on a single type: a built-in loop is a row [x x -> x] of
    the loop table within its [ntypes] rows, with [x] the type returned;
    a user loop is the first loop registered for the requested
    user-defined type whose three types are that type, and the type
    returned is the requested one. *)
Theorem binary_op_function_is_on_one_type
        (env : collaborators) (ufunc : PyUFuncObject) (otype final : Z)
        (loop : loop_id) :
  get_binary_op_function env ufunc otype = Some (final, loop) ->
  match loop with
  | BuiltinLoop i =>
      0 <= i < ntypes ufunc
      /\ rd (types ufunc) (i * nargs ufunc) = final
      /\ rd (types ufunc) (i * nargs ufunc + 1) = final
      /\ rd (types ufunc) (i * nargs ufunc + 2) = final
  | UserLoop type k =>
      type = otype /\ final = otype
      /\ PyTypeNum_ISUSERDEF env otype = true
      /\ exists lookup funcdata n arg_types,
          userloops ufunc = Some lookup
          /\ lookup otype = LookupFound funcdata
          /\ k = Z.of_nat n
          /\ nth_error funcdata n = Some arg_types
          /\ rd arg_types 0 = otype /\ rd arg_types 1 = otype
          /\ rd arg_types 2 = otype
          /\ forall n' other,
              (n' < n)%nat -> nth_error funcdata n' = Some other ->
              ~ (rd other 0 = otype /\ rd other 1 = otype
                 /\ rd other 2 = otype)
  end.
Proof.
  unfold get_binary_op_function.
  assert (Ex : forall ot,
             match search_exact env ufunc ot 0 (Z.to_nat (ntypes ufunc)) with
             | Some (t0, i) => Some (t0, BuiltinLoop i)
             | None => None
             end = Some (final, loop) ->
             match loop with
             | BuiltinLoop i =>
                 0 <= i < ntypes ufunc
                 /\ rd (types ufunc) (i * nargs ufunc) = final
                 /\ rd (types ufunc) (i * nargs ufunc + 1) = final
                 /\ rd (types ufunc) (i * nargs ufunc + 2) = final
             | UserLoop _ _ => False
             end).
  { intros ot.
    destruct (search_exact env ufunc ot 0 (Z.to_nat (ntypes ufunc)))
      as [[t0 i]|] eqn:S; [|discriminate].
    intros G. injection G as <- <-.
    destruct (search_exact_spec env ufunc ot _ _ _ _ S) as (H & R0 & R1 & R2 & _).
    repeat split; auto; lia. }
  assert (B : (match search_compatible env ufunc otype 0
                       (Z.to_nat (ntypes ufunc)) with
               | FoundLoop t0 i => Some (t0, BuiltinLoop i)
               | NaturalType t2 =>
                   match search_exact env ufunc t2 0
                           (Z.to_nat (ntypes ufunc)) with
                   | Some (t0, i) => Some (t0, BuiltinLoop i)
                   | None => None
                   end
               | NoCompatible =>
                   match search_exact env ufunc otype 0
                           (Z.to_nat (ntypes ufunc)) with
                   | Some (t0, i) => Some (t0, BuiltinLoop i)
                   | None => None
                   end
               end) = Some (final, loop) ->
              match loop with
              | BuiltinLoop i =>
                  0 <= i < ntypes ufunc
                  /\ rd (types ufunc) (i * nargs ufunc) = final
                  /\ rd (types ufunc) (i * nargs ufunc + 1) = final
                  /\ rd (types ufunc) (i * nargs ufunc + 2) = final
              | UserLoop _ _ => False
              end).
  { pose proof (search_compatible_spec env ufunc otype
                  (Z.to_nat (ntypes ufunc)) 0) as C.
    destruct (search_compatible env ufunc otype 0 (Z.to_nat (ntypes ufunc)))
      as [t0 i|t2|].
    - intros G. injection G as <- <-.
      destruct C as (H & R0 & R1 & R2 & _). repeat split; auto; lia.
    - apply Ex.
    - apply Ex. }
  assert (B' : (match search_compatible env ufunc otype 0
                        (Z.to_nat (ntypes ufunc)) with
                | FoundLoop t0 i => Some (t0, BuiltinLoop i)
                | NaturalType t2 =>
                    match search_exact env ufunc t2 0
                            (Z.to_nat (ntypes ufunc)) with
                    | Some (t0, i) => Some (t0, BuiltinLoop i)
                    | None => None
                    end
                | NoCompatible =>
                    match search_exact env ufunc otype 0
                            (Z.to_nat (ntypes ufunc)) with
                    | Some (t0, i) => Some (t0, BuiltinLoop i)
                    | None => None
                    end
                end) = Some (final, loop) ->
               match loop with
               | BuiltinLoop i =>
                   0 <= i < ntypes ufunc
                   /\ rd (types ufunc) (i * nargs ufunc) = final
                   /\ rd (types ufunc) (i * nargs ufunc + 1) = final
                   /\ rd (types ufunc) (i * nargs ufunc + 2) = final
               | UserLoop type k =>
                   type = otype /\ final = otype
                   /\ PyTypeNum_ISUSERDEF env otype = true
                   /\ exists lookup funcdata n arg_types,
                       userloops ufunc = Some lookup
                       /\ lookup otype = LookupFound funcdata
                       /\ k = Z.of_nat n
                       /\ nth_error funcdata n = Some arg_types
                       /\ rd arg_types 0 = otype /\ rd arg_types 1 = otype
                       /\ rd arg_types 2 = otype
                       /\ forall n' other,
                           (n' < n)%nat ->
                           nth_error funcdata n' = Some other ->
                           ~ (rd other 0 = otype /\ rd other 1 = otype
                              /\ rd other 2 = otype)
               end).
  { intros G. specialize (B G). destruct loop; [exact B|contradiction]. }
  destruct (userloops ufunc) as [lookup|] eqn:U; [|exact B'].
  destruct (PyTypeNum_ISUSERDEF env otype) eqn:UD; [|exact B'].
  destruct (lookup otype) as [| |funcdata] eqn:L; [discriminate|exact B'|].
  destruct (find_user_loop otype funcdata 0) as [k|] eqn:F; [|exact B'].
  intros G. injection G as <- <-.
  destruct (find_user_loop_spec otype funcdata 0 k F)
    as (n & a & Ek & Hn & R0 & R1 & R2 & Fst).
  split; [reflexivity|]. split; [reflexivity|]. split; [reflexivity|].
  exists lookup, funcdata, n, a.
  split; [reflexivity|]. split; [exact L|]. split; [lia|].
  split; [exact Hn|]. split; [exact R0|]. split; [exact R1|].
  split; [exact R2|exact Fst].
Qed.

(** The theorem at [add] for the type [NPY_LONG]: it selects row 0. *)
Lemma binary_op_function_is_on_one_type_witness :
  0 <= 0 < ntypes add_ufunc
  /\ rd (types add_ufunc) (0 * nargs add_ufunc) = NPY_LONG
  /\ rd (types add_ufunc) (0 * nargs add_ufunc + 1) = NPY_LONG
  /\ rd (types add_ufunc) (0 * nargs add_ufunc + 2) = NPY_LONG.
Proof.
  exact (binary_op_function_is_on_one_type add_env add_ufunc NPY_LONG
           NPY_LONG (BuiltinLoop 0) eq_refl).
Defined.

(* ================================================================== *)
(** ** The plain call: the trivial loop and its fall-back              *)
(* ================================================================== *)

Lemma trivial_scan_operand_stride (a : PyArrayObject) (iop : Z)
      (pl pl1 : trivial_plan) :
  trivial_scan_operand a iop pl = Some pl1 ->
  fixed_strides pl1 = wr (fixed_strides pl) iop (trivial_stride a).
Proof.
  unfold trivial_scan_operand, trivial_stride.
  destruct (PyArray_NDIM a =? 0); [intros G; injection G as <-; reflexivity|].
  destruct (if operation_ndim pl =? 0 then _ else _) as [pl0|] eqn:F;
    [|discriminate].
  assert (E : fixed_strides pl0 = fixed_strides pl).
  { destruct (operation_ndim pl =? 0); [injection F as <-; reflexivity|].
    destruct (negb (PyArray_NDIM a =? operation_ndim pl)); [discriminate F|].
    destruct (negb (PyArray_CompareLists _ _ _)); [discriminate F|].
    injection F as <-. reflexivity. }
  destruct (PyArray_NDIM a =? 1).
  { intros G. injection G as <-. cbn [set_stride fixed_strides].
    now rewrite E. }
  destruct (op_order_of a =? 0); [discriminate|].
  cbn [set_stride operation_order fixed_strides operation_ndim
       operation_shape].
  destruct (operation_order pl0 =? 0).
  { intros G. injection G as <-. cbn [fixed_strides]. now rewrite ?E. }
  destruct (negb (operation_order pl0 =? op_order_of a)); [discriminate|].
  intros G. injection G as <-. cbn [set_stride fixed_strides].
  now rewrite E.
Qed.

Lemma trivial_scan_strides_by_rank (ops : list (option PyArrayObject)) :
  forall iop pl pl',
    0 <= iop ->
    iop + Z.of_nat (List.length ops) <= zlen (fixed_strides pl) ->
    trivial_scan ops iop pl = Some pl' ->
    zlen (fixed_strides pl') = zlen (fixed_strides pl)
    /\ (forall k a, nth_error ops k = Some (Some a) ->
                    rd (fixed_strides pl') (iop + Z.of_nat k)
                    = trivial_stride a)
    /\ (forall j, j < iop ->
                  rd (fixed_strides pl') j = rd (fixed_strides pl) j).
Proof.
  induction ops as [|o ops IH]; intros iop pl pl' Hi Hl Sc.
  - simpl in Sc. injection Sc as <-. split; [reflexivity|].
    split; [intros [|k] a H; discriminate H|reflexivity].
  - simpl in Hl. destruct o as [b|]; simpl in Sc.
    + destruct (trivial_scan_operand b iop pl) as [pl1|] eqn:B;
        [|discriminate Sc].
      pose proof (trivial_scan_operand_stride b iop pl pl1 B) as Ev.
      destruct (IH (iop + 1) pl1 pl' ltac:(lia)
                  ltac:(rewrite Ev, zlen_wr; lia) Sc) as (L & Z0 & U).
      rewrite Ev in L, U. rewrite zlen_wr in L.
      split; [exact L|]. split.
      * intros [|k] a H; simpl in H.
        -- injection H as ->. rewrite Z.add_0_r.
           rewrite U by lia. apply rd_wr_same. lia.
        -- replace (iop + Z.of_nat (S k)) with (iop + 1 + Z.of_nat k) by lia.
           now apply (Z0 k a).
      * intros j Hj. rewrite U by lia. apply rd_wr_other; lia.
    + destruct (IH (iop + 1) pl pl' ltac:(lia) ltac:(lia) Sc)
        as (L & Z0 & U).
      split; [exact L|]. split.
      * intros [|k] a H; simpl in H; [discriminate H|].
        replace (iop + Z.of_nat (S k)) with (iop + 1 + Z.of_nat k) by lia.
        now apply (Z0 k a).
      * intros j Hj. apply U; lia.
Qed.

(** X4.  When [try_trivial_single_output_loop] returns 0 it has invoked
    the kernel exactly once, on the data pointers of the operands it
    hands back.  The element count of that call is the size of every
    operand that is not 0-D, and the stride it gives each operand the
    caller supplied is 0 for a 0-D operand, the operand's stride for a
    1-D operand and its item size for an operand of higher rank. *)
Theorem trivial_loop_single_kernel_call
        (innerloop : list Z -> Z -> list Z -> machine -> machine)
        (overlap_ok : PyArrayObject -> PyArrayObject -> bool)
        (equiv_types : PyArray_Descr -> PyArray_Descr -> bool)
        (ufunc : PyUFuncObject) (op : list (option PyArrayObject))
        (dtypes : list PyArray_Descr) (order : NPY_ORDER)
        (arr_prep : prepare_hook) (block : option Z) (r : run) :
  let o := try_trivial_single_output_loop innerloop overlap_ok
             equiv_types ufunc op dtypes order arr_prep block r in
  let nop := nin ufunc + 1 in
  0 <= nin ufunc ->
  ret o = 0 ->
  exists count steps,
    kernel_calls (trace (after o))
    = kernel_calls (trace r)
      ++ [EvKernel (map data_of (firstn (Z.to_nat nop) (out_ops o)))
                   count steps]
    /\ (forall a, In a (supplied (firstn (Z.to_nat nop) op)) ->
                  PyArray_NDIM a <> 0 -> count = PyArray_SIZE a)
    /\ (forall k a, 0 <= k < nop -> get_op op k = Some a ->
                    rd steps k = trivial_stride a).
Proof.
  intros o nop Hn R. subst o. revert R.
  unfold try_trivial_single_output_loop. fold nop.
  set (pl0 := mkPlan _ 0 [] (repeat 0 (Z.to_nat nop))).
  destruct (trivial_scan (firstn (Z.to_nat nop) op) 0 pl0) as [pl|] eqn:Sc;
    [|cbn [ret]; discriminate].
  assert (Count : forall a, In a (supplied (firstn (Z.to_nat nop) op)) ->
                            PyArray_NDIM a <> 0 ->
                            PyArray_MultiplyList (operation_shape pl)
                                                 (operation_ndim pl)
                            = PyArray_SIZE a).
  { intros a Ha Na.
    assert (W : plan_ok pl0) by (intros Hz; now contradiction Hz).
    destruct (trivial_scan_sound _ _ _ _ W Sc) as (_ & _ & _ & Sh & _).
    destruct (Sh a Ha Na) as [E1 E2]. unfold PyArray_SIZE.
    now rewrite E1, E2. }
  assert (Len : Z.of_nat (List.length (firstn (Z.to_nat nop) op))
                <= zlen (fixed_strides pl0)).
  { unfold pl0. cbn [fixed_strides]. unfold zlen. rewrite repeat_length.
    rewrite length_firstn. lia. }
  destruct (trivial_scan_strides_by_rank (firstn (Z.to_nat nop) op) 0 pl0
              pl ltac:(lia) ltac:(lia) Sc) as (L & St & _).
  assert (Stride : forall k a, 0 <= k < nop -> get_op op k = Some a ->
                               rd (fixed_strides pl) k = trivial_stride a).
  { intros k a Hk G.
    pose proof (get_op_firstn op nop k a Hk G) as N.
    specialize (St (Z.to_nat k) a N).
    now rewrite Z.add_0_l, Z2Nat.id in St by lia. }
  destruct (get_op op (nin ufunc)) as [out|] eqn:G.
  - destruct (negb (forallb _ _)); [cbn [ret]; discriminate|].
    destruct (_ && _ && _); [cbn [ret]; discriminate|].
    rewrite G.
    destruct (prepare_ufunc_output equiv_types arr_prep out) as [out'|];
      [|cbn [ret]; discriminate].
    intros _. eexists _, (fixed_strides pl). cbn [after out_ops].
    split; [|split; [exact Count|exact Stride]].
    unfold call_innerloop, log. cbn [trace].
    rewrite kernel_calls_app. reflexivity.
  - destruct (PyArray_NewFromDescr block _ _ _ _) as [out|];
      [|cbn [ret]; discriminate].
    destruct (get_op (set_op op (nin ufunc) out) (nin ufunc)) as [out1|];
      [|cbn [ret]; discriminate].
    destruct (prepare_ufunc_output equiv_types arr_prep out1) as [out'|];
      [|cbn [ret]; discriminate].
    intros _. eexists _, _. cbn [after out_ops].
    split; [|split; [exact Count|]].
    + unfold call_innerloop, log. cbn [trace mach].
      rewrite !kernel_calls_app. cbn. rewrite app_nil_r. reflexivity.
    + intros k a Hk Gk. cbn [set_stride fixed_strides].
      rewrite rd_wr_other; [now apply Stride|].
      intros E. subst k. rewrite G in Gk. discriminate Gk.
Qed.

(** The theorem at [add] on two vectors of three elements with no output
    given. *)
Lemma trivial_loop_single_kernel_call_witness :
  let o := try_trivial_single_output_loop (binary_kernel Z.add)
             (fun _ _ => true) (PyArray_EquivTypes add_env) add_ufunc
             [Some (long_vector 0 3); Some (long_vector 64 3); None]
             [mkDescr NPY_LONG 8; mkDescr NPY_LONG 8; mkDescr NPY_LONG 8]
             NPY_KEEPORDER None (Some 1000) (fresh_run (fun _ => 0)) in
  exists count steps,
    kernel_calls (trace (after o))
    = kernel_calls (trace (fresh_run (fun _ => 0)))
      ++ [EvKernel (map data_of
                        (firstn (Z.to_nat (nin add_ufunc + 1)) (out_ops o)))
                   count steps]
    /\ (forall a,
           In a (supplied
                   (firstn (Z.to_nat (nin add_ufunc + 1))
                      [Some (long_vector 0 3); Some (long_vector 64 3);
                       None])) ->
           PyArray_NDIM a <> 0 -> count = PyArray_SIZE a)
    /\ (forall k a,
           0 <= k < nin add_ufunc + 1 ->
           get_op [Some (long_vector 0 3); Some (long_vector 64 3); None] k
           = Some a ->
           rd steps k = trivial_stride a).
Proof.
  apply (trivial_loop_single_kernel_call (binary_kernel Z.add)
           (fun _ _ => true) (PyArray_EquivTypes add_env) add_ufunc
           [Some (long_vector 0 3); Some (long_vector 64 3); None]
           [mkDescr NPY_LONG 8; mkDescr NPY_LONG 8; mkDescr NPY_LONG 8]
           NPY_KEEPORDER None (Some 1000) (fresh_run (fun _ => 0)));
    [discriminate|reflexivity].
Defined.

(** X5.  [execute_legacy_ufunc_loop] returns 0 or -1, never the -2 by
    which the trivial loop declines.  When the loop selector fails it
    returns -1 with nothing run and the operands as they were.  When the
    trivial loop is tried and does not decline, the call is that of the
    trivial loop; in every other case the iterator loop is run from the
    run and the operands as the caller gave them, a declined trivial loop
    having left no trace. *)
Theorem legacy_loop_return_codes
        (innerloop : list Z -> Z -> list Z -> machine -> machine)
        (overlap_ok : PyArrayObject -> PyArrayObject -> bool)
        (equiv_types : PyArray_Descr -> PyArray_Descr -> bool)
        (NpyIter_AdvancedNew : list (option PyArrayObject) -> option NpyIter)
        (ufunc : PyUFuncObject) (selector_ok : bool) (trivial_loop_ok : Z)
        (op : list (option PyArrayObject)) (dtypes : list PyArray_Descr)
        (order : NPY_ORDER) (arr_prep : list prepare_hook)
        (block : option Z) (r : run) :
  let o := execute_legacy_ufunc_loop innerloop overlap_ok equiv_types
             NpyIter_AdvancedNew ufunc selector_ok trivial_loop_ok op dtypes
             order arr_prep block r in
  let fast := try_trivial_single_output_loop innerloop overlap_ok
                equiv_types ufunc op dtypes order (hd None arr_prep) block r in
  let slow := iterator_loop innerloop equiv_types NpyIter_AdvancedNew ufunc
                op arr_prep r in
  (ret o = 0 \/ ret o = -1)
  /\ (selector_ok = false -> o = mkOutcome (-1) op r)
  /\ (selector_ok = true -> trivial_loop_ok <> 0 -> nout ufunc = 1 ->
      ret fast <> -2 -> o = fast)
  /\ (selector_ok = true ->
      trivial_loop_ok = 0 \/ nout ufunc <> 1 \/ ret fast = -2 ->
      out_ops o = out_ops slow /\ after o = after slow
      /\ ret o = (if ret slow <? 0 then -1 else 0)).
Proof.
  intros o fast slow. subst o. unfold execute_legacy_ufunc_loop.
  fold fast. fold slow.
  destruct selector_ok; cbn [negb].
  2:{ split; [now right|]. split; [reflexivity|].
      split; discriminate. }
  assert (Slow : forall o,
             o = (if ret slow <? 0
                  then mkOutcome (-1) (out_ops slow) (after slow)
                  else mkOutcome 0 (out_ops slow) (after slow)) ->
             (ret o = 0 \/ ret o = -1)
             /\ out_ops o = out_ops slow /\ after o = after slow
             /\ ret o = (if ret slow <? 0 then -1 else 0)).
  { intros o ->. destruct (ret slow <? 0); cbn; auto. }
  pose proof (try_trivial_cases innerloop overlap_ok equiv_types ufunc op dtypes order
                (hd None arr_prep) block r) as C.
  cbv zeta in C. fold fast in C.
  destruct (trivial_loop_ok =? 0) eqn:T; cbn [negb andb].
  - apply Z.eqb_eq in T. destruct (Slow _ eq_refl) as (S1 & S2).
    split; [exact S1|]. split; [discriminate|].
    split; [intros _ N; contradiction|]. intros _ _. exact S2.
  - apply Z.eqb_neq in T. destruct (nout ufunc =? 1) eqn:N.
    + apply Z.eqb_eq in N.
      destruct (ret fast =? -2) eqn:F; cbn [negb].
      * apply Z.eqb_eq in F. destruct (Slow _ eq_refl) as (S1 & S2).
        split; [exact S1|]. split; [discriminate|].
        split; [intros _ _ _ Nf; contradiction|]. intros _ _. exact S2.
      * apply Z.eqb_neq in F.
        split; [|split; [discriminate|split; [reflexivity|]]].
        -- destruct C as [(R & _)|[(R & _)|(R & _)]]; [contradiction| |];
             rewrite R; auto.
        -- intros _ [H|[H|H]]; contradiction.
    + apply Z.eqb_neq in N. destruct (Slow _ eq_refl) as (S1 & S2).
      split; [exact S1|]. split; [discriminate|].
      split; [intros _ _ N1; contradiction|]. intros _ _. exact S2.
Qed.

Section TrivialLoopCheck.

Variable equiv_types : PyArray_Descr -> PyArray_Descr -> bool.
Variable cast_to_type : PyArrayObject -> PyArray_Descr -> option PyArrayObject.
Variable n_in buffersize : Z.

Hypothesis cast_ready :
  forall a d tmp,
    cast_to_type a d = Some tmp ->
    PyArray_ISALIGNED tmp = true /\ equiv_types d (descr tmp) = true.

Lemma check_for_trivial_loop_from_spec (op : list (option PyArrayObject)) :
  forall (dtype : list PyArray_Descr) (i code : Z)
         (op' : list (option PyArrayObject)),
    (List.length op <= List.length dtype)%nat ->
    check_for_trivial_loop_from equiv_types cast_to_type n_in buffersize i
      op dtype = (code, op') ->
    List.length op' = List.length op
    /\ (forall k, nth_error op k = Some None -> nth_error op' k = Some None)
    /\ (forall k, n_in <= i + Z.of_nat k ->
                  nth_error op' k = nth_error op k)
    /\ (code = 1 ->
        forall k a d,
          nth_error op' k = Some (Some a) -> nth_error dtype k = Some d ->
          PyArray_ISALIGNED a = true /\ equiv_types d (descr a) = true)
    /\ (code = 0 ->
        exists k a d,
          nth_error op k = Some (Some a) /\ nth_error dtype k = Some d
          /\ (PyArray_ISALIGNED a = false \/ equiv_types d (descr a) = false)
          /\ (n_in <= i + Z.of_nat k
              \/ (PyArray_NDIM a <> 0
                  /\ ~ (PyArray_NDIM a = 1
                        /\ PyArray_DIM a 0 <= buffersize))))
    /\ (code = 1 \/ code = 0 \/ code = -1).
Proof.
  induction op as [|o rest IH]; intros dtype i code op' Hl;
    cbn [check_for_trivial_loop_from].
  - intros G. injection G as <- <-.
    split; [reflexivity|]. split; [auto|]. split; [auto|].
    split; [intros _ [|k] a d H; discriminate H|].
    split; [discriminate|now left].
  - destruct dtype as [|d drest]; [simpl in Hl; lia|].
    simpl in Hl.
    assert (Cont : forall o',
               (o' = o
                \/ exists a tmp,
                    o = Some a /\ o' = Some tmp /\ i < n_in
                    /\ cast_to_type a d = Some tmp) ->
               (forall a, o' = Some a ->
                          PyArray_ISALIGNED a = true
                          /\ equiv_types d (descr a) = true) ->
               (let (code0, rest') :=
                  check_for_trivial_loop_from equiv_types cast_to_type n_in
                    buffersize (i + 1) rest drest in
                (code0, o' :: rest')) = (code, op') ->
               List.length op' = List.length (o :: rest)
               /\ (forall k, nth_error (o :: rest) k = Some None ->
                             nth_error op' k = Some None)
               /\ (forall k, n_in <= i + Z.of_nat k ->
                             nth_error op' k = nth_error (o :: rest) k)
               /\ (code = 1 ->
                   forall k a d0,
                     nth_error op' k = Some (Some a) ->
                     nth_error (d :: drest) k = Some d0 ->
                     PyArray_ISALIGNED a = true
                     /\ equiv_types d0 (descr a) = true)
               /\ (code = 0 ->
                   exists k a d0,
                     nth_error (o :: rest) k = Some (Some a)
                     /\ nth_error (d :: drest) k = Some d0
                     /\ (PyArray_ISALIGNED a = false
                         \/ equiv_types d0 (descr a) = false)
                     /\ (n_in <= i + Z.of_nat k
                         \/ (PyArray_NDIM a <> 0
                             /\ ~ (PyArray_NDIM a = 1
                                   /\ PyArray_DIM a 0 <= buffersize))))
               /\ (code = 1 \/ code = 0 \/ code = -1)).
    { intros o' Ho Ready.
      destruct (check_for_trivial_loop_from equiv_types cast_to_type n_in
                  buffersize (i + 1) rest drest) as [code0 rest'] eqn:R.
      destruct (IH drest (i + 1) code0 rest' ltac:(lia) R)
        as (I1 & I2 & I3 & I4 & I5 & I6).
      intros G. injection G as <- <-.
      split; [simpl; now rewrite I1|]. split; [|split; [|split; [|split]]].
      - intros [|k] H; simpl in *.
        + destruct Ho as [->|(a & tmp & Eo & _)]; [exact H|].
          rewrite Eo in H. discriminate H.
        + now apply I2.
      - intros [|k] H; simpl.
        + destruct Ho as [->|(a & tmp & _ & _ & Lt & _)]; [reflexivity|lia].
        + apply I3. lia.
      - intros C [|k] a d0 H Hd; simpl in *.
        + injection H as ->. injection Hd as <-. now apply Ready.
        + now apply (I4 C k a d0).
      - intros C. destruct (I5 C) as (k & a & d0 & H1 & H2 & H3 & H4).
        exists (S k), a, d0. simpl.
        split; [exact H1|]. split; [exact H2|]. split; [exact H3|].
        destruct H4 as [H4|H4]; [left; lia|now right].
      - exact I6. }
    destruct o as [a|].
    + destruct (negb (PyArray_ISALIGNED a) || negb (equiv_types d (descr a)))
        eqn:Bad.
      * destruct ((i <? n_in)
                  && ((PyArray_NDIM a =? 0)
                      || ((PyArray_NDIM a =? 1)
                          && (PyArray_DIM a 0 <=? buffersize)))) eqn:Small.
        -- destruct (cast_to_type a d) as [tmp|] eqn:Cst.
           ++ apply Cont.
              ** right. exists a, tmp.
                 apply andb_true_iff in Small. destruct Small as [Lt _].
                 apply Z.ltb_lt in Lt. auto.
              ** intros a' E. injection E as <-. now apply (cast_ready a d).
           ++ intros G. injection G as <- <-.
              split; [reflexivity|]. split; [auto|]. split; [auto|].
              split; [discriminate|]. split; [discriminate|].
              right; now right.
        -- intros G. injection G as <- <-.
           split; [reflexivity|]. split; [auto|]. split; [auto|].
           split; [discriminate|]. split; [|right; now left].
           intros _. exists O, a, d. simpl.
           split; [reflexivity|]. split; [reflexivity|]. split.
           ++ apply orb_true_iff in Bad.
              destruct Bad as [B|B]; apply negb_true_iff in B; auto.
           ++ apply andb_false_iff in Small. destruct Small as [S|S].
              ** left. apply Z.ltb_ge in S. lia.
              ** right. apply orb_false_iff in S. destruct S as [S0 S1].
                 apply Z.eqb_neq in S0. split; [exact S0|].
                 intros [E1 E2]. apply andb_false_iff in S1.
                 destruct S1 as [S1|S1].
                 --- apply Z.eqb_neq in S1. contradiction.
                 --- apply Z.leb_gt in S1. lia.
      * apply orb_false_iff in Bad. destruct Bad as [B1 B2].
        apply negb_false_iff in B1, B2.
        apply Cont; [now left|].
        intros a' E. injection E as <-. auto.
    + apply Cont; [now left|discriminate].
Qed.

End TrivialLoopCheck.

(** X6.  [check_for_trivial_loop], given a cast that yields aligned
    arrays of the type asked for.  It returns 1, 0 or -1 and hands back
    as many operands as it was given, a missing operand still missing and
    every output the very one it was given: only inputs are replaced by
    copies.  When it returns 1, every operand it hands back is aligned
    and of the type the loop expects.  When it returns 0, some operand is
    misaligned or of another type and is either an output or an input
    that is neither 0-D nor 1-D within the buffer size. *)
Theorem trivial_loop_check_leaves_operands_ready
        (equiv_types : PyArray_Descr -> PyArray_Descr -> bool)
        (cast_to_type : PyArrayObject -> PyArray_Descr
                        -> option PyArrayObject)
        (ufunc : PyUFuncObject) (op : list (option PyArrayObject))
        (dtype : list PyArray_Descr) (buffersize : Z) :
  (forall a d tmp,
      cast_to_type a d = Some tmp ->
      PyArray_ISALIGNED tmp = true /\ equiv_types d (descr tmp) = true) ->
  List.length op = Z.to_nat (nin ufunc + nout ufunc) ->
  List.length dtype = Z.to_nat (nin ufunc + nout ufunc) ->
  let code := fst (check_for_trivial_loop equiv_types cast_to_type ufunc op
                     dtype buffersize) in
  let op' := snd (check_for_trivial_loop equiv_types cast_to_type ufunc op
                    dtype buffersize) in
  (code = 1 \/ code = 0 \/ code = -1)
  /\ List.length op' = List.length op
  /\ (forall k, nth_error op k = Some None -> nth_error op' k = Some None)
  /\ (forall k, nin ufunc <= Z.of_nat k -> nth_error op' k = nth_error op k)
  /\ (code = 1 ->
      forall k a d,
        nth_error op' k = Some (Some a) -> nth_error dtype k = Some d ->
        PyArray_ISALIGNED a = true /\ equiv_types d (descr a) = true)
  /\ (code = 0 ->
      exists k a d,
        nth_error op k = Some (Some a) /\ nth_error dtype k = Some d
        /\ (PyArray_ISALIGNED a = false \/ equiv_types d (descr a) = false)
        /\ (nin ufunc <= Z.of_nat k
            \/ (PyArray_NDIM a <> 0
                /\ ~ (PyArray_NDIM a = 1
                      /\ PyArray_DIM a 0 <= buffersize)))).
Proof.
  intros Ready Lo Ld code op'. subst code op'.
  unfold check_for_trivial_loop.
  rewrite <- Lo, firstn_all, skipn_all.
  destruct (check_for_trivial_loop_from equiv_types cast_to_type (nin ufunc)
              buffersize 0 op dtype) as [code op1] eqn:R.
  cbn [fst snd]. rewrite app_nil_r.
  destruct (check_for_trivial_loop_from_spec equiv_types cast_to_type
              (nin ufunc) buffersize Ready op dtype 0 code op1
              ltac:(lia) R) as (I1 & I2 & I3 & I4 & I5 & I6).
  split; [exact I6|]. split; [exact I1|]. split; [exact I2|].
  split; [intros k Hk; apply I3; lia|]. split; [exact I4|].
  intros C. destruct (I5 C) as (k & a & d & H1 & H2 & H3 & H4).
  exists k, a, d.
  split; [exact H1|]. split; [exact H2|]. split; [exact H3|].
  destruct H4 as [H4|H4]; [left; lia|now right].
Qed.

(** The theorem at [add] with a misaligned first input of three
    elements, which is replaced by its aligned copy: 1 is returned. *)
Lemma trivial_loop_check_leaves_operands_ready_witness :
  let call :=
    check_for_trivial_loop (PyArray_EquivTypes add_env)
      (fun a d => Some (mkArray (data a + 4096) (dims a) (strides a) d
                                (NPY_ARRAY_ALIGNED + 1)))
      add_ufunc
      [Some (mkArray 3 [3] [8] (mkDescr NPY_LONG 8) 1);
       Some (long_vector 64 3); None]
      [mkDescr NPY_LONG 8; mkDescr NPY_LONG 8; mkDescr NPY_LONG 8] 8192 in
  fst call = 1
  /\ forall k a d,
      nth_error (snd call) k = Some (Some a) ->
      nth_error [mkDescr NPY_LONG 8; mkDescr NPY_LONG 8; mkDescr NPY_LONG 8]
                k = Some d ->
      PyArray_ISALIGNED a = true
      /\ PyArray_EquivTypes add_env d (descr a) = true.
Proof.
  split; [reflexivity|].
  apply (proj1 (proj2 (proj2 (proj2 (proj2
           (trivial_loop_check_leaves_operands_ready
              (PyArray_EquivTypes add_env)
              (fun a d => Some (mkArray (data a + 4096) (dims a) (strides a)
                                        d (NPY_ARRAY_ALIGNED + 1)))
              add_ufunc
              [Some (mkArray 3 [3] [8] (mkDescr NPY_LONG 8) 1);
               Some (long_vector 64 3); None]
              [mkDescr NPY_LONG 8; mkDescr NPY_LONG 8; mkDescr NPY_LONG 8]
              8192
              ltac:(intros a d tmp E; injection E as <-; split;
                    [reflexivity|apply Z.eqb_refl])
              eq_refl eq_refl)))))).
  reflexivity.
Defined.

(* ================================================================== *)
(** ** The tables of a parsed signature                                *)
(* ================================================================== *)

Section SumFacts.

Lemma firstn_wr_nat (l : list Z) (v : Z) :
  forall i k, (k <= i)%nat -> firstn k (wr_nat l i v) = firstn k l.
Proof.
  induction l as [|x l IH]; intros [|i] [|k] H; simpl; try reflexivity;
    try lia.
  f_equal. apply IH. lia.
Qed.

Lemma firstn_succ_wr_nat (l : list Z) (v : Z) :
  forall i, (i < List.length l)%nat ->
            firstn (S i) (wr_nat l i v) = firstn i l ++ [v].
Proof.
  induction l as [|x l IH]; intros [|i] H; simpl in *; try lia.
  - reflexivity.
  - f_equal. apply IH. lia.
Qed.

Lemma fold_right_add_app (a b : list Z) :
  fold_right Z.add 0 (a ++ b) = fold_right Z.add 0 a + fold_right Z.add 0 b.
Proof. induction a as [|x a IH]; simpl; lia. Qed.

Lemma sum_first_wr_below (l : list Z) (i v k : Z) :
  k <= i -> sum_first (wr l i v) k = sum_first l k.
Proof.
  intros H. unfold sum_first, wr.
  destruct (i <? 0) eqn:E; [reflexivity|]. apply Z.ltb_ge in E.
  rewrite firstn_wr_nat by lia. reflexivity.
Qed.

Lemma sum_first_succ_wr (l : list Z) (i v : Z) :
  0 <= i < zlen l -> sum_first (wr l i v) (i + 1) = sum_first l i + v.
Proof.
  intros H. unfold sum_first, wr, zlen in *.
  destruct (i <? 0) eqn:E; [apply Z.ltb_lt in E; lia|].
  replace (Z.to_nat (i + 1)) with (S (Z.to_nat i)) by lia.
  rewrite firstn_succ_wr_nat by lia.
  rewrite fold_right_add_app. simpl. lia.
Qed.

Lemma rd_firstn (l : list Z) (n j : Z) :
  0 <= j < n -> rd (firstn (Z.to_nat n) l) j = rd l j.
Proof.
  intros H. unfold rd.
  destruct (j <? 0) eqn:E; [reflexivity|].
  rewrite <- (firstn_skipn (Z.to_nat n) l) at 2.
  destruct (Nat.lt_ge_cases (Z.to_nat j)
              (List.length (firstn (Z.to_nat n) l))) as [L|G].
  - now rewrite app_nth1.
  - rewrite (nth_overflow (firstn _ _)) by exact G.
    rewrite length_firstn in G.
    assert (Gl : (List.length l <= Z.to_nat j)%nat) by lia.
    rewrite firstn_skipn. now rewrite nth_overflow.
Qed.

Lemma zlen_firstn (l : list Z) (n : Z) :
  0 <= n <= zlen l -> zlen (firstn (Z.to_nat n) l) = n.
Proof.
  unfold zlen. intros H. rewrite length_firstn. lia.
Qed.

Lemma zlen_repeat (n : nat) : zlen (repeat 0 n) = Z.of_nat n.
Proof. unfold zlen. now rewrite repeat_length. Qed.

End SumFacts.

Section ParserTables.

Variable signature : string.
Variable u_nin u_nargs : Z.

Lemma find_dim_range (st : parse_state) (i fs : Z) (todo : nat) :
  forall ix, ix <= find_dim signature st i fs ix todo <= ix + Z.of_nat todo.
Proof.
  induction todo as [|todo IH]; intros ix; cbn [find_dim]; [lia|].
  destruct (if fs >? 0 then _ else _); [lia|].
  specialize (IH (ix + 1)). lia.
Qed.

Lemma land_inferred_of_ignore (a : Z) :
  Z.land (Z.lor a UFUNC_CORE_DIM_CAN_IGNORE) UFUNC_CORE_DIM_SIZE_INFERRED
  = Z.land a UFUNC_CORE_DIM_SIZE_INFERRED.
Proof.
  rewrite Z.land_lor_distr_l.
  change (Z.land UFUNC_CORE_DIM_CAN_IGNORE UFUNC_CORE_DIM_SIZE_INFERRED)
    with 0.
  apply Z.lor_0_r.
Qed.

Lemma land_lor_inferred (a : Z) :
  Z.land (Z.lor a UFUNC_CORE_DIM_SIZE_INFERRED) UFUNC_CORE_DIM_SIZE_INFERRED
  = UFUNC_CORE_DIM_SIZE_INFERRED.
Proof.
  apply Z.bits_inj'. intros n Hn.
  rewrite Z.land_spec, Z.lor_spec.
  destruct (Z.testbit a n), (Z.testbit UFUNC_CORE_DIM_SIZE_INFERRED n);
    reflexivity.
Qed.

(** The middle of a turn over a core dimension keeps the tables. *)
Lemma register_dim_tables (st st1 : parse_state) (i fs : Z) (ci : bool)
      (ix : Z) :
  tables_ok signature u_nargs st ->
  p_i st < strlen signature ->
  fs = -1 \/ 0 < fs ->
  0 <= ix <= p_num_dim_ix st ->
  register_dim st i fs ci ix = Go st1 ->
  p_i st1 = p_i st /\ p_nd st1 = p_nd st /\ p_cur_arg st1 = p_cur_arg st
  /\ p_cur_core_dim st1 = p_cur_core_dim st
  /\ p_num_dims st1 = p_num_dims st /\ p_offsets st1 = p_offsets st
  /\ p_dim_ixs st1 = p_dim_ixs st
  /\ ix < p_num_dim_ix st1 <= p_num_dim_ix st + 1
  /\ p_num_dim_ix st <= p_num_dim_ix st1
  /\ zlen (p_dim_sizes st1) = strlen signature
  /\ zlen (p_dim_flags st1) = strlen signature
  /\ (forall jx, 0 <= jx < p_num_dim_ix st1 ->
                 size_flag_ok (rd (p_dim_sizes st1) jx)
                              (rd (p_dim_flags st1) jx))
  /\ (forall jx, p_num_dim_ix st1 <= jx -> rd (p_dim_flags st1) jx = 0).
Proof.
  intros (T1 & T2 & T3 & T4 & T5 & T6 & T7 & T8) Hi Hf Hx.
  destruct T1 as (N1 & N2 & N3). destruct T3 as (B1 & B2).
  destruct T4 as (L1 & L2 & L3 & L4 & L5).
  unfold register_dim.
  destruct (ix =? p_num_dim_ix st) eqn:E.
  - apply Z.eqb_eq in E. intros G. injection G as <-.
    cbn [p_i p_nd p_cur_arg p_cur_core_dim p_num_dims p_offsets p_dim_ixs
         p_num_dim_ix p_dim_sizes p_dim_flags].
    rewrite !zlen_wr.
    repeat match goal with
           | |- _ /\ _ => split; [first [reflexivity|lia|assumption]|]
           end.
    split.
    + intros jx Hj. destruct (Z.eq_dec jx ix) as [->|Ne].
      * rewrite !rd_wr_same by lia.
        rewrite (T8 ix) by lia.
        destruct Hf as [->|Pos].
        -- left. split; [reflexivity|]. cbn [Z.ltb Z.compare].
           destruct ci; [rewrite land_inferred_of_ignore|];
             apply land_lor_inferred.
        -- right. split; [exact Pos|].
           assert (F : (fs <? 0) = false) by (apply Z.ltb_ge; lia).
           rewrite F. destruct ci; reflexivity.
      * rewrite !rd_wr_other by lia. apply T7. lia.
    + intros jx Hj. rewrite rd_wr_other by lia. apply T8. lia.
  - apply Z.eqb_neq in E.
    destruct (ci && _); [discriminate|].
    destruct (negb ci && _); [discriminate|].
    intros G. injection G as <-.
    repeat match goal with
           | |- _ /\ _ => split; [first [reflexivity|lia|assumption]|]
           end.
    exact T8.
Qed.

(** One turn over a core dimension keeps the tables. *)
Lemma parse_dim_tables (st st' : parse_state) :
  in_bounds signature st ->
  tables_ok signature u_nargs st ->
  is_char (at_ signature (p_i st)) ")" = false ->
  parse_dim signature st = Go st' ->
  tables_ok signature u_nargs st' /\ p_cur_arg st' = p_cur_arg st.
Proof.
  intros B T Hclose P.
  pose proof (parse_dim_bounds signature st B Hclose) as BD.
  rewrite P in BD. destruct BD as [_ Lt].
  revert P. unfold parse_dim.
  destruct (is_char (at_ signature (p_i st)) "000") eqn:E0; [discriminate|].
  assert (Hi : 0 <= p_i st < strlen signature).
  { apply at_nonNUL. unfold is_char in E0. apply Ascii.eqb_neq in E0.
    exact E0. }
  set (i := p_i st) in *.
  set (fs := if _is_alpha_underscore (at_ signature i) then -1
             else _get_size (ptr signature i)).
  destruct (negb (_is_alpha_underscore (at_ signature i)) && (fs <=? 0))
    eqn:Ebad; [discriminate|].
  assert (Hf : fs = -1 \/ 0 < fs).
  { unfold fs in *. destruct (_is_alpha_underscore (at_ signature i));
      [now left|]. cbn [negb andb] in Ebad. apply Z.leb_gt in Ebad.
    now right. }
  set (i_end := _get_end_of_name signature i).
  set (ci := (i_end >? 0) && is_char (at_ signature (i_end - 1)) "?").
  pose proof T as (T1 & T2 & T3 & T4 & T5 & T6 & T7 & T8).
  destruct T1 as (N1 & N2 & N3). destruct T3 as (B1 & B2).
  destruct T4 as (L1 & L2 & L3 & L4 & L5).
  pose proof (find_dim_range st i fs (Z.to_nat (p_num_dim_ix st)) 0) as Fr.
  rewrite Z2Nat.id in Fr by lia.
  set (ix := find_dim signature st i fs 0 (Z.to_nat (p_num_dim_ix st))) in *.
  destruct (register_dim st i fs ci ix) as [st1|j why] eqn:R;
    [|discriminate].
  destruct (register_dim_tables st st1 i fs ci ix T ltac:(unfold i in Hi; lia)
              Hf ltac:(lia) R)
    as (F1 & F2 & F3 & F4 & F5 & F6 & F7 & F8 & F9 & F10 & F11 & F12 & F13).
  assert (Done : forall i',
             i < i' ->
             tables_ok signature u_nargs
               (mkParse i' (p_nd st1 + 1) (p_cur_arg st1)
                  (p_cur_core_dim st1 + 1) (p_var_names st1)
                  (p_num_dim_ix st1) (p_num_dims st1) (p_offsets st1)
                  (wr (p_dim_ixs st1) (p_cur_core_dim st1) ix)
                  (p_dim_sizes st1) (p_dim_flags st1))).
  { intros i' Hi'. unfold tables_ok.
    cbn [p_i p_nd p_cur_arg p_cur_core_dim p_num_dims p_offsets p_dim_ixs
         p_num_dim_ix p_dim_sizes p_dim_flags].
    rewrite zlen_wr, F2, F3, F4, F5, F6, F7.
    split; [lia|]. split; [lia|]. split; [lia|].
    split; [repeat split; assumption|]. split; [exact T5|].
    split; [|split; assumption].
    intros j Hj. destruct (Z.eq_dec j (p_cur_core_dim st)) as [->|Ne].
    - rewrite rd_wr_same by lia. lia.
    - rewrite rd_wr_other by lia.
      specialize (T6 j ltac:(lia)). lia. }
  match goal with
  | |- (if ?c then _ else _) = _ -> _ => destruct c; [discriminate|]
  end.
  match goal with
  | |- (if ?c then _ else _) = _ -> _ => destruct c
  end.
  - match goal with
    | |- (if ?c then _ else _) = _ -> _ => destruct c; [discriminate|]
    end.
    intros G. injection G as <-.
    cbn [p_i p_nd p_cur_arg p_cur_core_dim p_var_names p_num_dims p_offsets
         p_dim_ixs p_num_dim_ix p_dim_sizes p_dim_flags] in *.
    split; [apply Done; exact Lt|exact F3].
  - intros G. injection G as <-. cbn [p_i p_cur_arg] in *.
    split; [apply Done; exact Lt|exact F3].
Qed.

Lemma parse_dims_tables (fuel : nat) :
  forall st st',
    in_bounds signature st ->
    tables_ok signature u_nargs st ->
    parse_dims signature st fuel = Go st' ->
    tables_ok signature u_nargs st' /\ p_cur_arg st' = p_cur_arg st.
Proof.
  induction fuel as [|fuel IH]; intros st st' B T; cbn [parse_dims].
  - destruct (is_char (at_ signature (p_i st)) ")"); [|discriminate].
    intros G. injection G as <-. split; [exact T|reflexivity].
  - destruct (is_char (at_ signature (p_i st)) ")") eqn:Hc.
    + intros G. injection G as <-. split; [exact T|reflexivity].
    + pose proof (parse_dim_bounds signature st B Hc) as BD.
      destruct (parse_dim signature st) as [st1|j why] eqn:P;
        [|discriminate].
      destruct (parse_dim_tables st st1 B T Hc P) as [T1 A1].
      intros G. destruct (IH st1 st' (proj1 BD) T1 G) as [T' A'].
      split; [exact T'|congruence].
Qed.

Lemma set_i_tables (st : parse_state) (i : Z) :
  tables_ok signature u_nargs st -> p_i st <= i ->
  tables_ok signature u_nargs (set_i st i).
Proof.
  intros (T1 & T2 & T3 & T4 & T5 & T6 & T7 & T8) Hi.
  unfold tables_ok, set_i.
  cbn [p_i p_nd p_cur_arg p_cur_core_dim p_num_dims p_offsets p_dim_ixs
       p_num_dim_ix p_dim_sizes p_dim_flags].
  split; [exact T1|]. split; [exact T2|]. split; [lia|].
  split; [exact T4|]. split; [exact T5|]. split; [exact T6|].
  split; [exact T7|exact T8].
Qed.

(** One turn over an argument keeps the tables and closes the
    argument's row. *)
Lemma parse_arg_tables (st st' : parse_state) (fuel : nat) :
  in_bounds signature st ->
  tables_ok signature u_nargs st ->
  p_nd st = 0 ->
  parse_arg u_nin u_nargs signature st fuel = Go st' ->
  tables_ok signature u_nargs st' /\ p_nd st' = 0.
Proof.
  intros B T Hnd. unfold parse_arg.
  assert (Harrow :
    forall st1,
      (if p_cur_arg st =? u_nin then
         if negb (is_char (at_ signature (p_i st)) "-")
            || negb (is_char (at_ signature (p_i st + 1)) ">")
         then Stop (p_i st) (Fail "expect '->'")
         else Go (set_i st (_next_non_white_space signature (p_i st + 2)))
       else Go st) = Go st1 ->
      in_bounds signature st1 /\ tables_ok signature u_nargs st1
      /\ p_nd st1 = 0).
  { intros st1. destruct (p_cur_arg st =? u_nin).
    - destruct (is_char (at_ signature (p_i st)) "-") eqn:E1;
        [|discriminate].
      destruct (is_char (at_ signature (p_i st + 1)) ">") eqn:E2;
        [|discriminate].
      cbn [negb orb]. intros G. injection G as <-.
      pose proof (is_char_at signature (p_i st + 1) ">" E2
                    ltac:(discriminate)) as Bc.
      pose proof (next_non_white_space_bounds signature (p_i st + 2)
                    ltac:(unfold in_bounds in B; lia)) as Bw.
      split; [apply set_i_bounds; lia|].
      split; [apply set_i_tables; [exact T|lia]|exact Hnd].
    - intros G. injection G as <-.
      split; [exact B|split; [exact T|exact Hnd]]. }
  destruct (if p_cur_arg st =? u_nin then _ else _) as [st1|j why];
    [|discriminate].
  destruct (Harrow st1 eq_refl) as (B1 & T1 & Hnd1). clear Harrow.
  destruct (is_char (at_ signature (p_i st1)) "(") eqn:Eopen;
    [|discriminate].
  cbn [negb].
  pose proof (is_char_at signature (p_i st1) "(" Eopen ltac:(discriminate))
    as Bo.
  pose proof (next_non_white_space_bounds signature (p_i st1 + 1)
                ltac:(lia)) as Bw.
  set (i2 := _next_non_white_space signature (p_i st1 + 1)) in *.
  assert (B2 : in_bounds signature (set_i st1 i2))
    by (apply set_i_bounds; lia).
  assert (T2 : tables_ok signature u_nargs (set_i st1 i2))
    by (apply set_i_tables; [exact T1|lia]).
  destruct (parse_dims signature (set_i st1 i2) fuel) as [st3|j why] eqn:D;
    [|discriminate].
  destruct (parse_dims_tables fuel (set_i st1 i2) st3 B2 T2 D) as [T3 A3].
  destruct ((p_cur_arg st3 <? 0) || (u_nargs <=? p_cur_arg st3)) eqn:Over;
    [discriminate|].
  apply orb_false_iff in Over. destruct Over as [O1 O2].
  apply Z.ltb_ge in O1. apply Z.leb_gt in O2.
  set (i4 := _next_non_white_space signature (p_i st3 + 1)).
  assert (Bw4 : p_i st3 < i4).
  { unfold i4, _next_non_white_space.
    pose proof (skip_blank_bounds (ptr signature (p_i st3 + 1))
                  (p_i st3 + 1)). lia. }
  assert (Done : forall i',
             p_i st3 < i' ->
             tables_ok signature u_nargs
               (mkParse i' 0 (p_cur_arg st3 + 1) (p_cur_core_dim st3)
                  (p_var_names st3) (p_num_dim_ix st3)
                  (wr (p_num_dims st3) (p_cur_arg st3) (p_nd st3))
                  (wr (p_offsets st3) (p_cur_arg st3)
                      (p_cur_core_dim st3 - p_nd st3))
                  (p_dim_ixs st3) (p_dim_sizes st3) (p_dim_flags st3))).
  { intros i' Hi'.
    destruct T3 as (N & S & P & L & R & T6 & T7 & T8).
    destruct L as (L1 & L2 & L3 & L4 & L5).
    unfold tables_ok.
    cbn [p_i p_nd p_cur_arg p_cur_core_dim p_num_dims p_offsets p_dim_ixs
         p_num_dim_ix p_dim_sizes p_dim_flags].
    rewrite !zlen_wr.
    split; [lia|].
    split; [rewrite sum_first_succ_wr by lia; lia|].
    split; [lia|].
    split; [repeat split; assumption|].
    split; [|split; [exact T6|split; [exact T7|exact T8]]].
    intros k Hk. rewrite sum_first_wr_below by lia.
    destruct (Z.eq_dec k (p_cur_arg st3)) as [->|Ne].
    - rewrite !rd_wr_same by lia. lia.
    - rewrite !rd_wr_other by lia. apply R. lia. }
  cbn [p_cur_arg].
  destruct (negb (p_cur_arg st3 + 1 =? u_nin)
            && negb (p_cur_arg st3 + 1 =? u_nargs)).
  - destruct (is_char (at_ signature i4) ","); [|discriminate].
    cbn [negb]. intros G. injection G as <-.
    split; [|reflexivity]. unfold set_i.
    cbn [p_i p_nd p_cur_arg p_cur_core_dim p_var_names p_num_dims p_offsets
         p_dim_ixs p_num_dim_ix p_dim_sizes p_dim_flags].
    apply Done.
    pose proof (skip_blank_bounds (ptr signature (i4 + 1)) (i4 + 1)).
    unfold _next_non_white_space. lia.
  - intros G. injection G as <-. split; [|reflexivity].
    apply Done. exact Bw4.
Qed.

Lemma parse_args_tables (fuel : nat) :
  forall st st',
    in_bounds signature st ->
    strlen signature - p_i st < Z.of_nat fuel ->
    tables_ok signature u_nargs st ->
    p_nd st = 0 ->
    parse_args u_nin u_nargs signature st fuel = Go st' ->
    tables_ok signature u_nargs st' /\ p_nd st' = 0.
Proof.
  induction fuel as [|fuel IH]; intros st st' B F T Hnd.
  - unfold in_bounds in B; lia.
  - cbn [parse_args].
    destruct (is_char (at_ signature (p_i st)) "000") eqn:Hnul.
    + intros G. injection G as <-. split; assumption.
    + pose proof (parse_arg_bounds u_nin u_nargs signature st fuel B
                    ltac:(lia) Hnul) as A.
      destruct (parse_arg u_nin u_nargs signature st fuel) as [st1|j why]
        eqn:P; [|discriminate].
      destruct A as [B1 L1].
      destruct (parse_arg_tables st st1 fuel B T Hnd P) as [T1 Hnd1].
      apply IH; [exact B1|lia|exact T1|exact Hnd1].
Qed.

End ParserTables.

Lemma sum_first_nonneg (l : list Z) (k : Z) :
  (forall j, 0 <= j < k -> 0 <= rd l j) -> 0 <= sum_first l k.
Proof.
  unfold sum_first. intros H.
  assert (Hn : forall j, (j < Z.to_nat k)%nat -> 0 <= nth j l 0).
  { intros j Hj. specialize (H (Z.of_nat j) ltac:(lia)).
    unfold rd in H. destruct (Z.of_nat j <? 0) eqn:E;
      [apply Z.ltb_lt in E; lia|].
    now rewrite Nat2Z.id in H. }
  clear H. revert l Hn.
  induction (Z.to_nat k) as [|n IH]; intros [|x l] Hn; simpl; try lia.
  pose proof (Hn O ltac:(lia)) as H0. simpl in H0.
  assert (0 <= fold_right Z.add 0 (firstn n l)); [|lia].
  apply IH. intros j Hj. apply (Hn (S j)). lia.
Qed.

Lemma initial_tables (signature : string) (u_nargs : Z) :
  0 <= u_nargs ->
  tables_ok signature u_nargs
    (mkParse (_next_non_white_space signature 0) 0 0 0
       (repeat 0 (String.length signature)) 0
       (repeat 0 (Z.to_nat u_nargs)) (repeat 0 (Z.to_nat u_nargs))
       (repeat 0 (String.length signature))
       (repeat 0 (String.length signature))
       (repeat 0 (String.length signature))).
Proof.
  intros Hn. unfold tables_ok.
  cbn [p_i p_nd p_cur_arg p_cur_core_dim p_num_dims p_offsets p_dim_ixs
       p_num_dim_ix p_dim_sizes p_dim_flags].
  rewrite !zlen_repeat.
  pose proof (skip_blank_bounds (ptr signature 0) 0) as Bw.
  fold (_next_non_white_space signature 0) in Bw.
  split; [lia|]. split; [reflexivity|]. split; [lia|].
  split; [unfold strlen; repeat split; lia|].
  split; [intros k Hk; lia|]. split; [intros j Hj; lia|].
  split; [intros ix Hx; lia|].
  intros ix _. apply rd_repeat_zero.
Qed.

(** The state the parser ends in when it succeeds. *)
Lemma parse_ok_state (ufunc u : PyUFuncObject) (signature : string)
      (alloc_ok : bool) :
  0 <= nargs ufunc ->
  _parse_signature ufunc (Some signature) alloc_ok = ParseOk u ->
  exists st,
    tables_ok signature (nargs ufunc) st
    /\ p_nd st = 0 /\ p_cur_arg st = nargs ufunc
    /\ in_bounds signature st
    /\ u = mkUFunc (nin ufunc) (nout ufunc) (nargs ufunc) (name ufunc)
             (identity ufunc) (ntypes ufunc) (types ufunc) (userloops ufunc)
             (if p_cur_core_dim st =? 0 then 0 else 1)
             (p_num_dim_ix st) (p_num_dims st) (p_offsets st)
             (firstn (Z.to_nat (p_cur_core_dim st)) (p_dim_ixs st))
             (firstn (Z.to_nat (p_num_dim_ix st)) (p_dim_sizes st))
             (firstn (Z.to_nat (p_num_dim_ix st)) (p_dim_flags st))
             signature.
Proof.
  intros Hn. unfold _parse_signature.
  destruct alloc_ok; cbn [negb]; [|discriminate].
  pose proof (initial_tables signature (nargs ufunc) Hn) as T0.
  pose proof (next_non_white_space_bounds signature 0
                ltac:(unfold strlen; lia)) as Bw.
  match goal with
  | |- context [parse_args ?a ?b ?c ?st ?f] =>
      pose proof (parse_args_tables c a b f st) as P;
      pose proof (parse_args_bounds a b c f st) as Q;
      destruct (parse_args a b c st f) as [st'|j why]
  end; [|destruct why; discriminate].
  destruct (P st') as [T Hnd];
    [unfold in_bounds; cbn [p_i]; lia
    |cbn [p_i]; unfold strlen in *; lia
    |exact T0|reflexivity|reflexivity|].
  assert (B : in_bounds signature st').
  { apply Q; [unfold in_bounds; cbn [p_i]; lia
             |cbn [p_i]; unfold strlen in *; lia]. }
  destruct (p_cur_arg st' =? nargs ufunc) eqn:E; cbn [negb];
    [|discriminate].
  apply Z.eqb_eq in E.
  intros G. injection G as <-.
  exists st'. split; [exact T|]. split; [exact Hnd|]. split; [exact E|].
  split; [exact B|reflexivity].
Qed.

(** The number of core dimensions the parser counted lies inside the
    signature. *)
Lemma tables_core_dim_range (signature : string) (u_nargs : Z)
      (st : parse_state) :
  tables_ok signature u_nargs st -> p_nd st = 0 -> p_cur_arg st = u_nargs ->
  in_bounds signature st ->
  0 <= p_cur_core_dim st <= strlen signature
  /\ p_cur_core_dim st = sum_first (p_num_dims st) u_nargs.
Proof.
  intros (N & S & Pp & L & R & T6 & T7 & T8) Hnd E B.
  unfold in_bounds in B. rewrite Hnd, E in S. rewrite E in R.
  assert (S0 : 0 <= sum_first (p_num_dims st) u_nargs)
    by (apply sum_first_nonneg; intros j Hj; now apply R).
  lia.
Qed.

(** X7.  A signature that parses leaves consistent tables: one row per
    argument with a count of core dimensions that is not negative and an
    offset that is the sum of the counts before it; the index list holds
    exactly the dimensions of all arguments, each entry naming one of the
    [core_num_dim_ix] distinct dimensions; and every distinct dimension
    either has the size -1 with the flag UFUNC_CORE_DIM_SIZE_INFERRED set
    or a positive frozen size with that flag clear.  [core_enabled] is 0
    exactly when no argument has a core dimension. *)
Theorem parsed_signature_tables (ufunc u : PyUFuncObject)
        (signature : string) (alloc_ok : bool) :
  0 <= nargs ufunc ->
  _parse_signature ufunc (Some signature) alloc_ok = ParseOk u ->
  (nargs u = nargs ufunc /\ core_signature u = signature)
  /\ (zlen (core_num_dims u) = nargs u /\ zlen (core_offsets u) = nargs u)
  /\ (forall k, 0 <= k < nargs u ->
                0 <= rd (core_num_dims u) k
                /\ rd (core_offsets u) k = sum_first (core_num_dims u) k)
  /\ zlen (core_dim_ixs u) = sum_first (core_num_dims u) (nargs u)
  /\ (forall j, 0 <= j < zlen (core_dim_ixs u) ->
                0 <= rd (core_dim_ixs u) j < core_num_dim_ix u)
  /\ (zlen (core_dim_sizes u) = core_num_dim_ix u
      /\ zlen (core_dim_flags u) = core_num_dim_ix u)
  /\ (forall ix, 0 <= ix < core_num_dim_ix u ->
                 size_flag_ok (rd (core_dim_sizes u) ix)
                              (rd (core_dim_flags u) ix))
  /\ (core_enabled u = 0 <-> zlen (core_dim_ixs u) = 0)
  /\ (core_enabled u = 0 \/ core_enabled u = 1).
Proof.
  intros Hn P.
  destruct (parse_ok_state ufunc u signature alloc_ok Hn P)
    as (st' & T & Hnd & E & B & ->).
  destruct (tables_core_dim_range _ _ _ T Hnd E B) as [C0 CS].
  cbn [nargs core_signature core_num_dims core_offsets core_dim_ixs
       core_num_dim_ix core_dim_sizes core_dim_flags core_enabled].
  destruct T as (N & S & Pp & L & R & T6 & T7 & T8).
  destruct L as (L1 & L2 & L3 & L4 & L5).
  unfold in_bounds in B. rewrite E in R.
  rewrite !zlen_firstn by lia.
  split; [now split|]. split; [now split|]. split; [exact R|].
  split; [exact CS|].
  split; [intros j Hj; rewrite rd_firstn by lia; apply T6; lia|].
  split; [now split|].
  split; [intros ix Hx; rewrite !rd_firstn by lia; apply T7; lia|].
  split.
  - destruct (p_cur_core_dim st' =? 0) eqn:Z0.
    + apply Z.eqb_eq in Z0. split; intros _; [exact Z0|reflexivity].
    + apply Z.eqb_neq in Z0. split; intros; [discriminate|contradiction].
  - destruct (p_cur_core_dim st' =? 0); [now left|now right].
Qed.

(** The theorem at the signature "(m?,n),(n,3)->(m?,3)" of a ufunc with
    two inputs and one output: three rows of two core dimensions, three
    distinct dimensions, the last one frozen at 3. *)
Lemma parsed_signature_tables_witness :
  let u := mkUFunc 2 1 3 "f" PyUFunc_None 0 [] None 1 3 [2; 2; 2] [0; 2; 4]
             [0; 1; 1; 2; 0; 2] [-1; -1; 3] [6; 2; 0]
             "(m?,n),(n,3)->(m?,3)" in
  _parse_signature (new_ufunc 2 1 "f") (Some "(m?,n),(n,3)->(m?,3)"%string)
                   true = ParseOk u
  /\ (forall k, 0 <= k < nargs u ->
                0 <= rd (core_num_dims u) k
                /\ rd (core_offsets u) k = sum_first (core_num_dims u) k)
  /\ zlen (core_dim_ixs u) = sum_first (core_num_dims u) (nargs u)
  /\ (forall j, 0 <= j < zlen (core_dim_ixs u) ->
                0 <= rd (core_dim_ixs u) j < core_num_dim_ix u)
  /\ (forall ix, 0 <= ix < core_num_dim_ix u ->
                 size_flag_ok (rd (core_dim_sizes u) ix)
                              (rd (core_dim_flags u) ix)).
Proof.
  cbv zeta.
  split; [vm_compute; reflexivity|].
  pose proof (parsed_signature_tables (new_ufunc 2 1 "f")
                (mkUFunc 2 1 3 "f" PyUFunc_None 0 [] None 1 3 [2; 2; 2]
                   [0; 2; 4] [0; 1; 1; 2; 0; 2] [-1; -1; 3] [6; 2; 0]
                   "(m?,n),(n,3)->(m?,3)")
                "(m?,n),(n,3)->(m?,3)"%string true
                ltac:(vm_compute; discriminate)
                ltac:(vm_compute; reflexivity))
    as (_ & _ & R & S & I & _ & F & _).
  split; [exact R|]. split; [exact S|]. split; [exact I|exact F].
Defined.

(* ================================================================== *)
(** ** The axis argument of a generalized call                         *)
(* ================================================================== *)

Section AxisRemap.

Lemma fill_axes_zlen (n : nat) :
  forall row axis shift, zlen (fill_axes row axis shift n) = zlen row.
Proof.
  induction n as [|n IH]; intros row axis shift; cbn [fill_axes];
    [reflexivity|].
  rewrite IH. apply zlen_wr.
Qed.

Lemma fill_axes_outside (n : nat) :
  forall row axis shift k,
    k < axis \/ axis + Z.of_nat n <= k ->
    rd (fill_axes row axis shift n) k = rd row k.
Proof.
  induction n as [|n IH]; intros row axis shift k H; cbn [fill_axes];
    [reflexivity|].
  rewrite IH by lia. apply rd_wr_other. lia.
Qed.

Lemma fill_axes_inside (n : nat) :
  forall row axis shift k,
    0 <= axis -> axis <= k < axis + Z.of_nat n -> k < zlen row ->
    rd (fill_axes row axis shift n) k = k + shift.
Proof.
  induction n as [|n IH]; intros row axis shift k H0 H L; cbn [fill_axes];
    [lia|].
  destruct (Z.eq_dec k axis) as [->|Ne].
  - rewrite fill_axes_outside by lia. apply rd_wr_same. lia.
  - apply IH; [lia|lia|now rewrite zlen_wr].
Qed.

Lemma check_and_adjust_axis_range (axis ndim a : Z) :
  check_and_adjust_axis axis ndim = Some a -> 0 <= a < ndim.
Proof.
  unfold check_and_adjust_axis.
  destruct ((axis <? - ndim) || (axis >=? ndim)) eqn:E; [discriminate|].
  apply orb_false_iff in E. destruct E as [E1 E2].
  apply Z.ltb_ge in E1. rewrite Z.geb_leb in E2. apply Z.leb_gt in E2.
  intros G. injection G as <-. destruct (axis <? 0) eqn:N;
    [apply Z.ltb_lt in N|apply Z.ltb_ge in N]; lia.
Qed.

(** What one operand's row says after the loop body. *)
Lemma parse_axis_operand_spec (c : Z) (o : option PyArrayObject)
      (broadcast_ndim axis_int : Z) (row : list Z)
      (res : option (list Z)) :
  axis_op_ndim o broadcast_ndim <= zlen row ->
  parse_axis_operand c o broadcast_ndim axis_int row = inl res ->
  if c =? 0 then res = None
  else exists a,
      check_and_adjust_axis axis_int (axis_op_ndim o broadcast_ndim) = Some a
      /\ match res with
         | None => a = axis_op_ndim o broadcast_ndim - 1
         | Some r =>
             rd r (axis_op_ndim o broadcast_ndim - 1) = a
             /\ forall k, 0 <= k < axis_op_ndim o broadcast_ndim - 1 ->
                          rd r k = if k <? a then k else k + 1
         end.
Proof.
  intros L. unfold parse_axis_operand.
  destruct (c =? 0); [intros G; now injection G as <-|].
  set (n := axis_op_ndim o broadcast_ndim) in *.
  destruct (check_and_adjust_axis axis_int n) as [a|] eqn:A; [|discriminate].
  pose proof (check_and_adjust_axis_range _ _ _ A) as R.
  destruct (a =? n - 1) eqn:E.
  - apply Z.eqb_eq in E. intros G. injection G as <-.
    exists a. split; [reflexivity|exact E].
  - apply Z.eqb_neq in E. intros G. injection G as <-.
    exists a. split; [reflexivity|]. split.
    + rewrite fill_axes_outside by lia.
      rewrite fill_axes_outside by lia.
      apply rd_wr_same. lia.
    + intros k Hk. destruct (k <? a) eqn:Ka.
      * apply Z.ltb_lt in Ka.
        rewrite fill_axes_outside by lia.
        rewrite fill_axes_inside; [lia|lia|lia|rewrite zlen_wr; lia].
      * apply Z.ltb_ge in Ka.
        rewrite fill_axes_inside;
          [reflexivity|lia|lia|rewrite fill_axes_zlen, zlen_wr; lia].
Qed.

Lemma parse_axis_operands_nth (core_num_dims : list Z)
      (op : list (option PyArrayObject)) (broadcast_ndim axis_int : Z)
      (remap_axis : list (list Z)) (todo : nat) :
  forall iop rows,
    0 <= iop ->
    parse_axis_operands core_num_dims op broadcast_ndim axis_int remap_axis
      iop todo = inl rows ->
    List.length rows = todo
    /\ forall j, iop <= j < iop + Z.of_nat todo ->
                 parse_axis_operand (rd core_num_dims j) (get_op op j)
                   broadcast_ndim axis_int (nth (Z.to_nat j) remap_axis [])
                 = inl (nth (Z.to_nat (j - iop)) rows None).
Proof.
  induction todo as [|todo IH]; intros iop rows H0; cbn [parse_axis_operands].
  - intros G. injection G as <-. split; [reflexivity|intros j Hj; lia].
  - destruct (parse_axis_operand _ _ _ _ _) as [row|e] eqn:P; [|discriminate].
    destruct (parse_axis_operands _ _ _ _ _ (iop + 1) todo) as [rest|e] eqn:R;
      [|discriminate].
    intros G. injection G as <-.
    destruct (IH (iop + 1) rest ltac:(lia) R) as [Len Nth].
    split; [simpl; now rewrite Len|].
    intros j Hj. destruct (Z.eq_dec j iop) as [->|Ne].
    + rewrite Z.sub_diag. exact P.
    + rewrite (Nth j) by lia.
      replace (Z.to_nat (j - iop)) with (S (Z.to_nat (j - (iop + 1))))
        by lia.
      reflexivity.
Qed.

End AxisRemap.

(** X8.  When [_parse_axis_arg] succeeds, every operand that has a core
    dimension reads that dimension, its last one, at the requested axis
    (counted from the end when negative), and reads its other dimensions
    in their original order around it; an operand without core dimension
    is not remapped. *)
Theorem axis_argument_moves_core_axis (ufunc : PyUFuncObject)
        (core_num_dims : list Z) (axis_int : Z)
        (op : list (option PyArrayObject)) (broadcast_ndim : Z)
        (remap_axis : list (list Z)) (remap : list (option (list Z))) :
  (forall iop, 0 <= iop < nargs ufunc ->
               axis_op_ndim (get_op op iop) broadcast_ndim
               <= zlen (nth (Z.to_nat iop) remap_axis [])) ->
  _parse_axis_arg ufunc core_num_dims (Some axis_int) op broadcast_ndim
                  remap_axis = inl remap ->
  forall iop, 0 <= iop < nargs ufunc ->
    if rd core_num_dims iop =? 0
    then forall k, REMAP_AXIS (Some remap) iop k = k
    else exists a,
        check_and_adjust_axis axis_int
          (axis_op_ndim (get_op op iop) broadcast_ndim) = Some a
        /\ REMAP_AXIS (Some remap) iop
             (axis_op_ndim (get_op op iop) broadcast_ndim - 1) = a
        /\ forall k,
            0 <= k < axis_op_ndim (get_op op iop) broadcast_ndim - 1 ->
            REMAP_AXIS (Some remap) iop k = if k <? a then k else k + 1.
Proof.
  intros L P iop Hi. unfold _parse_axis_arg in P.
  destruct (parse_axis_operands_nth _ _ _ _ _ _ 0 remap ltac:(lia) P)
    as [_ Nth].
  specialize (Nth iop ltac:(lia)). rewrite Z.sub_0_r in Nth.
  pose proof (parse_axis_operand_spec _ _ _ _ _ _ (L iop Hi) Nth) as S.
  unfold REMAP_AXIS.
  destruct (rd core_num_dims iop =? 0).
  - rewrite S. reflexivity.
  - destruct S as (a & A & S). exists a. split; [exact A|].
    pose proof (check_and_adjust_axis_range _ _ _ A) as R.
    destruct (nth (Z.to_nat iop) remap None) as [r|].
    + exact S.
    + split; [now symmetry|]. intros k Hk.
      assert (Ka : (k <? a) = true) by (apply Z.ltb_lt; lia).
      now rewrite Ka.
Qed.

(** The theorem at a call with [axis = 0] on operands of three and one
    dimensions, for the input of a ufunc with the signature "(i)->()":
    the core dimension of the input is read at axis 0 and the two others
    follow. *)
Lemma axis_argument_moves_core_axis_witness :
  let ufunc := mkUFunc 1 1 2 "f" PyUFunc_None 0 [] None 1 1 [1; 0] [0; 1]
                 [0] [-1] [2] "(i)->()" in
  let op := [Some (array_of_shape [3; 4; 5]); Some (array_of_shape [4])] in
  exists remap,
    _parse_axis_arg ufunc [1; 0] (Some 0) op 2
      [[7; 7; 7; 7]; [7; 7; 7; 7]] = inl remap
    /\ REMAP_AXIS (Some remap) 0 2 = 0
    /\ REMAP_AXIS (Some remap) 0 0 = 1
    /\ REMAP_AXIS (Some remap) 0 1 = 2.
Proof.
  cbv zeta.
  exists [Some [1; 2; 0; 7]; None].
  split; [vm_compute; reflexivity|].
  assert (T : exists a,
             check_and_adjust_axis 0 3 = Some a
             /\ REMAP_AXIS (Some [Some [1; 2; 0; 7]; None]) 0 (3 - 1) = a
             /\ forall k, 0 <= k < 3 - 1 ->
                          REMAP_AXIS (Some [Some [1; 2; 0; 7]; None]) 0 k
                          = if k <? a then k else k + 1).
  { apply (axis_argument_moves_core_axis
             (mkUFunc 1 1 2 "f" PyUFunc_None 0 [] None 1 1 [1; 0] [0; 1]
                [0] [-1] [2] "(i)->()")
             [1; 0] 0
             [Some (array_of_shape [3; 4; 5]); Some (array_of_shape [4])]
             2 [[7; 7; 7; 7]; [7; 7; 7; 7]] [Some [1; 2; 0; 7]; None]
             ltac:(intros iop Hi; cbn [nargs] in Hi;
                   assert (K : iop = 0 \/ iop = 1) by lia;
                   destruct K as [ -> | -> ]; vm_compute; discriminate)
             ltac:(vm_compute; reflexivity)
             0 ltac:(cbn [nargs]; lia)). }
  destruct T as (a & A & Last & Others).
  vm_compute in A. injection A as <-.
  split; [exact Last|].
  split; [exact (Others 0 ltac:(lia))|exact (Others 1 ltac:(lia))].
Defined.

(* ================================================================== *)
(** ** Flexible core dimensions                                        *)
(* ================================================================== *)

Section CellFacts.

Lemma wr_nat_overflow (a : list Z) (v : Z) :
  forall i, (List.length a <= i)%nat -> wr_nat a i v = a.
Proof.
  induction a as [|x a IH]; intros [|i] H; simpl in *; try reflexivity;
    try lia.
  f_equal. apply IH. lia.
Qed.

Lemma rd_outside (a : list Z) (i : Z) :
  i < 0 \/ zlen a <= i -> rd a i = 0.
Proof.
  unfold rd, zlen. intros H. destruct (i <? 0) eqn:E; [reflexivity|].
  apply Z.ltb_ge in E. apply nth_overflow. lia.
Qed.

Lemma wr_outside (a : list Z) (i v : Z) :
  i < 0 \/ zlen a <= i -> wr a i v = a.
Proof.
  unfold wr, zlen. intros H. destruct (i <? 0) eqn:E; [reflexivity|].
  apply Z.ltb_ge in E. apply wr_nat_overflow. lia.
Qed.

(** A write of a smaller value lowers no cell. *)
Lemma rd_wr_le (a : list Z) (i v j : Z) :
  v <= rd a i -> rd (wr a i v) j <= rd a j.
Proof.
  intros H. destruct (Z.eq_dec j i) as [->|Ne].
  - destruct (Z_lt_ge_dec i 0) as [N|N];
      [rewrite wr_outside by lia; lia|].
    destruct (Z_lt_ge_dec i (zlen a)) as [L|L].
    + rewrite rd_wr_same by lia. exact H.
    + rewrite wr_outside by lia. lia.
  - rewrite rd_wr_other by congruence. lia.
Qed.

Lemma land_can_ignore_bit (f : Z) :
  Z.land f UFUNC_CORE_DIM_CAN_IGNORE <> 0 -> Z.testbit f 2 = true.
Proof.
  intros H. destruct (Z.testbit f 2) eqn:B; [reflexivity|].
  exfalso. apply H. apply Z.bits_inj'. intros n Hn.
  rewrite Z.land_spec, Z.bits_0.
  destruct (Z.eq_dec n 2) as [->|Ne]; [now rewrite B|].
  replace (Z.testbit UFUNC_CORE_DIM_CAN_IGNORE n) with false;
    [apply andb_false_r|].
  unfold UFUNC_CORE_DIM_CAN_IGNORE. change 4 with (2 ^ 2).
  symmetry. apply Z.pow2_bits_false. congruence.
Qed.

(** Marking an ignorable dimension as missing clears its ignorable bit
    and sets the missing one. *)
Lemma missing_mark (f : Z) :
  Z.land f UFUNC_CORE_DIM_CAN_IGNORE <> 0 ->
  Z.land (Z.lxor (Z.lor f UFUNC_CORE_DIM_MISSING) UFUNC_CORE_DIM_CAN_IGNORE)
         UFUNC_CORE_DIM_CAN_IGNORE = 0
  /\ Z.land (Z.lxor (Z.lor f UFUNC_CORE_DIM_MISSING)
                    UFUNC_CORE_DIM_CAN_IGNORE)
            UFUNC_CORE_DIM_MISSING = UFUNC_CORE_DIM_MISSING.
Proof.
  intros H. apply land_can_ignore_bit in H.
  assert (C : forall n, Z.testbit UFUNC_CORE_DIM_CAN_IGNORE n = (n =? 2)).
  { intros n. unfold UFUNC_CORE_DIM_CAN_IGNORE. change 4 with (2 ^ 2).
    destruct (Z.eq_dec n 2) as [->|Ne]; [reflexivity|].
    rewrite Z.pow2_bits_false by congruence.
    symmetry. apply Z.eqb_neq. exact Ne. }
  assert (M : forall n, Z.testbit UFUNC_CORE_DIM_MISSING n = (n =? 18)).
  { intros n. unfold UFUNC_CORE_DIM_MISSING. change 262144 with (2 ^ 18).
    destruct (Z.eq_dec n 18) as [->|Ne]; [reflexivity|].
    rewrite Z.pow2_bits_false by congruence.
    symmetry. apply Z.eqb_neq. exact Ne. }
  split; apply Z.bits_inj'; intros n Hn;
    rewrite ?Z.land_spec, ?Z.lxor_spec, ?Z.lor_spec, ?Z.bits_0, ?C, ?M.
  - destruct (Z.eqb_spec n 2) as [->|Ne]; [rewrite H; reflexivity|].
    apply andb_false_r.
  - destruct (Z.eqb_spec n 18) as [->|Ne]; [|apply andb_false_r].
    cbn. rewrite orb_true_r. reflexivity.
Qed.

End CellFacts.

Section ValidateFacts.

Variable ufunc : PyUFuncObject.

Lemma flag_step_trans (f f1 f2 : Z) :
  flag_step f f1 -> flag_step f1 f2 -> flag_step f f2.
Proof.
  intros [->|[C ->]] S2; [exact S2|].
  destruct S2 as [->|[C2 _]]; [right; now split|].
  exfalso. apply C2. now apply missing_mark.
Qed.

Lemma drop_mentions_le (core_dim_index i1 : Z) (todo : nat) :
  forall k counts j,
    rd (snd (drop_mentions ufunc core_dim_index i1 todo k counts)) j
    <= rd counts j.
Proof.
  induction todo as [|todo IH]; intros k counts j; cbn [drop_mentions];
    [cbn; lia|].
  etransitivity; [apply IH|].
  destruct (rd (core_dim_ixs ufunc) k =? core_dim_index); [|lia].
  apply rd_wr_le. lia.
Qed.

Lemma drop_dimension_le (core_dim_index : Z) (todo : nat) :
  forall i1 k counts j,
    rd (drop_dimension ufunc core_dim_index todo i1 k counts) j
    <= rd counts j.
Proof.
  induction todo as [|todo IH]; intros i1 k counts j; cbn [drop_dimension];
    [lia|].
  pose proof (drop_mentions_le core_dim_index i1
                (Z.to_nat (rd (core_num_dims ufunc) i1)) k counts j) as D.
  destruct (drop_mentions ufunc core_dim_index i1 _ k counts) as [k' c1].
  cbn [snd] in D. etransitivity; [apply IH|exact D].
Qed.

Lemma ignore_dimensions_spec (i op_ndim : Z) (todo : nat) :
  forall j flags counts flags' counts',
    ignore_dimensions ufunc i op_ndim todo j flags counts
    = (flags', counts') ->
    (forall d, rd counts' d <= rd counts d)
    /\ (forall d, flag_step (rd flags d) (rd flags' d)).
Proof.
  induction todo as [|todo IH]; intros j flags counts flags' counts';
    cbn [ignore_dimensions].
  - intros G. injection G as <- <-. split; [intros d; lia|now left].
  - set (cdi := rd (core_dim_ixs ufunc) j).
    destruct (Z.land (rd flags cdi) UFUNC_CORE_DIM_CAN_IGNORE =? 0) eqn:E;
      cbn [negb]; [apply IH|].
    apply Z.eqb_neq in E.
    assert (In : 0 <= cdi < zlen flags).
    { destruct (Z_lt_ge_dec cdi 0) as [N|N];
        [rewrite rd_outside in E by lia; now cbn in E|].
      destruct (Z_lt_ge_dec cdi (zlen flags)) as [L|L]; [lia|].
      rewrite rd_outside in E by lia. now cbn in E. }
    assert (F1 : forall d,
               flag_step (rd flags d)
                 (rd (wr flags cdi
                         (Z.lxor (Z.lor (rd flags cdi) UFUNC_CORE_DIM_MISSING)
                                 UFUNC_CORE_DIM_CAN_IGNORE)) d)).
    { intros d. destruct (Z.eq_dec d cdi) as [->|Ne].
      - rewrite rd_wr_same by exact In. right. now split.
      - rewrite rd_wr_other by congruence. now left. }
    pose proof (drop_dimension_le cdi (Z.to_nat (nargs ufunc)) 0 0 counts)
      as C1.
    destruct (op_ndim =? _).
    + intros G. injection G as <- <-. split; assumption.
    + intros G. destruct (IH _ _ _ _ _ G) as [C2 F2].
      split.
      * intros d. etransitivity; [apply C2|apply C1].
      * intros d. eapply flag_step_trans; [apply F1|apply F2].
Qed.

Lemma validate_operands_spec (op : list (option PyArrayObject))
      (todo : nat) :
  forall i flags counts,
    match validate_operands ufunc op todo i flags counts with
    | inl (flags', counts') =>
        (forall d, rd counts' d <= rd counts d)
        /\ (forall d, flag_step (rd flags d) (rd flags' d))
        /\ (forall j a, i <= j < i + Z.of_nat todo ->
                        get_op op j = Some a ->
                        rd counts' j <= PyArray_NDIM a)
    | inr e =>
        tf_has e < tf_requires e
        /\ tf_signature e = core_signature ufunc
        /\ exists j a,
            i <= j < i + Z.of_nat todo /\ get_op op j = Some a
            /\ tf_has e = PyArray_NDIM a
            /\ tf_is_input e = (j <? nin ufunc)
            /\ tf_operand e = (if j <? nin ufunc then j else j - nin ufunc)
    end.
Proof.
  induction todo as [|todo IH]; intros i flags counts;
    cbn [validate_operands].
  - split; [intros d; lia|]. split; [now left|intros j a Hj; lia].
  - destruct (get_op op i) as [a|] eqn:Oi.
    + destruct (PyArray_NDIM a <? rd counts i) eqn:Few.
      * destruct (ignore_dimensions ufunc i (PyArray_NDIM a) _ _ flags counts)
          as [f1 c1] eqn:Ig.
        destruct (ignore_dimensions_spec _ _ _ _ _ _ _ _ Ig) as [C1 F1].
        destruct (PyArray_NDIM a <? rd c1 i) eqn:Still.
        -- apply Z.ltb_lt in Still. cbn.
           split; [exact Still|]. split; [reflexivity|].
           exists i, a. repeat split; try reflexivity; try lia.
           exact Oi.
        -- apply Z.ltb_ge in Still.
           specialize (IH (i + 1) f1 c1).
           destruct (validate_operands ufunc op todo (i + 1) f1 c1)
             as [[f2 c2]|e].
           ++ destruct IH as (C2 & F2 & N2).
              split; [intros d; etransitivity; [apply C2|apply C1]|].
              split; [intros d; eapply flag_step_trans;
                      [apply F1|apply F2]|].
              intros j b Hj Oj. destruct (Z.eq_dec j i) as [->|Ne].
              ** rewrite Oi in Oj. injection Oj as <-.
                 specialize (C2 i). lia.
              ** apply N2; [lia|exact Oj].
           ++ destruct IH as (H1 & H2 & j & b & Hj & Oj & H3).
              split; [exact H1|]. split; [exact H2|].
              exists j, b. split; [lia|]. split; [exact Oj|exact H3].
      * apply Z.ltb_ge in Few.
        specialize (IH (i + 1) flags counts).
        destruct (validate_operands ufunc op todo (i + 1) flags counts)
          as [[f2 c2]|e].
        -- destruct IH as (C2 & F2 & N2).
           split; [exact C2|]. split; [exact F2|].
           intros j b Hj Oj. destruct (Z.eq_dec j i) as [->|Ne].
           ++ rewrite Oi in Oj. injection Oj as <-.
              specialize (C2 i). lia.
           ++ apply N2; [lia|exact Oj].
        -- destruct IH as (H1 & H2 & j & b & Hj & Oj & H3).
           split; [exact H1|]. split; [exact H2|].
           exists j, b. split; [lia|]. split; [exact Oj|exact H3].
    + specialize (IH (i + 1) flags counts).
      destruct (validate_operands ufunc op todo (i + 1) flags counts)
        as [[f2 c2]|e].
      * destruct IH as (C2 & F2 & N2).
        split; [exact C2|]. split; [exact F2|].
        intros j b Hj Oj. destruct (Z.eq_dec j i) as [->|Ne];
          [congruence|]. apply N2; [lia|exact Oj].
      * destruct IH as (H1 & H2 & j & b & Hj & Oj & H3).
        split; [exact H1|]. split; [exact H2|].
        exists j, b. split; [lia|]. split; [exact Oj|exact H3].
Qed.

(** Operands that all have enough dimensions leave the tables alone. *)
Lemma validate_operands_enough (op : list (option PyArrayObject))
      (todo : nat) :
  forall i flags counts,
    (forall j a, i <= j < i + Z.of_nat todo -> get_op op j = Some a ->
                 rd counts j <= PyArray_NDIM a) ->
    validate_operands ufunc op todo i flags counts = inl (flags, counts).
Proof.
  induction todo as [|todo IH]; intros i flags counts H;
    cbn [validate_operands]; [reflexivity|].
  destruct (get_op op i) as [a|] eqn:Oi.
  - pose proof (H i a ltac:(lia) Oi) as E.
    apply Z.ltb_ge in E. rewrite E.
    apply IH. intros j b Hj. apply H. lia.
  - apply IH. intros j b Hj. apply H. lia.
Qed.

End ValidateFacts.

(** X9.  When [_validate_num_dims] succeeds, every supplied operand has
    at least as many dimensions as the core dimensions still counted for
    it, no count has grown, and the flags of a core dimension are either
    untouched or went from ignorable to missing; when every supplied
    operand has enough dimensions from the start, nothing is changed.
    When it fails, the operand it reports has fewer dimensions than the
    count it reports. *)
Theorem validated_operands_have_core_dimensions (ufunc : PyUFuncObject)
        (op : list (option PyArrayObject))
        (core_dim_flags op_core_num_dims : list Z) :
  match _validate_num_dims ufunc op core_dim_flags op_core_num_dims with
  | inl (flags', counts') =>
      (forall i a, 0 <= i < nargs ufunc -> get_op op i = Some a ->
                   rd counts' i <= PyArray_NDIM a)
      /\ (forall i, rd counts' i <= rd op_core_num_dims i)
      /\ (forall d, flag_step (rd core_dim_flags d) (rd flags' d))
      /\ ((forall i a, 0 <= i < nargs ufunc -> get_op op i = Some a ->
                       rd op_core_num_dims i <= PyArray_NDIM a) ->
          flags' = core_dim_flags /\ counts' = op_core_num_dims)
  | inr e =>
      tf_has e < tf_requires e
      /\ tf_signature e = core_signature ufunc
      /\ exists i a,
          0 <= i < nargs ufunc /\ get_op op i = Some a
          /\ tf_has e = PyArray_NDIM a
          /\ tf_is_input e = (i <? nin ufunc)
          /\ tf_operand e = (if i <? nin ufunc then i else i - nin ufunc)
  end.
Proof.
  unfold _validate_num_dims.
  pose proof (validate_operands_spec ufunc op (Z.to_nat (nargs ufunc)) 0
                core_dim_flags op_core_num_dims) as S.
  pose proof (validate_operands_enough ufunc op (Z.to_nat (nargs ufunc)) 0
                core_dim_flags op_core_num_dims) as N.
  destruct (validate_operands ufunc op (Z.to_nat (nargs ufunc)) 0
              core_dim_flags op_core_num_dims) as [[f c]|e].
  - destruct S as (C & F & E).
    split; [intros i a Hi; apply E; lia|].
    split; [exact C|]. split; [exact F|].
    intros H.
    assert (G : inl (f, c) = inl (B := too_few_dims)
                                 (core_dim_flags, op_core_num_dims)).
    { apply N. intros j a Hj. apply H. lia. }
    injection G as -> ->. now split.
  - destruct S as (H1 & H2 & j & b & Hj & Oj & H3).
    split; [exact H1|]. split; [exact H2|].
    exists j, b. split; [lia|]. split; [exact Oj|exact H3].
Qed.

(* ================================================================== *)
(** ** The out argument of a call                                      *)
(* ================================================================== *)

Lemma tuple_all_none_true (tup : list pyobj) :
  tuple_all_none tup = true <-> Forall (fun o => o = PyNone) tup.
Proof.
  induction tup as [|o tup IH]; cbn [tuple_all_none].
  - split; [constructor|reflexivity].
  - destruct o; cbn [is_py_none negb].
    + rewrite IH. split; [now constructor|now inversion 1].
    + split; [discriminate|inversion 1; discriminate].
    + split; [discriminate|inversion 1; discriminate].
Qed.

Lemma tuple_all_none_false (tup : list pyobj) :
  tuple_all_none tup = false <-> Exists (fun o => o <> PyNone) tup.
Proof.
  induction tup as [|o tup IH]; cbn [tuple_all_none].
  - split; [discriminate|inversion 1].
  - destruct o; cbn [is_py_none negb].
    + rewrite IH. split; [now constructor 2|].
      inversion 1; [congruence|assumption].
    + split; [constructor; discriminate|reflexivity].
    + split; [constructor; discriminate|reflexivity].
Qed.

(** X10.  When [_set_full_args_out] succeeds on a call that had no
    outputs yet, the outputs are either left absent, which happens
    exactly when [out] is None or an exact tuple of [nout] entries that
    are all None, or they are a tuple of exactly [nout] entries of which
    at least one is not None: the [out] tuple itself, or the single object
    given for a ufunc with one output. *)
Theorem out_argument_is_normalized (nout : Z) (out_obj : out_object)
        (pack_ok : bool) (res : option (list pyobj)) :
  _set_full_args_out nout out_obj pack_ok None = inl res ->
  match res with
  | None =>
      match out_obj with
      | OutTuple items =>
          Z.of_nat (List.length items) = nout
          /\ Forall (fun o => o = PyNone) items
      | OutSingle o => nout = 1 /\ o = PyNone
      end
  | Some t =>
      Z.of_nat (List.length t) = nout
      /\ Exists (fun o => o <> PyNone) t
      /\ match out_obj with
         | OutTuple items => t = items
         | OutSingle o => t = [o]
         end
  end.
Proof.
  unfold _set_full_args_out. destruct out_obj as [items|o].
  - destruct (Z.of_nat (List.length items) =? nout) eqn:L; cbn [negb];
      [|discriminate].
    apply Z.eqb_eq in L.
    destruct (tuple_all_none items) eqn:A; intros G; injection G as <-.
    + split; [exact L|]. now apply tuple_all_none_true.
    + split; [exact L|]. split; [|reflexivity].
      now apply tuple_all_none_false.
  - destruct (nout =? 1) eqn:N; [|discriminate]. apply Z.eqb_eq in N.
    destruct o; cbn [is_py_none].
    + intros G. injection G as <-. now split.
    + destruct pack_ok; [|discriminate]. intros G. injection G as <-.
      split; [now rewrite N|]. split; [|reflexivity].
      constructor. discriminate.
    + destruct pack_ok; [|discriminate]. intros G. injection G as <-.
      split; [now rewrite N|]. split; [|reflexivity].
      constructor. discriminate.
Qed.

(** The theorem at [out=(None, a)] for a ufunc with two outputs. *)
Lemma out_argument_is_normalized_witness :
  _set_full_args_out 2 (OutTuple [PyNone; PyObj 7]) true None
  = inl (Some [PyNone; PyObj 7])
  /\ Z.of_nat (List.length [PyNone; PyObj 7]) = 2
  /\ Exists (fun o => o <> PyNone) [PyNone; PyObj 7].
Proof.
  split; [reflexivity|].
  pose proof (out_argument_is_normalized 2 (OutTuple [PyNone; PyObj 7]) true
                (Some [PyNone; PyObj 7]) eq_refl) as (L & E & _).
  split; [exact L|exact E].
Defined.

(* ================================================================== *)
(** ** The keepdims check                                              *)
(* ================================================================== *)

Lemma check_keepdims_from_spec (ufunc : PyUFuncObject) (c : Z) (todo : nat) :
  forall i,
    match check_keepdims_from ufunc c i todo with
    | None =>
        forall j, i <= j < i + Z.of_nat todo ->
                  rd (core_num_dims ufunc) j
                  = if j <? nin ufunc then c else 0
    | Some e =>
        exists j,
          i <= j < i + Z.of_nat todo
          /\ (forall k, i <= k < j ->
                        rd (core_num_dims ufunc) k
                        = if k <? nin ufunc then c else 0)
          /\ rd (core_num_dims ufunc) j
             <> (if j <? nin ufunc then c else 0)
          /\ e = mkKeepdimsError (core_signature ufunc) (j <? nin ufunc)
                   (if j <? nin ufunc then j else j - nin ufunc)
                   (rd (core_num_dims ufunc) j)
    end.
Proof.
  induction todo as [|todo IH]; intros i; cbn [check_keepdims_from].
  - intros j Hj. lia.
  - destruct (rd (core_num_dims ufunc) i
              =? (if i <? nin ufunc then c else 0)) eqn:E; cbn [negb].
    + apply Z.eqb_eq in E. specialize (IH (i + 1)).
      destruct (check_keepdims_from ufunc c (i + 1) todo) as [e|].
      * destruct IH as (j & Hj & Before & Bad & He).
        exists j. split; [lia|]. split; [|split; assumption].
        intros k Hk. destruct (Z.eq_dec k i) as [->|Ne]; [exact E|].
        apply Before. lia.
      * intros j Hj. destruct (Z.eq_dec j i) as [->|Ne]; [exact E|].
        apply IH. lia.
    + apply Z.eqb_neq in E. exists i.
      split; [lia|]. split; [intros k Hk; lia|]. split; [exact E|reflexivity].
Qed.

(** X11.  [_check_keepdims_support] accepts a ufunc exactly when every
    input after the first has as many core dimensions as operand 0 and
    every output after operand 0 has none; operand 0 itself is never
    examined.  When it rejects, it reports the first operand that breaks
    this rule, with its number of core dimensions. *)
Theorem keepdims_support_characterized (ufunc : PyUFuncObject) :
  (_check_keepdims_support ufunc = None
   <-> forall i, 1 <= i < nin ufunc + nout ufunc ->
                 rd (core_num_dims ufunc) i
                 = if i <? nin ufunc then rd (core_num_dims ufunc) 0 else 0)
  /\ forall e,
      _check_keepdims_support ufunc = Some e ->
      exists i,
        1 <= i < nin ufunc + nout ufunc
        /\ (forall k, 1 <= k < i ->
                      rd (core_num_dims ufunc) k
                      = if k <? nin ufunc
                        then rd (core_num_dims ufunc) 0 else 0)
        /\ rd (core_num_dims ufunc) i
           <> (if i <? nin ufunc then rd (core_num_dims ufunc) 0 else 0)
        /\ kd_is_input e = (i <? nin ufunc)
        /\ kd_operand e = (if i <? nin ufunc then i else i - nin ufunc)
        /\ kd_core_dims e = rd (core_num_dims ufunc) i
        /\ kd_signature e = core_signature ufunc.
Proof.
  unfold _check_keepdims_support.
  pose proof (check_keepdims_from_spec ufunc (rd (core_num_dims ufunc) 0)
                (Z.to_nat (nin ufunc + nout ufunc - 1)) 1) as S.
  destruct (check_keepdims_from ufunc _ 1 _) as [e|].
  - destruct S as (j & Hj & Before & Bad & He).
    split.
    + split; [discriminate|]. intros All. exfalso. apply Bad, All. lia.
    + intros e' G. injection G as <-. exists j.
      split; [lia|]. split; [exact Before|]. split; [exact Bad|].
      rewrite He. cbn. repeat split; reflexivity.
  - split; [|discriminate].
    split; [|reflexivity]. intros _ i Hi. apply S. lia.
Qed.

(* ================================================================== *)
(** ** The per-operand iterator flags                                  *)
(* ================================================================== *)

Section SetupFlagsFacts.

Variable READWRITE READONLY WRITEONLY : Z.

Lemma setup_flags_from_spec (flags_of : Z -> Z) (todo : nat) :
  forall i op_flags,
    0 <= i -> i + Z.of_nat todo <= zlen op_flags ->
    zlen (setup_flags_from flags_of i todo op_flags) = zlen op_flags
    /\ forall k,
        rd (setup_flags_from flags_of i todo op_flags) k
        = if (i <=? k) && (k <? i + Z.of_nat todo) then flags_of k
          else rd op_flags k.
Proof.
  induction todo as [|todo IH]; intros i op_flags H0 L;
    cbn [setup_flags_from].
  - split; [reflexivity|]. intros k.
    destruct (i <=? k) eqn:A; [|reflexivity].
    destruct (k <? i + Z.of_nat 0) eqn:B; [|reflexivity].
    apply Z.leb_le in A. apply Z.ltb_lt in B. lia.
  - destruct (IH (i + 1) (wr op_flags i (flags_of i)) ltac:(lia)
                ltac:(rewrite zlen_wr; lia)) as [Len Rd].
    split; [now rewrite Len, zlen_wr|].
    intros k. rewrite Rd.
    destruct (Z.eq_dec k i) as [->|Ne].
    + replace (i + 1 <=? i) with false by (symmetry; apply Z.leb_gt; lia).
      replace (i <=? i) with true by (symmetry; apply Z.leb_le; lia).
      replace (i <? i + Z.of_nat (S todo)) with true
        by (symmetry; apply Z.ltb_lt; lia).
      cbn [andb]. apply rd_wr_same. lia.
    + rewrite rd_wr_other by congruence.
      destruct (i + 1 <=? k) eqn:A, (i <=? k) eqn:B;
        try apply Z.leb_le in A; try apply Z.leb_gt in A;
        try apply Z.leb_le in B; try apply Z.leb_gt in B; try lia;
        cbn [andb]; try reflexivity.
      destruct (k <? i + 1 + Z.of_nat todo) eqn:C,
               (k <? i + Z.of_nat (S todo)) eqn:D;
        try apply Z.ltb_lt in C; try apply Z.ltb_ge in C;
        try apply Z.ltb_lt in D; try apply Z.ltb_ge in D; try lia;
        reflexivity.
Qed.

(** An input that may be written is not flagged read-only. *)
Lemma input_flags_exclusive (ufunc_op_flags : list Z) (op_in_flags i : Z) :
  0 <= READONLY < 2 ^ 32 ->
  Z.land (input_flags READWRITE READONLY WRITEONLY ufunc_op_flags
                      op_in_flags i)
         (Z.lor READWRITE WRITEONLY) <> 0 ->
  Z.land (input_flags READWRITE READONLY WRITEONLY ufunc_op_flags
                      op_in_flags i) READONLY = 0.
Proof.
  intros R. unfold input_flags.
  destruct (Z.land _ (Z.lor READWRITE WRITEONLY) =? 0) eqn:E; cbn [negb].
  - apply Z.eqb_eq in E. intros H. now rewrite E in H.
  - intros _. apply Z.bits_inj'. intros n Hn.
    rewrite !Z.land_spec, Z.lxor_spec, Z.bits_0.
    destruct (Z.testbit READONLY n) eqn:B; [|apply andb_false_r].
    destruct (Z_lt_ge_dec n 32) as [L|G].
    + rewrite Z.ones_spec_low by lia. cbn. now rewrite andb_false_r.
    + exfalso.
      assert (K : Z.testbit READONLY n = false); [|congruence].
      destruct (Z.eq_dec READONLY 0) as [->|Nz]; [apply Z.bits_0|].
      apply Z.bits_above_log2; [lia|].
      assert (Z.log2 READONLY < 32); [|lia].
      apply Z.log2_lt_pow2; lia.
Qed.

End SetupFlagsFacts.

(** X12.  [_ufunc_setup_flags] fills exactly the first [nin + nout]
    entries.  An input gets the flags of the ufunc merged with the given
    input flags and is never left read-only together with a read-write or
    write-only flag; an output gets the flags of the ufunc when it has
    any, and the given output flags otherwise. *)
Theorem setup_flags_inputs_and_outputs
        (NPY_ITER_READWRITE NPY_ITER_READONLY NPY_ITER_WRITEONLY : Z)
        (ufunc : PyUFuncObject) (ufunc_op_flags : list Z)
        (op_in_flags op_out_flags : Z) (op_flags : list Z) :
  0 <= NPY_ITER_READONLY < 2 ^ 32 ->
  0 <= nin ufunc -> 0 <= nout ufunc ->
  nin ufunc + nout ufunc <= zlen op_flags ->
  let res := _ufunc_setup_flags NPY_ITER_READWRITE NPY_ITER_READONLY
               NPY_ITER_WRITEONLY ufunc ufunc_op_flags op_in_flags
               op_out_flags op_flags in
  zlen res = zlen op_flags
  /\ (forall i, 0 <= i < nin ufunc ->
        (Z.land (rd res i) (Z.lor NPY_ITER_READWRITE NPY_ITER_WRITEONLY) <> 0
         -> Z.land (rd res i) NPY_ITER_READONLY = 0)
        /\ (Z.land (Z.lor (rd ufunc_op_flags i) op_in_flags)
                   (Z.lor NPY_ITER_READWRITE NPY_ITER_WRITEONLY) = 0
            -> rd res i = Z.lor (rd ufunc_op_flags i) op_in_flags))
  /\ (forall i, nin ufunc <= i < nin ufunc + nout ufunc ->
        rd res i = if rd ufunc_op_flags i =? 0 then op_out_flags
                   else rd ufunc_op_flags i)
  /\ (forall i, nin ufunc + nout ufunc <= i -> rd res i = rd op_flags i).
Proof.
  intros R Hin Hout L res. unfold res, _ufunc_setup_flags.
  destruct (setup_flags_from_spec
              (input_flags NPY_ITER_READWRITE NPY_ITER_READONLY
                           NPY_ITER_WRITEONLY ufunc_op_flags op_in_flags)
              (Z.to_nat (nin ufunc)) 0 op_flags ltac:(lia) ltac:(lia))
    as [Len1 Rd1].
  destruct (setup_flags_from_spec
              (output_flags ufunc_op_flags op_out_flags)
              (Z.to_nat (nout ufunc)) (nin ufunc)
              (setup_flags_from
                 (input_flags NPY_ITER_READWRITE NPY_ITER_READONLY
                              NPY_ITER_WRITEONLY ufunc_op_flags op_in_flags)
                 0 (Z.to_nat (nin ufunc)) op_flags)
              ltac:(lia) ltac:(rewrite Len1; lia))
    as [Len2 Rd2].
  rewrite Z2Nat.id in Rd1, Rd2 by lia.
  split; [now rewrite Len2, Len1|].
  assert (In : forall i, 0 <= i < nin ufunc ->
             rd (setup_flags_from
                   (output_flags ufunc_op_flags op_out_flags) (nin ufunc)
                   (Z.to_nat (nout ufunc))
                   (setup_flags_from
                      (input_flags NPY_ITER_READWRITE NPY_ITER_READONLY
                         NPY_ITER_WRITEONLY ufunc_op_flags op_in_flags)
                      0 (Z.to_nat (nin ufunc)) op_flags)) i
             = input_flags NPY_ITER_READWRITE NPY_ITER_READONLY
                 NPY_ITER_WRITEONLY ufunc_op_flags op_in_flags i).
  { intros i Hi. rewrite Rd2, Rd1.
    replace (nin ufunc <=? i) with false by (symmetry; apply Z.leb_gt; lia).
    replace (0 <=? i) with true by (symmetry; apply Z.leb_le; lia).
    replace (i <? 0 + nin ufunc) with true by (symmetry; apply Z.ltb_lt; lia).
    reflexivity. }
  split; [|split].
  - intros i Hi. rewrite (In i Hi). split.
    + now apply input_flags_exclusive.
    + intros Z0. unfold input_flags. rewrite Z0. reflexivity.
  - intros i Hi. rewrite Rd2.
    replace (nin ufunc <=? i) with true by (symmetry; apply Z.leb_le; lia).
    replace (i <? nin ufunc + nout ufunc) with true
      by (symmetry; apply Z.ltb_lt; lia).
    cbn [andb]. unfold output_flags.
    destruct (rd ufunc_op_flags i =? 0); reflexivity.
  - intros i Hi. rewrite Rd2, Rd1.
    replace (i <? nin ufunc + nout ufunc) with false
      by (symmetry; apply Z.ltb_ge; lia).
    replace (i <? 0 + nin ufunc) with false
      by (symmetry; apply Z.ltb_ge; lia).
    now rewrite !andb_false_r.
Qed.

(** The theorem at a ufunc with two inputs and one output whose own
    flags mark both inputs read-only, called with the read-write flag for
    the inputs: the inputs end read-write only and the output gets the
    given output flags. *)
Lemma setup_flags_inputs_and_outputs_witness :
  let res := _ufunc_setup_flags 65536 131072 262144 (new_ufunc 2 1 "f")
               [131072; 131072; 0] 65536 262144 [0; 0; 0; 9] in
  res = [65536; 65536; 262144; 9]
  /\ (forall i, 0 <= i < 2 ->
        (Z.land (rd res i) (Z.lor 65536 262144) <> 0
         -> Z.land (rd res i) 131072 = 0)
        /\ (Z.land (Z.lor (rd [131072; 131072; 0] i) 65536)
                   (Z.lor 65536 262144) = 0
            -> rd res i = Z.lor (rd [131072; 131072; 0] i) 65536)).
Proof.
  cbv zeta. split; [vm_compute; reflexivity|].
  pose proof (setup_flags_inputs_and_outputs 65536 131072 262144
                (new_ufunc 2 1 "f") [131072; 131072; 0] 65536 262144
                [0; 0; 0; 9]
                ltac:(lia) ltac:(cbn; lia) ltac:(cbn; lia)
                ltac:(cbn; lia)) as (_ & In & _).
  exact In.
Defined.

(* ================================================================== *)
(** ** Replacing a built-in loop                                       *)
(* ================================================================== *)

Section ReplaceLoopFacts.

Variable func : PyUFuncObject.
Variable signature : list Z.

Lemma signature_mismatch_spec (i : Z) (todo : nat) :
  forall j,
    0 <= j -> j + Z.of_nat todo = Z.max j (nargs func) ->
    (signature_mismatch func signature i j todo <? nargs func) = false
    <-> forall k, j <= k < nargs func ->
                  rd signature k = rd (types func) (i * nargs func + k).
Proof.
  induction todo as [|todo IH]; intros j H0 Hn; cbn [signature_mismatch].
  - split; [intros _ k Hk; lia|]. intros _. apply Z.ltb_ge. lia.
  - destruct (rd signature j =? rd (types func) (i * nargs func + j)) eqn:E;
      cbn [negb].
    + apply Z.eqb_eq in E. rewrite (IH (j + 1)) by lia.
      split; intros A k Hk.
      * destruct (Z.eq_dec k j) as [->|Ne]; [exact E|]. apply A. lia.
      * apply A. lia.
    + apply Z.eqb_neq in E. split.
      * intros A. apply Z.ltb_ge in A. lia.
      * intros A. exfalso. apply E, A. lia.
Qed.

Lemma signature_mismatch_row (i : Z) :
  (signature_mismatch func signature i 0 (Z.to_nat (nargs func))
   <? nargs func) = false
  <-> row_matches func signature i.
Proof.
  apply signature_mismatch_spec; lia.
Qed.

Lemma replace_loop_from_spec (functions : list Z) (newfunc : Z)
      (oldfunc : option Z) (todo : nat) :
  forall i,
    let '(res, functions', old) :=
      replace_loop_from func functions newfunc signature oldfunc i todo in
    (res = -1 /\ functions' = functions /\ old = oldfunc
     /\ forall k, i <= k < i + Z.of_nat todo ->
                  ~ row_matches func signature k)
    \/ (res = 0
        /\ exists k,
            i <= k < i + Z.of_nat todo
            /\ row_matches func signature k
            /\ (forall k', i <= k' < k -> ~ row_matches func signature k')
            /\ functions' = wr functions k newfunc
            /\ old = match oldfunc with
                     | Some _ => Some (rd functions k)
                     | None => None
                     end).
Proof.
  induction todo as [|todo IH]; intros i; cbn [replace_loop_from].
  - left. repeat split; try reflexivity. intros k Hk. lia.
  - destruct (signature_mismatch func signature i 0 (Z.to_nat (nargs func))
              <? nargs func) eqn:E.
    + assert (N : ~ row_matches func signature i).
      { intros M. apply signature_mismatch_row in M. congruence. }
      specialize (IH (i + 1)).
      destruct (replace_loop_from func functions newfunc signature oldfunc
                                  (i + 1) todo) as [[res f'] old].
      destruct IH as [(R & F & O & None')|(R & k & Hk & M & First & F & O)].
      * left. split; [exact R|]. split; [exact F|]. split; [exact O|].
        intros k Hk. destruct (Z.eq_dec k i) as [->|Ne]; [exact N|].
        apply None'. lia.
      * right. split; [exact R|]. exists k. split; [lia|].
        split; [exact M|]. split; [|split; assumption].
        intros k' Hk'. destruct (Z.eq_dec k' i) as [->|Ne]; [exact N|].
        apply First. lia.
    + apply signature_mismatch_row in E.
      right. split; [reflexivity|]. exists i. split; [lia|].
      split; [exact E|]. split; [intros k' Hk'; lia|].
      split; reflexivity.
Qed.

End ReplaceLoopFacts.

Lemma wr_nat_wr_nat (a : list Z) (v w : Z) :
  forall i, wr_nat (wr_nat a i v) i w = wr_nat a i w.
Proof.
  induction a as [|x a IH]; intros [|i]; simpl; try reflexivity.
  f_equal. apply IH.
Qed.

Lemma wr_nat_nth (a : list Z) :
  forall i, wr_nat a i (nth i a 0) = a.
Proof.
  induction a as [|x a IH]; intros [|i]; simpl; try reflexivity.
  f_equal. apply IH.
Qed.

Lemma wr_wr_rd (a : list Z) (i v : Z) : wr (wr a i v) i (rd a i) = a.
Proof.
  unfold wr, rd. destruct (i <? 0); [reflexivity|].
  rewrite wr_nat_wr_nat. apply wr_nat_nth.
Qed.

(** X13.  [PyUFunc_ReplaceLoopBySignature] returns 0 exactly when some
    row of the type table equals the signature; it then swaps the function
    of the first such row only and hands the old one back, and otherwise
    changes nothing.  Replacing again with the function handed back
    restores the table of functions. *)
Theorem replace_loop_swaps_first_match (func : PyUFuncObject)
        (functions : list Z) (newfunc : Z) (signature : list Z)
        (oldfunc : Z) :
  let '(res, functions', old) :=
    PyUFunc_ReplaceLoopBySignature func functions newfunc signature
                                   (Some oldfunc) in
  (res = -1 /\ functions' = functions /\ old = Some oldfunc
   /\ forall i, 0 <= i < ntypes func -> ~ row_matches func signature i)
  \/ (res = 0
      /\ exists i,
          0 <= i < ntypes func
          /\ row_matches func signature i
          /\ (forall k, 0 <= k < i -> ~ row_matches func signature k)
          /\ functions' = wr functions i newfunc
          /\ old = Some (rd functions i)
          /\ PyUFunc_ReplaceLoopBySignature func functions' (rd functions i)
               signature (Some newfunc)
             = (0, functions, Some (rd functions' i))).
Proof.
  unfold PyUFunc_ReplaceLoopBySignature.
  pose proof (replace_loop_from_spec func signature functions newfunc
                (Some oldfunc) (Z.to_nat (ntypes func)) 0) as S.
  destruct (replace_loop_from func functions newfunc signature (Some oldfunc)
                              0 (Z.to_nat (ntypes func)))
    as [[res f'] old].
  destruct S as [(R & F & O & N)|(R & i & Hi & M & First & F & O)].
  - left. split; [exact R|]. split; [exact F|]. split; [exact O|].
    intros i Hi. apply N. lia.
  - right. split; [exact R|]. exists i. split; [lia|]. split; [exact M|].
    split; [exact First|]. split; [exact F|]. split; [exact O|].
    pose proof (replace_loop_from_spec func signature f' (rd functions i)
                  (Some newfunc) (Z.to_nat (ntypes func)) 0) as S2.
    destruct (replace_loop_from func f' (rd functions i) signature
                                (Some newfunc) 0 (Z.to_nat (ntypes func)))
      as [[res2 f2] old2].
    destruct S2 as [(_ & _ & _ & N2)|(R2 & k & Hk & M2 & First2 & F2 & O2)].
    + exfalso. apply (N2 i); [lia|exact M].
    + assert (K : k = i).
      { destruct (Z_lt_ge_dec k i) as [Lt|Ge];
          [exfalso; apply (First k); [lia|exact M2]|].
        destruct (Z.eq_dec k i) as [E|Ne]; [exact E|].
        exfalso. apply (First2 i); [lia|exact M]. }
      subst k. rewrite R2, F2, O2, F. now rewrite wr_wr_rd.
Qed.

(* ================================================================== *)
(** ** Registering a loop for a user-defined type                      *)
(* ================================================================== *)

Section RegisterLoopFacts.

Variable PyArray_EquivTypenums : Z -> Z -> bool.
Variable PyArray_CanCastSafely : Z -> Z -> bool.

Lemma find_place_spec (newtypes : list Z) (n : nat)
      (loops : list PyUFunc_Loop1d) :
  forall cmp passed last after,
    find_place PyArray_EquivTypenums PyArray_CanCastSafely newtypes n loops
               cmp = (passed, last, after) ->
    loops = passed ++ after
    /\ Forall (fun c => cmp_arg_types PyArray_EquivTypenums
                          PyArray_CanCastSafely (l_arg_types c) newtypes n
                        < 0) passed
    /\ match after with
       | [] => last = cmp \/ last < 0
       | c :: _ =>
           last = cmp_arg_types PyArray_EquivTypenums PyArray_CanCastSafely
                    (l_arg_types c) newtypes n
           /\ 0 <= last
       end.
Proof.
  induction loops as [|c rest IH]; intros cmp passed last after;
    cbn [find_place].
  - intros G. injection G as <- <- <-.
    split; [reflexivity|]. split; [constructor|now left].
  - destruct (cmp_arg_types PyArray_EquivTypenums PyArray_CanCastSafely
                (l_arg_types c) newtypes n >=? 0) eqn:E.
    + intros G. injection G as <- <- <-.
      split; [reflexivity|]. split; [constructor|].
      split; [reflexivity|]. rewrite Z.geb_leb in E. now apply Z.leb_le.
    + rewrite Z.geb_leb in E. apply Z.leb_gt in E.
      destruct (find_place PyArray_EquivTypenums PyArray_CanCastSafely
                  newtypes n rest _) as [[p l] a] eqn:F.
      intros G. injection G as <- <- <-.
      destruct (IH _ _ _ _ F) as (L & P & A).
      split; [cbn; now rewrite L|]. split; [now constructor|].
      destruct a as [|c' a']; [|exact A].
      right. destruct A as [->|A]; [exact E|exact A].
Qed.

End RegisterLoopFacts.

(** X14.  Registering a loop for a user type that already has loops
    keeps every loop that was there, in the same order: the new loop
    replaces the function and data of the first loop whose argument types
    do not compare below the new ones when they compare equal, is put in
    front of that loop when they compare above, and is appended when
    every loop compares below.  The call returns 0. *)
Theorem registered_loop_is_placed
        (PyArray_EquivTypenums PyArray_CanCastSafely : Z -> Z -> bool)
        (NPY_USERDEF : Z) (ufunc : PyUFuncObject)
        (usertype function : Z) (arg_types : option (list Z)) (data : Z)
        (capsule_ok : bool) (loops : list PyUFunc_Loop1d) :
  NPY_USERDEF <= usertype \/ usertype = NPY_VOID ->
  loops <> [] ->
  let n := Z.to_nat (nargs ufunc) in
  let newtypes :=
    match arg_types with
    | Some types => map (rd types) (range_from 0 n)
    | None => map (fun _ => usertype) (range_from 0 n)
    end in
  let cmp c := cmp_arg_types PyArray_EquivTypenums PyArray_CanCastSafely
                             (l_arg_types c) newtypes n in
  exists passed after,
    loops = passed ++ after
    /\ Forall (fun c => cmp c < 0) passed
    /\ PyUFunc_RegisterLoopForType PyArray_EquivTypenums
         PyArray_CanCastSafely NPY_USERDEF ufunc usertype function arg_types
         data true true true true capsule_ok (LoopsFound loops)
       = RegisterStored
           (passed
            ++ match after with
               | [] => [mkLoop1d function data newtypes None 0]
               | c :: rest =>
                   if cmp c =? 0
                   then mkLoop1d function data (l_arg_types c)
                          (l_arg_dtypes c) (l_nargs c) :: rest
                   else mkLoop1d function data newtypes None 0 :: c :: rest
               end)
    /\ match after with
       | [] => True
       | c :: _ => 0 <= cmp c
       end.
Proof.
  intros Valid Ne n newtypes cmp.
  unfold PyUFunc_RegisterLoopForType.
  assert (V : ((usertype <? NPY_USERDEF) && negb (usertype =? NPY_VOID))
              || negb true = false).
  { cbn [negb]. rewrite orb_false_r.
    destruct Valid as [G| ->].
    - replace (usertype <? NPY_USERDEF) with false; [reflexivity|].
      symmetry. apply Z.ltb_ge. exact G.
    - rewrite Z.eqb_refl. apply andb_false_r. }
  rewrite V. cbn [negb].
  destruct loops as [|c0 rest0]; [congruence|].
  fold n. fold newtypes.
  destruct (find_place PyArray_EquivTypenums PyArray_CanCastSafely newtypes
              n (c0 :: rest0) 1) as [[passed last] after] eqn:F.
  destruct (find_place_spec _ _ _ _ _ _ _ _ _ F) as (L & P & A).
  exists passed, after. split; [exact L|]. split; [exact P|].
  destruct after as [|c rest].
  - split; [|exact I].
    destruct (last =? 0) eqn:E; [|reflexivity].
    apply Z.eqb_eq in E. destruct A as [A|A]; lia.
  - destruct A as [A Pos]. fold (cmp c) in A. rewrite <- A.
    split; [|exact Pos].
    destruct (last =? 0); reflexivity.
Qed.

(** The theorem at a list of two loops, for the argument types (300, 300)
    and (301, 301), when a loop for (300, 301) is registered and a type
    casts safely to every larger one: the new loop goes between the
    two. *)
Lemma registered_loop_is_placed_witness :
  let a := mkLoop1d 11 0 [300; 300] None 0 in
  let b := mkLoop1d 12 0 [301; 301] None 0 in
  let cmp c := cmp_arg_types Z.eqb Z.leb (l_arg_types c) [300; 301] 2 in
  PyUFunc_RegisterLoopForType Z.eqb Z.leb 256 (new_ufunc 1 1 "f") 300 13
    (Some [300; 301]) 5 true true true true true (LoopsFound [a; b])
  = RegisterStored [a; mkLoop1d 13 5 [300; 301] None 0; b]
  /\ exists passed after,
      [a; b] = passed ++ after
      /\ Forall (fun c => cmp c < 0) passed
      /\ match after with
         | [] => True
         | c :: _ => 0 <= cmp c
         end.
Proof.
  cbv zeta. split; [vm_compute; reflexivity|].
  destruct (registered_loop_is_placed Z.eqb Z.leb 256 (new_ufunc 1 1 "f")
              300 13 (Some [300; 301]) 5 true
              [mkLoop1d 11 0 [300; 300] None 0;
               mkLoop1d 12 0 [301; 301] None 0]
              ltac:(left; lia) ltac:(discriminate))
    as (passed & after & L & P & _ & Q).
  exists passed, after. split; [exact L|]. split; [exact P|exact Q].
Defined.

(* ================================================================== *)
(** ** The __array_prepare__ hook                                      *)
(* ================================================================== *)

Lemma compare_lists_firstn (n : nat) :
  forall l1 l2,
    compare_lists l1 l2 n = true ->
    firstn n l1 = firstn n l2 /\ (n <= List.length l1)%nat
    /\ (n <= List.length l2)%nat.
Proof.
  induction n as [|n IH]; intros l1 l2 C; cbn [compare_lists] in C.
  - repeat split; cbn; lia.
  - destruct l1 as [|x l1], l2 as [|y l2]; try discriminate.
    apply andb_true_iff in C. destruct C as [E C].
    apply Z.eqb_eq in E. subst y.
    destruct (IH _ _ C) as (F & L1 & L2).
    cbn. rewrite F. repeat split; lia.
Qed.

(** X15.  Whatever the [__array_prepare__] hook returns, the output
    that [prepare_ufunc_output] hands on has the shape and the strides of
    the output it was given, and it is that output itself or an array of
    an equivalent type (for [PyArray_EquivTypes]).  Without a hook, or
    when the hook returns its argument, it is that output itself; when
    the hook returns another array, it is that array. *)
Theorem prepared_output_keeps_layout
        (equiv_types : PyArray_Descr -> PyArray_Descr -> bool)
        (arr_prep : prepare_hook) (op op' : PyArrayObject) :
  prepare_ufunc_output equiv_types arr_prep op = Some op' ->
  (dims op' = dims op
   /\ firstn (Z.to_nat (PyArray_NDIM op)) (strides op')
      = firstn (Z.to_nat (PyArray_NDIM op)) (strides op)
   /\ (op' = op \/ equiv_types (descr op') (descr op) = true))
  /\ (match arr_prep with
      | None => op' = op
      | Some call =>
          match call op with
          | HookSame => op' = op
          | HookArray arr => op' = arr
          | HookRaises | HookNotArray => False
          end
      end).
Proof.
  unfold prepare_ufunc_output. destruct arr_prep as [call|].
  - destruct (call op) as [| | |arr] eqn:C; try discriminate.
    + intros G. injection G as <-.
      split; [|reflexivity]. split; [reflexivity|].
      split; [reflexivity|now left].
    + destruct (negb (PyArray_NDIM arr =? PyArray_NDIM op)) eqn:N;
        [discriminate|].
      apply negb_false_iff, Z.eqb_eq in N.
      destruct (PyArray_CompareLists (dims arr) (dims op) (PyArray_NDIM arr))
        eqn:D; [|discriminate].
      destruct (PyArray_CompareLists (strides arr) (strides op)
                                     (PyArray_NDIM arr))
        eqn:S; [|discriminate].
      destruct (equiv_types (descr arr) (descr op)) eqn:T; [|discriminate].
      cbn [negb orb]. intros G. injection G as <-.
      unfold PyArray_CompareLists in D, S.
      split; [|reflexivity].
      split; [|split; [|now right]].
      * apply (compare_lists_eq (Z.to_nat (PyArray_NDIM arr)));
          [unfold PyArray_NDIM, zlen; lia
          |rewrite N; unfold PyArray_NDIM, zlen; lia|exact D].
      * rewrite <- N. now apply compare_lists_firstn.
  - intros G. injection G as <-.
    split; [|reflexivity]. split; [reflexivity|].
    split; [reflexivity|now left].
Qed.

(** The theorem at a hook that returns another array with the shape and
    strides of the output and a type that is equivalent to its type
    without being the same. *)
Lemma prepared_output_keeps_layout_witness :
  let same_size a b := elsize a =? elsize b in
  let op := mkArray 100 [2; 3] [24; 8] (mkDescr NPY_LONG 8) 1 in
  let op' := mkArray 500 [2; 3] [24; 8] (mkDescr NPY_LONGLONG 8) 0 in
  prepare_ufunc_output same_size (Some (fun _ => HookArray op')) op
  = Some op'
  /\ dims op' = dims op
  /\ same_size (descr op') (descr op) = true.
Proof.
  cbv zeta. split; [reflexivity|].
  pose proof (prepared_output_keeps_layout
                (fun a b => elsize a =? elsize b)
                (Some (fun _ => HookArray
                                  (mkArray 500 [2; 3] [24; 8]
                                           (mkDescr NPY_LONGLONG 8) 0)))
                (mkArray 100 [2; 3] [24; 8] (mkDescr NPY_LONG 8) 1)
                (mkArray 500 [2; 3] [24; 8] (mkDescr NPY_LONGLONG 8) 0)
                eq_refl) as ((D & _ & [T|T]) & _).
  - discriminate T.
  - split; [exact D|exact T].
Defined.

(* ================================================================== *)
(** ** The kernel invocations of the generic iterator loop             *)
(* ================================================================== *)

Section IteratorLoopFacts.

Variable innerloop : list Z -> Z -> list Z -> machine -> machine.

(** The loop [do { innerloop (...); } while (...)] runs the kernel on a
    prefix of the positions: on all of them, or up to the first one after
    which the API is needed and an error is set. *)
Lemma iterate_blocks (needs_api : bool) (rest : list block) :
  forall b r,
    exists k,
      (1 <= k <= S (List.length rest))%nat
      /\ iterate innerloop needs_api b rest r
         = run_blocks innerloop (firstn k (b :: rest)) r
      /\ (forall j, (1 <= j < k)%nat ->
            needs_api
            && err (mach (run_blocks innerloop (firstn j (b :: rest)) r))
            = false)
      /\ ((k <= List.length rest)%nat ->
          needs_api = true
          /\ err (mach (iterate innerloop needs_api b rest r)) = true).
Proof.
  induction rest as [|b' rest IH]; intros b r; cbn [iterate].
  - exists 1%nat. split; [cbn; lia|]. split.
    + destruct (needs_api && _); reflexivity.
    + split; [intros j Hj; lia|cbn; intros Hk; lia].
  - destruct (needs_api && err (mach (call_innerloop innerloop (b_dataptr b)
                                        (b_count b) (b_strides b) r))) eqn:E.
    + exists 1%nat. split; [cbn; lia|]. split; [reflexivity|].
      split; [intros j Hj; lia|]. intros _.
      apply andb_true_iff in E. exact E.
    + destruct (IH b' (call_innerloop innerloop (b_dataptr b) (b_count b)
                                      (b_strides b) r))
        as (k & Hk & T & Low & Stop).
      exists (S k). split; [cbn [List.length]; lia|].
      split; [rewrite T; reflexivity|]. split.
      * intros j Hj. destruct j as [|[|j]]; [lia|exact E|].
        apply (Low (S j)). lia.
      * intros Hl. apply Stop. cbn [List.length] in Hl. lia.
Qed.

End IteratorLoopFacts.


(* ================================================================== *)
(** ** The helpers of the signature parser                             *)
(* ================================================================== *)

(** X17.  [_is_same_name] compares the names that start at its two
    arguments, that is their runs of letters, digits and underscores, and
    nothing after them; it is reflexive, symmetric and transitive. *)
Theorem is_same_name_compares_names :
  (forall s1 s2, _is_same_name s1 s2 = true <-> name_at s1 = name_at s2)
  /\ (forall s, _is_same_name s s = true)
  /\ (forall s1 s2, _is_same_name s1 s2 = _is_same_name s2 s1)
  /\ (forall s1 s2 s3,
         _is_same_name s1 s2 = true -> _is_same_name s2 s3 = true ->
         _is_same_name s1 s3 = true)
  /\ (forall n r1 r2,
         name_at n = n ->
         _is_alnum_underscore (deref r1) = false ->
         _is_alnum_underscore (deref r2) = false ->
         _is_same_name (n ++ r1) (n ++ r2) = true).
Proof.
  split; [exact same_name_iff|].
  split; [intros s; now apply same_name_iff|].
  split.
  { intros s1 s2.
    destruct (_is_same_name s1 s2) eqn:A, (_is_same_name s2 s1) eqn:B;
      try reflexivity.
    - apply same_name_iff in A. symmetry in A. apply same_name_iff in A.
      congruence.
    - apply same_name_iff in B. symmetry in B. apply same_name_iff in B.
      congruence. }
  split.
  { intros s1 s2 s3 A B. apply same_name_iff in A, B.
    apply same_name_iff. congruence. }
  intros n r1 r2 Hn H1 H2. apply same_name_iff.
  assert (K : forall r, _is_alnum_underscore (deref r) = false ->
                        forall m, name_at m = m ->
                                  name_at (m ++ r) = m).
  { intros r Hr. induction m as [|c m IH]; cbn [append name_at].
    - intros _. destruct r as [|c r]; [reflexivity|].
      cbn [deref] in Hr. cbn [name_at]. now rewrite Hr.
    - destruct (_is_alnum_underscore c); [|discriminate].
      intros G. injection G as G. now rewrite IH. }
  now rewrite !K.
Qed.

Lemma skip_blank_stops (p : string) :
  forall ret,
    is_blank (deref (advance p (Z.to_nat (skip_blank p ret - ret)))) = false.
Proof.
  induction p as [|c p IH]; intros ret; cbn [skip_blank].
  - rewrite Z.sub_diag. reflexivity.
  - destruct (is_blank c) eqn:B.
    + pose proof (skip_blank_bounds p (ret + 1)) as L.
      replace (Z.to_nat (skip_blank p (ret + 1) - ret))
        with (S (Z.to_nat (skip_blank p (ret + 1) - (ret + 1)))) by lia.
      cbn [advance]. apply IH.
    + rewrite Z.sub_diag. cbn. exact B.
Qed.

(** X18.  [_next_non_white_space] returns the offset of the first
    character from [offset] on that is neither a space nor a tab (the
    terminator when there is none): every character it passes is blank,
    the one it stops at is not, and the result stays inside the string. *)
Theorem next_non_white_space_is_first_nonblank (str : string) (offset : Z) :
  0 <= offset <= strlen str ->
  offset <= _next_non_white_space str offset <= strlen str
  /\ is_blank (at_ str (_next_non_white_space str offset)) = false
  /\ forall k, offset <= k < _next_non_white_space str offset ->
               is_blank (at_ str k) = true.
Proof.
  intros H. pose proof (next_non_white_space_bounds str offset H) as B.
  split; [exact B|]. split.
  - unfold at_, ptr.
    replace (_next_non_white_space str offset <? 0) with false
      by (symmetry; apply Z.ltb_ge; lia).
    replace (Z.to_nat (_next_non_white_space str offset))
      with (Z.to_nat offset
            + Z.to_nat (_next_non_white_space str offset - offset))%nat
      by lia.
    rewrite advance_add. unfold _next_non_white_space, ptr.
    replace (offset <? 0) with false by (symmetry; apply Z.ltb_ge; lia).
    apply skip_blank_stops.
  - intros k Hk. unfold at_, ptr.
    replace (k <? 0) with false by (symmetry; apply Z.ltb_ge; lia).
    replace (Z.to_nat k)
      with (Z.to_nat offset + Z.to_nat (k - offset))%nat by lia.
    rewrite advance_add.
    apply (skip_blank_chars _ offset).
    unfold _next_non_white_space, ptr in Hk.
    replace (offset <? 0) with false in Hk
      by (symmetry; apply Z.ltb_ge; lia).
    lia.
Qed.

(** The theorem at offset 4 of "(i),  (j)": the two blanks are passed. *)
Lemma next_non_white_space_is_first_nonblank_witness :
  4 <= _next_non_white_space "(i),  (j)" 4 <= strlen "(i),  (j)"
  /\ is_blank (at_ "(i),  (j)" (_next_non_white_space "(i),  (j)" 4)) = false
  /\ _next_non_white_space "(i),  (j)" 4 = 6.
Proof.
  destruct (next_non_white_space_is_first_nonblank "(i),  (j)" 4
              ltac:(cbn; lia)) as (B & S & _).
  split; [exact B|]. split; [exact S|reflexivity].
Defined.

(* ================================================================== *)
(** ** Construction of a ufunc and its signature attribute             *)
(* ================================================================== *)

(** X19.  A ufunc that was constructed has [nargs = nin + nout] operands,
    at most [NPY_MAXARGS].  Its attribute [signature] gives back the
    signature it was constructed with exactly when that signature names
    at least one core dimension; it is None when the ufunc was constructed
    without signature and also when every argument of the signature is
    empty, as in "(),()->()". *)
Theorem constructed_signature_round_trip (NPY_MAXARGS : Z)
        (u_types : list Z) (u_ntypes u_nin u_nout : Z)
        (u_identity : ufunc_identity) (u_name : option string)
        (signature : option string)
        (gc_new_ok op_flags_ok parse_alloc_ok : bool) (u : PyUFuncObject) :
  0 <= u_nin + u_nout ->
  PyUFunc_FromFuncAndDataAndSignatureAndIdentity NPY_MAXARGS u_types u_ntypes
    u_nin u_nout u_identity u_name signature gc_new_ok op_flags_ok
    parse_alloc_ok = inl u ->
  (nin u = u_nin /\ nout u = u_nout /\ nargs u = u_nin + u_nout
   /\ u_nin + u_nout <= NPY_MAXARGS)
  /\ ufunc_get_signature u
     = match signature with
       | None => None
       | Some s =>
           if sum_first (core_num_dims u) (nargs u) =? 0 then None
           else Some s
       end.
Proof.
  intros Hn. unfold PyUFunc_FromFuncAndDataAndSignatureAndIdentity.
  destruct (u_nin + u_nout >? NPY_MAXARGS) eqn:M; [discriminate|].
  rewrite Z.gtb_ltb in M. apply Z.ltb_ge in M.
  destruct gc_new_ok; cbn [negb]; [|discriminate].
  destruct op_flags_ok; cbn [negb]; [|discriminate].
  destruct signature as [s|].
  - destruct (_parse_signature _ (Some s) parse_alloc_ok) as [u'| | | | |]
      eqn:P; try discriminate.
    intros G. injection G as ->.
    match type of P with
    | _parse_signature ?f _ _ = _ =>
        destruct (parse_ok_state f u s parse_alloc_ok Hn P)
          as (st & T & Hnd & E & B & ->)
    end.
    destruct (tables_core_dim_range _ _ _ T Hnd E B) as [C0 CS].
    cbn [nargs] in CS.
    unfold ufunc_get_signature.
    cbn [nin nout nargs core_enabled core_signature core_num_dims].
    split; [repeat split; lia|].
    rewrite <- CS.
    destruct (p_cur_core_dim st =? 0); reflexivity.
  - intros G. injection G as <-.
    split; [cbn; repeat split; lia|reflexivity].
Qed.

(** The theorem at the signatures "(i),(i)->()" and "(),()->()" of a
    ufunc with two inputs and one output: the first comes back, the
    second does not. *)
Lemma constructed_signature_round_trip_witness :
  (exists u,
      PyUFunc_FromFuncAndDataAndSignatureAndIdentity 32 [] 0 2 1 PyUFunc_None
        (Some "inner"%string) (Some "(i),(i)->()"%string) true true true
      = inl u
      /\ ufunc_get_signature u = Some "(i),(i)->()"%string)
  /\ (exists u,
         PyUFunc_FromFuncAndDataAndSignatureAndIdentity 32 [] 0 2 1
           PyUFunc_None (Some "add"%string) (Some "(),()->()"%string)
           true true true
         = inl u
         /\ ufunc_get_signature u = None).
Proof.
  split.
  - eexists. split; [vm_compute; reflexivity|].
    match goal with
    | |- ufunc_get_signature ?u = _ =>
        rewrite (proj2 (constructed_signature_round_trip 32 [] 0 2 1
                          PyUFunc_None (Some "inner"%string)
                          (Some "(i),(i)->()"%string) true true true u
                          ltac:(lia) ltac:(vm_compute; reflexivity)))
    end.
    reflexivity.
  - eexists. split; [vm_compute; reflexivity|].
    match goal with
    | |- ufunc_get_signature ?u = _ =>
        rewrite (proj2 (constructed_signature_round_trip 32 [] 0 2 1
                          PyUFunc_None (Some "add"%string)
                          (Some "(),()->()"%string) true true true u
                          ltac:(lia) ltac:(vm_compute; reflexivity)))
    end.
    reflexivity.
Defined.

(* ================================================================== *)
(** ** The axes argument of a generalized call                         *)
(* ================================================================== *)

Section AxesRemap.

Lemma unseen_below_le (seen : list Z) (n : nat) :
  0 <= unseen_below seen n <= Z.of_nat n.
Proof.
  induction n as [|n IH]; cbn [unseen_below]; [lia|].
  destruct (rd seen (Z.of_nat n) =? 0); lia.
Qed.

Lemma unseen_below_zeros (m n : nat) :
  unseen_below (repeat 0 m) n = Z.of_nat n.
Proof.
  induction n as [|n IH]; cbn [unseen_below]; [reflexivity|].
  rewrite IH, rd_repeat_zero. cbn. lia.
Qed.

(** Marking an axis that was not marked lowers the count by one from
    that axis on. *)
Lemma unseen_below_mark (seen : list Z) (a : Z) (n : nat) :
  0 <= a < zlen seen -> rd seen a = 0 ->
  unseen_below (wr seen a 1) n
  = unseen_below seen n - (if a <? Z.of_nat n then 1 else 0).
Proof.
  intros Ha U. induction n as [|n IH]; cbn [unseen_below].
  - destruct (a <? Z.of_nat 0) eqn:E; [apply Z.ltb_lt in E; lia|lia].
  - rewrite IH. destruct (Z.eq_dec a (Z.of_nat n)) as [->|Ne].
    + rewrite rd_wr_same by lia. rewrite U.
      change (1 =? 0) with false. change (0 =? 0) with true. cbv iota.
      replace (Z.of_nat n <? Z.of_nat n) with false
        by (symmetry; apply Z.ltb_ge; lia).
      replace (Z.of_nat n <? Z.of_nat (S n)) with true
        by (symmetry; apply Z.ltb_lt; lia).
      lia.
    + rewrite rd_wr_other by congruence.
      destruct (a <? Z.of_nat n) eqn:A, (a <? Z.of_nat (S n)) eqn:B;
        try apply Z.ltb_lt in A; try apply Z.ltb_ge in A;
        try apply Z.ltb_lt in B; try apply Z.ltb_ge in B; lia.
Qed.

(** Marked axes do not count. *)
Lemma unseen_below_marked (seen : list Z) (n m : nat) :
  (n <= m)%nat ->
  (forall j, Z.of_nat n <= j < Z.of_nat m -> rd seen j <> 0) ->
  unseen_below seen m = unseen_below seen n.
Proof.
  intros L. induction L as [|m L IH]; intros H; [reflexivity|].
  cbn [unseen_below]. rewrite IH by (intros j Hj; apply H; lia).
  pose proof (H (Z.of_nat m) ltac:(lia)) as S.
  apply Z.eqb_neq in S. rewrite S. lia.
Qed.

Lemma skip_seen_spec (seen : list Z) (fuel : nat) :
  forall o,
    0 <= o -> zlen seen - o < Z.of_nat fuel ->
    o <= skip_seen seen o fuel
    /\ rd seen (skip_seen seen o fuel) = 0
    /\ forall j, o <= j < skip_seen seen o fuel -> rd seen j <> 0.
Proof.
  induction fuel as [|fuel IH]; intros o H0 F; cbn [skip_seen].
  - split; [lia|]. split; [apply rd_outside; lia|intros j Hj; lia].
  - destruct (rd seen o =? 0) eqn:E; cbn [negb].
    + apply Z.eqb_eq in E. split; [lia|]. split; [exact E|].
      intros j Hj. lia.
    + apply Z.eqb_neq in E.
      destruct (IH (o + 1) ltac:(lia) ltac:(lia)) as (L & U & S).
      split; [lia|]. split; [exact U|].
      intros j Hj. destruct (Z.eq_dec j o) as [->|Ne]; [exact E|].
      apply S. lia.
Qed.

Variable iop op_nbroadcast op_ndim : Z.
Variable op_axes_tuple : list (option Z).

Hypothesis Hnb : 0 <= op_nbroadcast.

(** The loop over the core dimensions. *)
Lemma core_axes_spec (todo : nat) :
  forall axis seen row seen' row',
    op_nbroadcast <= axis -> axis + Z.of_nat todo <= zlen row ->
    op_ndim <= zlen seen ->
    core_axes iop op_nbroadcast op_ndim op_axes_tuple todo axis seen row
    = inl (seen', row') ->
    (zlen row' = zlen row /\ zlen seen' = zlen seen)
    /\ (forall k, k < axis \/ axis + Z.of_nat todo <= k ->
                  rd row' k = rd row k)
    /\ (forall k, axis <= k < axis + Z.of_nat todo ->
          exists v,
            nth (Z.to_nat (k - op_nbroadcast)) op_axes_tuple None = Some v
            /\ check_and_adjust_axis v op_ndim = Some (rd row' k)
            /\ rd seen (rd row' k) = 0
            /\ rd seen' (rd row' k) <> 0)
    /\ (forall k k', axis <= k < k' -> k' < axis + Z.of_nat todo ->
                     rd row' k <> rd row' k')
    /\ unseen_below seen' (Z.to_nat op_ndim)
       = unseen_below seen (Z.to_nat op_ndim) - Z.of_nat todo
    /\ (forall a, rd seen a <> 0 -> rd seen' a <> 0).
Proof.
  induction todo as [|todo IH]; intros axis seen row seen' row' Ha Lr Ls;
    cbn [core_axes].
  - intros G. injection G as <- <-.
    split; [now split|]. split; [reflexivity|].
    split; [intros k Hk; lia|]. split; [intros k k' Hk; lia|].
    split; [lia|auto].
  - destruct (nth (Z.to_nat (axis - op_nbroadcast)) op_axes_tuple None)
      as [v|] eqn:Item; [|discriminate].
    destruct (check_and_adjust_axis v op_ndim) as [a|] eqn:A;
      [|discriminate].
    pose proof (check_and_adjust_axis_range _ _ _ A) as Ra.
    destruct (rd seen a =? 0) eqn:U; cbn [negb]; [|discriminate].
    apply Z.eqb_eq in U. intros G.
    destruct (IH (axis + 1) (wr seen a 1) (wr row axis a) seen' row'
                ltac:(lia) ltac:(rewrite zlen_wr; lia)
                ltac:(rewrite zlen_wr; lia) G)
      as ((Zr & Zs) & Out & In & Dist & Cnt & Mono).
    rewrite zlen_wr in Zr, Zs.
    assert (Here : rd row' axis = a).
    { rewrite Out by lia. apply rd_wr_same. lia. }
    assert (Marked : rd seen' a <> 0).
    { apply Mono. rewrite rd_wr_same by lia. discriminate. }
    split; [now split|]. split; [|split; [|split; [|split]]].
    + intros k Hk. rewrite Out by lia. apply rd_wr_other. lia.
    + intros k Hk. destruct (Z.eq_dec k axis) as [->|Ne].
      * exists v. rewrite Here. repeat split; assumption.
      * destruct (In k ltac:(lia)) as (w & I1 & I2 & I3 & I4).
        exists w. split; [exact I1|]. split; [exact I2|].
        split; [|exact I4].
        destruct (Z.eq_dec (rd row' k) a) as [E|Ne'].
        -- rewrite E, rd_wr_same in I3 by lia. discriminate.
        -- now rewrite rd_wr_other in I3 by congruence.
    + intros k k' Hk Hk'. destruct (Z.eq_dec k axis) as [->|Ne].
      * rewrite Here. intros E.
        destruct (In k' ltac:(lia)) as (w & _ & _ & I3 & _).
        rewrite <- E, rd_wr_same in I3 by lia. discriminate.
      * apply Dist; lia.
    + rewrite Cnt, unseen_below_mark by (try assumption; lia).
      replace (a <? Z.of_nat (Z.to_nat op_ndim)) with true
        by (symmetry; apply Z.ltb_lt; lia).
      lia.
    + intros b Hb. apply Mono.
      destruct (Z.eq_dec b a) as [->|Ne]; [congruence|].
      now rewrite rd_wr_other by congruence.
Qed.

(** The loop over the broadcast dimensions. *)
Lemma broadcast_axes_spec (seen : list Z) (todo : nat) :
  forall axis o row axis' o' row',
    0 <= op_ndim <= zlen seen ->
    0 <= axis <= o -> o <= op_ndim ->
    axis + Z.of_nat todo <= zlen row ->
    unseen_below seen (Z.to_nat o) = axis ->
    unseen_below seen (Z.to_nat op_ndim) = axis + Z.of_nat todo ->
    broadcast_axes seen todo axis o row = (axis', o', row') ->
    axis' = axis + Z.of_nat todo
    /\ (axis' <= o' <= op_ndim /\ o - axis <= o' - axis')
    /\ zlen row' = zlen row
    /\ (forall k, k < axis \/ axis + Z.of_nat todo <= k ->
                  rd row' k = rd row k)
    /\ (forall k, axis <= k < axis + Z.of_nat todo ->
          rd seen (rd row' k) = 0
          /\ o + (k - axis) <= rd row' k
          /\ rd row' k + (axis' - k) <= o')
    /\ (forall k k', axis <= k < k' -> k' < axis + Z.of_nat todo ->
                     rd row' k < rd row' k').
Proof.
  induction todo as [|todo IH]; intros axis o row axis' o' row' Hn Ha Ho Lr
                                       Cnt Tot; cbn [broadcast_axes].
  - intros G. injection G as <- <- <-.
    split; [lia|]. split; [lia|]. split; [reflexivity|].
    split; [reflexivity|]. split; [intros k Hk; lia|intros k k' Hk; lia].
  - destruct (skip_seen_spec seen (S (List.length seen)) o ltac:(lia)
                ltac:(unfold zlen; lia)) as (L & U & Sk).
    set (a := skip_seen seen o (S (List.length seen))) in *.
    assert (Ca : unseen_below seen (Z.to_nat a) = axis).
    { rewrite <- Cnt. apply unseen_below_marked; [lia|].
      intros j Hj. apply Sk. lia. }
    assert (La : a < op_ndim).
    { destruct (Z_lt_ge_dec a op_ndim) as [Lt|Ge]; [exact Lt|].
      exfalso.
      assert (E : unseen_below seen (Z.to_nat op_ndim)
                  = unseen_below seen (Z.to_nat o)).
      { apply unseen_below_marked; [lia|]. intros j Hj. apply Sk. lia. }
      lia. }
    intros G.
    destruct (IH (axis + 1) (a + 1) (wr row axis a) axis' o' row'
                Hn ltac:(lia) ltac:(lia) ltac:(rewrite zlen_wr; lia)
                ltac:(replace (Z.to_nat (a + 1)) with (S (Z.to_nat a))
                        by lia;
                      cbn [unseen_below]; rewrite Z2Nat.id by lia;
                      rewrite U, Ca; reflexivity)
                ltac:(lia) G)
      as (E & Bo & Zr & Out & In & Inc).
    rewrite zlen_wr in Zr.
    assert (Here : rd row' axis = a).
    { rewrite Out by lia. apply rd_wr_same. lia. }
    split; [lia|]. split; [lia|]. split; [exact Zr|].
    split; [|split].
    + intros k Hk. rewrite Out by lia. apply rd_wr_other. lia.
    + intros k Hk. destruct (Z.eq_dec k axis) as [->|Ne].
      * rewrite Here. split; [exact U|]. lia.
      * destruct (In k ltac:(lia)) as (I1 & I2 & I3).
        split; [exact I1|]. lia.
    + intros k k' Hk Hk'. destruct (Z.eq_dec k axis) as [->|Ne].
      * rewrite Here. destruct (In k' ltac:(lia)) as (_ & I2 & _). lia.
      * apply Inc; lia.
Qed.

Lemma identity_run_spec (row : list Z) (fuel : nat) :
  forall axis,
    axis <= op_ndim ->
    identity_run row op_ndim axis fuel = op_ndim ->
    forall k, axis <= k < op_ndim -> rd row k = k.
Proof.
  induction fuel as [|fuel IH]; intros axis La; cbn [identity_run].
  - intros -> k Hk. lia.
  - destruct (axis <? op_ndim) eqn:Lt; cbn [andb].
    + apply Z.ltb_lt in Lt.
      destruct (rd row axis =? axis) eqn:E.
      * apply Z.eqb_eq in E. intros G k Hk.
        destruct (Z.eq_dec k axis) as [->|Ne]; [exact E|].
        apply (IH (axis + 1)); [lia|exact G|lia].
      * intros ->. lia.
    + intros -> k Hk. lia.
Qed.

End AxesRemap.

(** What one entry of [axes] makes of the row of its operand. *)
Lemma parse_axes_operand_spec (iop op_ncore : Z) (o : option PyArrayObject)
      (broadcast_ndim : Z) (item : axes_item) (pack_ok : bool)
      (row : list Z) (res : option (list Z)) :
  0 <= op_ncore <= axes_op_ndim o broadcast_ndim op_ncore ->
  axes_op_ndim o broadcast_ndim op_ncore <= NPY_MAXDIMS ->
  axes_op_ndim o broadcast_ndim op_ncore <= zlen row ->
  parse_axes_operand iop op_ncore o broadcast_ndim item pack_ok row
  = inl res ->
  exists op_axes_tuple,
    axes_tuple_of iop op_ncore item pack_ok = inl op_axes_tuple
    /\ (forall k,
          axes_op_ndim o broadcast_ndim op_ncore - op_ncore <= k
          < axes_op_ndim o broadcast_ndim op_ncore ->
          exists v,
            nth (Z.to_nat (k - (axes_op_ndim o broadcast_ndim op_ncore
                                - op_ncore)))
                op_axes_tuple None = Some v
            /\ check_and_adjust_axis
                 v (axes_op_ndim o broadcast_ndim op_ncore)
               = Some (remap_value res k))
    /\ (forall k, 0 <= k < axes_op_ndim o broadcast_ndim op_ncore ->
                  0 <= remap_value res k
                  < axes_op_ndim o broadcast_ndim op_ncore)
    /\ (forall k k',
          0 <= k < k' -> k' < axes_op_ndim o broadcast_ndim op_ncore ->
          remap_value res k <> remap_value res k')
    /\ (forall k k',
          0 <= k < k' ->
          k' < axes_op_ndim o broadcast_ndim op_ncore - op_ncore ->
          remap_value res k < remap_value res k').
Proof.
  intros Hc Hmax Hrow. unfold parse_axes_operand.
  assert (NB : axes_op_nbroadcast o broadcast_ndim op_ncore
               = axes_op_ndim o broadcast_ndim op_ncore - op_ncore).
  { unfold axes_op_nbroadcast, axes_op_ndim. destruct o; lia. }
  rewrite NB.
  set (ndim := axes_op_ndim o broadcast_ndim op_ncore) in *.
  set (nb := ndim - op_ncore) in *.
  destruct (axes_tuple_of iop op_ncore item pack_ok) as [tuple|e] eqn:Tu;
    [|discriminate].
  destruct (core_axes iop nb ndim tuple (Z.to_nat (ndim - nb)) nb
                      (repeat 0 (Z.to_nat NPY_MAXDIMS)) row)
    as [[seen row1]|e] eqn:C1; [|discriminate].
  assert (Zs : zlen (repeat 0 (Z.to_nat NPY_MAXDIMS)) = NPY_MAXDIMS)
    by (rewrite zlen_repeat; reflexivity).
  destruct (core_axes_spec iop nb ndim tuple ltac:(lia)
              (Z.to_nat (ndim - nb)) nb
              (repeat 0 (Z.to_nat NPY_MAXDIMS)) row seen row1
              ltac:(lia) ltac:(lia) ltac:(lia) C1)
    as ((Zr1 & Zs1) & Out1 & In1 & Dist1 & Cnt1 & _).
  rewrite unseen_below_zeros in Cnt1.
  destruct (broadcast_axes seen (Z.to_nat nb) 0 0 row1)
    as [[axis op_axis] row2] eqn:B2.
  destruct (broadcast_axes_spec ndim seen (Z.to_nat nb) 0 0 row1 axis
              op_axis row2 ltac:(lia) ltac:(lia) ltac:(lia) ltac:(lia)
              ltac:(reflexivity) ltac:(lia) B2)
    as (Ea & Bo & Zr2 & Out2 & In2 & Inc2).
  rewrite Z2Nat.id in Ea, Out2, In2, Inc2 by lia.
  cbn [Z.add] in Ea, Out2, In2, Inc2.
  (* the facts about the row that was filled *)
  assert (Core : forall k, nb <= k < ndim ->
            exists v,
              nth (Z.to_nat (k - nb)) tuple None = Some v
              /\ check_and_adjust_axis v ndim = Some (rd row2 k)
              /\ rd seen (rd row2 k) <> 0).
  { intros k Hk. rewrite Out2 by lia.
    destruct (In1 k ltac:(lia)) as (v & I1 & I2 & _ & I4).
    exists v. repeat split; assumption. }
  assert (Range : forall k, 0 <= k < ndim -> 0 <= rd row2 k < ndim).
  { intros k Hk. destruct (Z_lt_ge_dec k nb) as [Lt|Ge].
    - destruct (In2 k ltac:(lia)) as (_ & I2 & I3). lia.
    - destruct (Core k ltac:(lia)) as (v & _ & A & _).
      now apply check_and_adjust_axis_range in A. }
  assert (Inj : forall k k', 0 <= k < k' -> k' < ndim ->
                             rd row2 k <> rd row2 k').
  { intros k k' Hk Hk'. destruct (Z_lt_ge_dec k' nb) as [Lt|Ge].
    - pose proof (Inc2 k k' ltac:(lia) ltac:(lia)). lia.
    - destruct (Z_lt_ge_dec k nb) as [Lt|Ge'].
      + destruct (In2 k ltac:(lia)) as (U & _).
        destruct (Core k' ltac:(lia)) as (v & _ & _ & M).
        congruence.
      + rewrite !Out2 by lia. apply Dist1; lia. }
  assert (Inc : forall k k', 0 <= k < k' -> k' < nb ->
                             rd row2 k < rd row2 k').
  { intros k k' Hk Hk'. apply Inc2; lia. }
  assert (Done : forall res',
             (res' = Some row2
              \/ (res' = None /\ forall k, 0 <= k < ndim -> rd row2 k = k)) ->
             exists t,
               inl tuple = inl (B := axes_error) t
               /\ (forall k, nb <= k < ndim ->
                     exists v,
                       nth (Z.to_nat (k - nb)) t None = Some v
                       /\ check_and_adjust_axis v ndim
                          = Some (remap_value res' k))
               /\ (forall k, 0 <= k < ndim ->
                             0 <= remap_value res' k < ndim)
               /\ (forall k k', 0 <= k < k' -> k' < ndim ->
                                remap_value res' k <> remap_value res' k')
               /\ (forall k k', 0 <= k < k' -> k' < nb ->
                                remap_value res' k < remap_value res' k')).
  { intros res' [->|[-> Id]]; exists tuple; cbn [remap_value].
    - split; [reflexivity|]. split; [|split; [|split]]; try assumption.
      intros k Hk. destruct (Core k Hk) as (v & I1 & I2 & _).
      exists v. now split.
    - split; [reflexivity|]. split; [|split; [|split]].
      + intros k Hk. destruct (Core k Hk) as (v & I1 & I2 & _).
        exists v. split; [exact I1|]. now rewrite I2, Id by lia.
      + intros k Hk. lia.
      + intros k k' Hk Hk'. lia.
      + intros k k' Hk Hk'. lia. }
  destruct (axis =? op_axis) eqn:Eq.
  - apply Z.eqb_eq in Eq.
    destruct (identity_run row2 ndim axis (Z.to_nat (ndim - axis)) =? ndim)
      eqn:Run; intros G; injection G as <-; apply Done; [right|now left].
    apply Z.eqb_eq in Run. split; [reflexivity|].
    intros k Hk. destruct (Z_lt_ge_dec k nb) as [Lt|Ge].
    + destruct (In2 k ltac:(lia)) as (_ & I2 & I3). lia.
    + apply (identity_run_spec ndim row2 _ axis ltac:(lia) Run). lia.
  - apply Z.eqb_neq in Eq.
    destruct (axis =? ndim) eqn:End; intros G; injection G as <-;
      apply Done; [right|now left].
    apply Z.eqb_eq in End. lia.
Qed.

Lemma parse_axes_operands_nth (op_core_num_dims : list Z)
      (op : list (option PyArrayObject)) (broadcast_ndim : Z)
      (pack_ok : bool) (remap_axis : list (list Z))
      (axes : list axes_item) :
  forall iop rows,
    0 <= iop ->
    parse_axes_operands op_core_num_dims op broadcast_ndim pack_ok remap_axis
                        axes iop = inl rows ->
    List.length rows = List.length axes
    /\ forall j, iop <= j < iop + Z.of_nat (List.length axes) ->
         parse_axes_operand j (rd op_core_num_dims j) (get_op op j)
           broadcast_ndim
           (nth (Z.to_nat (j - iop)) axes (AxesObject None)) pack_ok
           (nth (Z.to_nat j) remap_axis [])
         = inl (nth (Z.to_nat (j - iop)) rows None).
Proof.
  induction axes as [|item axes IH]; intros iop rows H0;
    cbn [parse_axes_operands].
  - intros G. injection G as <-. split; [reflexivity|].
    intros j Hj. cbn in Hj. lia.
  - destruct (parse_axes_operand iop _ _ _ item _ _) as [row|e] eqn:P;
      [|discriminate].
    destruct (parse_axes_operands _ _ _ _ _ axes (iop + 1)) as [rest|e]
      eqn:R; [|discriminate].
    intros G. injection G as <-.
    destruct (IH (iop + 1) rest ltac:(lia) R) as [Len Nth].
    split; [cbn; now rewrite Len|].
    intros j Hj. cbn [List.length] in Hj.
    destruct (Z.eq_dec j iop) as [->|Ne].
    + rewrite Z.sub_diag. exact P.
    + replace (Z.to_nat (j - iop)) with (S (Z.to_nat (j - (iop + 1))))
        by lia.
      cbn [nth]. apply Nth. lia.
Qed.

(** X20.  When [_parse_axes_arg] succeeds, the remap of every operand
    that has an entry in [axes] is a permutation of the axes of the
    operand: the core dimensions, which come last, are read at the axes
    the entry names (counted from the end when negative), no axis is used
    twice, and the broadcast dimensions are read at the remaining axes in
    increasing order.  An output whose entry was left out is not
    remapped. *)
Theorem axes_argument_is_permutation (ufunc : PyUFuncObject)
        (op_core_num_dims : list Z) (items : list axes_item)
        (op : list (option PyArrayObject)) (broadcast_ndim : Z)
        (pack_ok : bool) (remap_axis : list (list Z))
        (remap : list (option (list Z))) :
  (forall iop,
      0 <= iop < Z.of_nat (List.length items) ->
      0 <= rd op_core_num_dims iop
      <= axes_op_ndim (get_op op iop) broadcast_ndim
                      (rd op_core_num_dims iop)
      /\ axes_op_ndim (get_op op iop) broadcast_ndim
                      (rd op_core_num_dims iop) <= NPY_MAXDIMS
      /\ axes_op_ndim (get_op op iop) broadcast_ndim
                      (rd op_core_num_dims iop)
         <= zlen (nth (Z.to_nat iop) remap_axis [])) ->
  _parse_axes_arg ufunc op_core_num_dims (Some items) op broadcast_ndim
                  pack_ok remap_axis = inl remap ->
  (forall iop,
      0 <= iop < Z.of_nat (List.length items) ->
      let ncore := rd op_core_num_dims iop in
      let ndim := axes_op_ndim (get_op op iop) broadcast_ndim ncore in
      exists op_axes_tuple,
        axes_tuple_of iop ncore (nth (Z.to_nat iop) items (AxesObject None))
                      pack_ok = inl op_axes_tuple
        /\ (forall k, ndim - ncore <= k < ndim ->
              exists v,
                nth (Z.to_nat (k - (ndim - ncore))) op_axes_tuple None
                = Some v
                /\ check_and_adjust_axis v ndim
                   = Some (REMAP_AXIS (Some remap) iop k))
        /\ (forall k, 0 <= k < ndim ->
                      0 <= REMAP_AXIS (Some remap) iop k < ndim)
        /\ (forall k k', 0 <= k < k' -> k' < ndim ->
                         REMAP_AXIS (Some remap) iop k
                         <> REMAP_AXIS (Some remap) iop k')
        /\ (forall k k', 0 <= k < k' -> k' < ndim - ncore ->
                         REMAP_AXIS (Some remap) iop k
                         < REMAP_AXIS (Some remap) iop k'))
  /\ (forall iop k, Z.of_nat (List.length items) <= iop ->
                    REMAP_AXIS (Some remap) iop k = k).
Proof.
  intros Pre. unfold _parse_axes_arg.
  destruct (negb (Z.of_nat (List.length items) =? nargs ufunc)
            && _) eqn:Bad; [discriminate|].
  destruct (parse_axes_operands op_core_num_dims op broadcast_ndim pack_ok
              remap_axis items 0) as [rows|e] eqn:P; [|discriminate].
  destruct (parse_axes_operands_nth _ _ _ _ _ _ 0 rows ltac:(lia) P)
    as [Len Nth].
  intros G. injection G as <-.
  assert (Row : forall iop,
             0 <= iop < Z.of_nat (List.length items) ->
             forall k,
               REMAP_AXIS
                 (Some (if negb (Z.of_nat (List.length items)
                                 =? nargs ufunc)
                        then rows
                             ++ repeat None
                                  (Z.to_nat (nargs ufunc - nin ufunc))
                        else rows)) iop k
               = remap_value (nth (Z.to_nat iop) rows None) k).
  { intros iop Hi k. unfold REMAP_AXIS, remap_value.
    destruct (negb _); [|reflexivity].
    rewrite app_nth1 by lia. reflexivity. }
  split.
  - intros iop Hi. cbv zeta.
    specialize (Nth iop ltac:(lia)). rewrite Z.sub_0_r in Nth.
    destruct (Pre iop Hi) as (Hc & Hmax & Hrow).
    destruct (parse_axes_operand_spec _ _ _ _ _ _ _ _ Hc Hmax Hrow Nth)
      as (t & Tu & Core & Range & Inj & Inc).
    exists t. split; [exact Tu|].
    split; [|split; [|split]].
    + intros k Hk. rewrite (Row iop Hi). now apply Core.
    + intros k Hk. rewrite (Row iop Hi). now apply Range.
    + intros k k' Hk Hk'. rewrite !(Row iop Hi). now apply Inj.
    + intros k k' Hk Hk'. rewrite !(Row iop Hi). now apply Inc.
  - intros iop k Hi. unfold REMAP_AXIS.
    destruct (negb _).
    + rewrite app_nth2 by lia.
      destruct (nth_in_or_default
                  (Z.to_nat iop - List.length rows)
                  (repeat None (Z.to_nat (nargs ufunc - nin ufunc)))
                  (@None (list Z))) as [In|D].
      * apply repeat_spec in In. now rewrite In.
      * now rewrite D.
    + rewrite nth_overflow by lia. reflexivity.
Qed.

(** The theorem at [axes=[(1, 0), 0]] for operands of three and one
    dimensions of a ufunc with the signature "(m,n),(n)->()" whose output
    is left out: the two core dimensions of the first operand are read at
    its axes 1 and 0 and its broadcast dimension at axis 2. *)
Lemma axes_argument_is_permutation_witness :
  let ufunc := mkUFunc 2 1 3 "f" PyUFunc_None 0 [] None 1 2 [2; 1; 0]
                 [0; 2; 3] [0; 1; 1] [-1; -1] [2; 2] "(m,n),(n)->()" in
  let op := [Some (array_of_shape [3; 4; 5]); Some (array_of_shape [3])] in
  let items := [AxesTuple [Some 1; Some 0]; AxesObject (Some 0)] in
  let rows := [repeat 9 32; repeat 9 32; repeat 9 32] in
  exists remap,
    _parse_axes_arg ufunc [2; 1; 0] (Some items) op 1 true rows = inl remap
    /\ REMAP_AXIS (Some remap) 0 1 = 1
    /\ REMAP_AXIS (Some remap) 0 2 = 0
    /\ REMAP_AXIS (Some remap) 0 0 = 2
    /\ (forall k, REMAP_AXIS (Some remap) 2 k = k).
Proof.
  cbv zeta.
  eexists. split; [vm_compute; reflexivity|].
  match goal with
  | |- REMAP_AXIS (Some ?r) _ _ = _ /\ _ =>
      pose proof (axes_argument_is_permutation
                    (mkUFunc 2 1 3 "f" PyUFunc_None 0 [] None 1 2 [2; 1; 0]
                       [0; 2; 3] [0; 1; 1] [-1; -1] [2; 2] "(m,n),(n)->()")
                    [2; 1; 0]
                    [AxesTuple [Some 1; Some 0]; AxesObject (Some 0)]
                    [Some (array_of_shape [3; 4; 5]);
                     Some (array_of_shape [3])]
                    1 true [repeat 9 32; repeat 9 32; repeat 9 32] r
                    ltac:(intros iop Hi; cbn [List.length] in Hi;
                          assert (K : iop = 0 \/ iop = 1) by lia;
                          destruct K as [ -> | -> ]; vm_compute;
                          repeat split; discriminate)
                    ltac:(vm_compute; reflexivity)) as [In Out]
  end.
  destruct (In 0 ltac:(cbn; lia)) as (t & Tu & Core & _).
  vm_compute in Tu. injection Tu as <-.
  destruct (Core 1 ltac:(vm_compute; split; [discriminate|reflexivity]))
    as (v1 & N1 & A1).
  destruct (Core 2 ltac:(vm_compute; split; [discriminate|reflexivity]))
    as (v2 & N2 & A2).
  vm_compute in N1, N2. injection N1 as <-. injection N2 as <-.
  vm_compute in A1, A2.
  split; [vm_compute; congruence|]. split; [vm_compute; congruence|].
  split; [vm_compute; reflexivity|].
  intros k. exact (Out 2 k ltac:(cbn; lia)).
Defined.

(* ================================================================== *)
(** ** Output core dimensions are specified                            *)
(* ================================================================== *)

Section UnspecifiedFacts.

Variable ufunc : PyUFuncObject.

Lemma unspecified_dim_spec (i : Z) (sizes : list Z) (todo : nat) :
  forall idim,
    match unspecified_dim ufunc i todo idim sizes with
    | None =>
        forall k, idim <= k < idim + Z.of_nat todo ->
                  0 <= rd sizes (rd (core_dim_ixs ufunc)
                                    (rd (core_offsets ufunc) i + k))
    | Some e =>
        exists k,
          idim <= k < idim + Z.of_nat todo
          /\ rd sizes (rd (core_dim_ixs ufunc)
                          (rd (core_offsets ufunc) i + k)) < 0
          /\ e = CoreDimUnspecified (i - nin ufunc) k (core_signature ufunc)
    end.
Proof.
  induction todo as [|todo IH]; intros idim; cbn [unspecified_dim].
  - intros k Hk. lia.
  - destruct (rd sizes _ <? 0) eqn:E.
    + apply Z.ltb_lt in E. exists idim. split; [lia|]. now split.
    + apply Z.ltb_ge in E. specialize (IH (idim + 1)).
      destruct (unspecified_dim ufunc i todo (idim + 1) sizes) as [e|].
      * destruct IH as (k & Hk & N & He). exists k. split; [lia|].
        now split.
      * intros k Hk. destruct (Z.eq_dec k idim) as [->|Ne]; [exact E|].
        apply IH. lia.
Qed.

Lemma unspecified_dims_spec (sizes : list Z) (todo : nat) :
  forall i,
    match unspecified_dims ufunc todo i sizes with
    | None =>
        forall j k,
          i <= j < i + Z.of_nat todo ->
          0 <= k < rd (core_num_dims ufunc) j ->
          0 <= rd sizes (rd (core_dim_ixs ufunc)
                            (rd (core_offsets ufunc) j + k))
    | Some e =>
        exists j k,
          i <= j < i + Z.of_nat todo
          /\ 0 <= k < rd (core_num_dims ufunc) j
          /\ rd sizes (rd (core_dim_ixs ufunc)
                          (rd (core_offsets ufunc) j + k)) < 0
          /\ e = CoreDimUnspecified (j - nin ufunc) k (core_signature ufunc)
    end.
Proof.
  induction todo as [|todo IH]; intros i; cbn [unspecified_dims].
  - intros j k Hj. lia.
  - pose proof (unspecified_dim_spec i sizes
                  (Z.to_nat (rd (core_num_dims ufunc) i)) 0) as D.
    destruct (unspecified_dim ufunc i _ 0 sizes) as [e|].
    + destruct D as (k & Hk & N & He). exists i, k.
      split; [lia|]. split; [lia|]. now split.
    + specialize (IH (i + 1)).
      destruct (unspecified_dims ufunc todo (i + 1) sizes) as [e|].
      * destruct IH as (j & k & Hj & Hk & N & He). exists j, k.
        split; [lia|]. split; [exact Hk|]. now split.
      * intros j k Hj Hk. destruct (Z.eq_dec j i) as [->|Ne].
        -- apply D. lia.
        -- apply IH; [lia|exact Hk].
Qed.

End UnspecifiedFacts.

(** X21.  When [_get_coredim_sizes] succeeds, every core dimension of
    every output has a size that is not negative.  When it fails with
    the "unspecified" error, the error names an output and one of its core
    dimensions whose size was still negative after the supplied operands
    had been read. *)
Theorem output_core_dimensions_are_specified (ufunc : PyUFuncObject)
        (core_dim_flags : list Z)
        (remap_axis : option (list (option (list Z))))
        (op : list (option PyArrayObject))
        (op_core_num_dims core_dim_sizes : list Z) :
  match _get_coredim_sizes ufunc core_dim_flags remap_axis op
                           op_core_num_dims core_dim_sizes with
  | CoreDimOk sizes' =>
      forall i idim,
        nin ufunc <= i < nin ufunc + nout ufunc ->
        0 <= idim < rd (core_num_dims ufunc) i ->
        0 <= rd sizes' (rd (core_dim_ixs ufunc)
                           (rd (core_offsets ufunc) i + idim))
  | CoreDimError (CoreDimUnspecified operand core_dim signature) =>
      0 <= operand < nout ufunc
      /\ 0 <= core_dim < rd (core_num_dims ufunc) (nin ufunc + operand)
      /\ signature = core_signature ufunc
      /\ exists sizes',
          coredim_operands ufunc core_dim_flags remap_axis
            (firstn (Z.to_nat (nin ufunc + nout ufunc)) op)
            op_core_num_dims 0 core_dim_sizes = CoreDimOk sizes'
          /\ rd sizes' (rd (core_dim_ixs ufunc)
                           (rd (core_offsets ufunc) (nin ufunc + operand)
                            + core_dim)) < 0
  | CoreDimError (CoreDimMismatch _ _ _ _ _ _) => True
  end.
Proof.
  unfold _get_coredim_sizes.
  destruct (coredim_operands ufunc core_dim_flags remap_axis _
              op_core_num_dims 0 core_dim_sizes) as [sizes'|e] eqn:C.
  - pose proof (unspecified_dims_spec ufunc sizes'
                  (Z.to_nat (nout ufunc)) (nin ufunc)) as U.
    destruct (unspecified_dims ufunc (Z.to_nat (nout ufunc)) (nin ufunc)
                               sizes') as [e|].
    + destruct U as (j & k & Hj & Hk & N & ->).
      split; [lia|].
      replace (nin ufunc + (j - nin ufunc)) with j by lia.
      split; [exact Hk|]. split; [reflexivity|].
      exists sizes'. split; [reflexivity|exact N].
    + intros i idim Hi Hd. apply U; [lia|exact Hd].
  - destruct e as [a b c d e1 e2|a b c]; [exact I|].
    exfalso. revert C.
    generalize (firstn (Z.to_nat (nin ufunc + nout ufunc)) op).
    generalize 0 at 1. generalize core_dim_sizes.
    intros sizes i ops. revert sizes i.
    induction ops as [|[arr|] ops IH]; intros sizes i;
      cbn [coredim_operands]; [discriminate| |apply IH].
    assert (K : forall todo idim delta s,
               coredim_operand ufunc core_dim_flags remap_axis i arr
                 (PyArray_NDIM arr - rd op_core_num_dims i) todo idim delta s
               <> CoreDimError (CoreDimUnspecified a b c)).
    { induction todo as [|todo IHt]; intros idim delta s;
        cbn [coredim_operand]; [discriminate|].
      destruct (op_dim _ _ _ _ _ _ _ _) as [sz d'].
      destruct (rd s _ <? 0); [apply IHt|].
      destruct (negb _); [discriminate|apply IHt]. }
    destruct (coredim_operand _ _ _ _ _ _ _ _ _ _) as [s'|e'] eqn:Op.
    + apply IH.
    + intros G. injection G as ->. now apply K in Op.
Qed.

(* ================================================================== *)
(** ** The inputs of the outer method                                  *)
(* ================================================================== *)

Section OuterFacts.

Lemma copy_shape_spec (src : list Z) (todo : nat) :
  forall dst i,
    0 <= i -> i + Z.of_nat todo <= zlen dst ->
    zlen (copy_shape src dst i todo) = zlen dst
    /\ forall k,
        rd (copy_shape src dst i todo) k
        = if (i <=? k) && (k <? i + Z.of_nat todo) then rd src k
          else rd dst k.
Proof.
  induction todo as [|todo IH]; intros dst i H0 L; cbn [copy_shape].
  - split; [reflexivity|]. intros k.
    destruct (i <=? k) eqn:A, (k <? i + Z.of_nat 0) eqn:B; try reflexivity.
    apply Z.leb_le in A. apply Z.ltb_lt in B. lia.
  - destruct (IH (wr dst i (rd src i)) (i + 1) ltac:(lia)
                ltac:(rewrite zlen_wr; lia)) as [Len Rd].
    split; [now rewrite Len, zlen_wr|]. intros k. rewrite Rd.
    destruct (Z.eq_dec k i) as [->|Ne].
    + replace (i + 1 <=? i) with false by (symmetry; apply Z.leb_gt; lia).
      replace (i <=? i) with true by (symmetry; apply Z.leb_le; lia).
      replace (i <? i + Z.of_nat (S todo)) with true
        by (symmetry; apply Z.ltb_lt; lia).
      cbn [andb]. apply rd_wr_same. lia.
    + rewrite rd_wr_other by congruence.
      destruct (i + 1 <=? k) eqn:A, (i <=? k) eqn:B;
        try apply Z.leb_le in A; try apply Z.leb_gt in A;
        try apply Z.leb_le in B; try apply Z.leb_gt in B; try lia;
        cbn [andb]; try reflexivity.
      destruct (k <? i + 1 + Z.of_nat todo) eqn:C,
               (k <? i + Z.of_nat (S todo)) eqn:D;
        try apply Z.ltb_lt in C; try apply Z.ltb_ge in C;
        try apply Z.ltb_lt in D; try apply Z.ltb_ge in D; try lia;
        reflexivity.
Qed.

Lemma fill_ones_spec (todo : nat) :
  forall dst i,
    0 <= i -> i + Z.of_nat todo <= zlen dst ->
    zlen (fill_ones dst i todo) = zlen dst
    /\ forall k,
        rd (fill_ones dst i todo) k
        = if (i <=? k) && (k <? i + Z.of_nat todo) then 1 else rd dst k.
Proof.
  induction todo as [|todo IH]; intros dst i H0 L; cbn [fill_ones].
  - split; [reflexivity|]. intros k.
    destruct (i <=? k) eqn:A, (k <? i + Z.of_nat 0) eqn:B; try reflexivity.
    apply Z.leb_le in A. apply Z.ltb_lt in B. lia.
  - destruct (IH (wr dst i 1) (i + 1) ltac:(lia)
                ltac:(rewrite zlen_wr; lia)) as [Len Rd].
    split; [now rewrite Len, zlen_wr|]. intros k. rewrite Rd.
    destruct (Z.eq_dec k i) as [->|Ne].
    + replace (i + 1 <=? i) with false by (symmetry; apply Z.leb_gt; lia).
      replace (i <=? i) with true by (symmetry; apply Z.leb_le; lia).
      replace (i <? i + Z.of_nat (S todo)) with true
        by (symmetry; apply Z.ltb_lt; lia).
      cbn [andb]. apply rd_wr_same. lia.
    + rewrite rd_wr_other by congruence.
      destruct (i + 1 <=? k) eqn:A, (i <=? k) eqn:B;
        try apply Z.leb_le in A; try apply Z.leb_gt in A;
        try apply Z.leb_le in B; try apply Z.leb_gt in B; try lia;
        cbn [andb]; try reflexivity.
      destruct (k <? i + 1 + Z.of_nat todo) eqn:C,
               (k <? i + Z.of_nat (S todo)) eqn:D;
        try apply Z.ltb_lt in C; try apply Z.ltb_ge in C;
        try apply Z.ltb_lt in D; try apply Z.ltb_ge in D; try lia;
        reflexivity.
Qed.

(** Two lists of one length with the same entries are equal. *)
Lemma list_eq_rd (l1 l2 : list Z) :
  zlen l1 = zlen l2 ->
  (forall k, 0 <= k < zlen l1 -> rd l1 k = rd l2 k) ->
  l1 = l2.
Proof.
  revert l2. induction l1 as [|x l1 IH]; intros [|y l2] L H;
    unfold zlen in *; cbn [List.length] in *; try lia; [reflexivity|].
  f_equal.
  - specialize (H 0 ltac:(lia)). exact H.
  - apply IH; [lia|]. intros k Hk.
    specialize (H (k + 1) ltac:(lia)). unfold rd in *.
    replace (k + 1 <? 0) with false in H by (symmetry; apply Z.ltb_ge; lia).
    replace (k <? 0) with false by (symmetry; apply Z.ltb_ge; lia).
    replace (Z.to_nat (k + 1)) with (S (Z.to_nat k)) in H by lia.
    exact H.
Qed.

Lemma rd_app (l1 l2 : list Z) (k : Z) :
  rd (l1 ++ l2) k = if k <? zlen l1 then rd l1 k else rd l2 (k - zlen l1).
Proof.
  unfold rd, zlen. destruct (k <? 0) eqn:N.
  - apply Z.ltb_lt in N.
    replace (k <? Z.of_nat (List.length l1)) with true
      by (symmetry; apply Z.ltb_lt; lia).
    reflexivity.
  - apply Z.ltb_ge in N.
    destruct (k <? Z.of_nat (List.length l1)) eqn:L.
    + apply Z.ltb_lt in L. apply app_nth1. lia.
    + apply Z.ltb_ge in L.
      replace (k - Z.of_nat (List.length l1) <? 0) with false
        by (symmetry; apply Z.ltb_ge; lia).
      rewrite app_nth2 by lia. f_equal. lia.
Qed.

Lemma rd_repeat_one (n : nat) (k : Z) :
  0 <= k < Z.of_nat n -> rd (repeat 1 n) k = 1.
Proof.
  intros H. unfold rd.
  replace (k <? 0) with false by (symmetry; apply Z.ltb_ge; lia).
  apply nth_repeat_lt. lia.
Qed.

End OuterFacts.

(** The shape [prepare_input_arguments_for_outer] gives the first array. *)
Lemma outer_prepared_shape
        (PyArray_Newshape : PyArrayObject -> list Z -> option PyArrayObject)
        (ufunc : PyUFuncObject) (arg0 arg1 : outer_arg) (newshape : list Z)
        (ap_new ap2 : PyArrayObject) :
  zlen newshape = NPY_MAXDIMS ->
  prepare_input_arguments_for_outer PyArray_Newshape ufunc arg0 arg1 newshape
  = inl (ap_new, ap2) ->
  exists ap1,
    oa_array arg0 = Some ap1 /\ oa_array arg1 = Some ap2
    /\ PyArray_NDIM ap1 + PyArray_NDIM ap2 <= NPY_MAXDIMS
    /\ dims ap_new
       = dims ap1 ++ repeat 1 (Z.to_nat (PyArray_NDIM ap2)).
Proof.
  intros Len. unfold prepare_input_arguments_for_outer.
  destruct (oa_is_matrix arg0 && negb (oa_warn_ok arg0)); [discriminate|].
  destruct (oa_array arg0) as [ap1|]; [|discriminate].
  destruct (oa_is_matrix arg1 && negb (oa_warn_ok arg1)); [discriminate|].
  destruct (oa_array arg1) as [ap2'|]; [|discriminate].
  destruct (PyArray_NDIM ap1 + PyArray_NDIM ap2' >? NPY_MAXDIMS) eqn:M;
    [discriminate|].
  rewrite Z.gtb_ltb in M. apply Z.ltb_ge in M.
  pose proof (ndim_nonneg ap1) as N1. pose proof (ndim_nonneg ap2') as N2.
  destruct (copy_shape_spec (dims ap1) (Z.to_nat (PyArray_NDIM ap1))
              newshape 0 ltac:(lia) ltac:(lia)) as [L1 R1].
  destruct (fill_ones_spec
              (Z.to_nat (PyArray_NDIM ap1 + PyArray_NDIM ap2'
                         - PyArray_NDIM ap1))
              (copy_shape (dims ap1) newshape 0
                          (Z.to_nat (PyArray_NDIM ap1)))
              (PyArray_NDIM ap1) ltac:(lia) ltac:(lia)) as [L2 R2].
  destruct (PyArray_Newshape ap1 _) as [a|]; [|discriminate].
  destruct (PyArray_NDIM a =? PyArray_NDIM ap1 + PyArray_NDIM ap2') eqn:E;
    cbn [negb orb]; [|discriminate].
  apply Z.eqb_eq in E.
  destruct (PyArray_CompareLists (dims a) _ _) eqn:C; cbn [negb];
    [|discriminate].
  intros G. injection G as <- <-.
  exists ap1. split; [reflexivity|]. split; [reflexivity|].
  split; [exact M|].
  unfold PyArray_CompareLists in C.
  apply compare_lists_firstn in C. destruct C as (F & La & Lb).
  assert (Da : firstn (Z.to_nat (PyArray_NDIM ap1 + PyArray_NDIM ap2'))
                      (dims a) = dims a).
  { apply firstn_all2. rewrite <- E. unfold PyArray_NDIM, zlen. lia. }
  rewrite Da in F. rewrite F.
  apply list_eq_rd.
  - rewrite zlen_firstn by lia. unfold PyArray_NDIM, zlen.
    rewrite length_app, repeat_length. unfold PyArray_NDIM, zlen in *. lia.
  - rewrite zlen_firstn by lia. intros k Hk.
    rewrite rd_firstn by lia. rewrite R2, R1, rd_app.
    fold (PyArray_NDIM ap1).
    destruct (k <? PyArray_NDIM ap1) eqn:K.
    + apply Z.ltb_lt in K.
      replace (PyArray_NDIM ap1 <=? k) with false
        by (symmetry; apply Z.leb_gt; lia).
      replace (0 <=? k) with true by (symmetry; apply Z.leb_le; lia).
      replace (k <? 0 + Z.of_nat (Z.to_nat (PyArray_NDIM ap1))) with true
        by (symmetry; apply Z.ltb_lt; lia).
      reflexivity.
    + apply Z.ltb_ge in K.
      replace (PyArray_NDIM ap1 <=? k) with true
        by (symmetry; apply Z.leb_le; lia).
      replace (k <? PyArray_NDIM ap1
                    + Z.of_nat (Z.to_nat (PyArray_NDIM ap1 + PyArray_NDIM ap2'
                                          - PyArray_NDIM ap1))) with true
        by (symmetry; apply Z.ltb_lt; lia).
      cbn [andb]. symmetry. apply rd_repeat_one. lia.
Qed.

(** X22.  When [prepare_input_arguments_for_outer] succeeds, the second
    array is the second argument as converted, and the first has the
    shape of the first argument followed by one axis of length 1 for every
    dimension of the second, the two ranks together not exceeding
    [NPY_MAXDIMS]; what the block for the new shape held before does not
    matter. *)
Theorem outer_appends_unit_axes
        (PyArray_Newshape : PyArrayObject -> list Z -> option PyArrayObject)
        (ufunc : PyUFuncObject) (arg0 arg1 : outer_arg) (newshape : list Z)
        (ap_new ap2 : PyArrayObject) :
  zlen newshape = NPY_MAXDIMS ->
  prepare_input_arguments_for_outer PyArray_Newshape ufunc arg0 arg1 newshape
  = inl (ap_new, ap2) ->
  exists ap1,
    oa_array arg0 = Some ap1 /\ oa_array arg1 = Some ap2
    /\ PyArray_NDIM ap1 + PyArray_NDIM ap2 <= NPY_MAXDIMS
    /\ dims ap_new
       = dims ap1 ++ repeat 1 (Z.to_nat (PyArray_NDIM ap2)).
Proof.
  apply outer_prepared_shape.
Qed.

(** The theorem at arguments of the shapes (2, 3) and (4): the first
    becomes (2, 3, 1). *)
Lemma outer_appends_unit_axes_witness :
  let reshape (a : PyArrayObject) (shape : list Z) :=
    Some (mkArray (data a) shape (c_strides shape 8) (descr a) 1) in
  let a := array_of_shape [2; 3] in
  let b := array_of_shape [4] in
  exists ap_new,
    prepare_input_arguments_for_outer reshape (new_ufunc 2 1 "f")
      (mkOuterArg false true (Some a)) (mkOuterArg false true (Some b))
      (repeat 7 32) = inl (ap_new, b)
    /\ dims ap_new = [2; 3; 1].
Proof.
  cbv zeta. eexists. split; [vm_compute; reflexivity|].
  match goal with
  | |- dims ?n = _ =>
      destruct (outer_appends_unit_axes
                  (fun a shape =>
                     Some (mkArray (data a) shape (c_strides shape 8)
                                   (descr a) 1))
                  (new_ufunc 2 1 "f")
                  (mkOuterArg false true (Some (array_of_shape [2; 3])))
                  (mkOuterArg false true (Some (array_of_shape [4])))
                  (repeat 7 32) n (array_of_shape [4])
                  ltac:(reflexivity) ltac:(vm_compute; reflexivity))
        as (ap1 & A1 & _ & _ & D)
  end.
  cbn [oa_array] in A1. injection A1 as <-. exact D.
Defined.

(* ================================================================== *)
(** ** The method taken from the inputs                                *)
(* ================================================================== *)

Section FindArrayMethodFacts.

Variable priority_t : Type.
Variable priority_gt : priority_t -> priority_t -> bool.

Hypothesis gt_trans :
  forall a b c, priority_gt a b = true -> priority_gt b c = true ->
                priority_gt a c = true.
Hypothesis gt_cotrans :
  forall a b c, priority_gt a b = true ->
                priority_gt a c = true \/ priority_gt c b = true.

Lemma collect_methods_spec (args : list (method_arg priority_t)) :
  forall method,
    fst (collect_methods args method) = with_method args
    /\ (with_method args = [] ->
        snd (collect_methods args method) = method
        \/ snd (collect_methods args method) = None).
Proof.
  induction args as [|obj args IH]; intros method;
    cbn [collect_methods with_method flat_map].
  - split; [reflexivity|now left].
  - fold (with_method args).
    destruct (ma_exact_or_scalar obj); [apply IH|].
    destruct (ma_attr obj) as [m|].
    + destruct (ma_callable obj).
      * destruct (IH (Some m)) as [F _].
        destruct (collect_methods args (Some m)) as [found last].
        cbn [fst snd] in *. rewrite F. split; [reflexivity|discriminate].
      * destruct (IH None) as [F L]. split; [exact F|].
        intros E. right. destruct (L E) as [A|A]; exact A.
    + destruct (IH None) as [F L]. split; [exact F|].
      intros E. right. destruct (L E) as [A|A]; exact A.
Qed.

Lemma highest_priority_spec (rest : list (method_arg priority_t * Z)) :
  forall pre best m mid,
    (forall o' m', In (o', m') pre ->
                   priority_gt (ma_priority best) (ma_priority o') = true) ->
    (forall o' m', In (o', m') mid ->
                   priority_gt (ma_priority o') (ma_priority best) = false) ->
    exists before obj after,
      pre ++ (best, m) :: mid ++ rest
      = before
        ++ (obj, highest_priority priority_gt rest (ma_priority best) m)
        :: after
      /\ (forall o' m', In (o', m') before ->
                        priority_gt (ma_priority obj) (ma_priority o') = true)
      /\ (forall o' m', In (o', m') after ->
                        priority_gt (ma_priority o') (ma_priority obj)
                        = false).
Proof.
  induction rest as [|[o mo] rest IH]; intros pre best m mid Lower NotGt;
    cbn [highest_priority].
  - exists pre, best, mid. rewrite app_nil_r. now repeat split.
  - destruct (priority_gt (ma_priority o) (ma_priority best)) eqn:G.
    + destruct (IH (pre ++ (best, m) :: mid) o mo []) as
          (before & obj & after & E & L & N).
      * intros o' m' In'. apply in_app_or in In'.
        destruct In' as [In'|[In'|In']].
        -- eapply gt_trans; [exact G|]. eapply Lower. exact In'.
        -- injection In' as <- <-. exact G.
        -- destruct (gt_cotrans _ _ (ma_priority o') G) as [A|A];
             [exact A|].
           rewrite (NotGt o' m' In') in A. discriminate.
      * intros o' m' [].
      * exists before, obj, after. split; [|now split].
        rewrite <- E. cbn [app]. rewrite <- app_assoc. reflexivity.
    + destruct (IH pre best m (mid ++ [(o, mo)]) Lower) as
          (before & obj & after & E & L & N).
      * intros o' m' In'. apply in_app_or in In'.
        destruct In' as [In'|[In'|[]]]; [eapply NotGt; exact In'|].
        injection In' as <- <-. exact G.
      * exists before, obj, after. split; [|now split].
        rewrite <- E. rewrite <- app_assoc. reflexivity.
Qed.

End FindArrayMethodFacts.

(** X23.  [_find_array_method] returns no method exactly when no
    argument provides a callable one (exact arrays and scalars are not
    asked).  Otherwise it returns the method of an argument that provides
    one and whose priority is strictly higher than that of every such
    argument before it and not lower than that of any after it: the first
    argument of highest priority. *)
Theorem find_array_method_takes_highest_priority
        (priority_t : Type) (priority_gt : priority_t -> priority_t -> bool)
        (args : list (method_arg priority_t)) :
  (forall a b c, priority_gt a b = true -> priority_gt b c = true ->
                 priority_gt a c = true) ->
  (forall a b c, priority_gt a b = true ->
                 priority_gt a c = true \/ priority_gt c b = true) ->
  match _find_array_method priority_gt args with
  | None => with_method args = []
  | Some m =>
      exists before obj after,
        with_method args = before ++ (obj, m) :: after
        /\ (forall o' m', In (o', m') before ->
              priority_gt (ma_priority obj) (ma_priority o') = true)
        /\ (forall o' m', In (o', m') after ->
              priority_gt (ma_priority o') (ma_priority obj) = false)
  end.
Proof.
  intros Tr Co. unfold _find_array_method.
  destruct (collect_methods_spec priority_t args None) as [F L].
  destruct (collect_methods args None) as [found last].
  cbn [fst snd] in *. subst found.
  destruct (with_method args) as [|[obj m] rest] eqn:W.
  - destruct (L eq_refl) as [->| ->]; reflexivity.
  - destruct rest as [|p rest'].
    + exists [], obj, []. split; [reflexivity|].
      split; intros o' m' [].
    + destruct (highest_priority_spec priority_t priority_gt Tr Co
                  (p :: rest') [] obj m [])
        as (before & o & after & E & Lo & N).
      * intros o' m' [].
      * intros o' m' [].
      * exists before, o, after. split; [exact E|now split].
Qed.

(** The theorem at three arguments with the priorities 1, 5 and 5, the
    last two providing the methods 20 and 30: the method 20 is taken. *)
Lemma find_array_method_takes_highest_priority_witness :
  let args := [mkMethodArg Z false (Some 10) true 1;
               mkMethodArg Z false (Some 20) true 5;
               mkMethodArg Z false (Some 30) true 5] in
  _find_array_method Z.gtb args = Some 20
  /\ exists before obj after,
      with_method args = before ++ (obj, 20) :: after
      /\ (forall o' m', In (o', m') before ->
                        (ma_priority obj >? ma_priority o') = true)
      /\ (forall o' m', In (o', m') after ->
                        (ma_priority o' >? ma_priority obj) = false).
Proof.
  cbv zeta. split; [reflexivity|].
  exact (find_array_method_takes_highest_priority Z Z.gtb
           [mkMethodArg Z false (Some 10) true 1;
            mkMethodArg Z false (Some 20) true 5;
            mkMethodArg Z false (Some 30) true 5]
           ltac:(intros a b c; rewrite !Z.gtb_ltb, !Z.ltb_lt; lia)
           ltac:(intros a b c; rewrite !Z.gtb_ltb, !Z.ltb_lt; lia)).
Defined.

(* ================================================================== *)
(** ** The broadcast dimensions of a generalized call                  *)
(* ================================================================== *)

Lemma broadcast_ndim_from_spec (op : list (option PyArrayObject))
      (counts : list Z) (todo : nat) :
  forall i b0,
    b0 <= broadcast_ndim_from op counts i todo b0
    /\ (forall j a, i <= j < i + Z.of_nat todo -> get_op op j = Some a ->
                    PyArray_NDIM a - rd counts j
                    <= broadcast_ndim_from op counts i todo b0)
    /\ (broadcast_ndim_from op counts i todo b0 = b0
        \/ exists j a,
            i <= j < i + Z.of_nat todo /\ get_op op j = Some a
            /\ broadcast_ndim_from op counts i todo b0
               = PyArray_NDIM a - rd counts j).
Proof.
  induction todo as [|todo IH]; intros i b0; cbn [broadcast_ndim_from].
  - split; [lia|]. split; [intros j a Hj; lia|now left].
  - destruct (get_op op i) as [a|] eqn:Oi.
    + set (n := PyArray_NDIM a - rd counts i).
      destruct (IH (i + 1) (if n >? b0 then n else b0)) as (Ge & Le & At).
      assert (M : b0 <= (if n >? b0 then n else b0)
                  /\ n <= (if n >? b0 then n else b0)).
      { destruct (n >? b0) eqn:G; rewrite Z.gtb_ltb in G;
          [apply Z.ltb_lt in G|apply Z.ltb_ge in G]; lia. }
      split; [lia|]. split.
      * intros j b Hj Oj. destruct (Z.eq_dec j i) as [->|Ne].
        -- rewrite Oi in Oj. injection Oj as <-. fold n. lia.
        -- apply Le; [lia|exact Oj].
      * destruct At as [E|(j & b & Hj & Oj & E)].
        -- rewrite E. destruct (n >? b0); [|now left].
           right. exists i, a. split; [lia|]. now split.
        -- right. exists j, b. split; [lia|]. now split.
    + destruct (IH (i + 1) b0) as (Ge & Le & At).
      split; [exact Ge|]. split.
      * intros j b Hj Oj. destruct (Z.eq_dec j i) as [->|Ne];
          [congruence|]. apply Le; [lia|exact Oj].
      * destruct At as [E|(j & b & Hj & Oj & E)]; [now left|].
        right. exists j, b. split; [lia|]. now split.
Qed.

(** X24.  In a generalized call whose operands pass the check of their
    dimensions, every supplied operand has a number of broadcast
    dimensions (its rank less the core dimensions counted for it) that is
    not negative and at most [broadcast_ndim]; [broadcast_ndim] is 0 or
    the number of broadcast dimensions of some supplied operand. *)
Theorem broadcast_ndim_bounds_operands (ufunc : PyUFuncObject)
        (op : list (option PyArrayObject))
        (core_dim_flags op_core_num_dims flags' counts' : list Z)
        (broadcast_ndim : Z) :
  nargs ufunc = nin ufunc + nout ufunc ->
  validated_broadcast_ndim ufunc op core_dim_flags op_core_num_dims
  = inl (flags', counts', broadcast_ndim) ->
  0 <= broadcast_ndim
  /\ (forall i a, 0 <= i < nin ufunc + nout ufunc ->
                  get_op op i = Some a ->
                  0 <= PyArray_NDIM a - rd counts' i <= broadcast_ndim)
  /\ (broadcast_ndim = 0
      \/ exists i a,
          0 <= i < nin ufunc + nout ufunc /\ get_op op i = Some a
          /\ broadcast_ndim = PyArray_NDIM a - rd counts' i).
Proof.
  intros Hn. unfold validated_broadcast_ndim, _validate_num_dims.
  pose proof (validate_operands_spec ufunc op (Z.to_nat (nargs ufunc)) 0
                core_dim_flags op_core_num_dims) as V.
  destruct (validate_operands ufunc op (Z.to_nat (nargs ufunc)) 0
              core_dim_flags op_core_num_dims) as [[f c]|e];
    [|discriminate].
  intros G. injection G as <- <- <-.
  destruct V as (_ & _ & Enough).
  destruct (broadcast_ndim_from_spec op c
              (Z.to_nat (nin ufunc + nout ufunc)) 0 0) as (Ge & Le & At).
  split; [exact Ge|]. split.
  - intros i a Hi Oi. split.
    + specialize (Enough i a ltac:(lia) Oi). lia.
    + apply Le; [lia|exact Oi].
  - destruct At as [E|(j & b & Hj & Oj & E)]; [now left|].
    right. exists j, b. split; [lia|]. now split.
Qed.

(** The theorem at operands of the shapes (7, 3, 4) and (4) for the
    signature "(m,n),(n)->(m)", the output being left out: the first has
    one broadcast dimension, the second none. *)
Lemma broadcast_ndim_bounds_operands_witness :
  let ufunc := mkUFunc 2 1 3 "f" PyUFunc_None 0 [] None 1 2 [2; 1; 1]
                 [0; 2; 3] [0; 1; 1; 0] [-1; -1] [2; 2] "(m,n),(n)->(m)" in
  let op := [Some (array_of_shape [7; 3; 4]); Some (array_of_shape [4]);
             None] in
  validated_broadcast_ndim ufunc op [2; 2] [2; 1; 1]
  = inl ([2; 2], [2; 1; 1], 1)
  /\ (forall i a, 0 <= i < 2 + 1 -> get_op op i = Some a ->
                  0 <= PyArray_NDIM a - rd [2; 1; 1] i <= 1).
Proof.
  cbv zeta. split; [vm_compute; reflexivity|].
  destruct (broadcast_ndim_bounds_operands
              (mkUFunc 2 1 3 "f" PyUFunc_None 0 [] None 1 2 [2; 1; 1]
                 [0; 2; 3] [0; 1; 1; 0] [-1; -1] [2; 2] "(m,n),(n)->(m)")
              [Some (array_of_shape [7; 3; 4]); Some (array_of_shape [4]);
               None]
              [2; 2] [2; 1; 1] [2; 2] [2; 1; 1] 1
              ltac:(reflexivity) ltac:(vm_compute; reflexivity))
    as (_ & B & _).
  exact B.
Defined.

(* ================================================================== *)
(** ** The masked inner loop of a reduction                            *)
(* ================================================================== *)

Section MaskedLoopFacts.

Variable innerloop : list Z -> Z -> list Z -> machine -> machine.

Lemma runs_in_from (runs : list (Z * Z)) (from from' upto : Z) :
  from <= from' -> runs_in from' upto runs -> runs_in from upto runs.
Proof.
  destruct runs as [|[s n] rest]; cbn [runs_in]; [auto|].
  intros L (A & B & C & D). repeat split; try assumption. lia.
Qed.

Lemma in_runs_range (runs : list (Z * Z)) :
  forall from upto k,
    runs_in from upto runs -> in_runs runs k -> from <= k < upto.
Proof.
  induction runs as [|[s n] rest IH]; intros from upto k R (s' & n' & I & K).
  - destruct I.
  - cbn [runs_in] in R. destruct R as (A & B & C & D).
    destruct I as [E|I].
    + injection E as <- <-.
      destruct rest as [|[s2 n2] rest2]; [lia|].
      cbn [runs_in] in D. lia.
    + assert (H : s + n <= k < upto)
        by (apply (IH (s + n) upto k D); exists s', n'; now split).
      lia.
Qed.

(** The inner loop that extends a run. *)
Lemma extend_run_spec (m : Z -> Z) (mask mask_stride count base pos : Z)
      (fuel : nat) :
  forall n,
    0 <= n <= count ->
    (forall k, pos <= k < pos + n ->
               m (base + k * mask_stride) = mask) ->
    exists n',
      extend_run m mask mask_stride count n
                 (base + (pos + n) * mask_stride) fuel
      = (n', base + (pos + n') * mask_stride)
      /\ n <= n' <= count
      /\ forall k, pos <= k < pos + n' ->
                   m (base + k * mask_stride) = mask.
Proof.
  induction fuel as [|fuel IH]; intros n Hn Eq; cbn [extend_run].
  - exists n. split; [reflexivity|]. split; [lia|exact Eq].
  - destruct (n <? count) eqn:L; cbn [andb];
      [|exists n; split; [reflexivity|]; split; [lia|exact Eq]].
    apply Z.ltb_lt in L.
    destruct (mask =? m (base + (pos + n) * mask_stride)) eqn:E;
      [|exists n; split; [reflexivity|]; split; [lia|exact Eq]].
    apply Z.eqb_eq in E.
    destruct (IH (n + 1) ltac:(lia)) as (n' & R & B & Eq').
    + intros k Hk. destruct (Z.eq_dec k (pos + n)) as [->|Ne];
        [now symmetry|apply Eq; lia].
    + exists n'. split; [|split; [lia|exact Eq']].
      rewrite <- R. f_equal. lia.
Qed.

Variable dataptrs strides : list Z.
Variable count0 : Z.
Variable mask0 : Z -> Z.

Hypothesis mask_kept :
  forall s n m k,
    0 <= s -> 1 <= n -> s + n <= count0 -> 0 <= k < count0 ->
    mem (innerloop [rd dataptrs 0 + s * rd strides 0;
                    rd dataptrs 1 + s * rd strides 1;
                    rd dataptrs 0 + s * rd strides 0] n
                   [rd strides 0; rd strides 1; rd strides 0] m)
        (rd dataptrs 2 + k * rd strides 2)
    = mem m (rd dataptrs 2 + k * rd strides 2).

Lemma masked_runs_spec (fuel : nat) :
  forall pos count n r,
    0 <= pos -> 0 <= count -> pos + count = count0 ->
    count <= Z.of_nat fuel ->
    count = 0 \/ 1 <= n <= count ->
    n = 1 \/ rd strides 2 = 0 ->
    (forall k, pos <= k < pos + n -> mask0 k = mask0 pos) ->
    (forall k, 0 <= k < count0 ->
               mem (mach r) (rd dataptrs 2 + k * rd strides 2) = mask0 k) ->
    exists runs,
      trace (masked_runs innerloop (rd strides 0) (rd strides 1)
               (rd strides 2)
               (rd dataptrs 0 + pos * rd strides 0)
               (rd dataptrs 1 + pos * rd strides 1)
               count n (rd dataptrs 2 + pos * rd strides 2) fuel r)
      = trace r ++ map (run_event dataptrs strides) runs
      /\ runs_in pos count0 runs
      /\ forall k, pos <= k < count0 -> (in_runs runs k <-> mask0 k <> 0).
Proof.
  induction fuel as [|fuel IH]; intros pos count n r Hp Hc Hs Hf Hn Hone Same Kept.
  - cbn [masked_runs]. exists []. split; [now rewrite app_nil_r|].
    split; [exact I|]. intros k Hk. cbn in Hf. lia.
  - cbn [masked_runs].
    destruct (count =? 0) eqn:Z0.
    + apply Z.eqb_eq in Z0. exists [].
      split; [now rewrite app_nil_r|]. split; [exact I|].
      intros k Hk. lia.
    + apply Z.eqb_neq in Z0. destruct Hn as [Hn|Hn]; [lia|].
      rewrite (Kept pos) by lia.
      destruct (extend_run_spec (mem (mach r)) (mask0 pos) (rd strides 2)
                  count (rd dataptrs 2) pos (Z.to_nat count) n ltac:(lia))
        as (n' & R & B & Eq).
      { intros k Hk. rewrite Kept by lia. apply Same. exact Hk. }
      replace (rd dataptrs 2 + pos * rd strides 2 + rd strides 2)
        with (rd dataptrs 2 + (pos + 1) * rd strides 2) by lia.
      assert (R1 : extend_run (mem (mach r)) (mask0 pos) (rd strides 2)
                     count n (rd dataptrs 2 + (pos + 1) * rd strides 2)
                     (Z.to_nat count)
                   = (n', rd dataptrs 2 + (pos + n') * rd strides 2)).
      { destruct (Z.eq_dec (rd strides 2) 0) as [S0|S0].
        - rewrite S0 in *. rewrite !Z.mul_0_r in *. exact R.
        - (* a moving mask pointer starts a run of one element *)
          destruct Hone as [->|S1]; [exact R|contradiction]. }
      rewrite R1.
      assert (Run : forall k, pos <= k < pos + n' -> mask0 k = mask0 pos).
      { intros k Hk. rewrite <- (Kept k) by lia. apply Eq. exact Hk. }
      set (r' := if negb (mask0 pos =? 0)
                 then call_innerloop innerloop
                        [rd dataptrs 0 + pos * rd strides 0;
                         rd dataptrs 1 + pos * rd strides 1;
                         rd dataptrs 0 + pos * rd strides 0] n'
                        [rd strides 0; rd strides 1; rd strides 0] r
                 else r).
      assert (Kept' : forall k, 0 <= k < count0 ->
                 mem (mach r') (rd dataptrs 2 + k * rd strides 2) = mask0 k).
      { intros k Hk. unfold r'. destruct (negb _); [|now apply Kept].
        cbn [call_innerloop log mach]. rewrite mask_kept by lia.
        now apply Kept. }
      destruct (IH (pos + n') (count - n') 1 r' ltac:(lia) ltac:(lia)
                  ltac:(lia) ltac:(lia) ltac:(lia) ltac:(now left)
                  ltac:(intros k Hk; f_equal; lia) Kept')
        as (runs & T & In & Cov).
      replace (rd dataptrs 0 + pos * rd strides 0 + n' * rd strides 0)
        with (rd dataptrs 0 + (pos + n') * rd strides 0) by lia.
      replace (rd dataptrs 1 + pos * rd strides 1 + n' * rd strides 1)
        with (rd dataptrs 1 + (pos + n') * rd strides 1) by lia.
      fold r'. rewrite T.
      destruct (mask0 pos =? 0) eqn:M; cbn [negb] in r'; unfold r'.
      * apply Z.eqb_eq in M. exists runs. split; [reflexivity|].
        split; [apply (runs_in_from runs pos (pos + n')); [lia|exact In]|].
        intros k Hk. destruct (Z_lt_ge_dec k (pos + n')) as [Lt|Ge].
        -- split.
           ++ intros C. apply (in_runs_range _ _ _ _ In) in C. lia.
           ++ intros N. exfalso. apply N. rewrite Run by lia. exact M.
        -- apply Cov. lia.
      * apply Z.eqb_neq in M. exists ((pos, n') :: runs). split.
        -- cbn [call_innerloop log trace map].
           rewrite <- app_assoc. reflexivity.
        -- split; [cbn [runs_in]; repeat split; try lia; exact In|].
           intros k Hk. destruct (Z_lt_ge_dec k (pos + n')) as [Lt|Ge].
           ++ split; [intros _; rewrite Run by lia; exact M|].
              intros _. exists pos, n'. split; [now left|lia].
           ++ rewrite <- (Cov k ltac:(lia)). split.
              ** intros (s & m & [E|I'] & K);
                   [injection E as <- <-; lia|].
                 exists s, m. now split.
              ** intros (s & m & I' & K). exists s, m.
                 split; [now right|exact K].
Qed.

End MaskedLoopFacts.

Lemma rd_third (a b c : Z) : rd [a; b; c] 2 = c.
Proof. reflexivity. Qed.

(** X25.  For a kernel that writes only its output operand and a mask
    that no output element overlaps, the masked branch of [reduce_loop]
    hands the kernel exactly the elements of the position whose mask byte
    is not zero: it invokes the kernel on runs of consecutive elements
    that lie inside the position, are not empty and follow each other
    without overlap, and an element lies in one of the runs if and only
    if its mask byte is set. *)
Theorem masked_loop_reduces_marked_elements
        (innerloop : list Z -> Z -> list Z -> machine -> machine)
        (dataptrs strides : list Z) (count : Z) (r : run) :
  0 <= count ->
  kernel_frame innerloop ->
  (forall k j, 0 <= k < count -> 0 <= j < count ->
               rd dataptrs 2 + k * rd strides 2
               <> rd dataptrs 0 + j * rd strides 0) ->
  exists runs,
    added r (masked_inner_loop innerloop dataptrs strides count r)
          (map (run_event dataptrs strides) runs)
    /\ runs_in 0 count runs
    /\ forall k, 0 <= k < count ->
                 (in_runs runs k
                  <-> mem (mach r) (rd dataptrs 2 + k * rd strides 2) <> 0).
Proof.
  intros Hc Frame Apart. unfold masked_inner_loop, added.
  destruct (masked_runs_spec innerloop dataptrs strides count
              (fun k => mem (mach r) (rd dataptrs 2 + k * rd strides 2))
              ltac:(intros s n m k Hs Hn Hsn Hk; apply Frame;
                    intros (j & Hj & E); rewrite !rd_third in E;
                    apply (Apart k (s + j) Hk ltac:(lia)); lia)
              (Z.to_nat count) 0 count
              (if rd strides 2 =? 0 then count else 1) r
              ltac:(lia) Hc ltac:(lia) ltac:(lia))
    as (runs & T & In & Cov).
  - destruct (Z.eq_dec count 0) as [Z0|Z0]; [now left|right].
    destruct (rd strides 2 =? 0); lia.
  - destruct (rd strides 2 =? 0) eqn:E; [right; now apply Z.eqb_eq|now left].
  - intros k Hk. destruct (rd strides 2 =? 0) eqn:E.
    + apply Z.eqb_eq in E. rewrite E. now rewrite !Z.mul_0_r.
    + replace k with 0 by lia. reflexivity.
  - intros k Hk. reflexivity.
  - exists runs. rewrite !Z.mul_0_l, !Z.add_0_r in T.
    split; [exact T|]. split; [exact In|exact Cov].
Qed.

(** The theorem at a position of five elements with the mask bytes 1, 1,
    0, 1, 0 for the kernel of [add]: the kernel is invoked on the elements
    0 and 1, and on element 3. *)
Lemma masked_loop_reduces_marked_elements_witness :
  let m := fun q => if q =? 200 then 1 else if q =? 201 then 1
                    else if q =? 203 then 1 else 0 in
  let r := mkRun (mkMachine m (fun _ => 0) [] false) [] in
  trace (masked_inner_loop (binary_kernel Z.add) [0; 100; 200] [0; 8; 1] 5 r)
  = [EvKernel [0; 100; 0] 2 [0; 8; 0]; EvKernel [0; 124; 0] 1 [0; 8; 0]]
  /\ exists runs,
      added r
            (masked_inner_loop (binary_kernel Z.add) [0; 100; 200] [0; 8; 1]
                               5 r)
            (map (run_event [0; 100; 200] [0; 8; 1]) runs)
      /\ runs_in 0 5 runs
      /\ forall k, 0 <= k < 5 ->
                   (in_runs runs k
                    <-> mem (mach r) (rd [0; 100; 200] 2
                                      + k * rd [0; 8; 1] 2) <> 0).
Proof.
  cbv zeta. split; [vm_compute; reflexivity|].
  apply (masked_loop_reduces_marked_elements (binary_kernel Z.add)
           [0; 100; 200] [0; 8; 1] 5).
  - lia.
  - apply binary_kernel_frame.
  - intros k j Hk Hj.
    change (rd [0; 100; 200] 2) with 200. change (rd [0; 8; 1] 2) with 1.
    change (rd [0; 100; 200] 0) with 0. change (rd [0; 8; 1] 0) with 0.
    lia.
Defined.

(* ================================================================== *)
(** ** What reduce hands to the reduction wrapper                      *)
(* ================================================================== *)

Lemma reduce_axis_flags_some (axes : list Z) :
  forall axis_flags flags',
    Forall (in_rank (zlen axis_flags)) axes ->
    reduce_axis_flags axes axis_flags = Some flags' ->
    zlen flags' = zlen axis_flags
    /\ forall k, (In k axes -> rd flags' k = 1)
                 /\ (~ In k axes -> rd flags' k = rd axis_flags k).
Proof.
  induction axes as [|a axes IH]; intros fl fl' R; cbn [reduce_axis_flags].
  - intros G. injection G as <-. split; [reflexivity|].
    intros k. split; [intros []|reflexivity].
  - inversion R as [|? ? Ra R']; subst.
    destruct (rd fl a =? 0) eqn:E; cbn [negb]; [|discriminate].
    intros G.
    destruct (IH (wr fl a 1) fl' ltac:(now rewrite zlen_wr) G) as [L K].
    rewrite zlen_wr in L. split; [exact L|].
    intros k. destruct (K k) as [K1 K2]. split.
    + intros [<-|I]; [|now apply K1].
      destruct (in_dec Z.eq_dec a axes) as [I|N]; [now apply K1|].
      rewrite K2 by exact N. apply rd_wr_same. exact Ra.
    + intros N. rewrite K2 by (intros I; apply N; now right).
      apply rd_wr_other. intros ->. apply N. now left.
Qed.

(** X26.  For axes that lie within the rank and are all different, and
    with the error settings, the identity and the type resolved,
    [PyUFunc_Reduce] is a call of the reduction wrapper that marks exactly
    the given axes for reduction, reduces in the resolved type, and starts
    from the [initial] argument when there is one; without it, it starts
    from the identity of the ufunc, except that a non-empty array of
    objects starts from no value at all. *)
Theorem reduce_hands_over_axes_and_initial (env : collaborators)
        (ufunc : PyUFuncObject) (arr : PyArrayObject)
        (out : option PyArrayObject) (axes : list Z)
        (odtype : option PyArray_Descr) (keepdims : Z)
        (initial : option pyobj) (wheremask : option PyArrayObject)
        (r : run) (identity : pyobj) (reorderable : bool)
        (dtype : PyArray_Descr) :
  Forall (in_rank (PyArray_NDIM arr)) axes ->
  NoDup axes ->
  get_bufsize_errmask_ok env = true ->
  _get_identity ufunc = Some (identity, reorderable) ->
  reduce_type_resolver env ufunc arr odtype = inl dtype ->
  exists axis_flags initial',
    PyUFunc_Reduce env ufunc arr out axes odtype keepdims initial wheremask r
    = PyUFunc_ReduceWrapper env arr out wheremask dtype axis_flags
                            reorderable keepdims initial' r
    /\ Z.of_nat (List.length axis_flags) = PyArray_NDIM arr
    /\ (forall k, 0 <= k < PyArray_NDIM arr ->
                  (nth (Z.to_nat k) axis_flags false = true <-> In k axes))
    /\ match initial with
       | Some v => initial' = v
       | None =>
           if (type_num (descr arr) =? NPY_OBJECT)
              && negb (PyArray_SIZE arr =? 0)
           then initial' = PyNone
           else initial' = identity
       end.
Proof.
  intros R D B Id Ty. unfold PyUFunc_Reduce.
  pose proof (ndim_nonneg arr) as Nn.
  assert (L : zlen (repeat 0 (Z.to_nat (PyArray_NDIM arr)))
              = PyArray_NDIM arr)
    by (rewrite zlen_repeat; lia).
  destruct (reduce_axis_flags axes (repeat 0 (Z.to_nat (PyArray_NDIM arr))))
    as [flags|] eqn:F.
  - destruct (reduce_axis_flags_some axes _ flags ltac:(now rewrite L) F)
      as [Lf K].
    rewrite L in Lf. rewrite B, Id, Ty. cbn [negb].
    eexists. eexists. split; [reflexivity|].
    split; [rewrite length_map; exact Lf|]. split.
    + intros k Hk.
      assert (Nth : nth (Z.to_nat k)
                        (map (fun f => negb (f =? 0)) flags) false
                    = negb (rd flags k =? 0)).
      { unfold rd. replace (k <? 0) with false
          by (symmetry; apply Z.ltb_ge; lia).
        change false with ((fun f => negb (f =? 0)) 0) at 1.
        apply map_nth. }
      rewrite Nth. destruct (K k) as [K1 K2].
      destruct (in_dec Z.eq_dec k axes) as [I|N].
      * rewrite (K1 I). split; [intros _; exact I|reflexivity].
      * rewrite (K2 N), rd_repeat_zero. split; [discriminate|contradiction].
    + destruct initial as [v|]; [reflexivity|].
      destruct (is_py_none identity) eqn:Pn; cbn [negb andb].
      * destruct identity; try discriminate.
        destruct (_ && _); reflexivity.
      * destruct ((type_num (descr arr) =? NPY_OBJECT)
                  && negb (PyArray_SIZE arr =? 0)); reflexivity.
  - exfalso.
    apply (reduce_axis_flags_none axes
             (repeat 0 (Z.to_nat (PyArray_NDIM arr)))) in F;
      [|now rewrite L].
    apply F. split; [exact D|]. intros a _. apply rd_repeat_zero.
Qed.

(** The theorem at [add.reduce] over axis 0 of a vector of three
    elements: the only axis is marked and the reduction starts from 0. *)
Lemma reduce_hands_over_axes_and_initial_witness :
  exists axis_flags initial',
    PyUFunc_Reduce add_env add_ufunc (long_vector 0 3) None [0]
                   (Some (mkDescr NPY_LONG 8)) 0 None None
                   (fresh_run (fun _ => 0))
    = PyUFunc_ReduceWrapper add_env (long_vector 0 3) None None
                            (mkDescr NPY_LONG 8) axis_flags true 0 initial'
                            (fresh_run (fun _ => 0))
    /\ (nth 0 axis_flags false = true <-> In 0 [0])
    /\ initial' = PyLong 0.
Proof.
  destruct (reduce_hands_over_axes_and_initial add_env add_ufunc
              (long_vector 0 3) None [0] (Some (mkDescr NPY_LONG 8)) 0 None
              None (fresh_run (fun _ => 0)) (PyLong 0) true
              (mkDescr NPY_LONG 8)
              ltac:(repeat constructor; vm_compute; discriminate)
              ltac:(repeat constructor; intros [])
              ltac:(reflexivity) ltac:(reflexivity) ltac:(reflexivity))
    as (flags & init & E & _ & F & I).
  exists flags, init. split; [exact E|].
  split; [exact (F 0 ltac:(vm_compute; split; [discriminate|reflexivity]))|].
  exact I.
Defined.

(* ================================================================== *)
(** * The entry points of accumulate and reduceat                      *)
(* ================================================================== *)

(* ================================================================== *)
(** ** Walks over lanes                                                *)
(* ================================================================== *)

Section WalkFacts.

Variable lane : Z -> Z -> run -> run.
Variable cells targets : Z -> Z -> Prop.

Hypothesis lane_frame :
  forall d0 d1 r q, ~ cells d0 q ->
                    mem (mach (lane d0 d1 r)) q = mem (mach r) q.

Hypothesis lane_added :
  forall d0 d1 r,
    exists extra,
      added r (lane d0 d1 r) extra
      /\ forall e q, In e extra -> kernel_targets e q -> targets d0 q.

Lemma walk_lanes_app (a b : list (list Z)) :
  forall r, walk_lanes lane (a ++ b) r = walk_lanes lane b (walk_lanes lane a r).
Proof.
  induction a as [|l a IH]; intros r; [reflexivity|].
  cbn [app walk_lanes]. apply IH.
Qed.

Lemma walk_lanes_frame (lanes : list (list Z)) :
  forall r q,
    (forall l, In l lanes -> ~ cells (rd l 0) q) ->
    mem (mach (walk_lanes lane lanes r)) q = mem (mach r) q.
Proof.
  induction lanes as [|l lanes IH]; intros r q H; [reflexivity|].
  cbn [walk_lanes]. rewrite IH by (intros l' Hl'; apply H; now right).
  apply lane_frame. apply H. now left.
Qed.

Lemma walk_lanes_added (lanes : list (list Z)) :
  forall r,
    exists extra,
      added r (walk_lanes lane lanes r) extra
      /\ forall e q, In e extra -> kernel_targets e q ->
                     exists l, In l lanes /\ targets (rd l 0) q.
Proof.
  induction lanes as [|l lanes IH]; intros r.
  - exists []. split; [apply added_refl|]. intros e q [].
  - cbn [walk_lanes].
    destruct (lane_added (rd l 0) (rd l 1) r) as (e1 & A1 & T1).
    destruct (IH (lane (rd l 0) (rd l 1) r)) as (e2 & A2 & T2).
    exists (e1 ++ e2). split; [exact (added_trans _ _ _ _ _ A1 A2)|].
    intros e q He Tq. apply in_app_or in He. destruct He as [He|He].
    + exists l. split; [now left|]. now apply (T1 e).
    + destruct (T2 e q He Tq) as (l' & Hl' & Tl').
      exists l'. split; [now right|exact Tl'].
Qed.

(** What a walk does around one of its lanes. *)
Lemma walk_lanes_around (pre post : list (list Z)) (l : list Z) (r : run) :
  let r1 := walk_lanes lane pre r in
  let r2 := lane (rd l 0) (rd l 1) r1 in
  walk_lanes lane (pre ++ l :: post) r = walk_lanes lane post r2
  /\ (forall q, (forall l', In l' pre -> ~ cells (rd l' 0) q) ->
                mem (mach r1) q = mem (mach r) q)
  /\ (forall q, (forall l', In l' post -> ~ cells (rd l' 0) q) ->
                mem (mach (walk_lanes lane post r2)) q = mem (mach r2) q).
Proof.
  cbv zeta. split; [now rewrite walk_lanes_app|].
  split; intros q H; now apply walk_lanes_frame.
Qed.

End WalkFacts.

Section ErrFacts.

Variable env : collaborators.
Hypothesis keep : kernels_keep_err env.

Lemma copy_first_element_err (otype dst src : Z) (r : run) :
  err (mach (copy_first_element otype dst src r)) = err (mach r).
Proof.
  unfold copy_first_element, Py_XDECREF, Py_XINCREF.
  destruct (otype =? NPY_OBJECT); [|reflexivity].
  cbn [set_mem mach err].
  destruct (mem (mach r) src =? 0);
    match goal with
    | |- context [if ?c then _ else _] => destruct c
    end; reflexivity.
Qed.

Lemma call_loop_err (id : loop_id) (args : list Z) (count : Z)
      (steps : list Z) (r : run) :
  err (mach (call_loop env id args count steps r)) = err (mach r).
Proof. unfold call_loop, call_innerloop, log. cbn [mach]. apply keep. Qed.

Lemma accumulate_lane_err (loop : loop_id) (otype c s0 s1 d0 d1 : Z)
      (r : run) :
  err (mach (accumulate_lane env loop otype c s0 s1 d0 d1 r)) = err (mach r).
Proof.
  unfold accumulate_lane. destruct (c >? 0).
  - rewrite call_loop_err. apply copy_first_element_err.
  - apply copy_first_element_err.
Qed.

Lemma reduceat_segment_err (loop : loop_id) (otype : Z)
      (reduceat_ind : list Z) (ind_size len s0 s1 d0 d1 i : Z) (r : run) :
  err (mach (reduceat_segment env loop otype reduceat_ind ind_size len s0 s1
               d0 d1 i r)) = err (mach r).
Proof.
  unfold reduceat_segment.
  match goal with |- context [if ?c then _ else _] => destruct c end.
  - rewrite call_loop_err. apply copy_first_element_err.
  - apply copy_first_element_err.
Qed.

Lemma reduceat_lane_err (loop : loop_id) (otype : Z)
      (reduceat_ind : list Z) (ind_size len s0 s1 d0 d1 : Z) (r : run) :
  err (mach (reduceat_lane env loop otype reduceat_ind ind_size len s0 s1
               d0 d1 r)) = err (mach r).
Proof.
  unfold reduceat_lane. generalize 0 as i. revert r.
  induction (Z.to_nat ind_size) as [|n IH]; intros r i; [reflexivity|].
  cbn [reduceat_segments]. rewrite IH. apply reduceat_segment_err.
Qed.

End ErrFacts.

Section LanesAreWalks.

Variable env : collaborators.

(** The loop over the lanes is a walk when no error interrupts it. *)
Lemma accumulate_lanes_walk (loop : loop_id) (otype c s0 s1 : Z)
      (needs_api : bool) (next : list (list Z)) :
  forall d r,
    uninterrupted env needs_api r ->
    accumulate_lanes env loop otype c s0 s1 needs_api d next r
    = walk_lanes (accumulate_lane env loop otype c s0 s1) (d :: next) r.
Proof.
  induction next as [|d' next IH]; intros d r U; cbn [accumulate_lanes walk_lanes].
  - destruct (needs_api && _); reflexivity.
  - assert (E : needs_api
                && err (mach (accumulate_lane env loop otype c s0 s1
                                (rd d 0) (rd d 1) r)) = false).
    { destruct U as [->|[E K]]; [reflexivity|].
      rewrite (accumulate_lane_err env K), E. apply andb_false_r. }
    rewrite E. rewrite IH; [reflexivity|].
    destruct U as [U|[E0 K]]; [now left|right].
    split; [|exact K]. now rewrite (accumulate_lane_err env K).
Qed.

Lemma reduceat_lanes_walk (loop : loop_id) (otype : Z)
      (reduceat_ind : list Z) (ind_size len s0 s1 : Z)
      (needs_api : bool) (next : list (list Z)) :
  forall d r,
    uninterrupted env needs_api r ->
    reduceat_lanes env loop otype reduceat_ind ind_size len s0 s1 needs_api
                   d next r
    = walk_lanes (reduceat_lane env loop otype reduceat_ind ind_size len s0
                                s1) (d :: next) r.
Proof.
  induction next as [|d' next IH]; intros d r U; cbn [reduceat_lanes walk_lanes].
  - destruct (needs_api && _); reflexivity.
  - assert (E : needs_api
                && err (mach (reduceat_lane env loop otype reduceat_ind
                                ind_size len s0 s1 (rd d 0) (rd d 1) r))
                = false).
    { destruct U as [->|[E K]]; [reflexivity|].
      rewrite (reduceat_lane_err env K), E. apply andb_false_r. }
    rewrite E. rewrite IH; [reflexivity|].
    destruct U as [U|[E0 K]]; [now left|right].
    split; [|exact K]. now rewrite (reduceat_lane_err env K).
Qed.

End LanesAreWalks.

Section CallWalks.

Variable env : collaborators.

(** A call of [PyUFunc_Accumulate] that returns an array: the loop it
    selected, the arrays and lanes it works on, and the run it leaves. *)
Lemma accumulate_call_walk (ufunc : PyUFuncObject) (arr : PyArrayObject)
      (out : option PyArrayObject) (axis otype : Z) (r r' : run)
      (res : PyArrayObject) :
  PyUFunc_Accumulate env ufunc arr out axis otype r = (Returned res, r') ->
  exists otype_final loop op0 op1 lanes needs_api r0,
    get_binary_op_function env ufunc otype = Some (otype_final, loop)
    /\ accumulate_walk env arr out res op0 op1 lanes needs_api
    /\ (r0 = r \/ (out = None /\ r0 = log (EvAlloc res) r))
    /\ r' = (if (PyArray_DIM op1 axis =? 0) || (PyArray_SIZE op0 =? 0)
             then r0
             else match lanes with
                  | [] => r0
                  | d :: next =>
                      accumulate_lanes env loop otype
                        (PyArray_DIM op1 axis - 1) (PyArray_STRIDE op0 axis)
                        (PyArray_STRIDE op1 axis) needs_api d next r0
                  end).
Proof.
  unfold PyUFunc_Accumulate.
  destruct (negb (get_bufsize_errmask_ok env)); [discriminate|].
  destruct (get_binary_op_function env ufunc otype) as [[otype_final loop]|];
    [|discriminate].
  destruct (reduction_dtype env arr otype_final) as [dtype0|];
    [|discriminate].
  match goal with
  | |- context [if ?b then _ else _] => destruct b eqn:Need
  end.
  - destruct (NpyIter_AdvancedNew env [out; Some arr] dtype0) as [it|] eqn:N;
      [|discriminate].
    destruct (negb (ri_remove_axis_ok it)); [discriminate|].
    destruct (negb (ri_remove_multi_index_ok it)); [discriminate|].
    set (op0 := nth 0 (ri_operands it) arr).
    set (op1 := nth 1 (ri_operands it) arr).
    intros H.
    assert (W : forall res0,
               res0 = match out with Some o => o | None => op0 end ->
               accumulate_walk env arr out res0 op0 op1
                 (if ri_size it =? 0 then [] else ri_first it :: ri_next it)
                 (ri_needs_api it)).
    { intros res0 E. right. exists dtype0, it. now repeat split. }
    exists otype_final, loop, op0, op1,
      (if ri_size it =? 0 then [] else ri_first it :: ri_next it),
      (ri_needs_api it), r.
    split; [reflexivity|].
    destruct (PyArray_DIM op1 axis =? 0) eqn:E0.
    { cbn [orb]. destruct (ri_dealloc_ok it); [|discriminate].
      injection H as <- <-. split; [now apply W|]. split; [now left|reflexivity]. }
    destruct (PyArray_SIZE op0 =? 0) eqn:E1.
    { cbn [orb]. destruct (ri_dealloc_ok it); [|discriminate].
      injection H as <- <-. split; [now apply W|]. split; [now left|reflexivity]. }
    cbn [orb].
    destruct (ri_size it =? 0) eqn:Z0; cbn [negb] in H.
    + destruct (ri_dealloc_ok it); [|discriminate].
      injection H as <- <-. split; [now apply W|]. split; [now left|reflexivity].
    + destruct (negb (ri_iternext_ok it)); [discriminate|].
      destruct (ri_dealloc_ok it); [|discriminate].
      injection H as <- <-. split; [now apply W|]. split; [now left|reflexivity].
  - assert (Le : PyArray_NDIM arr <= 1).
    { apply orb_false_iff in Need. destruct Need as [Need _].
      apply orb_false_iff in Need. destruct Need as [Need _].
      rewrite Z.gtb_ltb in Need. apply Z.ltb_ge in Need. exact Need. }
    assert (A : forall op0 r0,
               (r0 = r \/ (out = None /\ r0 = log (EvAlloc op0) r)) ->
               accumulate_walk env arr out op0 op0 arr
                               [[data op0; data arr]] false ->
               (if PyArray_DIM arr axis =? 0 then (Returned op0, r0)
                else if PyArray_SIZE op0 =? 0 then (Returned op0, r0)
                else if negb (PyArray_NDIM op0 =? PyArray_NDIM arr)
                        || negb (PyArray_CompareLists (dims op0) (dims arr)
                                                      (PyArray_NDIM op0))
                then (Raised (ValueError
                        "provided out is the wrong size for the reduction"),
                      r0)
                else (Returned op0,
                      accumulate_lane env loop otype
                        (PyArray_DIM arr axis - 1) (PyArray_STRIDE op0 axis)
                        (PyArray_STRIDE arr axis) (data op0) (data arr) r0))
               = (Returned res, r') ->
               exists otype_final0 loop0 op0 op1 lanes needs_api r0,
                 Some (otype_final, loop) = Some (otype_final0, loop0)
                 /\ accumulate_walk env arr out res op0 op1 lanes needs_api
                 /\ (r0 = r \/ (out = None /\ r0 = log (EvAlloc res) r))
                 /\ r' = (if (PyArray_DIM op1 axis =? 0)
                             || (PyArray_SIZE op0 =? 0)
                          then r0
                          else match lanes with
                               | [] => r0
                               | d :: next =>
                                   accumulate_lanes env loop0 otype
                                     (PyArray_DIM op1 axis - 1)
                                     (PyArray_STRIDE op0 axis)
                                     (PyArray_STRIDE op1 axis) needs_api d
                                     next r0
                               end)).
    { intros op0 r0 Hr0 W H.
      exists otype_final, loop, op0, arr, [[data op0; data arr]], false, r0.
      split; [reflexivity|].
      destruct (PyArray_DIM arr axis =? 0) eqn:E0.
      { injection H as <- <-. cbn [orb]. now repeat split. }
      destruct (PyArray_SIZE op0 =? 0) eqn:E1.
      { injection H as <- <-. cbn [orb]. now repeat split. }
      destruct (negb _ || negb _); [discriminate|].
      injection H as <- <-. cbn [orb].
      split; [exact W|]. split; [exact Hr0|].
      now rewrite accumulate_lanes_single. }
    destruct out as [o|].
    + intros H. apply (A o r); [now left| |exact H].
      left. repeat split; [exact Le].
    + destruct (PyArray_NewFromDescr (new_block env) dtype0
                  (PyArray_NDIM arr) (dims arr) false) as [o|] eqn:N;
        [|discriminate].
      intros H. apply (A o (log (EvAlloc o) r)); [now right| |exact H].
      left. split; [reflexivity|]. split; [reflexivity|].
      split; [reflexivity|]. split; [reflexivity|]. split; [exact Le|].
      now exists dtype0.
Qed.

End CallWalks.

Section AccumulateWalk.

Variable env : collaborators.
Variable loop : loop_id.
Variable otype c s0 s1 : Z.

Hypothesis F : kernel_frame (loops env loop).
Hypothesis S0 : s0 <> 0.

(** The cells the kernel of a lane may write: its output cells but the
    first. *)
Lemma accumulate_lane_targets (d0 d1 : Z) (r : run) :
  exists extra,
    added r (accumulate_lane env loop otype c s0 s1 d0 d1 r) extra
    /\ forall e q, In e extra -> kernel_targets e q ->
                   accumulate_cells c s0 d0 q /\ q <> d0.
Proof.
  destruct (accumulate_lane_spec env loop otype c s0 s1 d0 d1 r F S0)
    as (_ & _ & extra & A & N & K).
  exists extra. split; [exact A|].
  intros e q He T.
  split; [|intros ->; exact (N e He T)].
  destruct e as [args count steps| | |]; try contradiction.
  assert (I : In (EvKernel args count steps) (kernel_calls extra)).
  { unfold kernel_calls. apply filter_In. split; [exact He|reflexivity]. }
  destruct K as [K|K]; rewrite K in I; [contradiction|].
  destruct I as [I|[]]. injection I as <- <- <-.
  destruct T as (j & Hj & Eq). unfold rd in Eq. simpl in Eq.
  exists (j + 1). split; [lia|]. rewrite Eq. ring.
Qed.

Lemma accumulate_lane_frame (d0 d1 : Z) (r : run) (q : Z) :
  ~ accumulate_cells c s0 d0 q ->
  mem (mach (accumulate_lane env loop otype c s0 s1 d0 d1 r)) q
  = mem (mach r) q.
Proof.
  intros H.
  destruct (accumulate_lane_spec env loop otype c s0 s1 d0 d1 r F S0)
    as (_ & Fr & _).
  now apply Fr.
Qed.

(** A lane of a walk ends with the first element its input had before
    the walk, no kernel having written it, when the other lanes keep off
    it. *)
Lemma accumulate_walk_first (pre post : list (list Z)) (l : list Z)
      (r : run) :
  (forall l', In l' pre ->
              ~ accumulate_cells c s0 (rd l' 0) (rd l 1)
              /\ ~ accumulate_cells c s0 (rd l' 0) (rd l 0)) ->
  (forall l', In l' post -> ~ accumulate_cells c s0 (rd l' 0) (rd l 0)) ->
  let r' := walk_lanes (accumulate_lane env loop otype c s0 s1)
              (pre ++ l :: post) r in
  mem (mach r') (rd l 0) = mem (mach r) (rd l 1)
  /\ exists extra,
      added r r' extra
      /\ forall e, In e extra -> ~ kernel_targets e (rd l 0).
Proof.
  intros Hpre Hpost r'. subst r'.
  destruct (walk_lanes_around (accumulate_lane env loop otype c s0 s1)
              (accumulate_cells c s0) accumulate_lane_frame pre post l r)
    as (E & P1 & P2).
  cbv zeta in E, P1, P2. split.
  - rewrite E, P2 by exact Hpost.
    destruct (accumulate_lane_spec env loop otype c s0 s1 (rd l 0) (rd l 1)
                (walk_lanes (accumulate_lane env loop otype c s0 s1) pre r)
                F S0) as (L & _).
    rewrite L. apply P1. intros l' Hl'. now apply Hpre.
  - destruct (walk_lanes_added (accumulate_lane env loop otype c s0 s1)
                (fun d0 q => accumulate_cells c s0 d0 q /\ q <> d0)
                accumulate_lane_targets (pre ++ l :: post) r)
      as (extra & A & T).
    exists extra. split; [exact A|].
    intros e He Tq. destruct (T e _ He Tq) as (l' & Hl' & Cl & Ne).
    apply in_app_or in Hl'. destruct Hl' as [Hl'|[<-|Hl']].
    + now apply (Hpre l' Hl').
    + now apply Ne.
    + now apply (Hpost l' Hl').
Qed.

(** The trace only grows along the lanes, from the copy of the first
    element of the first lane on. *)
Lemma accumulate_lane_grows (d0 d1 : Z) (r : run) :
  exists rest,
    added (copy_first_element otype d0 d1 r)
          (accumulate_lane env loop otype c s0 s1 d0 d1 r) rest.
Proof.
  unfold accumulate_lane. destruct (c >? 0).
  - eexists. unfold call_loop, call_innerloop, log, added. cbn [trace].
    reflexivity.
  - exists []. apply added_refl.
Qed.

Lemma accumulate_lanes_added (needs_api : bool) (next : list (list Z)) :
  forall d r,
    exists extra,
      added r (accumulate_lanes env loop otype c s0 s1 needs_api d next r)
            extra.
Proof.
  induction next as [|d' next IH]; intros d r; cbn [accumulate_lanes].
  - destruct (accumulate_lane_targets (rd d 0) (rd d 1) r) as (e & A & _).
    exists e. destruct (needs_api && _); exact A.
  - destruct (accumulate_lane_targets (rd d 0) (rd d 1) r) as (e & A & _).
    destruct (needs_api && _); [now exists e|].
    destruct (IH d' (accumulate_lane env loop otype c s0 s1 (rd d 0)
                       (rd d 1) r)) as (e2 & A2).
    exists (e ++ e2). exact (added_trans _ _ _ _ _ A A2).
Qed.

Lemma accumulate_lanes_grows (needs_api : bool) (next : list (list Z))
      (d : list Z) (r : run) :
  exists rest,
    added (copy_first_element otype (rd d 0) (rd d 1) r)
          (accumulate_lanes env loop otype c s0 s1 needs_api d next r) rest.
Proof.
  destruct (accumulate_lane_grows (rd d 0) (rd d 1) r) as (e1 & A1).
  destruct next as [|d' next]; cbn [accumulate_lanes].
  - exists e1. destruct (needs_api && _); exact A1.
  - destruct (needs_api && _); [now exists e1|].
    destruct (accumulate_lanes_added needs_api next d'
                (accumulate_lane env loop otype c s0 s1 (rd d 0) (rd d 1) r))
      as (e2 & A2).
    exists (e1 ++ e2). exact (added_trans _ _ _ _ _ A1 A2).
Qed.

End AccumulateWalk.

Lemma uninterrupted_mach (env : collaborators) (needs_api : bool)
      (r r0 : run) :
  mach r0 = mach r -> uninterrupted env needs_api r ->
  uninterrupted env needs_api r0.
Proof. intros E [U|U]; [now left|right; now rewrite E]. Qed.


Lemma pair_of_fst {A B : Type} (p : A * B) (x : A) :
  fst p = x -> p = (x, snd p).
Proof. intros <-. now destruct p. Qed.


(** A kernel that computes [f] element by element writes nothing but the
    elements of its output operand. *)
Lemma computes_frame (f : Z -> Z -> Z)
      (k : list Z -> Z -> list Z -> machine -> machine) :
  computes f k -> kernel_frame k.
Proof.
  intros K args count steps m q H. rewrite K.
  apply binary_loop_frame. intros j Hj E. apply H.
  exists j. split; [lia|exact E].
Qed.

(** X1.  With a kernel that computes [f] element by element, a call of
    [PyUFunc_Accumulate] that returns an array leaves a running fold in
    every lane it walks (the one lane of the output and the input
    themselves, or the lanes of the operands of its iterator), over a
    non-empty axis, with a non-zero output stride and no error in
    between: output element 0 of the lane is what its input element 0
    held when the call began, and output element [i] is [f] of output
    element [i - 1] and of what input element [i] held.  In the lane no
    input element lies on an output element written before it is read
    (as in place, or into a separate output); the lanes before it write
    none of its input elements and the lanes after it none of its output
    elements. *)
Theorem accumulate_running_fold
        (env : collaborators) (ufunc : PyUFuncObject) (f : Z -> Z -> Z)
        (arr : PyArrayObject) (out : option PyArrayObject) (axis otype : Z)
        (r r' : run) (res : PyArrayObject) :
  (forall otype_final loop,
      get_binary_op_function env ufunc otype = Some (otype_final, loop) ->
      computes f (loops env loop)) ->
  PyUFunc_Accumulate env ufunc arr out axis otype r = (Returned res, r') ->
  exists op0 op1 lanes needs_api,
    accumulate_walk env arr out res op0 op1 lanes needs_api
    /\ let count_m1 := PyArray_DIM op1 axis - 1 in
       let stride0 := PyArray_STRIDE op0 axis in
       let stride1 := PyArray_STRIDE op1 axis in
       let cells l := accumulate_cells count_m1 stride0 (rd l 0) in
       0 < PyArray_DIM op1 axis -> PyArray_SIZE op0 <> 0 -> stride0 <> 0 ->
       uninterrupted env needs_api r ->
       forall pre l post,
         lanes = pre ++ l :: post ->
         (forall i j, 0 <= j < i -> i <= count_m1 ->
                      rd l 1 + i * stride1 <> rd l 0 + j * stride0) ->
         (forall l' i, In l' pre -> 0 <= i <= count_m1 ->
                       ~ cells l' (rd l 1 + i * stride1)) ->
         (forall l' i, In l' post -> 0 <= i <= count_m1 ->
                       ~ cells l' (rd l 0 + i * stride0)) ->
         let out i := mem (mach r') (rd l 0 + i * stride0) in
         let inp i := mem (mach r) (rd l 1 + i * stride1) in
         out 0 = inp 0
         /\ forall i, 1 <= i <= count_m1 -> out i = f (out (i - 1)) (inp i).
Proof.
  intros K H.
  destruct (accumulate_call_walk env ufunc arr out axis otype r r' res H)
    as (otf & loop & op0 & op1 & lanes & na & r0 & G & W & R0 & E).
  exists op0, op1, lanes, na. split; [exact W|].
  cbv zeta. intros D0 Sz St U pre l post L Hin Hpre Hpost.
  specialize (K otf loop G).
  pose proof (computes_frame f _ K) as F.
  assert (D0' : (PyArray_DIM op1 axis =? 0) = false)
    by (apply Z.eqb_neq; lia).
  apply Z.eqb_neq in Sz. rewrite D0', Sz in E. cbn [orb] in E.
  assert (M0 : mach r0 = mach r).
  { destruct R0 as [->|[_ ->]]; reflexivity. }
  set (c := PyArray_DIM op1 axis - 1) in *.
  set (s0 := PyArray_STRIDE op0 axis) in *.
  set (s1 := PyArray_STRIDE op1 axis) in *.
  assert (E' : r' = walk_lanes (accumulate_lane env loop otype c s0 s1)
                      (pre ++ l :: post) r0).
  { rewrite <- L. destruct lanes as [|d next].
    - destruct pre; discriminate L.
    - rewrite E. apply accumulate_lanes_walk.
      now apply (uninterrupted_mach env na r r0). }
  destruct (walk_lanes_around (accumulate_lane env loop otype c s0 s1)
              (accumulate_cells c s0)
              (accumulate_lane_frame env loop otype c s0 s1 F St)
              pre post l r0) as (Ew & P1 & P2).
  cbv zeta in Ew, P1, P2. rewrite <- E' in Ew.
  set (r1 := walk_lanes (accumulate_lane env loop otype c s0 s1) pre r0)
    in *.
  destruct (accumulate_lane_fold env loop f otype c s0 s1 (rd l 0) (rd l 1)
              r1 K St Hin) as (V0 & V1).
  cbv zeta in V0, V1.
  assert (In1 : forall i, 0 <= i <= c ->
                          mem (mach r1) (rd l 1 + i * s1)
                          = mem (mach r) (rd l 1 + i * s1)).
  { intros i Hi. rewrite P1; [now rewrite M0|].
    intros l' Hl'. now apply Hpre. }
  assert (Out : forall i, 0 <= i <= c ->
                          mem (mach r') (rd l 0 + i * s0)
                          = mem (mach (accumulate_lane env loop otype c s0 s1
                                         (rd l 0) (rd l 1) r1))
                                (rd l 0 + i * s0)).
  { intros i Hi. rewrite Ew. apply P2.
    intros l' Hl'. now apply Hpost. }
  assert (C0 : 0 <= c) by (unfold c; lia).
  split.
  - specialize (Out 0 ltac:(lia)). specialize (In1 0 ltac:(lia)).
    rewrite Out, V0. exact In1.
  - intros i Hi.
    rewrite (Out i) by lia. rewrite (Out (i - 1)) by lia.
    rewrite (V1 i Hi). f_equal. apply In1. lia.
Qed.

(** The theorem at [add.accumulate] in place over the vector 1, 2, 3, 4,
    5: every element ends as the sum of the one before it and of its own
    value. *)
Lemma accumulate_running_fold_witness :
  let r := fresh_run (fill 0 [1; 2; 3; 4; 5] (fun _ => 0)) in
  let a := long_vector 0 5 in
  let call := PyUFunc_Accumulate add_env add_ufunc a (Some a) 0 NPY_LONG r in
  fst call = Returned a
  /\ mem (mach (snd call)) (0 + 0 * 8) = mem (mach r) (0 + 0 * 8)
  /\ forall i, 1 <= i <= 4 ->
               mem (mach (snd call)) (0 + i * 8)
               = Z.add (mem (mach (snd call)) (0 + (i - 1) * 8))
                       (mem (mach r) (0 + i * 8)).
Proof.
  cbv zeta. split; [reflexivity|].
  destruct (accumulate_running_fold add_env add_ufunc Z.add
              (long_vector 0 5) (Some (long_vector 0 5)) 0 NPY_LONG
              (fresh_run (fill 0 [1; 2; 3; 4; 5] (fun _ => 0)))
              (snd (PyUFunc_Accumulate add_env add_ufunc (long_vector 0 5)
                      (Some (long_vector 0 5)) 0 NPY_LONG
                      (fresh_run (fill 0 [1; 2; 3; 4; 5] (fun _ => 0)))))
              (long_vector 0 5)
              (fun _ _ _ args count steps m => eq_refl)
              (pair_of_fst _ _ eq_refl))
    as (op0 & op1 & lanes & na & W & P).
  assert (L : op0 = long_vector 0 5 /\ op1 = long_vector 0 5
              /\ lanes = [] ++ [0; 0] :: [] /\ na = false).
  { destruct W as [(-> & -> & -> & -> & _ & _)
                  |(dtype0 & it & N & -> & -> & _ & -> & ->)].
    - now repeat split.
    - injection N as <-. now repeat split. }
  destruct L as (-> & -> & L & ->).
  apply (P ltac:(reflexivity) ltac:(discriminate) ltac:(discriminate)
           (or_introl eq_refl) [] [0; 0] [] L).
  - intros i j Hj Hi. change (rd [0; 0] 1) with 0.
    change (rd [0; 0] 0) with 0.
    change (PyArray_STRIDE (long_vector 0 5) 0) with 8. lia.
  - intros l' i [].
  - intros l' i [].
Defined.

Section ReduceatCallWalk.

Variable env : collaborators.

(** A call of [PyUFunc_Reduceat] that returns an array: its indices are
    in range, and then as for accumulate. *)
Lemma reduceat_call_walk (ufunc : PyUFuncObject) (arr ind : PyArrayObject)
      (reduceat_ind : list Z) (out : option PyArrayObject) (axis otype : Z)
      (r r' : run) (res : PyArrayObject) :
  PyUFunc_Reduceat env ufunc arr ind reduceat_ind out axis otype r
  = (Returned res, r') ->
  exists otype_final loop op0 op1 lanes needs_api r0,
    (forall i, 0 <= i < PyArray_DIM ind 0 ->
               0 <= rd reduceat_ind i < PyArray_DIM arr axis)
    /\ get_binary_op_function env ufunc otype = Some (otype_final, loop)
    /\ reduceat_walk env arr ind out res op0 op1 lanes needs_api
    /\ (r0 = r \/ (out = None /\ r0 = log (EvAlloc res) r))
    /\ r' = (if PyArray_SIZE op0 =? 0 then r0
             else match lanes with
                  | [] => r0
                  | d :: next =>
                      reduceat_lanes env loop otype reduceat_ind
                        (PyArray_DIM ind 0) (PyArray_DIM op1 axis)
                        (PyArray_STRIDE op0 axis) (PyArray_STRIDE op1 axis)
                        needs_api d next r0
                  end).
Proof.
  unfold PyUFunc_Reduceat.
  pose proof (first_out_of_bounds_spec reduceat_ind (PyArray_DIM arr axis)
                (Z.to_nat (PyArray_DIM ind 0)) 0) as B.
  destruct (first_out_of_bounds reduceat_ind (PyArray_DIM arr axis) 0
              (Z.to_nat (PyArray_DIM ind 0))) as [index|]; [discriminate|].
  assert (InR : forall i, 0 <= i < PyArray_DIM ind 0 ->
                          0 <= rd reduceat_ind i < PyArray_DIM arr axis).
  { intros i Hi. specialize (B i ltac:(lia)). now rewrite Z.add_0_l in B. }
  destruct (negb (get_bufsize_errmask_ok env)); [discriminate|].
  destruct (get_binary_op_function env ufunc otype) as [[otype_final loop]|];
    [|discriminate].
  destruct (reduction_dtype env arr otype_final) as [dtype0|];
    [|discriminate].
  match goal with
  | |- context [if ?b then _ else _] => destruct b eqn:Need
  end.
  - destruct (NpyIter_AdvancedNew env [out; Some arr; Some ind] dtype0)
      as [it|] eqn:N; [|discriminate].
    destruct (negb (ri_remove_axis_ok it)); [discriminate|].
    destruct (negb (ri_remove_multi_index_ok it)); [discriminate|].
    set (op0 := nth 0 (ri_operands it) arr).
    set (op1 := nth 1 (ri_operands it) arr).
    intros H.
    assert (W : forall res0,
               res0 = match out with Some o => o | None => op0 end ->
               reduceat_walk env arr ind out res0 op0 op1
                 (if ri_size it =? 0 then [] else ri_first it :: ri_next it)
                 (ri_needs_api it)).
    { intros res0 E. right. exists dtype0, it. now repeat split. }
    exists otype_final, loop, op0, op1,
      (if ri_size it =? 0 then [] else ri_first it :: ri_next it),
      (ri_needs_api it), r.
    split; [exact InR|]. split; [reflexivity|].
    destruct (PyArray_SIZE op0 =? 0) eqn:E1.
    { destruct (ri_dealloc_ok it); [|discriminate].
      injection H as <- <-. split; [now apply W|].
      split; [now left|reflexivity]. }
    destruct (ri_size it =? 0) eqn:Z0; cbn [negb] in H.
    + destruct (ri_dealloc_ok it); [|discriminate].
      injection H as <- <-. split; [now apply W|].
      split; [now left|reflexivity].
    + destruct (negb (ri_iternext_ok it)); [discriminate|].
      replace (PyArray_DIM op1 axis - 1 + 1) with (PyArray_DIM op1 axis) in H
        by lia.
      destruct (ri_dealloc_ok it); [|discriminate].
      injection H as <- <-. split; [now apply W|].
      split; [now left|reflexivity].
  - assert (Le : PyArray_NDIM arr <= 1 /\ out = None).
    { apply orb_false_iff in Need. destruct Need as [Need _].
      apply orb_false_iff in Need. destruct Need as [Need _].
      apply orb_false_iff in Need. destruct Need as [No Need].
      rewrite Z.gtb_ltb in Need. apply Z.ltb_ge in Need.
      split; [exact Need|]. destruct out; [discriminate No|reflexivity]. }
    destruct Le as [Le No].
    destruct (PyArray_NewFromDescr (new_block env) dtype0 1
                [PyArray_DIM ind 0] false) as [op0|] eqn:N; [|discriminate].
    intros H.
    exists otype_final, loop, op0, arr, [[data op0; data arr]], false,
      (log (EvAlloc op0) r).
    split; [exact InR|]. split; [reflexivity|].
    assert (W : reduceat_walk env arr ind out op0 op0 arr
                  [[data op0; data arr]] false).
    { left. repeat split; try assumption. now exists dtype0. }
    destruct (PyArray_SIZE op0 =? 0) eqn:E1.
    + injection H as <- <-. split; [exact W|].
      split; [right; now split|reflexivity].
    + injection H as <- <-. split; [exact W|].
      split; [right; now split|].
      now rewrite reduceat_lanes_single.
Qed.

End ReduceatCallWalk.

Section ReduceatWalk.

Variable env : collaborators.
Variable loop : loop_id.
Variable otype : Z.
Variable reduceat_ind : list Z.
Variable ind_size len s0 s1 : Z.

Hypothesis F : kernel_frame (loops env loop).
Hypothesis S0 : s0 <> 0.

Lemma reduceat_lane_frame (d0 d1 : Z) (r : run) (q : Z) :
  ~ reduceat_cells ind_size s0 d0 q ->
  mem (mach (reduceat_lane env loop otype reduceat_ind ind_size len s0 s1
               d0 d1 r)) q
  = mem (mach r) q.
Proof.
  intros H.
  destruct (reduceat_lane_spec env loop otype reduceat_ind ind_size len s0
              s1 F d0 d1 r S0) as (Fr & _).
  now apply Fr.
Qed.

(** The cells the kernel of a lane may write: the output cells of its
    segments of two elements or more. *)
Lemma reduceat_lane_targets (d0 d1 : Z) (r : run) :
  exists extra,
    added r (reduceat_lane env loop otype reduceat_ind ind_size len s0 s1
               d0 d1 r) extra
    /\ forall e q, In e extra -> kernel_targets e q ->
                   reduceat_cells ind_size s0 d0 q
                   /\ forall k, 0 <= k < ind_size ->
                                copied_segment reduceat_ind ind_size len k ->
                                q <> out_cell s0 d0 k.
Proof.
  unfold reduceat_lane.
  destruct (reduceat_segments_spec env loop otype reduceat_ind ind_size len
              s0 s1 F d0 d1 (Z.to_nat ind_size) S0 0 r)
    as (_ & _ & extra & A & T).
  exists extra. split; [exact A|].
  intros e q He Tq. destruct (T e q He Tq) as (j & Hj & Nc & Eq).
  split; [exists j; split; [lia|exact Eq]|].
  intros k Hk Hc E. rewrite Eq in E. unfold out_cell in E.
  assert (M : s0 * (j - k) = 0) by lia.
  apply Z.mul_eq_0 in M. destruct M as [M|M]; [contradiction|].
  assert (j = k) by lia. subst j. contradiction.
Qed.

(** A segment of at most one element, in a lane of a walk: its output
    cell ends with what the input cell its index names held before the
    walk, no kernel having written it. *)
Lemma reduceat_walk_copied (pre post : list (list Z)) (l : list Z)
      (i : Z) (r : run) :
  0 <= i < ind_size ->
  copied_segment reduceat_ind ind_size len i ->
  (forall j, 0 <= j < i ->
             in_cell reduceat_ind s1 (rd l 1) i <> out_cell s0 (rd l 0) j) ->
  (forall l', In l' pre ->
              ~ reduceat_cells ind_size s0 (rd l' 0)
                  (in_cell reduceat_ind s1 (rd l 1) i)
              /\ ~ reduceat_cells ind_size s0 (rd l' 0)
                     (out_cell s0 (rd l 0) i)) ->
  (forall l', In l' post ->
              ~ reduceat_cells ind_size s0 (rd l' 0)
                  (out_cell s0 (rd l 0) i)) ->
  let r' := walk_lanes (reduceat_lane env loop otype reduceat_ind ind_size
                          len s0 s1) (pre ++ l :: post) r in
  mem (mach r') (out_cell s0 (rd l 0) i)
  = mem (mach r) (in_cell reduceat_ind s1 (rd l 1) i)
  /\ exists extra,
      added r r' extra
      /\ forall e, In e extra -> ~ kernel_targets e (out_cell s0 (rd l 0) i).
Proof.
  intros Hi Hc Hin Hpre Hpost r'. subst r'.
  destruct (walk_lanes_around
              (reduceat_lane env loop otype reduceat_ind ind_size len s0 s1)
              (reduceat_cells ind_size s0) reduceat_lane_frame pre post l r)
    as (E & P1 & P2).
  cbv zeta in E, P1, P2. split.
  - rewrite E, P2 by exact Hpost.
    destruct (reduceat_lane_spec env loop otype reduceat_ind ind_size len s0
                s1 F (rd l 0) (rd l 1)
                (walk_lanes (reduceat_lane env loop otype reduceat_ind
                               ind_size len s0 s1) pre r) S0)
      as (_ & L & _).
    rewrite (L i Hi Hc Hin). apply P1. intros l' Hl'. now apply Hpre.
  - destruct (walk_lanes_added
                (reduceat_lane env loop otype reduceat_ind ind_size len s0
                               s1)
                (fun d0 q =>
                   reduceat_cells ind_size s0 d0 q
                   /\ forall k, 0 <= k < ind_size ->
                                copied_segment reduceat_ind ind_size len k ->
                                q <> out_cell s0 d0 k)
                reduceat_lane_targets (pre ++ l :: post) r)
      as (extra & A & T).
    exists extra. split; [exact A|].
    intros e He Tq. destruct (T e _ He Tq) as (l' & Hl' & Cl & Ne).
    apply in_app_or in Hl'. destruct Hl' as [Hl'|[<-|Hl']].
    + now apply (Hpre l' Hl').
    + now apply (Ne i Hi Hc).
    + now apply (Hpost l' Hl').
Qed.

End ReduceatWalk.



(** The fold over a segment reads the input elements of the segment
    only. *)
Lemma segment_fold_ext (f : Z -> Z -> Z) (reduceat_ind : list Z)
      (ind_size len stride1 : Z) (m1 m2 : Z -> Z) (d1 i : Z) :
  0 <= i < ind_size ->
  (forall k, 0 <= k < ind_size -> 0 <= rd reduceat_ind k < len) ->
  (forall k, 0 <= k < len -> m1 (d1 + stride1 * k) = m2 (d1 + stride1 * k)) ->
  segment_fold f reduceat_ind ind_size len stride1 m1 d1 i
  = segment_fold f reduceat_ind ind_size len stride1 m2 d1 i.
Proof.
  intros Hi In Eq. unfold segment_fold.
  assert (End : (if i =? ind_size - 1 then len
                 else rd reduceat_ind (i + 1)) <= len).
  { destruct (i =? ind_size - 1) eqn:E; [lia|].
    apply Z.eqb_neq in E. specialize (In (i + 1) ltac:(lia)). lia. }
  pose proof (In i Hi) as Ii.
  rewrite (lane_elements_ext m1 m2).
  - f_equal. unfold in_cell. apply Eq. lia.
  - intros k Hk. apply Eq. lia.
Qed.

(** X2.  With a kernel that computes [f] element by element, a call of
    [PyUFunc_Reduceat] that returns an array leaves, in every lane it
    walks (the one lane of the allocated output and the input
    themselves, or the lanes of the operands of its iterator, which
    keeps the length of the reduced axis), with a non-empty output, a
    non-zero output stride and no error in between, in the output
    element of every index the fold of [f] over what the input elements
    from that index up to the next index held when the call began (up to
    the end of the axis for the last index; the element at the index
    alone when the next index is not larger).  The output elements of the
    lane lie on none of its input elements; the lanes before it write
    none of its input elements and the lanes after it none of its output
    elements. *)
Theorem reduceat_segment_folds
        (env : collaborators) (ufunc : PyUFuncObject) (f : Z -> Z -> Z)
        (arr ind : PyArrayObject) (reduceat_ind : list Z)
        (out : option PyArrayObject) (axis otype : Z) (r r' : run)
        (res : PyArrayObject) :
  (forall otype_final loop,
      get_binary_op_function env ufunc otype = Some (otype_final, loop) ->
      computes f (loops env loop)) ->
  PyUFunc_Reduceat env ufunc arr ind reduceat_ind out axis otype r
  = (Returned res, r') ->
  exists op0 op1 lanes needs_api,
    reduceat_walk env arr ind out res op0 op1 lanes needs_api
    /\ let ind_size := PyArray_DIM ind 0 in
       let len := PyArray_DIM op1 axis in
       let stride0 := PyArray_STRIDE op0 axis in
       let stride1 := PyArray_STRIDE op1 axis in
       let cells l := reduceat_cells ind_size stride0 (rd l 0) in
       PyArray_SIZE op0 <> 0 -> stride0 <> 0 ->
       uninterrupted env needs_api r ->
       len = PyArray_DIM arr axis ->
       forall pre l post,
         lanes = pre ++ l :: post ->
         (forall k j, 0 <= k < len -> 0 <= j < ind_size ->
                      rd l 1 + stride1 * k <> out_cell stride0 (rd l 0) j) ->
         (forall l' k, In l' pre -> 0 <= k < len ->
                       ~ cells l' (rd l 1 + stride1 * k)) ->
         (forall l' j, In l' post -> 0 <= j < ind_size ->
                       ~ cells l' (out_cell stride0 (rd l 0) j)) ->
         forall i,
           0 <= i < ind_size ->
           mem (mach r') (out_cell stride0 (rd l 0) i)
           = segment_fold f reduceat_ind ind_size len stride1 (mem (mach r))
               (rd l 1) i.
Proof.
  intros K H.
  destruct (reduceat_call_walk env ufunc arr ind reduceat_ind out axis otype
              r r' res H)
    as (otf & loop & op0 & op1 & lanes & na & r0 & InR & G & W & R0 & E).
  exists op0, op1, lanes, na. split; [exact W|].
  cbv zeta. intros Sz St U Len pre l post L Hin Hpre Hpost i Hi.
  specialize (K otf loop G).
  pose proof (computes_frame f _ K) as F.
  apply Z.eqb_neq in Sz. rewrite Sz in E.
  assert (M0 : mach r0 = mach r).
  { destruct R0 as [->|[_ ->]]; reflexivity. }
  rewrite <- Len in InR.
  set (n := PyArray_DIM ind 0) in *.
  set (len := PyArray_DIM op1 axis) in *.
  set (s0 := PyArray_STRIDE op0 axis) in *.
  set (s1 := PyArray_STRIDE op1 axis) in *.
  assert (E' : r' = walk_lanes
                      (reduceat_lane env loop otype reduceat_ind n len s0 s1)
                      (pre ++ l :: post) r0).
  { rewrite <- L. destruct lanes as [|d next].
    - destruct pre; discriminate L.
    - rewrite E. apply reduceat_lanes_walk.
      now apply (uninterrupted_mach env na r r0). }
  destruct (walk_lanes_around
              (reduceat_lane env loop otype reduceat_ind n len s0 s1)
              (reduceat_cells n s0)
              (reduceat_lane_frame env loop otype reduceat_ind n len s0 s1
                                   F St)
              pre post l r0) as (Ew & P1 & P2).
  cbv zeta in Ew, P1, P2. rewrite <- E' in Ew.
  set (r1 := walk_lanes
               (reduceat_lane env loop otype reduceat_ind n len s0 s1)
               pre r0) in *.
  rewrite Ew, P2 by (intros l' Hl'; now apply Hpost).
  rewrite (reduceat_lane_folds env loop f otype reduceat_ind n len s0 s1
             (rd l 0) (rd l 1) r1 K St InR Hin i Hi).
  apply segment_fold_ext; [exact Hi|exact InR|].
  intros k Hk. rewrite P1; [now rewrite M0|].
  intros l' Hl'. now apply Hpre.
Qed.

(** The theorem at [add.reduceat] over the vector 1, 2, 3, 4, 5 with the
    indices 0, 3, 1, 4: the four elements of the vector returned are 6,
    4, 9 and 5. *)
Lemma reduceat_segment_folds_witness :
  let r := fresh_run (fill 0 [1; 2; 3; 4; 5] (fun _ => 0)) in
  let call := PyUFunc_Reduceat add_env add_ufunc (long_vector 0 5)
                (long_vector 500 4) [0; 3; 1; 4] None 0 NPY_LONG r in
  exists res,
    fst call = Returned res
    /\ mem (mach (snd call)) (data res) = 6
    /\ mem (mach (snd call)) (data res + 8) = 4
    /\ mem (mach (snd call)) (data res + 16) = 9
    /\ mem (mach (snd call)) (data res + 24) = 5.
Proof.
  cbv zeta.
  exists (mkArray 1000 [4] [8] (mkDescr NPY_LONG 8) NPY_ARRAY_C_CONTIGUOUS).
  split; [reflexivity|].
  destruct (reduceat_segment_folds add_env add_ufunc Z.add
              (long_vector 0 5) (long_vector 500 4) [0; 3; 1; 4] None 0
              NPY_LONG (fresh_run (fill 0 [1; 2; 3; 4; 5] (fun _ => 0)))
              (snd (PyUFunc_Reduceat add_env add_ufunc (long_vector 0 5)
                      (long_vector 500 4) [0; 3; 1; 4] None 0 NPY_LONG
                      (fresh_run (fill 0 [1; 2; 3; 4; 5] (fun _ => 0)))))
              (mkArray 1000 [4] [8] (mkDescr NPY_LONG 8)
                       NPY_ARRAY_C_CONTIGUOUS)
              (fun _ _ _ args count steps m => eq_refl)
              (pair_of_fst _ _ eq_refl))
    as (op0 & op1 & lanes & na & W & Q).
  assert (L : op0 = mkArray 1000 [4] [8] (mkDescr NPY_LONG 8)
                            NPY_ARRAY_C_CONTIGUOUS
              /\ op1 = long_vector 0 5
              /\ lanes = [] ++ [1000; 0] :: [] /\ na = false).
  { destruct W as [(-> & -> & -> & -> & _)
                  |(dtype0 & it & N & _)].
    - now repeat split.
    - discriminate N. }
  destruct L as (-> & -> & L & ->).
  specialize (Q ltac:(discriminate) ltac:(discriminate) (or_introl eq_refl)
                eq_refl [] [1000; 0] [] L).
  assert (V : forall i, 0 <= i < 4 ->
                mem (mach (snd (PyUFunc_Reduceat add_env add_ufunc
                                  (long_vector 0 5) (long_vector 500 4)
                                  [0; 3; 1; 4] None 0 NPY_LONG
                                  (fresh_run (fill 0 [1; 2; 3; 4; 5]
                                                (fun _ => 0))))))
                    (1000 + 8 * i)
                = segment_fold Z.add [0; 3; 1; 4] 4 5 8
                    (mem (mach (fresh_run (fill 0 [1; 2; 3; 4; 5]
                                             (fun _ => 0))))) 0 i).
  { apply Q.
    - intros k j Hk Hj. unfold out_cell.
      change (rd [1000; 0] 1) with 0. change (rd [1000; 0] 0) with 1000.
      change (PyArray_STRIDE (long_vector 0 5) 0) with 8.
      change (PyArray_DIM (long_vector 0 5) 0) with 5 in Hk.
      change (PyArray_DIM (long_vector 500 4) 0) with 4 in Hj.
      change (PyArray_STRIDE
                (mkArray 1000 [4] [8] (mkDescr NPY_LONG 8)
                         NPY_ARRAY_C_CONTIGUOUS) 0) with 8.
      lia.
    - intros l' k [].
    - intros l' j []. }
  split; [exact (V 0 ltac:(lia))|]. split; [exact (V 1 ltac:(lia))|].
  split; [exact (V 2 ltac:(lia))|exact (V 3 ltac:(lia))].
Defined.
(* ================================================================== *)
(** ** The type of the array a reduction returns                       *)
(* ================================================================== *)

Section ResultType.

Variable env : collaborators.

Lemma search_compatible_first (ufunc : PyUFuncObject) (t i : Z)
      (todo : nat) :
  first_loop_on env ufunc t i ->
  forall j0, j0 <= i < j0 + Z.of_nat todo -> 0 <= j0 ->
             search_compatible env ufunc t j0 todo = FoundLoop t i.
Proof.
  intros (Hi & T0 & T1 & T2 & Cs & Before).
  induction todo as [|todo IH]; intros j0 Hj H0; [lia|].
  cbn [search_compatible].
  destruct (Z.eq_dec j0 i) as [->|Ne].
  - rewrite T0, T1, T2, Cs, Z.eqb_refl. cbn [andb].
    destruct (t =? NPY_OBJECT); reflexivity.
  - rewrite (Before j0) by lia. cbn [andb]. apply IH; lia.
Qed.

(** The loop selected on a type that has its own first loop. *)
Lemma binary_op_function_first_loop (ufunc : PyUFuncObject) (t i : Z) :
  first_loop_on env ufunc t i ->
  userloops ufunc = None \/ PyTypeNum_ISUSERDEF env t = false ->
  get_binary_op_function env ufunc t = Some (t, BuiltinLoop i).
Proof.
  intros L U. unfold get_binary_op_function.
  assert (B : search_compatible env ufunc t 0 (Z.to_nat (ntypes ufunc))
              = FoundLoop t i).
  { apply (search_compatible_first ufunc t i _ L); [|lia].
    destruct L as (Hi & _). lia. }
  rewrite B.
  destruct (userloops ufunc) as [lookup|]; [|reflexivity].
  destruct U as [U|U]; [discriminate U|]. now rewrite U.
Qed.

(** The type of the output that [reduction_dtype] sets up. *)
Lemma reduction_dtype_type (arr : PyArrayObject) (t : Z) (d : PyArray_Descr) :
  descr_constructors_keep_type env ->
  reduction_dtype env arr t = Some d -> type_num d = t.
Proof.
  intros [C1 C2]. unfold reduction_dtype.
  destruct (type_num (descr arr) =? t) eqn:E.
  - apply Z.eqb_eq in E.
    destruct (PyArray_ISNBO env (descr arr)).
    + intros H. injection H as <-. exact E.
    + intros H. rewrite (C2 _ _ H). exact E.
  - apply C1.
Qed.

(** The array [PyUFunc_Accumulate] returns when none is given is in the
    type set up for the output. *)
Lemma accumulate_result_descr (ufunc : PyUFuncObject) (arr : PyArrayObject)
      (axis otype : Z) (r r' : run) (res : PyArrayObject) :
  iterator_allocates_in_type env ->
  PyUFunc_Accumulate env ufunc arr None axis otype r = (Returned res, r') ->
  exists otype_final loop,
    get_binary_op_function env ufunc otype = Some (otype_final, loop)
    /\ reduction_dtype env arr otype_final = Some (descr res).
Proof.
  intros It. unfold PyUFunc_Accumulate.
  destruct (negb (get_bufsize_errmask_ok env)); [discriminate|].
  destruct (get_binary_op_function env ufunc otype) as [[otype_final loop]|];
    [|discriminate].
  destruct (reduction_dtype env arr otype_final) as [dtype0|] eqn:Rd;
    [|discriminate].
  intros H. exists otype_final, loop. split; [reflexivity|].
  rewrite Rd. f_equal.
  revert H.
  match goal with
  | |- context [if ?b then _ else _] => destruct b
  end.
  - destruct (NpyIter_AdvancedNew env [None; Some arr] dtype0) as [it|] eqn:N;
      [|discriminate].
    pose proof (It _ _ _ arr N) as D.
    destruct (negb (ri_remove_axis_ok it)); [discriminate|].
    destruct (negb (ri_remove_multi_index_ok it)); [discriminate|].
    destruct (PyArray_DIM _ axis =? 0).
    { destruct (ri_dealloc_ok it); [|discriminate].
      intros H. injection H as <- _. now symmetry. }
    destruct (PyArray_SIZE _ =? 0).
    { destruct (ri_dealloc_ok it); [|discriminate].
      intros H. injection H as <- _. now symmetry. }
    destruct (negb (ri_size it =? 0)).
    + destruct (negb (ri_iternext_ok it)); [discriminate|].
      destruct (ri_dealloc_ok it); [|discriminate].
      intros H. injection H as <- _. now symmetry.
    + destruct (ri_dealloc_ok it); [|discriminate].
      intros H. injection H as <- _. now symmetry.
  - destruct (PyArray_NewFromDescr (new_block env) dtype0
                (PyArray_NDIM arr) (dims arr) false) as [o|] eqn:N;
      [|discriminate].
    assert (D : descr o = dtype0).
    { unfold PyArray_NewFromDescr in N.
      destruct (new_block env); [|discriminate N].
      injection N as <-. reflexivity. }
    destruct (PyArray_DIM arr axis =? 0).
    { intros H. injection H as <- _. now symmetry. }
    destruct (PyArray_SIZE o =? 0).
    { intros H. injection H as <- _. now symmetry. }
    destruct (negb _ || negb _); [discriminate|].
    intros H. injection H as <- _. now symmetry.
Qed.

Lemma reduceat_result_descr (ufunc : PyUFuncObject)
      (arr ind : PyArrayObject) (reduceat_ind : list Z)
      (axis otype : Z) (r r' : run) (res : PyArrayObject) :
  iterator_allocates_in_type env ->
  PyUFunc_Reduceat env ufunc arr ind reduceat_ind None axis otype r
  = (Returned res, r') ->
  exists otype_final loop,
    get_binary_op_function env ufunc otype = Some (otype_final, loop)
    /\ reduction_dtype env arr otype_final = Some (descr res).
Proof.
  intros It. unfold PyUFunc_Reduceat.
  destruct (first_out_of_bounds _ _ _ _); [discriminate|].
  destruct (negb (get_bufsize_errmask_ok env)); [discriminate|].
  destruct (get_binary_op_function env ufunc otype) as [[otype_final loop]|];
    [|discriminate].
  destruct (reduction_dtype env arr otype_final) as [dtype0|] eqn:Rd;
    [|discriminate].
  intros H. exists otype_final, loop. split; [reflexivity|].
  rewrite Rd. f_equal.
  revert H.
  match goal with
  | |- context [if ?b then _ else _] => destruct b
  end.
  - destruct (NpyIter_AdvancedNew env [None; Some arr; Some ind] dtype0)
      as [it|] eqn:N; [|discriminate].
    pose proof (It _ _ _ arr N) as D.
    destruct (negb (ri_remove_axis_ok it)); [discriminate|].
    destruct (negb (ri_remove_multi_index_ok it)); [discriminate|].
    destruct (PyArray_SIZE _ =? 0).
    { destruct (ri_dealloc_ok it); [|discriminate].
      intros H. injection H as <- _. now symmetry. }
    destruct (negb (ri_size it =? 0)).
    + destruct (negb (ri_iternext_ok it)); [discriminate|].
      destruct (ri_dealloc_ok it); [|discriminate].
      intros H. injection H as <- _. now symmetry.
    + destruct (ri_dealloc_ok it); [|discriminate].
      intros H. injection H as <- _. now symmetry.
  - destruct (PyArray_NewFromDescr (new_block env) dtype0 1
                [PyArray_DIM ind 0] false) as [o|] eqn:N; [|discriminate].
    assert (D : descr o = dtype0).
    { unfold PyArray_NewFromDescr in N.
      destruct (new_block env); [|discriminate N].
      injection N as <-. reflexivity. }
    destruct (PyArray_SIZE o =? 0).
    { intros H. injection H as <- _. now symmetry. }
    intros H. injection H as <- _. now symmetry.
Qed.

(** The array [PyUFunc_Reduce] returns when none is given is in a type
    of the number of the type requested. *)
Lemma reduce_result_descr (ufunc : PyUFuncObject) (arr : PyArrayObject)
      (axes : list Z) (d : PyArray_Descr) (keepdims : Z)
      (initial : option pyobj) (wheremask : option PyArrayObject)
      (r r' : run) (res : PyArrayObject) :
  reduce_keeps_type env ->
  PyUFunc_Reduce env ufunc arr None axes (Some d) keepdims initial wheremask r
  = (Returned res, r') ->
  type_num (descr res) = type_num d.
Proof.
  intros [R1 R2]. unfold PyUFunc_Reduce.
  destruct (reduce_axis_flags _ _); [|discriminate].
  destruct (negb (get_bufsize_errmask_ok env)); [discriminate|].
  destruct (_get_identity ufunc) as [[identity reorderable]|];
    [|discriminate].
  unfold reduce_type_resolver.
  destruct (type_resolver env arr (Some d)) as [retcode dtypes] eqn:T.
  destruct (retcode =? -1) eqn:E1; [discriminate|].
  destruct (retcode =? -2) eqn:E2; [discriminate|].
  destruct (negb (PyArray_EquivTypes env _ _)); [discriminate|].
  intros H. rewrite (R2 _ _ _ _ _ _ _ _ _ _ H).
  apply Z.eqb_neq in E1, E2. exact (R1 _ _ _ _ T E1 E2).
Qed.

End ResultType.

(** C8.  In a reduce, accumulate or reduceat of a ufunc named "add" or
    "multiply" over a boolean input, or an integer input narrower than a
    C long, for which the caller gives no dtype and no output array, the
    array returned is of the native integer type: [NPY_LONG] for a
    boolean or a signed input and [NPY_ULONG] for an unsigned one.  The
    ufunc has its loop on that type, which no earlier loop of its table
    takes the place of, and the collaborators keep to the type they are
    asked for: the descriptor constructors, the iterator when it makes
    the output and, for reduce, the type resolver and the reduce
    wrapper. *)
Theorem default_reduction_dtype_widened
        (env : collaborators) (sizeof_long : Z) (ufunc : PyUFuncObject)
        (args : reduction_args) (operation : reduction)
        (mp : PyArrayObject) (i : Z) (r r' : run) (res : PyArrayObject) :
  let typenum := type_num (descr mp) in
  let widened :=
    if PyTypeNum_ISBOOL typenum then NPY_LONG
    else if PyTypeNum_ISUNSIGNED typenum then NPY_ULONG else NPY_LONG in
  sizeof_long <= 2 ^ 64 ->
  ra_array args = Some mp ->
  PyTypeNum_ISBOOL typenum = true
  \/ (PyTypeNum_ISINTEGER typenum = true
      /\ 0 <= elsize (descr mp) < sizeof_long) ->
  ra_dtype args = None ->
  ra_out args = OutAbsent \/ ra_out args = OutNone ->
  name ufunc = "add"%string \/ name ufunc = "multiply"%string ->
  first_loop_on env ufunc widened i ->
  userloops ufunc = None \/ PyTypeNum_ISUSERDEF env widened = false ->
  descr_constructors_keep_type env ->
  iterator_allocates_in_type env ->
  reduce_keeps_type env ->
  PyUFunc_GenericReduction env sizeof_long (Some ufunc) args operation r
  = (Returned res, r') ->
  type_num (descr res) = widened.
Proof.
  intros typenum widened Hs Ha Hk Hd Ho Hn Lp Us Dc It Rk H.
  unfold PyUFunc_GenericReduction in H.
  destruct (reduction_plan_of env sizeof_long (Some ufunc) args operation)
    as [p|e|o] eqn:P; try discriminate H.
  destruct (reduction_plan_inv env sizeof_long ufunc args operation p P)
    as (_ & _ & _ & _ & Ea & _ & Eout & Eot).
  rewrite Ha in Ea. injection Ea as Ea.
  assert (Eo : rp_out p = None).
  { rewrite Eout. destruct Ho as [-> | ->]; reflexivity. }
  assert (Et : type_num (rp_otype p) = widened).
  { rewrite Eo in Eot. unfold dtype_of_args in Eot. rewrite Hd in Eot.
    unfold reduction_otype in Eot.
    apply (proj1 Dc) in Eot. rewrite Eot.
    unfold default_reduction_typenum. rewrite <- Ea. fold typenum.
    assert (Nm : (String.eqb (name ufunc) "add"
                  || String.eqb (name ufunc) "multiply") = true).
    { destruct Hn as [-> | ->]; reflexivity. }
    rewrite Nm. unfold widened.
    destruct Hk as [Hb | [Hi [H0 H1]]].
    - rewrite Hb. reflexivity.
    - rewrite Hi, orb_true_r. cbn [andb].
      destruct (PyTypeNum_ISBOOL typenum); [reflexivity|].
      rewrite Z.mod_small by lia.
      destruct (Z.ltb_spec (elsize (descr mp)) sizeof_long);
        [reflexivity|lia]. }
  pose proof (binary_op_function_first_loop env ufunc widened i Lp Us) as G.
  rewrite Eo in H.
  destruct operation.
  - rewrite (reduce_result_descr env ufunc _ _ _ _ _ _ _ _ res Rk H).
    exact Et.
  - destruct (PyArray_NDIM (rp_mp p) =? 0); [discriminate H|].
    destruct (negb (zlen (rp_axes p) =? 1)); [discriminate H|].
    destruct (accumulate_result_descr env ufunc _ _ _ _ _ res It H)
      as (otf & loop & G' & Rd).
    rewrite Et, G in G'. injection G' as <- _.
    exact (reduction_dtype_type env _ _ _ Dc Rd).
  - destruct (PyArray_NDIM (rp_mp p) =? 0); [discriminate H|].
    destruct (negb (zlen (rp_axes p) =? 1)); [discriminate H|].
    destruct (rp_indices p) as [[ind reduceat_ind]|]; [|discriminate H].
    destruct (reduceat_result_descr env ufunc _ _ _ _ _ _ _ res It H)
      as (otf & loop & G' & Rd).
    rewrite Et, G in G'. injection G' as <- _.
    exact (reduction_dtype_type env _ _ _ Dc Rd).
Qed.

(** The theorem at [add.accumulate] over a vector of four booleans: the
    vector returned is of the type [NPY_LONG]. *)
Lemma default_reduction_dtype_widened_witness :
  let call := PyUFunc_GenericReduction alloc_env 8 (Some add_ufunc)
                (plain_args (c_array 0 NPY_BOOL 1 [4]) AxisAbsent)
                UFUNC_ACCUMULATE (fresh_run (fun _ => 0)) in
  fst call = Returned (c_array 1000 NPY_LONG 8 [4])
  /\ type_num (descr (c_array 1000 NPY_LONG 8 [4])) = NPY_LONG.
Proof.
  cbv zeta. split; [reflexivity|].
  apply (default_reduction_dtype_widened alloc_env 8 add_ufunc
           (plain_args (c_array 0 NPY_BOOL 1 [4]) AxisAbsent)
           UFUNC_ACCUMULATE (c_array 0 NPY_BOOL 1 [4]) 0
           (fresh_run (fun _ => 0))
           (snd (PyUFunc_GenericReduction alloc_env 8 (Some add_ufunc)
                   (plain_args (c_array 0 NPY_BOOL 1 [4]) AxisAbsent)
                   UFUNC_ACCUMULATE (fresh_run (fun _ => 0))))
           (c_array 1000 NPY_LONG 8 [4])).
  - discriminate.
  - reflexivity.
  - left. reflexivity.
  - reflexivity.
  - left. reflexivity.
  - left. reflexivity.
  - repeat split; try reflexivity; lia.
  - left. reflexivity.
  - split.
    + intros t d H. injection H as <-. reflexivity.
    + intros d d' H. injection H as <-. reflexivity.
  - intros ops dtype it arr N. cbn in N.
    destruct ops as [|[a|] ops]; try discriminate N.
    injection N as <-. destruct dtype. reflexivity.
  - split.
    + intros arr d retcode dtypes H _ _. injection H as _ <-. reflexivity.
    + intros arr wheremask dtype axis_flags reorderable keepdims initial r
             res r' H.
      injection H as <- _. destruct dtype. reflexivity.
  - apply pair_of_fst. reflexivity.
Defined.

(* ================================================================== *)
(** * Operands with a dimension of extent 0                            *)
(* ================================================================== *)

Section EmptyFacts.

Lemma fold_mul_acc (l : list Z) (a : Z) :
  fold_left Z.mul l a = a * fold_left Z.mul l 1.
Proof.
  revert a. induction l as [|x l IH]; intros a; cbn [fold_left].
  - lia.
  - rewrite IH, (IH (1 * x)). lia.
Qed.

Lemma fold_mul_zero (l : list Z) : fold_left Z.mul l 1 = 0 <-> In 0 l.
Proof.
  induction l as [|x l IH]; cbn [fold_left In].
  - split; [lia|tauto].
  - rewrite fold_mul_acc. split.
    + intros H. apply Z.eq_mul_0 in H. destruct H as [H|H].
      * left. lia.
      * right. now apply IH.
    + intros [H|H].
      * subst x. lia.
      * apply IH in H. rewrite H. lia.
Qed.

Lemma size_is_product (a : PyArrayObject) :
  PyArray_SIZE a = fold_left Z.mul (dims a) 1.
Proof.
  unfold PyArray_SIZE, PyArray_MultiplyList, PyArray_NDIM, zlen.
  rewrite Nat2Z.id, firstn_all. reflexivity.
Qed.

Lemma zero_extent_in (a : PyArrayObject) :
  has_zero_extent a <-> In 0 (dims a).
Proof.
  unfold has_zero_extent, PyArray_NDIM, PyArray_DIM, zlen, rd. split.
  - intros (k & Hk & E).
    replace (k <? 0) with false in E by (symmetry; apply Z.ltb_ge; lia).
    rewrite <- E. apply nth_In. lia.
  - intros H. destruct (In_nth _ _ 0 H) as (n & Hn & E).
    exists (Z.of_nat n). split; [lia|].
    replace (Z.of_nat n <? 0) with false by (symmetry; apply Z.ltb_ge; lia).
    now rewrite Nat2Z.id.
Qed.

(** An array has no element exactly when one of its dimensions has the
    extent 0. *)
Lemma size_zero_iff (a : PyArrayObject) :
  PyArray_SIZE a = 0 <-> has_zero_extent a.
Proof. now rewrite size_is_product, fold_mul_zero, zero_extent_in. Qed.

Lemma zero_extent_dims (a b : PyArrayObject) :
  dims b = dims a -> has_zero_extent a -> has_zero_extent b.
Proof. intros E. rewrite !zero_extent_in. now rewrite E. Qed.

Lemma size_dims (a b : PyArrayObject) :
  dims b = dims a -> PyArray_SIZE b = PyArray_SIZE a.
Proof. intros E. rewrite !size_is_product. now rewrite E. Qed.

(** The output [prepare_ufunc_output] hands on has the shape of the one
    it was given. *)
Lemma prepare_output_dims
      (equiv_types : PyArray_Descr -> PyArray_Descr -> bool)
      (arr_prep : prepare_hook) (op op' : PyArrayObject) :
  prepare_ufunc_output equiv_types arr_prep op = Some op' ->
  dims op' = dims op.
Proof.
  unfold prepare_ufunc_output. destruct arr_prep as [call|].
  - destruct (call op) as [| | |arr]; try discriminate.
    + intros G. now injection G as <-.
    + destruct (negb (PyArray_NDIM arr =? PyArray_NDIM op)) eqn:N;
        [discriminate|].
      apply negb_false_iff, Z.eqb_eq in N.
      destruct (PyArray_CompareLists (dims arr) (dims op) (PyArray_NDIM arr))
        eqn:D; [|discriminate].
      cbn [negb orb].
      match goal with
      | |- (if ?b then _ else _) = _ -> _ => destruct b; [discriminate|]
      end.
      intros G. injection G as <-.
      unfold PyArray_CompareLists in D.
      apply (compare_lists_eq (Z.to_nat (PyArray_NDIM arr)));
        [unfold PyArray_NDIM, zlen; lia
        |rewrite N; unfold PyArray_NDIM, zlen; lia|exact D].
  - intros G. now injection G as <-.
Qed.

End EmptyFacts.

(* ================================================================== *)
(** * The elementwise call on an empty operand                         *)
(* ================================================================== *)

Section ListFacts.

Context {A B : Type}.

Lemma Forall2_firstn_both (R : A -> B -> Prop) (n : nat) :
  forall l l', Forall2 R l l' -> Forall2 R (firstn n l) (firstn n l').
Proof.
  induction n as [|n IH]; intros l l' F; [constructor|].
  destruct F; cbn [firstn]; constructor; auto.
Qed.

Lemma Forall2_skipn_both (R : A -> B -> Prop) (n : nat) :
  forall l l', Forall2 R l l' -> Forall2 R (skipn n l) (skipn n l').
Proof.
  induction n as [|n IH]; intros l l' F; [exact F|].
  destruct F; cbn [skipn]; [constructor|auto].
Qed.

End ListFacts.

Section ShapeFacts.

Lemma same_shape_empty_output (l l1 : list (option PyArrayObject)) :
  Forall2 same_shape l l1 ->
  forall outs, Forall2 empty_output l1 outs -> Forall2 empty_output l outs.
Proof.
  induction 1 as [|o o1 l l1 S F IH]; intros outs E; inversion E; subst;
    constructor; [|now apply IH].
  destruct o as [a|], o1 as [a1|]; cbn in *; try contradiction; congruence.
Qed.

Lemma same_shape_refl (l : list (option PyArrayObject)) :
  Forall2 same_shape l l.
Proof. induction l as [|[a|] l IH]; constructor; cbn; auto. Qed.

Lemma same_shape_zero_extent (l l1 : list (option PyArrayObject))
      (a : PyArrayObject) :
  Forall2 same_shape l l1 -> In (Some a) l -> has_zero_extent a ->
  exists a1, In (Some a1) l1 /\ has_zero_extent a1.
Proof.
  induction 1 as [|o o1 l l1 S F IH]; intros I Z; [destruct I|].
  destruct I as [->|I].
  - destruct o1 as [a1|]; cbn in S; [|contradiction].
    exists a1. split; [now left|]. now apply (zero_extent_dims a).
  - destruct (IH I Z) as (a1 & I1 & Z1). exists a1. split; [now right|auto].
Qed.

Variable equiv_types : PyArray_Descr -> PyArray_Descr -> bool.

Lemma prepare_existing_shapes (ops : list (option PyArrayObject)) :
  forall arr_prep ops1,
    prepare_existing equiv_types ops arr_prep = Some ops1 ->
    Forall2 same_shape ops ops1.
Proof.
  induction ops as [|[a|] ops IH]; intros arr_prep ops1 P;
    cbn [prepare_existing] in P.
  - injection P as <-. constructor.
  - destruct (prepare_ufunc_output equiv_types (hd None arr_prep) a)
      as [a'|] eqn:Pa; [|discriminate P].
    destruct (prepare_existing equiv_types ops (tl arr_prep)) as [rest|]
      eqn:Pr; [|discriminate P].
    injection P as <-. constructor; [|now apply (IH (tl arr_prep))].
    cbn. now apply (prepare_output_dims equiv_types (hd None arr_prep)).
  - destruct (prepare_existing equiv_types ops (tl arr_prep)) as [rest|]
      eqn:Pr; [|discriminate P].
    injection P as <-. constructor; [exact I|now apply (IH (tl arr_prep))].
Qed.

Lemma nth_tl (l : list PyArrayObject) (k : nat) :
  nth k (tl l) no_array = nth (S k) l no_array.
Proof. destruct l; [destruct k|]; reflexivity. Qed.

Lemma prepare_allocated_outputs (ops : list (option PyArrayObject)) :
  forall op_it arr_prep ops2 bases,
    prepare_allocated equiv_types ops op_it arr_prep = Some (ops2, bases) ->
    (forall k, nth_error ops k = Some None ->
               PyArray_SIZE (nth k op_it no_array) = 0) ->
    exists outs, ops2 = map Some outs /\ Forall2 empty_output ops outs.
Proof.
  induction ops as [|o ops IH]; intros op_it arr_prep ops2 bases P Z;
    cbn [prepare_allocated] in P.
  - injection P as <- <-. exists []. split; [reflexivity|constructor].
  - match type of P with
    | match ?t with _ => _ end = _ => destruct t as [[a' base]|] eqn:T
    end; [|discriminate P].
    destruct (prepare_allocated equiv_types ops (tl op_it) (tl arr_prep))
      as [[rest bs]|] eqn:Pr; [|discriminate P].
    injection P as <- <-.
    destruct (IH _ _ _ _ Pr) as (outs & -> & F).
    { intros k Hk. rewrite nth_tl. now apply Z. }
    exists (a' :: outs). split; [reflexivity|]. constructor; [|exact F].
    destruct o as [a|]; cbn.
    + injection T as <- _. reflexivity.
    + destruct (prepare_ufunc_output equiv_types (hd None arr_prep)
                  (hd (mkArray 0 [] [] (mkDescr 0 0) 0) op_it))
        as [x|] eqn:Px; [|discriminate T].
      injection T as <- _.
      rewrite (size_dims _ _ (prepare_output_dims _ _ _ _ Px)).
      specialize (Z O eq_refl). destruct op_it; exact Z.
Qed.

Lemma prepare_masked_outputs (ops : list (option PyArrayObject)) :
  forall op_it arr_prep ops1,
    prepare_masked equiv_types ops op_it arr_prep = Some ops1 ->
    (forall k, nth_error ops k = Some None ->
               PyArray_SIZE (nth k op_it no_array) = 0) ->
    exists outs, ops1 = map Some outs /\ Forall2 empty_output ops outs.
Proof.
  induction ops as [|o ops IH]; intros op_it arr_prep ops1 P Z;
    cbn [prepare_masked] in P.
  - injection P as <-. exists []. split; [reflexivity|constructor].
  - match type of P with
    | match ?t with _ => _ end = _ => destruct t as [a'|] eqn:T
    end; [|discriminate P].
    match type of P with
    | (if ?b then _ else _) = _ => destruct b; [discriminate P|]
    end.
    destruct (prepare_masked equiv_types ops (tl op_it) (tl arr_prep))
      as [rest|] eqn:Pr; [|discriminate P].
    injection P as <-.
    destruct (IH _ _ _ Pr) as (outs & -> & F).
    { intros k Hk. rewrite nth_tl. now apply Z. }
    exists (a' :: outs). split; [reflexivity|]. constructor; [|exact F].
    pose proof (prepare_output_dims _ _ _ _ T) as D.
    destruct o as [a|]; cbn.
    + exact D.
    + rewrite (size_dims _ _ D).
      specialize (Z O eq_refl). destruct op_it; exact Z.
Qed.

End ShapeFacts.

Section SetOpFacts.

Lemma set_op_firstn (ops : list (option PyArrayObject)) (i : Z)
      (a : PyArrayObject) (n : nat) :
  (n <= Z.to_nat i)%nat -> (Z.to_nat i <= List.length ops)%nat ->
  firstn n (set_op ops i a) = firstn n ops.
Proof.
  intros Hn Hi. unfold set_op.
  rewrite firstn_app, length_firstn.
  replace (n - Nat.min (Z.to_nat i) (List.length ops))%nat with O by lia.
  cbn [firstn]. rewrite app_nil_r, firstn_firstn.
  f_equal. lia.
Qed.

Lemma set_op_skipn (ops : list (option PyArrayObject)) (i : Z)
      (a : PyArrayObject) :
  (Z.to_nat i <= List.length ops)%nat ->
  skipn (Z.to_nat i) (set_op ops i a)
  = Some a :: skipn (S (Z.to_nat i)) ops.
Proof.
  intros Hi. unfold set_op.
  rewrite skipn_app, length_firstn.
  replace (Z.to_nat i - Nat.min (Z.to_nat i) (List.length ops))%nat
    with O by lia.
  rewrite skipn_all2 by (rewrite length_firstn; lia).
  reflexivity.
Qed.

Lemma set_op_length (ops : list (option PyArrayObject)) (i : Z)
      (a : PyArrayObject) :
  (Z.to_nat i <= List.length ops)%nat ->
  (Z.to_nat i <= List.length (set_op ops i a))%nat.
Proof.
  intros Hi. unfold set_op. rewrite length_app, length_firstn. lia.
Qed.

Lemma get_op_set_op (ops : list (option PyArrayObject)) (i : Z)
      (a : PyArrayObject) :
  0 <= i -> (Z.to_nat i <= List.length ops)%nat ->
  get_op (set_op ops i a) i = Some a.
Proof.
  intros H0 Hi. unfold get_op.
  replace (i <? 0) with false by (symmetry; apply Z.ltb_ge; lia).
  unfold set_op. rewrite app_nth2; rewrite length_firstn; [|lia].
  replace (Z.to_nat i - Nat.min (Z.to_nat i) (List.length ops))%nat
    with O by lia.
  reflexivity.
Qed.

Lemma get_op_hd (ops : list (option PyArrayObject)) (i : Z) :
  0 <= i -> get_op ops i = hd None (skipn (Z.to_nat i) ops).
Proof.
  intros H0. unfold get_op.
  replace (i <? 0) with false by (symmetry; apply Z.ltb_ge; lia).
  generalize (Z.to_nat i). intros n. revert ops.
  induction n as [|n IH]; intros [|o ops]; cbn; auto.
Qed.

End SetOpFacts.
Section EmptyLoops.

Variable innerloop : list Z -> Z -> list Z -> machine -> machine.
Variable overlap_ok : PyArrayObject -> PyArrayObject -> bool.
Variable equiv_types : PyArray_Descr -> PyArray_Descr -> bool.
Variable new_iter : list (option PyArrayObject) -> option NpyIter.
Variable ufunc : PyUFuncObject.

Hypothesis nin_nonneg : 0 <= nin ufunc.
Hypothesis nout_nonneg : 0 <= nout ufunc.
Hypothesis idle : idle_on_nothing innerloop.
Hypothesis nothing : iterates_nothing_over_empty new_iter.

Lemma computed_nothing_refl (r : run) : computed_nothing r r.
Proof. split; [reflexivity|now left]. Qed.

(** The fast path on an operand without element: the kernel is invoked
    once, on no element, and the output is the one given, or a new one
    of the shape of the operand. *)
Lemma try_trivial_empty (op : list (option PyArrayObject))
      (dtypes : list PyArray_Descr) (order : NPY_ORDER)
      (arr_prep : prepare_hook) (block : option Z) (r : run)
      (a : PyArrayObject) :
  let n_in := Z.to_nat (nin ufunc) in
  let o := try_trivial_single_output_loop innerloop overlap_ok equiv_types
             ufunc op dtypes order arr_prep block r in
  List.length op = S n_in ->
  In (Some a) op -> has_zero_extent a ->
  ret o = 0 ->
  computed_nothing r (after o)
  /\ firstn n_in (out_ops o) = firstn n_in op
  /\ exists out,
      skipn n_in (out_ops o) = [Some out]
      /\ match hd None (skipn n_in op) with
         | Some given => dims out = dims given
         | None => dims out = dims a
         end.
Proof.
  intros n_in o L Ia Za R. subst o.
  unfold try_trivial_single_output_loop in *.
  assert (Fa : firstn (Z.to_nat (nin ufunc + 1)) op = op).
  { apply firstn_all2. subst n_in. lia. }
  rewrite Fa in *.
  match type of R with
  | context [trivial_scan op 0 ?p] =>
      destruct (trivial_scan op 0 p) as [pl|] eqn:Sc
  end; [|discriminate R].
  apply trivial_scan_sound in Sc; [|intros Hz; now contradiction Hz].
  destruct Sc as (_ & _ & _ & Sh & _).
  assert (Na : PyArray_NDIM a <> 0).
  { destruct Za as (k & Hk & _). lia. }
  destruct (Sh a (proj2 (supplied_in op a) Ia) Na) as [E1 E2].
  assert (Ca : forall v,
             PyArray_MultiplyList
               (operation_shape (set_stride pl (nin ufunc) v))
               (operation_ndim (set_stride pl (nin ufunc) v)) = 0
             /\ PyArray_MultiplyList (operation_shape pl)
                                     (operation_ndim pl) = 0).
  { intros v. cbn [set_stride operation_shape operation_ndim].
    rewrite <- E1, <- E2. split; apply size_zero_iff; exact Za. }
  assert (Li : (Z.to_nat (nin ufunc) <= List.length op)%nat)
    by (subst n_in; lia).
  rewrite (get_op_hd op (nin ufunc) nin_nonneg) in *. fold n_in in R |- *.
  destruct (hd None (skipn n_in op)) as [out|] eqn:G.
  - destruct (negb (forallb _ _)); [discriminate R|].
    destruct (_ && _ && _); [discriminate R|].
    rewrite (get_op_hd op (nin ufunc) nin_nonneg) in *. fold n_in in R |- *.
    rewrite G in *.
    destruct (prepare_ufunc_output equiv_types arr_prep out) as [out'|]
      eqn:P; [|discriminate R].
    cbn [after out_ops]. split; [|split].
    + split.
      * intros q. unfold call_innerloop, log. cbn [mach mem].
        rewrite (proj2 (Ca 0)). apply idle.
      * right. eexists _, _. unfold call_innerloop, log. cbn [trace].
        rewrite kernel_calls_app, (proj2 (Ca 0)). reflexivity.
    + apply set_op_firstn; subst n_in; lia.
    + exists out'. split.
      * subst n_in. rewrite set_op_skipn by lia.
        rewrite skipn_all2 by lia. reflexivity.
      * now apply (prepare_output_dims equiv_types arr_prep).
  - destruct (PyArray_NewFromDescr block _ _ _ _) as [out|] eqn:N;
      [|discriminate R].
    rewrite get_op_set_op in * by lia.
    destruct (prepare_ufunc_output equiv_types arr_prep out) as [out'|]
      eqn:P; [|discriminate R].
    cbn [after out_ops]. split; [|split].
    + split.
      * intros q. unfold call_innerloop, log. cbn [mach mem].
        rewrite (proj1 (Ca _)). apply idle.
      * right. eexists _, _. unfold call_innerloop, log. cbn [trace mach].
        rewrite !kernel_calls_app, (proj1 (Ca _)). cbn.
        rewrite app_nil_r. reflexivity.
    + subst n_in. rewrite set_op_firstn;
        [apply set_op_firstn; lia|lia|now apply set_op_length].
    + exists out'. split.
      * subst n_in. rewrite set_op_skipn by now apply set_op_length.
        rewrite skipn_all2; [reflexivity|].
        unfold set_op. rewrite !length_app, length_firstn, length_skipn.
        cbn [List.length]. lia.
      * rewrite (prepare_output_dims _ _ _ _ P).
        unfold PyArray_NewFromDescr in N.
        destruct block; [|discriminate N]. injection N as <-.
        cbn [dims]. rewrite <- E1, <- E2.
        apply firstn_all2. unfold PyArray_NDIM, zlen. lia.
Qed.

(** The iterator loop on an operand with a dimension of extent 0: no
    kernel is invoked, an output that is given keeps its shape and one
    that is not is the one the iterator makes, without element. *)
Lemma iterator_loop_empty_outputs (op : list (option PyArrayObject))
      (arr_prep : list prepare_hook) (r : run) (a : PyArrayObject) :
  let n_in := Z.to_nat (nin ufunc) in
  let n_out := Z.to_nat (nout ufunc) in
  let o := iterator_loop innerloop equiv_types new_iter ufunc op arr_prep r
  in
  List.length op = (n_in + n_out)%nat ->
  In (Some a) op -> has_zero_extent a ->
  after o = r
  /\ (ret o = 0 ->
      firstn n_in (out_ops o) = firstn n_in op
      /\ exists outs,
          skipn n_in (out_ops o) = map Some outs
          /\ Forall2 empty_output (skipn n_in op) outs).
Proof.
  intros n_in n_out o L Ia Za. subst o. unfold iterator_loop.
  fold n_in. fold n_out.
  assert (Fo : firstn n_out (skipn n_in op) = skipn n_in op).
  { apply firstn_all2. rewrite length_skipn. lia. }
  rewrite Fo.
  assert (Li : List.length (firstn n_in op) = n_in).
  { rewrite length_firstn. lia. }
  destruct (prepare_existing equiv_types (skipn n_in op) arr_prep)
    as [outputs1|] eqn:P1; [|cbn; split; [reflexivity|discriminate]].
  pose proof (prepare_existing_shapes _ _ _ _ P1) as S1.
  destruct (new_iter (firstn n_in op ++ outputs1)) as [iter|] eqn:N;
    [|cbn; split; [reflexivity|discriminate]].
  destruct (nothing _ _ N) as [Sz Al].
  assert (Z0 : it_size iter = 0).
  { apply Sz. rewrite <- (firstn_skipn n_in op) in Ia.
    apply in_app_or in Ia. destruct Ia as [Ia|Ia].
    - exists a. split; [apply in_or_app; now left|exact Za].
    - destruct (same_shape_zero_extent _ _ _ S1 Ia Za) as (a1 & I1 & Z1).
      exists a1. split; [apply in_or_app; now right|exact Z1]. }
  destruct (prepare_allocated equiv_types outputs1
              (skipn n_in (it_operands iter)) arr_prep)
    as [[outputs2 out_bases]|] eqn:P2;
    [|cbn; split; [reflexivity|discriminate]].
  rewrite Z0. cbn [Z.eqb after ret out_ops]. split; [reflexivity|].
  intros _. split.
  - rewrite firstn_app, Li, Nat.sub_diag. cbn [firstn].
    rewrite app_nil_r. apply firstn_all2. lia.
  - destruct (prepare_allocated_outputs equiv_types _ _ _ _ _ P2)
      as (outs & -> & F).
    { intros k Hk.
      replace (nth k (skipn n_in (it_operands iter)) no_array)
        with (nth (n_in + k) (it_operands iter) no_array).
      - rewrite (Al (n_in + k)%nat); [exact Z0|].
        rewrite nth_error_app2 by lia. rewrite Li.
        replace (n_in + k - n_in)%nat with k by lia. exact Hk.
      - rewrite <- (firstn_skipn n_in (it_operands iter)) at 1.
        destruct (Nat.le_gt_cases n_in (List.length (it_operands iter)))
          as [Le|Gt].
        + rewrite app_nth2; rewrite length_firstn; [|lia].
          f_equal. lia.
        + rewrite skipn_all2 by lia.
          rewrite app_nil_r, firstn_all2 by lia.
          rewrite nth_overflow by lia. now destruct k. }
    exists outs. split.
    + rewrite skipn_app, Li, Nat.sub_diag. cbn [skipn].
      rewrite skipn_all2 by lia. reflexivity.
    + exact (same_shape_empty_output _ _ S1 _ F).
Qed.

End EmptyLoops.
Section EmptyEngine.

Variable eg : engine.
Variable ufunc : PyUFuncObject.

Hypothesis nin_nonneg : 0 <= nin ufunc.
Hypothesis nout_nonneg : 0 <= nout ufunc.
Hypothesis idle : idle_on_nothing (eg_innerloop eg).
Hypothesis nothing : iterates_nothing_over_empty (eg_iter eg).
Hypothesis cast_keeps_shape :
  forall a d a', eg_cast_to_type eg a d = Some a' -> dims a' = dims a.

Lemma check_for_trivial_loop_from_shapes (n_in buffersize : Z)
      (op : list (option PyArrayObject)) :
  forall dtype i code op',
    check_for_trivial_loop_from (eg_equiv_types eg) (eg_cast_to_type eg)
      n_in buffersize i op dtype = (code, op') ->
    Forall2 same_shape op op'.
Proof.
  induction op as [|o op IH]; intros dtype i code op' C;
    cbn [check_for_trivial_loop_from] in C.
  - injection C as _ <-. constructor.
  - destruct dtype as [|d drest];
      [injection C as _ <-; apply same_shape_refl|].
    destruct (check_for_trivial_loop_from (eg_equiv_types eg)
                (eg_cast_to_type eg) n_in buffersize (i + 1) op drest)
      as [code1 rest'] eqn:R.
    specialize (IH _ _ _ _ R).
    destruct o as [a|].
    + destruct (negb (PyArray_ISALIGNED a)
                || negb (eg_equiv_types eg d (descr a))).
      * destruct ((i <? n_in) && _).
        -- destruct (eg_cast_to_type eg a d) as [tmp|] eqn:T.
           ++ injection C as _ <-. constructor; [|exact IH].
              cbn. exact (cast_keeps_shape _ _ _ T).
           ++ injection C as _ <-. apply same_shape_refl.
        -- injection C as _ <-. apply same_shape_refl.
      * injection C as _ <-. constructor; [reflexivity|exact IH].
    + injection C as _ <-. constructor; [exact I|exact IH].
Qed.

Lemma check_for_trivial_loop_shapes (op : list (option PyArrayObject))
      (dtype : list PyArray_Descr) (buffersize code : Z)
      (op' : list (option PyArrayObject)) :
  check_for_trivial_loop (eg_equiv_types eg) (eg_cast_to_type eg) ufunc op
    dtype buffersize = (code, op') ->
  Forall2 same_shape op op'.
Proof.
  unfold check_for_trivial_loop.
  destruct (check_for_trivial_loop_from _ _ _ _ _ _ _) as [c o1] eqn:C.
  intros E. injection E as _ <-.
  rewrite <- (firstn_skipn (Z.to_nat (nin ufunc + nout ufunc)) op) at 1.
  apply Forall2_app; [|apply same_shape_refl].
  exact (check_for_trivial_loop_from_shapes _ _ _ _ _ _ _ C).
Qed.

(** [execute_legacy_ufunc_loop] on an operand with a dimension of extent
    0. *)
Lemma execute_legacy_empty_outputs (trivial_loop_ok : Z)
      (op : list (option PyArrayObject)) (dtypes : list PyArray_Descr)
      (order : NPY_ORDER) (arr_prep : list prepare_hook) (r : run)
      (a : PyArrayObject) :
  let n_in := Z.to_nat (nin ufunc) in
  let n_out := Z.to_nat (nout ufunc) in
  let o := execute_legacy_ufunc_loop (eg_innerloop eg) (eg_overlap_ok eg)
             (eg_equiv_types eg) (eg_iter eg) ufunc (eg_selector_ok eg)
             trivial_loop_ok op dtypes order arr_prep (eg_block eg) r in
  List.length op = (n_in + n_out)%nat ->
  In (Some a) op -> has_zero_extent a ->
  0 <= ret o ->
  computed_nothing r (after o)
  /\ firstn n_in (out_ops o) = firstn n_in op
  /\ exists outs,
      skipn n_in (out_ops o) = map Some outs
      /\ Forall2 empty_output (skipn n_in op) outs.
Proof.
  intros n_in n_out o L Ia Za R. subst o.
  unfold execute_legacy_ufunc_loop in *.
  destruct (negb (eg_selector_ok eg)); [cbn in R; lia|].
  assert (It : forall o,
             o = iterator_loop (eg_innerloop eg) (eg_equiv_types eg)
                   (eg_iter eg) ufunc op arr_prep r ->
             let o' := if ret o <? 0
                       then mkOutcome (-1) (out_ops o) (after o)
                       else mkOutcome 0 (out_ops o) (after o) in
             0 <= ret o' ->
             computed_nothing r (after o')
             /\ firstn n_in (out_ops o') = firstn n_in op
             /\ exists outs,
                 skipn n_in (out_ops o') = map Some outs
                 /\ Forall2 empty_output (skipn n_in op) outs).
  { intros o -> o' R'. subst o'.
    destruct (iterator_loop_empty_outputs (eg_innerloop eg)
                (eg_equiv_types eg) (eg_iter eg) ufunc nothing op arr_prep r a
                L Ia Za) as [Af Out].
    destruct (ret _ <? 0) eqn:Neg; [cbn in R'; lia|].
    cbn [after out_ops]. rewrite Af. split; [apply computed_nothing_refl|].
    apply Out.
    apply Z.ltb_ge in Neg.
    unfold iterator_loop in *.
    repeat match goal with
           | |- context [match ?t with _ => _ end] =>
               destruct t eqn:?; cbn in Neg |- *; try lia; try reflexivity
           end. }
  destruct (negb (trivial_loop_ok =? 0) && (nout ufunc =? 1)) eqn:T;
    [|now apply It].
  apply andb_true_iff in T. destruct T as [_ T]. apply Z.eqb_eq in T.
  destruct (negb (ret (try_trivial_single_output_loop _ _ _ _ _ _ _ _ _ _)
                  =? -2)) eqn:F; [|now apply It].
  assert (L1 : List.length op = S n_in).
  { subst n_in n_out. rewrite L, T. change (Z.to_nat 1) with 1%nat. lia. }
  assert (R0 : ret (try_trivial_single_output_loop (eg_innerloop eg)
                      (eg_overlap_ok eg) (eg_equiv_types eg) ufunc op dtypes
                      order (hd None arr_prep) (eg_block eg) r) = 0).
  { destruct (try_trivial_cases (eg_innerloop eg) (eg_overlap_ok eg)
                (eg_equiv_types eg) ufunc op dtypes order (hd None arr_prep)
                (eg_block eg) r) as [C|[C|C]]; cbv zeta in C.
    - rewrite (proj1 C) in F. discriminate F.
    - rewrite (proj1 C) in R. lia.
    - exact (proj1 C). }
  destruct (try_trivial_empty (eg_innerloop eg) (eg_overlap_ok eg)
              (eg_equiv_types eg) ufunc nin_nonneg idle op dtypes order
              (hd None arr_prep) (eg_block eg) r a L1 Ia Za R0)
    as (Cn & Fi & out & Sk & D).
  split; [exact Cn|]. split; [exact Fi|].
  exists [out]. split; [exact Sk|].
  fold n_in in D |- *.
  destruct (skipn n_in op) as [|g rest] eqn:Sg.
  { apply (f_equal (@List.length _)) in Sg. rewrite length_skipn in Sg.
    cbn in Sg. lia. }
  assert (rest = []).
  { apply (f_equal (@List.length _)) in Sg. rewrite length_skipn in Sg.
    cbn [List.length] in Sg. destruct rest; [reflexivity|].
    cbn [List.length] in Sg. lia. }
  subst rest. constructor; [|constructor].
  cbn [hd] in D. destruct g as [given|]; cbn; [exact D|].
  rewrite (size_dims _ _ D). now apply size_zero_iff.
Qed.

(** [execute_fancy_ufunc_loop] on an operand with a dimension of extent
    0. *)
Lemma execute_fancy_empty_outputs (mask : PyArrayObject)
      (op : list (option PyArrayObject)) (arr_prep : list prepare_hook)
      (r : run) (a : PyArrayObject) :
  let n_in := Z.to_nat (nin ufunc) in
  let n_out := Z.to_nat (nout ufunc) in
  let o := execute_fancy_ufunc_loop eg ufunc (Some mask)
             (set_op op (nin ufunc + nout ufunc) mask) arr_prep r in
  List.length op = (n_in + n_out)%nat ->
  In (Some a) op -> has_zero_extent a ->
  after o = r
  /\ (0 <= ret o ->
      exists outs,
        firstn n_out (skipn n_in (out_ops o)) = map Some outs
        /\ Forall2 empty_output (skipn n_in op) outs).
Proof.
  intros n_in n_out o L Ia Za. subst o. unfold execute_fancy_ufunc_loop.
  fold n_in. fold n_out.
  assert (Nn : Z.to_nat (nin ufunc + nout ufunc) = (n_in + n_out)%nat)
    by (subst n_in n_out; lia).
  assert (So : set_op op (nin ufunc + nout ufunc) mask = op ++ [Some mask]).
  { unfold set_op. rewrite Nn, firstn_all2 by lia.
    rewrite skipn_all2 by lia. reflexivity. }
  rewrite So.
  assert (F1 : firstn (Z.to_nat (nin ufunc + nout ufunc + 1))
                      (op ++ [Some mask]) = op ++ [Some mask]).
  { apply firstn_all2. rewrite length_app. cbn [List.length]. lia. }
  rewrite F1.
  assert (Sk : skipn n_in (op ++ [Some mask])
               = skipn n_in op ++ [Some mask]).
  { rewrite skipn_app. replace (n_in - List.length op)%nat with O by lia.
    reflexivity. }
  assert (Fo : firstn n_out (skipn n_in (op ++ [Some mask]))
               = skipn n_in op).
  { rewrite Sk, firstn_app, length_skipn.
    replace (n_out - (List.length op - n_in))%nat with O by lia.
    cbn [firstn]. rewrite app_nil_r. apply firstn_all2.
    rewrite length_skipn. lia. }
  rewrite Fo.
  destruct (eg_iter eg (op ++ [Some mask])) as [iter|] eqn:N;
    [|cbn; split; [reflexivity|lia]].
  destruct (nothing _ _ N) as [Sz Al].
  assert (Z0 : it_size iter = 0).
  { apply Sz. exists a. split; [apply in_or_app; now left|exact Za]. }
  destruct (prepare_masked (eg_equiv_types eg) (skipn n_in op)
              (skipn n_in (it_operands iter)) arr_prep) as [outputs1|]
    eqn:P; [|cbn; split; [reflexivity|lia]].
  rewrite Z0. cbn [Z.eqb negb after ret out_ops].
  split; [reflexivity|]. intros _.
  destruct (prepare_masked_outputs (eg_equiv_types eg) _ _ _ _ P)
    as (outs & -> & F).
  { intros k Hk.
    replace (nth k (skipn n_in (it_operands iter)) no_array)
      with (nth (n_in + k) (it_operands iter) no_array).
    - rewrite (Al (n_in + k)%nat); [exact Z0|].
      rewrite nth_error_app1.
      + rewrite <- Hk. clear. revert op.
        induction n_in as [|n IH]; intros [|x op]; cbn; auto.
        now destruct k.
      + assert (Lk : (k < List.length (skipn n_in op))%nat).
        { apply nth_error_Some. rewrite Hk. discriminate. }
        rewrite length_skipn in Lk. lia.
    - rewrite <- (firstn_skipn n_in (it_operands iter)) at 1.
      destruct (Nat.le_gt_cases n_in (List.length (it_operands iter)))
        as [Le|Gt].
      + rewrite app_nth2; rewrite length_firstn; [|lia].
        f_equal. lia.
      + rewrite skipn_all2 by lia.
        rewrite app_nil_r, firstn_all2 by lia.
        rewrite nth_overflow by lia. now destruct k. }
  exists outs. split; [|exact F].
  assert (Lf : List.length (firstn n_in (op ++ [Some mask])) = n_in).
  { rewrite length_firstn, length_app. cbn [List.length]. lia. }
  rewrite skipn_app, Lf, Nat.sub_diag. cbn [skipn].
  rewrite skipn_all2 by lia. cbn [app].
  assert (Lo : List.length outs = n_out).
  { apply Forall2_length in F. rewrite length_skipn in F. lia. }
  rewrite firstn_app, length_map, Lo, Nat.sub_diag. cbn [firstn].
  rewrite app_nil_r. apply firstn_all2. rewrite length_map. lia.
Qed.

(** [PyUFunc_GenericFunctionInternal] on an operand with a dimension of
    extent 0: when it succeeds, it has computed no element, and every
    output has the shape of the array given for it, or is new and without
    element. *)
Lemma generic_function_internal_empty (descrs : list PyArray_Descr)
      (op : list (option PyArrayObject)) (order : NPY_ORDER)
      (arr_prep : list prepare_hook) (wheremask : option PyArrayObject)
      (r : run) (a : PyArrayObject) :
  let n_in := Z.to_nat (nin ufunc) in
  let n_out := Z.to_nat (nout ufunc) in
  let o := PyUFunc_GenericFunctionInternal eg ufunc descrs op order arr_prep
             wheremask r in
  List.length op = (n_in + n_out)%nat ->
  In (Some a) op -> has_zero_extent a ->
  0 <= ret o ->
  computed_nothing r (after o)
  /\ exists outs,
      firstn n_out (skipn n_in (out_ops o)) = map Some outs
      /\ Forall2 empty_output (skipn n_in op) outs.
Proof.
  intros n_in n_out o L Ia Za R. subst o.
  unfold PyUFunc_GenericFunctionInternal in *.
  destruct (eg_bufsize eg) as [buffersize|]; [|cbn in R; lia].
  match type of R with
  | context [ret ?x <? 0] => set (o := x) in *
  end.
  destruct (ret o <? 0) eqn:Neg; [cbn in R; lia|].
  apply Z.ltb_ge in Neg.
  destruct (err (mach (after o)) || negb (eg_fperr_ok eg));
    [cbn in R; lia|].
  clear R. subst o. destruct wheremask as [mask|].
  - destruct (nin ufunc + nout ufunc + 1 >? eg_maxargs eg);
      [cbn in Neg; lia|].
    destruct (execute_fancy_empty_outputs mask op arr_prep r a L Ia Za)
      as [Af Out].
    rewrite Af. split; [apply computed_nothing_refl|]. now apply Out.
  - destruct (check_for_trivial_loop (eg_equiv_types eg)
                (eg_cast_to_type eg) ufunc op descrs buffersize)
      as [trivial_loop_ok op1] eqn:C.
    pose proof (check_for_trivial_loop_shapes _ _ _ _ _ C) as S.
    destruct (trivial_loop_ok <? 0); [cbn in Neg; lia|].
    destruct (same_shape_zero_extent _ _ _ S Ia Za) as (a1 & I1 & Z1).
    assert (L1 : List.length op1 = (n_in + n_out)%nat).
    { apply Forall2_length in S. lia. }
    destruct (execute_legacy_empty_outputs trivial_loop_ok op1 descrs order
                arr_prep r a1 L1 I1 Z1 Neg) as (Cn & _ & outs & Sk & F).
    split; [exact Cn|]. exists outs. split.
    + fold n_in in Sk. rewrite Sk. apply firstn_all2.
      apply Forall2_length in F. rewrite length_skipn in F.
      rewrite length_map. lia.
    + apply (same_shape_empty_output _ (skipn n_in op1));
        [now apply Forall2_skipn_both|exact F].
Qed.

End EmptyEngine.
Section CallPlans.

Variable cl : caller.
Variable ufunc : PyUFuncObject.

Lemma convert_inputs_spec (objs : list in_object) :
  forall l, convert_inputs cl objs = Some l ->
            List.length l = List.length objs
            /\ forall k a, nth_error objs k = Some (InArray a) ->
                           exists a', nth_error l k = Some (Some a')
                                      /\ cl_from_array cl a = Some a'.
Proof.
  induction objs as [|obj objs IH]; intros l C; cbn [convert_inputs] in C.
  - injection C as <-. split; [reflexivity|]. intros [|k] a H; discriminate H.
  - match type of C with
    | match ?t with _ => _ end = _ => destruct t as [x|] eqn:T
    end; [|discriminate C].
    destruct (convert_inputs cl objs) as [rest|]; [|discriminate C].
    injection C as <-. destruct (IH _ eq_refl) as [Len Nth].
    split; [cbn; now rewrite Len|].
    intros [|k] a H; cbn in H |- *.
    + injection H as ->. exists x. split; [reflexivity|exact T].
    + now apply Nth.
Qed.

Lemma convert_outputs_length (objs : list pyobj) :
  forall l, convert_outputs cl objs = Some l ->
            List.length l = List.length objs.
Proof.
  induction objs as [|obj objs IH]; intros l C; cbn [convert_outputs] in C.
  - now injection C as <-.
  - destruct (_set_out_array cl obj); [|discriminate C].
    destruct (convert_outputs cl objs) as [rest|]; [|discriminate C].
    injection C as <-. cbn. now rewrite (IH _ eq_refl).
Qed.

Lemma convert_arguments_spec (full_in : list in_object)
      (full_out : option (list pyobj)) (kw : call_keywords)
      (keepdims_obj : option (option bool)) (cd : converted) :
  convert_ufunc_arguments cl ufunc full_in full_out kw keepdims_obj
  = Some cd ->
  exists inputs outputs,
    cd_operands cd = inputs ++ outputs
    /\ convert_inputs cl full_in = Some inputs
    /\ List.length outputs
       = match full_out with
         | Some objs => List.length objs
         | None => Z.to_nat (nout ufunc)
         end.
Proof.
  unfold convert_ufunc_arguments.
  destruct (convert_inputs cl full_in) as [inputs|]; [|discriminate].
  match goal with
  | |- match ?t with _ => _ end = _ -> _ =>
      destruct t as [outputs|] eqn:O
  end; [|discriminate].
  intros H. exists inputs, outputs.
  assert (E : cd_operands cd = inputs ++ outputs).
  { destruct (kw_where kw) as [[w|]|]; try discriminate H;
      destruct keepdims_obj as [[k|]|]; try discriminate H;
      destruct (negb (kw_casting_ok kw)); try discriminate H;
      destruct (kw_order kw) as [[o|]|]; try discriminate H;
      destruct (kw_subok kw) as [[s|]|]; try discriminate H;
      injection H as <-; reflexivity. }
  split; [exact E|]. split; [reflexivity|].
  destruct full_out as [objs|].
  - now apply convert_outputs_length.
  - injection O as <-. apply repeat_length.
Qed.

Lemma set_full_args_out_length (out_obj : out_object) (pack_ok : bool)
      (out : option (list pyobj)) :
  _set_full_args_out (nout ufunc) out_obj pack_ok None = inl out ->
  0 <= nout ufunc ->
  match out with
  | Some objs => List.length objs = Z.to_nat (nout ufunc)
  | None => True
  end.
Proof.
  unfold _set_full_args_out. intros H N. destruct out_obj as [items|o].
  - destruct (negb (Z.of_nat (List.length items) =? nout ufunc)) eqn:E;
      [discriminate H|].
    apply negb_false_iff, Z.eqb_eq in E.
    destruct (tuple_all_none items); injection H as <-; [exact I|lia].
  - destruct (nout ufunc =? 1) eqn:E; [|discriminate H].
    apply Z.eqb_eq in E.
    destruct (is_py_none o); [injection H as <-; exact I|].
    destruct pack_ok; [|discriminate H].
    injection H as <-. rewrite E. reflexivity.
Qed.

(** What a call has done when it reaches its engine. *)
Lemma call_plan_inv (args : list pyobj) (kwnames : option call_keywords)
      (outer : bool) (p : call_plan) :
  call_plan_of cl ufunc args kwnames outer = CallPlan p ->
  0 <= nout ufunc ->
  nin ufunc <= Z.of_nat (List.length args) <= nargs ufunc
  /\ exists full_in full_out kw keepdims_obj cd,
      convert_ufunc_arguments cl ufunc full_in full_out kw keepdims_obj
      = Some cd
      /\ cp_operands p = cd_operands cd
      /\ match full_out with
         | Some objs =>
             List.length objs = Z.to_nat (nout ufunc)
             \/ List.length objs
                = (List.length args - Z.to_nat (nin ufunc)
                   + Z.to_nat (nargs ufunc - Z.of_nat (List.length args)))%nat
         | None => True
         end
      /\ if outer then
           exists ap_new ap2,
             prepare_input_arguments_for_outer (cl_newshape cl) ufunc
               (cl_outer_arg cl (nth 0 args PyNone))
               (cl_outer_arg cl (nth 1 args PyNone)) (cl_newshape_block cl)
             = inl (ap_new, ap2)
             /\ full_in = [InArray ap_new; InArray ap2]
         else full_in = map InObject (firstn (Z.to_nat (nin ufunc)) args).
Proof.
  unfold call_plan_of. intros H N0.
  destruct ((Z.of_nat (List.length args) <? nin ufunc)
            || (Z.of_nat (List.length args) >? nargs ufunc)) eqn:Cnt;
    [discriminate H|].
  apply orb_false_iff in Cnt. destruct Cnt as [C1 C2].
  apply Z.ltb_ge in C1. rewrite Z.gtb_ltb in C2. apply Z.ltb_ge in C2.
  split; [lia|].
  destruct (negb (cl_in_packed cl)); [discriminate H|].
  destruct ((Z.of_nat (List.length args) >? nin ufunc)
            && negb (cl_out_packed cl)); [discriminate H|].
  match type of H with
  | context [kw_parsed ?k] => set (kw := k) in *
  end.
  destruct (negb (kw_parsed kw)); [discriminate H|].
  match type of H with
  | (if ?b then _ else _) = _ => destruct b; [discriminate H|]
  end.
  match type of H with
  | match ?t with _ => _ end = _ => destruct t as [full_out|res] eqn:Fo
  end; [|discriminate H].
  destruct (negb (kw_signature_ok kw)); [discriminate H|].
  destruct (cl_override cl); try discriminate H.
  match type of H with
  | match ?t with _ => _ end = _ => destruct t as [full_in|res] eqn:Fi
  end; [|discriminate H].
  destruct (negb (cl_typetup_ok cl)); [discriminate H|].
  match type of H with
  | match convert_ufunc_arguments cl ufunc full_in full_out kw ?kd with
    | _ => _ end = _ =>
      destruct (convert_ufunc_arguments cl ufunc full_in full_out kw kd)
        as [cd|] eqn:Cv; [|discriminate H];
      exists full_in, full_out, kw, kd, cd
  end.
  destruct (cl_type_resolver cl (cd_operands cd)); [|discriminate H].
  injection H as <-. cbn [cp_operands].
  split; [exact Cv|]. split; [reflexivity|]. split.
  - destruct (kw_out kw) as [out_obj|].
    + destruct (Z.of_nat (List.length args) >? nin ufunc) eqn:Pos;
        [discriminate Fo|].
      destruct (_set_full_args_out (nout ufunc) out_obj (kw_pack_ok kw) None)
        as [out|e] eqn:So; [|discriminate Fo].
      injection Fo as <-.
      pose proof (set_full_args_out_length _ _ _ So N0) as Ln.
      destruct out; [now left|exact I].
    + injection Fo as <-.
      destruct (Z.of_nat (List.length args) >? nin ufunc); [|exact I].
      destruct (tuple_all_none _); [exact I|].
      right. rewrite length_app, length_skipn, repeat_length. reflexivity.
  - destruct outer.
    + destruct (prepare_input_arguments_for_outer _ _ _ _ _)
        as [[ap_new ap2]|e]; [|discriminate Fi].
      injection Fi as <-. now exists ap_new, ap2.
    + now injection Fi as <-.
Qed.

(** The operands a call hands to its engine are as many as the ufunc
    has. *)
Lemma call_plan_operands (args : list pyobj)
      (kwnames : option call_keywords) (outer : bool) (p : call_plan) :
  0 <= nin ufunc -> 0 <= nout ufunc ->
  nargs ufunc = nin ufunc + nout ufunc ->
  (outer = true -> nin ufunc = 2) ->
  call_plan_of cl ufunc args kwnames outer = CallPlan p ->
  List.length (cp_operands p)
  = (Z.to_nat (nin ufunc) + Z.to_nat (nout ufunc))%nat.
Proof.
  intros N0 N1 Na No H.
  destruct (call_plan_inv args kwnames outer p H N1)
    as (Cnt & full_in & full_out & kw & kd & cd & Cv & -> & Lo & Fi).
  destruct (convert_arguments_spec _ _ _ _ _ Cv)
    as (inputs & outputs & -> & Ci & Lout).
  destruct (convert_inputs_spec _ _ Ci) as [Lin _].
  rewrite length_app, Lin, Lout. f_equal.
  - destruct outer.
    + destruct Fi as (ap_new & ap2 & _ & ->). rewrite (No eq_refl).
      reflexivity.
    + rewrite Fi, length_map, length_firstn. lia.
  - destruct full_out as [objs|]; [|reflexivity].
    destruct Lo as [Lo|Lo]; [exact Lo|]. rewrite Lo. lia.
Qed.

End CallPlans.

Section EmptyCalls.

Variable eg : engine.
Variable cl : caller.
Variable ufunc : PyUFuncObject.

Hypothesis nin_nonneg : 0 <= nin ufunc.
Hypothesis nout_nonneg : 0 <= nout ufunc.
Hypothesis nargs_sum : nargs ufunc = nin ufunc + nout ufunc.
Hypothesis elementwise : core_enabled ufunc = 0.
Hypothesis idle : idle_on_nothing (eg_innerloop eg).
Hypothesis nothing : iterates_nothing_over_empty (eg_iter eg).
Hypothesis keep : conversions_keep_shape eg cl.

Lemma supplied_map_some (outs : list PyArrayObject) :
  supplied (map Some outs) = outs.
Proof. induction outs as [|a outs IH]; cbn; [reflexivity|now rewrite IH]. Qed.

(** A call of an elementwise ufunc whose operands have one with a
    dimension of extent 0. *)
Lemma fastcall_empty (args : list pyobj) (kwnames : option call_keywords)
      (outer : bool) (r : run) (p : call_plan)
      (outs : list PyArrayObject) (r' : run) (a : PyArrayObject) :
  (outer = true -> nin ufunc = 2) ->
  call_plan_of cl ufunc args kwnames outer = CallPlan p ->
  In (Some a) (cp_operands p) -> has_zero_extent a ->
  ufunc_generic_fastcall eg cl ufunc args kwnames outer r
  = (CallReturned outs, r') ->
  computed_nothing r r'
  /\ Forall2 empty_output (skipn (Z.to_nat (nin ufunc)) (cp_operands p))
             outs.
Proof.
  intros No P Ia Za. unfold ufunc_generic_fastcall.
  rewrite P, elementwise. cbn [Z.eqb].
  pose proof (call_plan_operands cl ufunc args kwnames outer p nin_nonneg
                nout_nonneg nargs_sum No P) as L.
  match goal with
  | |- context [ret ?x <? 0] => set (o := x)
  end.
  destruct (ret o <? 0) eqn:Neg; [discriminate|].
  apply Z.ltb_ge in Neg.
  destruct (generic_function_internal_empty eg ufunc nin_nonneg nout_nonneg
              idle nothing (proj2 keep) (cp_descrs p) (cp_operands p)
              (cp_order p) (cp_prepare p) (cp_wheremask p) r a L Ia Za Neg)
    as (Cn & outs' & Eo & F).
  fold o in Cn, Eo. rewrite Eo, supplied_map_some.
  destruct (negb (wrap_results cl 0 outs')); [discriminate|].
  destruct (negb (nout ufunc =? 1) && negb (cl_tuple_ok cl));
    [discriminate|].
  intros H. injection H as <- <-. split; [exact Cn|exact F].
Qed.

(** A call of [outer] on two arguments of which one is an array with a
    dimension of extent 0. *)
Lemma outer_empty (args : list pyobj) (kwnames : option call_keywords)
      (r : run) (outs : list PyArrayObject) (r' : run) (k : nat)
      (a : PyArrayObject) :
  zlen (cl_newshape_block cl) = NPY_MAXDIMS ->
  (k < 2)%nat ->
  oa_array (cl_outer_arg cl (nth k args PyNone)) = Some a ->
  has_zero_extent a ->
  ufunc_outer eg cl ufunc args kwnames r = (CallReturned outs, r') ->
  computed_nothing r r'
  /\ exists p,
      call_plan_of cl ufunc args kwnames true = CallPlan p
      /\ Forall2 empty_output (skipn 2 (cp_operands p)) outs.
Proof.
  intros Lb Hk Oa Za. unfold ufunc_outer.
  destruct (negb (core_enabled ufunc =? 0)); [discriminate|].
  destruct (negb (nin ufunc =? 2)) eqn:N2; [discriminate|].
  apply negb_false_iff, Z.eqb_eq in N2.
  destruct (negb (Z.of_nat (List.length args) =? 2)); [discriminate|].
  intros H.
  destruct (call_plan_of cl ufunc args kwnames true) as [p|res] eqn:P.
  2:{ unfold ufunc_generic_fastcall in H. rewrite P in H.
      injection H as -> _.
      exfalso. clear - P. unfold call_plan_of in P.
      repeat match type of P with
             | (if ?b then _ else _) = _ => destruct b; try discriminate P
             | match ?t with _ => _ end = _ =>
                 destruct t eqn:?; try discriminate P
             | (let (_, _) := ?t in _) = _ =>
                 destruct t eqn:?; try discriminate P
             end;
        repeat match goal with
               | H : (if ?b then _ else _) = _ |- _ =>
                   destruct b; try discriminate H
               | H : match ?t with _ => _ end = _ |- _ =>
                   destruct t eqn:?; try discriminate H
               | H : inr _ = inr _ |- _ => injection H as H; subst
               | H : inl _ = inr _ |- _ => discriminate H
               end;
        try discriminate P; try congruence. }
  destruct (call_plan_inv cl ufunc args kwnames true p P nout_nonneg)
    as (_ & full_in & full_out & kw & kd & cd & Cv & Ep & _
        & ap_new & ap2 & Pr & ->).
  destruct (outer_prepared_shape _ _ _ _ _ _ _ Lb Pr)
    as (ap1 & A0 & A1 & _ & Dn).
  destruct (convert_arguments_spec _ _ _ _ _ _ _ Cv)
    as (inputs & outputs & Eo & Ci & _).
  destruct (convert_inputs_spec _ _ _ Ci) as [_ Nth].
  destruct (Nth 0%nat ap_new eq_refl) as (x & Nx & Fx).
  destruct (Nth 1%nat ap2 eq_refl) as (y & Ny & Fy).
  assert (Z' : exists b, In (Some b) (cp_operands p) /\ has_zero_extent b).
  { rewrite Ep, Eo.
    assert (K : k = 0%nat \/ k = 1%nat) by lia. destruct K as [->| ->].
    - exists x. split.
      + apply in_or_app. left. exact (nth_error_In _ _ Nx).
      + rewrite A0 in Oa. injection Oa as ->.
        apply zero_extent_in. rewrite (proj1 keep _ _ Fx), Dn.
        apply in_or_app. left. now apply zero_extent_in.
    - exists y. split.
      + apply in_or_app. left. exact (nth_error_In _ _ Ny).
      + rewrite A1 in Oa. injection Oa as ->.
        apply (zero_extent_dims a); [exact (proj1 keep _ _ Fy)|exact Za]. }
  destruct Z' as (b & Ib & Zb).
  destruct (fastcall_empty args kwnames true r p outs r' b
              (fun _ => N2) P Ib Zb H) as [Cn F].
  split; [exact Cn|]. exists p. split; [reflexivity|].
  rewrite N2 in F. exact F.
Qed.

End EmptyCalls.
Section EmptyGeneralized.

Variable eg : engine.
Variable ufunc : PyUFuncObject.

Lemma generalized_inner_loop_empty (iter : NpyIter) (inner_strides : list Z)
      (r : run) :
  it_size iter = 0 ->
  snd (generalized_inner_loop (eg_innerloop eg) iter inner_strides
         (eg_fperr_ok eg) r) = r.
Proof.
  intros Z0. unfold generalized_inner_loop. rewrite Z0. cbn [Z.eqb negb].
  destruct (err (mach r) || negb (eg_fperr_ok eg)); [reflexivity|].
  destruct (it_dealloc_ok iter); reflexivity.
Qed.

(** [PyUFunc_GeneralizedFunctionInternal] when the iteration over the
    loop dimensions has the size 0: no kernel is invoked, and the outputs
    are those given and, for the others, those of the iterator. *)
Lemma generalized_internal_empty (op : list (option PyArrayObject))
      (axis : option (option Z)) (axes : option (option (list axes_item)))
      (keepdims : Z) (remap_memory : option (list (list Z)))
      (pack_ok strides_ok : bool) (r : run) :
  let n_in := Z.to_nat (nin ufunc) in
  let n_out := Z.to_nat (nout ufunc) in
  let given := firstn (Z.to_nat (nin ufunc + nout ufunc)) op in
  let o := PyUFunc_GeneralizedFunctionInternal eg ufunc op axis axes
             keepdims remap_memory pack_ok strides_ok r in
  (forall ci, eg_core_iter eg given = Some ci -> it_size (ci_iter ci) = 0) ->
  after o = r
  /\ (0 <= ret o ->
      exists ci,
        eg_core_iter eg given = Some ci
        /\ out_ops o
           = firstn n_in op
             ++ fill_allocated (firstn n_out (skipn n_in op))
                               (skipn n_in (it_operands (ci_iter ci)))
             ++ skipn (n_in + n_out) op).
Proof.
  intros n_in n_out given o Z0. subst o.
  unfold PyUFunc_GeneralizedFunctionInternal. cbv zeta.
  fold n_in. fold n_out. fold given.
  repeat match goal with
         | |- context [if ?b then mkOutcome (-1) op r else _] =>
             destruct b; [cbn; split; [reflexivity|lia]|]
         | |- context [match ?t with
                       | inl _ => _
                       | inr _ => mkOutcome (-1) op r
                       end] =>
             destruct t as [[? ?]|?]; [|cbn; split; [reflexivity|lia]]
         | |- context [match ?t with
                       | Some _ => _
                       | None => mkOutcome (-1) op r
                       end] =>
             destruct t eqn:?; [|cbn; split; [reflexivity|lia]]
         | |- context [match ?t with
                       | CoreDimOk _ => _
                       | CoreDimError _ => mkOutcome (-1) op r
                       end] =>
             destruct t; [|cbn; split; [reflexivity|lia]]
         end.
  match goal with
  | H : eg_core_iter eg given = Some ?c |- _ =>
      rename H into N; pose proof (Z0 c eq_refl) as Zc
  end.
  repeat match goal with
         | |- context [if ?b then mkOutcome (-1) ?x r else _] =>
             destruct b; [cbn; split; [reflexivity|lia]|]
         end.
  match goal with
  | |- context [generalized_inner_loop ?k ?it ?s ?f r] =>
      pose proof (generalized_inner_loop_empty it s r Zc) as G;
      destruct (generalized_inner_loop k it s f r) as [code r1]
  end.
  cbn [snd] in G. subst r1. cbn [after ret out_ops].
  split; [reflexivity|]. intros _. eexists. split; [reflexivity|].
  reflexivity.
Qed.

Lemma fill_allocated_supplied (ops : list (option PyArrayObject)) :
  forall l, map Some (supplied (fill_allocated ops l)) = fill_allocated ops l.
Proof.
  induction ops as [|[a|] ops IH]; intros l; cbn; [reflexivity| |];
    now rewrite IH.
Qed.

Lemma fill_allocated_length (ops : list (option PyArrayObject)) :
  forall l, List.length (fill_allocated ops l) = List.length ops.
Proof.
  induction ops as [|o ops IH]; intros l; cbn; [reflexivity|].
  now rewrite IH.
Qed.

Variable cl : caller.

Hypothesis nin_nonneg : 0 <= nin ufunc.
Hypothesis nout_nonneg : 0 <= nout ufunc.
Hypothesis nargs_sum : nargs ufunc = nin ufunc + nout ufunc.
Hypothesis generalized : core_enabled ufunc <> 0.

(** A call of a generalized ufunc whose iteration over the loop
    dimensions has the size 0. *)
Lemma fastcall_generalized_empty (args : list pyobj)
      (kwnames : option call_keywords) (r : run) (p : call_plan)
      (outs : list PyArrayObject) (r' : run) :
  call_plan_of cl ufunc args kwnames false = CallPlan p ->
  (forall ci, eg_core_iter eg (cp_operands p) = Some ci ->
              it_size (ci_iter ci) = 0) ->
  ufunc_generic_fastcall eg cl ufunc args kwnames false r
  = (CallReturned outs, r') ->
  r' = r
  /\ exists ci,
      eg_core_iter eg (cp_operands p) = Some ci
      /\ map Some outs
         = fill_allocated (skipn (Z.to_nat (nin ufunc)) (cp_operands p))
             (skipn (Z.to_nat (nin ufunc)) (it_operands (ci_iter ci))).
Proof.
  intros P Z0. unfold ufunc_generic_fastcall. rewrite P.
  destruct (core_enabled ufunc =? 0) eqn:E;
    [apply Z.eqb_eq in E; contradiction|].
  pose proof (call_plan_operands cl ufunc args kwnames false p nin_nonneg
                nout_nonneg nargs_sum ltac:(discriminate) P) as L.
  assert (Fa : firstn (Z.to_nat (nin ufunc + nout ufunc)) (cp_operands p)
               = cp_operands p).
  { apply firstn_all2. lia. }
  match goal with
  | |- context [ret ?x <? 0] => set (o := x)
  end.
  destruct (generalized_internal_empty (cp_operands p) (cp_axis p)
              (cp_axes p) (cp_keepdims p) (cl_remap_memory cl) (cp_pack_ok p)
              (cl_strides_ok cl) r) as [Af Out].
  { rewrite Fa. exact Z0. }
  fold o in Af, Out.
  destruct (ret o <? 0) eqn:Neg; [discriminate|].
  apply Z.ltb_ge in Neg. destruct (Out Neg) as (ci & N & Eo).
  rewrite Fa in N. rewrite Eo.
  set (n_in := Z.to_nat (nin ufunc)) in *.
  set (n_out := Z.to_nat (nout ufunc)) in *.
  assert (Fo : firstn n_out (skipn n_in (cp_operands p))
               = skipn n_in (cp_operands p)).
  { apply firstn_all2. rewrite length_skipn. lia. }
  assert (Li : List.length (firstn n_in (cp_operands p)) = n_in).
  { rewrite length_firstn. lia. }
  rewrite Fo, skipn_app, Li, Nat.sub_diag. cbn [skipn].
  rewrite (skipn_all2 (firstn n_in (cp_operands p))) by lia.
  rewrite (@skipn_all2 _ (n_in + n_out)%nat (cp_operands p)) by lia.
  cbn [app]. rewrite app_nil_r.
  rewrite firstn_all2
    by (rewrite fill_allocated_length, length_skipn; lia).
  destruct (negb (wrap_results cl 0 _)); [discriminate|].
  destruct (negb (nout ufunc =? 1) && negb (cl_tuple_ok cl));
    [discriminate|].
  intros H. injection H as <- <-. split; [exact Af|].
  exists ci. split; [exact N|]. apply fill_allocated_supplied.
Qed.

End EmptyGeneralized.
Section EmptyReductionCalls.

Variable env : collaborators.
Variable sizeof_long : Z.

Ltac plan_more H :=
  match type of H with
  | (if ?b then _ else _) = _ => destruct b eqn:?
  | match ?x with _ => _ end = _ => destruct x eqn:?
  end; try discriminate H.

(** The indices and the initial value of the plan are those of the
    arguments. *)
Lemma reduction_plan_arguments (ufunc : PyUFuncObject)
      (args : reduction_args) (operation : reduction) (p : reduction_plan) :
  reduction_plan_of env sizeof_long (Some ufunc) args operation = Plan p ->
  rp_indices p = match ra_indices args with
                 | Some (Some i) => Some i
                 | _ => None
                 end
  /\ rp_initial p = ra_initial args.
Proof.
  unfold reduction_plan_of. intros H.
  repeat plan_more H; injection H as <-; cbn [rp_indices rp_initial];
    split; reflexivity.
Qed.

Lemma empty_vector (a : PyArrayObject) :
  PyArray_NDIM a <= 1 -> has_zero_extent a -> dims a = [0].
Proof.
  intros Le (k & Hk & E). unfold PyArray_NDIM, PyArray_DIM, zlen, rd in *.
  destruct (dims a) as [|d [|d' l]]; cbn [List.length] in *; try lia.
  assert (k = 0) by lia. subst k. cbn in E. now subst d.
Qed.

Lemma rd_singleton_zero (k : Z) : rd [0] k = 0.
Proof.
  unfold rd. destruct (k <? 0); [reflexivity|].
  destruct (Z.to_nat k) as [|[|n]]; reflexivity.
Qed.

Lemma new_array_dims (blk : option Z) (dtype : PyArray_Descr)
      (shape : list Z) (fortran : bool) (res : PyArrayObject) :
  PyArray_NewFromDescr blk dtype (zlen shape) shape fortran = Some res ->
  dims res = shape.
Proof.
  unfold PyArray_NewFromDescr. destruct blk; [|discriminate].
  intros H. injection H as <-. cbn [dims].
  apply firstn_all2. unfold zlen. lia.
Qed.

(** [accumulate] on an input with a dimension of extent 0. *)
Lemma accumulate_entry_empty (ufunc : PyUFuncObject) (args : reduction_args)
      (mp : PyArrayObject) (r r' : run) (res : PyArrayObject) :
  accumulate_iterator_keeps_shape env ->
  ra_array args = Some mp -> has_zero_extent mp ->
  PyUFunc_GenericReduction env sizeof_long (Some ufunc) args UFUNC_ACCUMULATE
                           r
  = (Returned res, r') ->
  ran_no_kernel r r'
  /\ match out_of_args args with
     | Some o => res = o
     | None => dims res = dims mp
     end.
Proof.
  intros Keep Ha Za H. unfold PyUFunc_GenericReduction in H.
  destruct (reduction_plan_of env sizeof_long (Some ufunc) args
              UFUNC_ACCUMULATE) as [p|e|o] eqn:P; try discriminate H.
  destruct (reduction_plan_inv env sizeof_long ufunc args UFUNC_ACCUMULATE p
              P) as (_ & _ & _ & _ & Ea & _ & Eout & _).
  rewrite Ha in Ea. injection Ea as Ea. rewrite <- Ea in H.
  destruct (PyArray_NDIM mp =? 0); [discriminate H|].
  destruct (negb (zlen (rp_axes p) =? 1)); [discriminate H|].
  fold (out_of_args args) in Eout. rewrite Eout in H.
  destruct (accumulate_call_walk env ufunc mp (out_of_args args) _ _ r r'
              res H)
    as (otf & loop & op0 & op1 & lanes & na & r0 & _ & W & R0 & E).
  assert (Fin : (PyArray_DIM op1 (rd (rp_axes p) 0) =? 0)
                || (PyArray_SIZE op0 =? 0) = true
                /\ match out_of_args args with
                   | Some o => res = o
                   | None => dims res = dims mp
                   end).
  { destruct W as [(-> & -> & _ & _ & Le & Al)
                  |(dtype0 & it & N & -> & -> & Er & _)].
    - pose proof (empty_vector mp Le Za) as D. split.
      + unfold PyArray_DIM at 1. rewrite D, rd_singleton_zero. reflexivity.
      + destruct (out_of_args args) as [o|]; [exact Al|].
        destruct Al as (dtype0 & N). now apply new_array_dims in N.
    - destruct (Keep _ _ _ _ N) as [K0 _]. split.
      + rewrite (size_dims _ _ K0).
        rewrite (proj2 (size_zero_iff mp) Za). apply orb_true_r.
      + destruct (out_of_args args) as [o|]; [exact Er|].
        rewrite Er. exact K0. }
  destruct Fin as [Fin Out]. rewrite Fin in E. subst r'.
  split; [|exact Out].
  destruct R0 as [->|[_ ->]];
    [apply ran_no_kernel_refl|apply ran_no_kernel_alloc].
Qed.

(** [reduceat] on an input with a dimension of extent 0, or with no
    index. *)
Lemma reduceat_entry_empty (ufunc : PyUFuncObject) (args : reduction_args)
      (mp ind : PyArrayObject) (reduceat_ind : list Z) (r r' : run)
      (res : PyArrayObject) :
  (forall axis, reduceat_iterator_keeps_shape env axis) ->
  ra_array args = Some mp ->
  ra_indices args = Some (Some (ind, reduceat_ind)) ->
  0 <= PyArray_DIM ind 0 ->
  has_zero_extent mp \/ PyArray_DIM ind 0 = 0 ->
  PyUFunc_GenericReduction env sizeof_long (Some ufunc) args UFUNC_REDUCEAT r
  = (Returned res, r') ->
  ran_no_kernel r r'
  /\ match out_of_args args with
     | Some o => res = o
     | None =>
         exists axis,
           reduction_axes (ra_axis args) (PyArray_NDIM mp) = inl [axis]
           /\ dims res = wr (dims mp) axis (PyArray_DIM ind 0)
     end.
Proof.
  intros Keep Ha Hi In0 Za H. unfold PyUFunc_GenericReduction in H.
  destruct (reduction_plan_of env sizeof_long (Some ufunc) args
              UFUNC_REDUCEAT) as [p|e|o] eqn:P; try discriminate H.
  destruct (reduction_plan_inv env sizeof_long ufunc args UFUNC_REDUCEAT p
              P) as (_ & _ & _ & _ & Ea & Eax & Eout & _).
  destruct (reduction_plan_arguments ufunc args UFUNC_REDUCEAT p P)
    as [Ei _].
  rewrite Ha in Ea. injection Ea as Ea. rewrite <- Ea in H, Eax.
  rewrite Hi in Ei. rewrite Ei in H.
  destruct (PyArray_NDIM mp =? 0) eqn:N0; [discriminate H|].
  apply Z.eqb_neq in N0.
  destruct (negb (zlen (rp_axes p) =? 1)) eqn:N1; [discriminate H|].
  apply negb_false_iff, Z.eqb_eq in N1.
  fold (out_of_args args) in Eout. rewrite Eout in H.
  pose proof (reduction_axes_in_rank _ _ _ (ndim_nonneg mp) Eax) as Rk.
  destruct (rp_axes p) as [|axis [|x l]] eqn:Ax;
    unfold zlen in N1; cbn [List.length] in N1; try lia.
  change (rd [axis] 0) with axis in H.
  assert (A : in_rank (PyArray_NDIM mp) axis)
    by (inversion Rk; assumption).
  destruct A as [A0 A1].
  destruct (reduceat_call_walk env ufunc mp ind reduceat_ind
              (out_of_args args) axis _ r r' res H)
    as (otf & loop & op0 & op1 & lanes & na & r0 & InR & _ & W & R0 & E).
  assert (Emp : PyArray_DIM mp axis = 0 -> PyArray_DIM ind 0 = 0).
  { intros D0.
    destruct (Z.eq_dec (PyArray_DIM ind 0) 0) as [E0|Ne]; [exact E0|].
    specialize (InR 0 ltac:(lia)). lia. }
  assert (Fin : PyArray_SIZE op0 = 0
                /\ match out_of_args args with
                   | Some o => res = o
                   | None => dims res = wr (dims mp) axis (PyArray_DIM ind 0)
                   end).
  { destruct W as [(-> & -> & _ & _ & Le & On & dtype0 & N)
                  |(dtype0 & it & N & -> & -> & Er & _)].
    - change 1 with (zlen [PyArray_DIM ind 0]) in N.
      apply new_array_dims in N.
      assert (axis = 0) by lia. subst axis.
      assert (Dm : exists d, dims mp = [d]).
      { unfold PyArray_NDIM, zlen in *.
        destruct (dims mp) as [|d [|d' l]]; cbn [List.length] in *;
          try lia. now exists d. }
      destruct Dm as [d Dm]. split.
      + apply size_zero_iff, zero_extent_in. rewrite N.
        destruct Za as [Za|Za].
        * pose proof (empty_vector mp Le Za) as D.
          rewrite Emp; [now left|].
          unfold PyArray_DIM. rewrite D. reflexivity.
        * rewrite Za. now left.
      + rewrite On, N, Dm. reflexivity.
    - destruct (Keep axis _ _ _ _ _ N) as [K0 _]. split.
      + apply size_zero_iff. unfold has_zero_extent, PyArray_NDIM,
          PyArray_DIM. rewrite K0, zlen_wr.
        fold (PyArray_NDIM mp).
        assert (At : PyArray_DIM ind 0 = 0 ->
                     exists k, 0 <= k < PyArray_NDIM mp
                               /\ rd (wr (dims mp) axis (PyArray_DIM ind 0))
                                     k = 0).
        { intros E0. exists axis. split; [lia|].
          rewrite rd_wr_same by (fold (PyArray_NDIM mp); lia). exact E0. }
        destruct Za as [(k & Hk & Dk)|Za]; [|now apply At].
        destruct (Z.eq_dec k axis) as [->|Ne]; [now apply At, Emp|].
        exists k. split; [exact Hk|].
        rewrite rd_wr_other by congruence. exact Dk.
      + destruct (out_of_args args) as [o|]; [exact Er|].
        rewrite Er. exact K0. }
  destruct Fin as [Fin Out]. apply Z.eqb_eq in Fin. rewrite Fin in E.
  subst r'. split.
  - destruct R0 as [->|[_ ->]];
      [apply ran_no_kernel_refl|apply ran_no_kernel_alloc].
  - destruct (out_of_args args) as [o|]; [exact Out|].
    exists axis. split; [exact Eax|exact Out].
Qed.

(** [reduceat] with an index on an axis of extent 0 raises the index
    error. *)
Lemma reduceat_index_on_empty_axis (ufunc : PyUFuncObject)
      (arr ind : PyArrayObject) (reduceat_ind : list Z)
      (out : option PyArrayObject) (axis otype : Z) (r : run) :
  PyArray_DIM arr axis = 0 -> 0 < PyArray_DIM ind 0 ->
  PyUFunc_Reduceat env ufunc arr ind reduceat_ind out axis otype r
  = (Raised (IndexOutOfBounds (rd reduceat_ind 0) "reduceat" 0), r).
Proof.
  intros D0 Dn. unfold PyUFunc_Reduceat. rewrite D0.
  destruct (Z.to_nat (PyArray_DIM ind 0)) as [|n] eqn:E; [lia|].
  cbn [first_out_of_bounds].
  destruct (rd reduceat_ind 0 <? 0) eqn:L; [reflexivity|].
  apply Z.ltb_ge in L.
  assert (G : (rd reduceat_ind 0 >=? 0) = true).
  { rewrite Z.geb_leb. now apply Z.leb_le. }
  rewrite G. reflexivity.
Qed.

(** [reduce] returns the array, and leaves the run, that
    [PyUFunc_ReduceWrapper] returns and leaves; for an input without
    element and no initial value given, it hands the wrapper the identity
    of the ufunc. *)
Lemma reduce_entry_empty (ufunc : PyUFuncObject) (args : reduction_args)
      (mp : PyArrayObject) (r r' : run) (res : PyArrayObject) :
  ra_array args = Some mp -> has_zero_extent mp ->
  PyUFunc_GenericReduction env sizeof_long (Some ufunc) args UFUNC_REDUCE r
  = (Returned res, r') ->
  exists identity reorderable dtype axis_flags keepdims wheremask,
    _get_identity ufunc = Some (identity, reorderable)
    /\ PyUFunc_ReduceWrapper env mp (out_of_args args) wheremask dtype
         axis_flags reorderable keepdims
         (match ra_initial args with
          | Some v => v
          | None => identity
          end) r
       = (Returned res, r').
Proof.
  intros Ha Za H. unfold PyUFunc_GenericReduction in H.
  destruct (reduction_plan_of env sizeof_long (Some ufunc) args UFUNC_REDUCE)
    as [p|e|o] eqn:P; try discriminate H.
  destruct (reduction_plan_inv env sizeof_long ufunc args UFUNC_REDUCE p P)
    as (_ & _ & _ & _ & Ea & _ & Eout & _).
  destruct (reduction_plan_arguments ufunc args UFUNC_REDUCE p P)
    as [_ Ei].
  rewrite Ha in Ea. injection Ea as Ea. rewrite <- Ea in H.
  fold (out_of_args args) in Eout. rewrite Eout, Ei in H.
  unfold PyUFunc_Reduce in H.
  destruct (reduce_axis_flags _ _) as [axis_flags|]; [|discriminate H].
  destruct (negb (get_bufsize_errmask_ok env)); [discriminate H|].
  destruct (_get_identity ufunc) as [[identity reorderable]|];
    [|discriminate H].
  destruct (reduce_type_resolver env ufunc mp (Some (rp_otype p)))
    as [dtype|e]; [|discriminate H].
  rewrite (proj2 (size_zero_iff mp) Za) in H.
  cbn [Z.eqb negb] in H. rewrite andb_false_r in H.
  exists identity, reorderable, dtype, (map (fun f => negb (f =? 0)) axis_flags),
    (rp_keepdims p), (rp_wheremask p).
  split; [reflexivity|]. rewrite <- H.
  destruct (ra_initial args); reflexivity.
Qed.

End EmptyReductionCalls.
Section EmptyAt.

Variable ac : at_collaborators.
Variable ufunc : PyUFuncObject.

Hypothesis nothing : at_iterates_nothing_over_empty ac.

(** A call of [at] whose first or second operand has a dimension of
    extent 0 and that returns None leaves the run as it was. *)
Lemma at_empty (args : at_args) (r r' : run) :
  (exists op1, ac_array_of ac (at_op1 args) = Some op1
               /\ has_zero_extent op1)
  \/ (exists o a, at_op2 args = Some o /\ ac_from_any ac o = Some a
                  /\ has_zero_extent a) ->
  ufunc_at ac ufunc args r = (AtNone, r') ->
  r' = r.
Proof.
  intros Za. unfold ufunc_at.
  destruct (nin ufunc >? 2); [discriminate|].
  destruct (negb (nout ufunc =? 1)); [discriminate|].
  destruct (negb (at_parsed args)); [discriminate|].
  match goal with
  | |- (if ?b then _ else _) = _ -> _ => destruct b; [discriminate|]
  end.
  destruct (at_override args); try discriminate.
  destruct (ac_array_of ac (at_op1 args)) as [op1|] eqn:A1; [|discriminate].
  match goal with
  | |- match ?t with _ => _ end = _ -> _ =>
      destruct t as [op2_array|] eqn:C2
  end; [|discriminate].
  destruct (ac_map_iter ac op1 (at_idx args) op2_array) as [iter|] eqn:M;
    [|discriminate].
  destruct (nothing _ _ _ _ M) as [N1 N2].
  match goal with
  | |- match ?t with _ => _ end = _ -> _ =>
      destruct t as [second|] eqn:S2
  end; [|discriminate].
  assert (Z0 : mi_size iter = 0).
  { destruct Za as [(x & Ex & Zx)|(o & a & Eo & Ea & Zx)].
    - injection Ex as <-. now apply N1.
    - rewrite Eo, Ea in C2. injection C2 as <-. cbv beta iota in S2.
      destruct (if mi_subspace iter && mi_consec iter
                then ac_swap_axes ac iter a else Some a) as [a'|] eqn:Sw;
        [|discriminate S2].
      destruct (ac_broadcast ac a' iter) as [data2|] eqn:B;
        [|discriminate S2].
      exact (N2 a a' data2 eq_refl Zx Sw B). }
  destruct (negb (ac_type_resolver_ok ac)); [discriminate|].
  destruct (negb (ac_selector_ok ac)); [discriminate|].
  destruct (negb (ac_bufsize_ok ac)); [discriminate|].
  destruct (ac_buffer_iter ac _) as [iter_buffer|]; [|discriminate].
  destruct (negb (bf_iternext_ok iter_buffer)); [discriminate|].
  rewrite Z0. cbn [Z.to_nat at_loop]. cbv beta iota zeta.
  match goal with
  | |- (if ?b then _ else _) = _ -> _ => destruct b; [discriminate|]
  end.
  intros H. now injection H as <-.
Qed.

End EmptyAt.

(* ------------------------------------------------------------------ *)
(** *** Operands without element, at every entry point                 *)
(* ------------------------------------------------------------------ *)


